(** * Zero-touch provisioning of a leaf-spine fabric (pn_ztp.py)

    A shallow embedding of the address planner, the cluster pairing routine,
    the trunk/vlag/cluster creation helpers and the two fabric orchestrators
    of [src/ansible/library/pn_ztp.py], with the properties the specification
    states about them.

    Python integers are [Z]; Python 2 integer division and remainder on a
    positive divisor are [Z.div] and [Z.modulo]; [<<] and [&] are [Z.shiftl]
    and [Z.land].  Python strings are [string], Python lists are [list].
    A Python exception is a value of [exn]; [while] loops run on fuel and the
    functions that own a loop supply a fuel that is shown to be enough. *)

From Stdlib Require Import ZArith Lia Ascii String List Bool.
From stdpp Require Import base tactics option list numbers strings pretty sets.

Local Open Scope string_scope.
Local Open Scope list_scope.
Local Open Scope Z_scope.

(** ** Python values and exceptions *)

Inductive exn : Set :=
| IndexError   (* list index out of range, pop from empty list *)
| KeyError     (* dict lookup of a missing key *)
| ValueError   (* int() of a non-number, list.remove(x) with x absent *)
| SystemExit.  (* module.exit_json ends the process *)

Inductive result (A : Type) : Type :=
| Ok (a : A)
| Raise (e : exn)
| OutOfFuel.

Arguments Ok {A} a.
Arguments Raise {A} e.
Arguments OutOfFuel {A}.

(** The exception that ended a computation, if one did. *)
Definition raised {A : Type} (r : result A) : option exn :=
  match r with
  | Raise e => Some e
  | _ => None
  end.

#[global] Instance result_ret : MRet result := fun A a => Ok a.
#[global] Instance result_bind : MBind result := fun A B f r =>
  match r with
  | Ok a => f a
  | Raise e => Raise e
  | OutOfFuel => OutOfFuel
  end.

#[global] Instance exn_eq_dec : EqDecision exn.
Proof. solve_decision. Defined.

(** [for x in xs: body] over a sequence that the body does not mutate. *)
Fixpoint for_each {A S : Type} (xs : list A) (body : A -> S -> result S)
    (s : S) : result S :=
  match xs with
  | [] => Ok s
  | x :: xs' => s' ← body x s; for_each xs' body s'
  end.

(** [while cond: body], on fuel. *)
Fixpoint while_loop {S : Type} (fuel : nat) (cond : S -> bool)
    (body : S -> result S) (s : S) : result S :=
  match fuel with
  | O => OutOfFuel
  | Datatypes.S fuel' =>
      if cond s then s' ← body s; while_loop fuel' cond body s' else Ok s
  end.

Arguments while_loop : simpl never.

(** [range(n)] *)
Definition py_range (n : Z) : list Z := seqZ 0 n.

(** ** Lists *)

(** Position of index [k] in a list of length [len], with Python's negative
    indices; [None] when the index is out of range. *)
Definition py_position (len : nat) (k : Z) : option nat :=
  let k' := if k <? 0 then k + Z.of_nat len else k in
  if (0 <=? k') && (k' <? Z.of_nat len) then Some (Z.to_nat k') else None.

(** [l[k]] *)
Definition py_index {A : Type} (l : list A) (k : Z) : result A :=
  match py_position (length l) k with
  | Some n => match l !! n with Some x => Ok x | None => Raise IndexError end
  | None => Raise IndexError
  end.

(** [l[k] += v] *)
Definition py_add_at (l : list Z) (k : Z) (v : Z) : result (list Z) :=
  match py_position (length l) k with
  | Some n =>
      match l !! n with
      | Some x => Ok (<[n := x + v]> l)
      | None => Raise IndexError
      end
  | None => Raise IndexError
  end.

(** [l.remove(x)]: drops the first occurrence, [ValueError] when absent. *)
Fixpoint py_remove (x : string) (l : list string) : result (list string) :=
  match l with
  | [] => Raise ValueError
  | y :: l' =>
      if String.eqb x y then Ok l'
      else l'' ← py_remove x l'; Ok (y :: l'')
  end.

(** [l.pop(0)], returning the remaining list. *)
Definition py_pop0 {A : Type} (l : list A) : result (list A) :=
  match l with
  | [] => Raise IndexError
  | _ :: l' => Ok l'
  end.

(** [x in l] *)
Definition py_in (x : string) (l : list string) : bool :=
  existsb (String.eqb x) l.

(** ** Strings *)

Definition is_space (c : ascii) : bool :=
  let n := nat_of_ascii c in
  ((9 <=? n) && (n <=? 13))%nat || (n =? 32)%nat.

Definition is_digit (c : ascii) : bool :=
  let n := nat_of_ascii c in ((48 <=? n) && (n <=? 57))%nat.

Definition digit_value (c : ascii) : Z := Z.of_nat (nat_of_ascii c) - 48.

(** [s.split(sep)] for a one-character separator: every occurrence splits,
    empty pieces are kept. *)
Fixpoint py_split_on (sep : ascii) (s : string) : list string :=
  match s with
  | EmptyString => [EmptyString]
  | String c s' =>
      if Ascii.eqb c sep then EmptyString :: py_split_on sep s'
      else match py_split_on sep s' with
           | [] => [String c EmptyString]
           | w :: ws => String c w :: ws
           end
  end.

(** [s.split()]: pieces between runs of white space, no empty piece. *)
Fixpoint py_split_go (cur : string) (s : string) : list string :=
  match s with
  | EmptyString => match cur with EmptyString => [] | _ => [cur] end
  | String c s' =>
      if is_space c
      then match cur with
           | EmptyString => py_split_go EmptyString s'
           | _ => cur :: py_split_go EmptyString s'
           end
      else py_split_go (cur +:+ String c EmptyString) s'
  end.

Definition py_split (s : string) : list string := py_split_go EmptyString s.

Fixpoint lstrip (s : string) : string :=
  match s with
  | String c s' => if is_space c then lstrip s' else s
  | EmptyString => EmptyString
  end.

Fixpoint rstrip (s : string) : string :=
  match s with
  | EmptyString => EmptyString
  | String c s' =>
      match rstrip s' with
      | EmptyString => if is_space c then EmptyString else String c EmptyString
      | r => String c r
      end
  end.

Fixpoint digits_value (acc : Z) (s : string) : option Z :=
  match s with
  | EmptyString => Some acc
  | String c s' =>
      if is_digit c then digits_value (acc * 10 + digit_value c) s' else None
  end.

Definition unsigned_value (s : string) : option Z :=
  match s with
  | EmptyString => None
  | _ => digits_value 0 s
  end.

(** [int(s)]: surrounding white space, an optional sign, decimal digits. *)
Definition py_int (s : string) : result Z :=
  let body := rstrip (lstrip s) in
  let parsed :=
    match body with
    | String "-" r => Z.opp <$> unsigned_value r
    | String "+" r => unsigned_value r
    | _ => unsigned_value body
    end in
  match parsed with
  | Some z => Ok z
  | None => Raise ValueError
  end.

(** [str(n)] *)
Definition py_str (n : Z) : string := pretty n.

(** ** Address planner *)

(** The dict [supernet_mapping]; [None] is Python's [KeyError]. *)
Definition supernet_mapping (supernet : Z) : option Z :=
  if supernet =? 30 then Some 2
  else if supernet =? 29 then Some 6
  else if supernet =? 28 then Some 14
  else if supernet =? 27 then Some 30
  else None.

Definition py_getitem (d : Z -> option Z) (k : Z) : result Z :=
  match d k with
  | Some v => Ok v
  | None => Raise KeyError
  end.

(** Local variables of the loops of [calculate_link_ip_addresses]. *)
Record host_vars := HostVars {
  hv_i : Z;
  hv_count : Z;
  hv_hostmin : Z;
  hv_hostmax : Z;
  hv_ips_list : list Z
}.

Record octet_vars := OctetVars {
  ov_third_octet : Z;
  ov_i : Z;
  ov_count : Z;
  ov_hostmin : Z;
  ov_hostmax : Z;
  ov_available_ips : list string
}.

(** [while hostmin <= hostmax: ips_list.append(hostmin); hostmin += 1] *)
Definition append_hosts (hostmax : Z) (st : Z * list Z) : result (Z * list Z) :=
  while_loop (2 + Z.to_nat (hostmax - st.1))
    (fun st => st.1 <=? hostmax)
    (fun st => Ok (st.1 + 1, st.2 ++ [st.1]))
    st.

(** One round of [while count < last_ip[3]]. *)
Definition host_block (supernet_range : Z) (v : host_vars) : result host_vars :=
  let hostmin := hv_i v + 1 in
  let hostmax := hostmin + supernet_range - 1 in
  '(hostmin, ips_list) ← append_hosts hostmax (hostmin, hv_ips_list v);
  let i := hostmax + 2 in
  let count := i in
  Ok (HostVars i count hostmin hostmax ips_list).

Definition host_blocks (supernet_range last3 : Z) (v : host_vars)
    : result host_vars :=
  while_loop (2 + Z.to_nat (last3 - hv_i v))
    (fun v => hv_count v <? last3)
    (host_block supernet_range)
    v.

(** [while list_index < len(ips_list)]: one string per host number. *)
Definition emit_ips (ip_address supernet_str : string) (ips_list : list Z)
    (available_ips : list string) : result (list string) :=
  '(_, available_ips) ←
     while_loop (Datatypes.S (length ips_list))
       (fun st : Z * list string => st.1 <? Z.of_nat (length ips_list))
       (fun st =>
          h ← py_index ips_list st.1;
          let ip := ip_address +:+ "." +:+ py_str h +:+ "/" in
          let ip := ip +:+ supernet_str in
          Ok (st.1 + 1, st.2 ++ [ip]))
       (0, available_ips);
  Ok available_ips.

(** One round of [while third_octet <= last_ip[2]]. *)
Definition octet_block (supernet_range : Z) (supernet_str : string)
    (last0 last1 last3 : Z) (v : octet_vars) : result octet_vars :=
  let ips_list := [] in
  h ← host_blocks supernet_range last3
        (HostVars (ov_i v) (ov_count v) (ov_hostmin v) (ov_hostmax v) ips_list);
  let ip_address := py_str last0 +:+ "." +:+ py_str last1 +:+ "." in
  let ip_address := ip_address +:+ py_str (ov_third_octet v) in
  available_ips ← emit_ips ip_address supernet_str (hv_ips_list h)
                     (ov_available_ips v);
  Ok (OctetVars (ov_third_octet v + 1) 0 0 0 0 available_ips).

Definition netmask (cidr : Z) : result (list Z) :=
  for_each (py_range cidr)
    (fun i mask => py_add_at mask (i / 8) (Z.shiftl 1 (7 - i mod 8)))
    [0; 0; 0; 0].

Definition network_of (address : list string) (mask : list Z)
    : result (list Z) :=
  for_each (py_range 4)
    (fun i network =>
       a ← py_index address i;
       a ← py_int a;
       m ← py_index mask i;
       Ok (network ++ [Z.land a m]))
    [].

Definition broadcast_of (network : list Z) (cidr : Z) : result (list Z) :=
  let broadcast := network in
  let broadcast_range := 32 - cidr in
  for_each (py_range broadcast_range)
    (fun i broadcast => py_add_at broadcast (3 - i / 8) (Z.shiftl 1 (i mod 8)))
    broadcast.

Definition calculate_link_ip_addresses
    (address_str cidr_str supernet_str : string) : result (list string) :=
  let address := py_split_on "." address_str in
  cidr ← py_int cidr_str;
  supernet ← py_int supernet_str;
  supernet_range ← py_getitem supernet_mapping supernet;
  a3 ← py_index address 3;
  base_addr ← py_int a3;
  mask ← netmask cidr;
  network ← network_of address mask;
  broadcast ← broadcast_of network cidr;
  let last_ip := broadcast in
  let diff := base_addr mod (supernet_range + 2) in
  let i := base_addr - diff in
  third_octet ← py_index network 2;
  last0 ← py_index last_ip 0;
  last1 ← py_index last_ip 1;
  last2 ← py_index last_ip 2;
  last3 ← py_index last_ip 3;
  v ← while_loop (2 + Z.to_nat (last2 - third_octet))
        (fun v => ov_third_octet v <=? last2)
        (octet_block supernet_range supernet_str last0 last1 last3)
        (OctetVars third_octet i 0 0 0 []);
  Ok (ov_available_ips v).


(** The string appended for host number [h] by the last inner loop. *)
Definition render_host (ip_address supernet_str : string) (h : Z) : string :=
  (ip_address +:+ "." +:+ py_str h +:+ "/") +:+ supernet_str.


(** ** Addresses as numbers

    What the specification means by an address lying within [base/cidr] and
    by the network and broadcast address of that block. *)

Definition ip_value (octets : list Z) : Z :=
  fold_left (fun acc o => acc * 256 + o) octets 0.

Definition is_octet (o : Z) : bool := (0 <=? o) && (o <=? 255).

(** The four octets of a dotted quad whose parts are numbers in 0..255. *)
Definition parse_quad (s : string) : option (list Z) :=
  match py_split_on "." s with
  | [s0; s1; s2; s3] =>
      match py_int s0, py_int s1, py_int s2, py_int s3 with
      | Ok a, Ok b, Ok c, Ok d =>
          if forallb is_octet [a; b; c; d] then Some [a; b; c; d] else None
      | _, _, _, _ => None
      end
  | _ => None
  end.

(** The address part of ["a.b.c.d/len"] as a 32-bit number. *)
Definition address_of (s : string) : option Z :=
  match py_split_on "/" s with
  | addr :: _ => ip_value <$> parse_quad addr
  | [] => None
  end.

Definition block_size (cidr : Z) : Z := 2 ^ (32 - cidr).

Definition network_address (base cidr : Z) : Z :=
  base / block_size cidr * block_size cidr.

Definition broadcast_address (base cidr : Z) : Z :=
  network_address base cidr + block_size cidr - 1.

Definition in_network (base cidr x : Z) : Prop :=
  network_address base cidr <= x <= broadcast_address base cidr.

(** The address written in [s] lies in [base/cidr] and is neither its network
    nor its broadcast address. *)
Definition usable_in (base cidr : Z) (s : string) : Prop :=
  exists x, address_of s = Some x /\ in_network base cidr x /\
            x <> network_address base cidr /\
            x <> broadcast_address base cidr.

(** Number of host bits of a [/cidr] block that fall in octet [k] (0..3). *)
Definition host_bits (cidr k : Z) : Z := Z.min 8 (Z.max 0 (8 * (k + 1) - cidr)).

#[global] Instance result_fmap : FMap result := fun A B f r =>
  match r with
  | Ok a => Ok (f a)
  | Raise e => Raise e
  | OutOfFuel => OutOfFuel
  end.

(** The host numbers collected for one third octet, starting at offset [i]
    with [count = hostmin = hostmax = 0] as the code has them there. *)
Definition hosts_from (supernet_range last3 i : Z) : result (list Z) :=
  hv_ips_list <$> host_blocks supernet_range last3 (HostVars i 0 0 0 []).

(** The strings appended for third octet [t] and host numbers [hs]. *)
Definition render_octet (last0 last1 : Z) (supernet_str : string) (t : Z)
    (hs : list Z) : list string :=
  map (render_host
         ((py_str last0 +:+ "." +:+ py_str last1 +:+ ".") +:+ py_str t)
         supernet_str) hs.

(** Octet [k] of the network and of the broadcast address of the [/cidr]
    block that holds an address whose octet [k] is [a]. *)
Definition octet_network (cidr k a : Z) : Z := a - a mod 2 ^ host_bits cidr k.

Definition octet_broadcast (cidr k a : Z) : Z :=
  octet_network cidr k a + (2 ^ host_bits cidr k - 1).

(** [c not in s] *)
Fixpoint lacks_char (c : ascii) (s : string) : bool :=
  match s with
  | EmptyString => true
  | String c' s' => negb (Ascii.eqb c' c) && lacks_char c s'
  end.

(** [str] of an octet has no separator in it and reads back as the octet. *)
Definition octet_text_ok (o : Z) : bool :=
  lacks_char "." (py_str o) && lacks_char "/" (py_str o) &&
  match py_int (py_str o) with Ok o' => o' =? o | _ => false end.

(** ** More Python strings *)

(** [s[n:]] *)
Fixpoint py_slice_from (n : nat) (s : string) : string :=
  match n, s with
  | O, _ => s
  | Datatypes.S n', String _ s' => py_slice_from n' s'
  | Datatypes.S _, EmptyString => EmptyString
  end.

(** [sep.join(l)] *)
Fixpoint py_join (sep : string) (l : list string) : string :=
  match l with
  | [] => EmptyString
  | [x] => x
  | x :: l' => x +:+ sep +:+ py_join sep l'
  end.

(** Truth value of a string: non-empty. *)
Definition py_bool (s : string) : bool :=
  match s with EmptyString => false | _ => true end.

(** [for system in system_names: if system not in nodes_in_fabric:
    system_names.remove(system)].  The list is changed while it is being
    iterated: the iterator keeps an index into the list as it is now. *)
Definition iterator_has_next (st : Z * list string) : bool :=
  st.1 <? Z.of_nat (length st.2).

Definition remove_if_not_fabric (nodes_in_fabric : list string)
    (st : Z * list string) : result (Z * list string) :=
  system ← py_index st.2 st.1;
  let next := st.1 + 1 in
  if negb (py_in system nodes_in_fabric)
  then system_names ← py_remove system st.2; Ok (next, system_names)
  else Ok (next, st.2).

Definition remove_non_fabric (nodes_in_fabric system_names : list string)
    : result (list string) :=
  '(_, system_names) ←
     while_loop (Datatypes.S (length system_names))
       iterator_has_next (remove_if_not_fabric nodes_in_fabric)
       (0, system_names);
  Ok system_names.

(** ** The fabric control plane

    Every command line the module builds is a Netvisor command with its
    arguments; the user, password and switch prefix that [pn_cli] puts in
    front belongs to the transport and is not represented.  The constructor
    comments give the text of the command. *)

Inductive command : Type :=
| ClusterShowNames (switch : string)
    (* switch S cluster-show format name no-show-headers *)
| ClusterShowNode1
    (* cluster-show format cluster-node-1 no-show-headers *)
| ClusterShowNode2
    (* cluster-show format cluster-node-2 no-show-headers *)
| ClusterCreate (switch name node1 node2 : string)
    (* switch S cluster-create name N cluster-node-1 A cluster-node-2 B *)
| TrunkShowNames (switch : string)
    (* switch S trunk-show format name no-show-headers *)
| TrunkCreate (switch name ports : string)
    (* switch S trunk-create name N ports P *)
| TrunkDelete (switch name : string)
    (* switch S trunk-delete name N *)
| VlagShowNames (switch : string)
    (* switch S vlag-show format name no-show-headers *)
| VlagCreate (switch name port peer_switch peer_port : string)
    (* switch S vlag-create name N port P peer-switch Q peer-port R
       mode active-active *)
| LldpShowSysName (switch : string)
    (* switch S lldp-show format sys-name no-show-headers *)
| FabricNodeShowOn (switch : string)
    (* switch S fabric-node-show format name no-show-headers *)
| FabricNodeShow
    (* fabric-node-show format name no-show-headers *)
| PortShowHostname (switch hostname : string)
    (* switch S port-show hostname H format port no-show-headers *)
| PortShowTrunk (switch port hostname : string)
    (* switch S port-show port P hostname H format trunk no-show-headers *)
| PortShowRport (switch port : string)
    (* switch S port-show port P format rport no-show-headers *)
| SystemSettingsNoAutoTrunk (switch : string)
    (* switch S system-settings-modify no-auto-trunk *)
| VrouterShowNamesOn (switch : string)
    (* switch S vrouter-show format name no-show-headers *)
| VrouterShowNames
    (* vrouter-show format name no-show-headers *)
| VrouterShowLocation (switch : string)
    (* vrouter-show location S format name no-show-headers *)
| VrouterCreate (switch name vnet : string)
    (* switch S vrouter-create name N vnet V *)
| VrouterInterfaceShow (port ip : string)
    (* vrouter-interface-show l3-port P ip I format switch no-show-headers *)
| VrouterInterfaceAdd (vrouter ip port : string)
    (* vrouter-interface-add vrouter-name V ip I l3-port P *)
| VrouterLoopbackShow (ip : string)
    (* vrouter-loopback-interface-show ip I format switch no-show-headers *)
| VrouterLoopbackAdd (vrouter ip : string).
    (* vrouter-loopback-interface-add vrouter-name V ip I *)

#[global] Instance command_eq_dec : EqDecision command.
Proof. solve_decision. Defined.

(** Commands that change a switch. *)
Definition is_mutation (c : command) : bool :=
  match c with
  | ClusterCreate _ _ _ _ | TrunkCreate _ _ _ | TrunkDelete _ _
  | VlagCreate _ _ _ _ _ | SystemSettingsNoAutoTrunk _
  | VrouterCreate _ _ _ | VrouterInterfaceAdd _ _ _
  | VrouterLoopbackAdd _ _ => true
  | _ => false
  end.

(** What [module.run_command] hands back ([rc] is never read). *)
Record reply := Reply { reply_out : string; reply_err : string }.

(** The switches behind the command line: some state and the effect of one
    command on it. *)
Class ControlPlane := {
  World : Type;
  exec : command -> World -> reply * World
}.

(** [list(set(l))]: the elements of [l] once each, in an order that Python
    does not promise. *)
Class SetOrder := {
  list_set : list string -> list string;
  list_set_NoDup : forall l, NoDup (list_set l);
  list_set_elem : forall l x, x ∈ list_set l <-> x ∈ l
}.

(** [module.params] *)
Record params := Params {
  pn_fabric_name : string;
  pn_spine_list : list string;
  pn_leaf_list : list string;
  pn_assign_loopback : bool;
  pn_net_address : string;
  pn_cidr : string;
  pn_supernet : string;
  pn_loopback_ip : string
}.

(** What [run_cli] makes of a reply: the output when there is one, the end
    of the run when there is only an error text, ['Success'] when there is
    neither. *)
Definition reply_text (r : reply) : result string :=
  if py_bool (reply_out r) then Ok (reply_out r)
  else if py_bool (reply_err r) then Raise SystemExit
  else Ok "Success".

(** ** Commands run against the control plane *)

Section Plane.
Context {cp : ControlPlane} {so : SetOrder}.

(** The state of a run: the switches, and the commands issued so far. *)
Record session := Session { world : World; log : list command }.

(** A computation that talks to the switches: it ends with a value or an
    exception (or runs out of fuel), in a new session. *)
Definition M (A : Type) : Type := session -> result A * session.

#[global] Instance M_ret : MRet M := fun A a σ => (Ok a, σ).
#[global] Instance M_bind : MBind M := fun A B f m σ =>
  match m σ with
  | (Ok a, σ') => f a σ'
  | (Raise e, σ') => (Raise e, σ')
  | (OutOfFuel, σ') => (OutOfFuel, σ')
  end.

(** A computation that does not touch the switches. *)
Definition pure {A : Type} (r : result A) : M A := fun σ => (r, σ).

Fixpoint for_m {A S : Type} (xs : list A) (body : A -> S -> M S) (s : S)
    : M S :=
  match xs with
  | [] => mret s
  | x :: xs' => s' ← body x s; for_m xs' body s'
  end.

Fixpoint while_m {S : Type} (fuel : nat) (cond : S -> bool)
    (body : S -> M S) (s : S) : M S :=
  match fuel with
  | O => pure OutOfFuel
  | Datatypes.S fuel' =>
      if cond s then s' ← body s; while_m fuel' cond body s' else mret s
  end.

Definition run_cli (cli : command) : M string := fun σ =>
  let '(r, w) := exec cli (world σ) in
  (reply_text r, Session w (log σ ++ [cli])).

Definition create_cluster (switch name node1 node2 : string) : M string :=
  out ← run_cli (ClusterShowNames node1);
  let cluster_list := py_split out in
  if negb (py_in name cluster_list)
  then run_cli (ClusterCreate switch name node1 node2)
  else mret "Already part of a cluster".

Definition get_ports (switch peer_switch : string) : M (list string) :=
  out ← run_cli (PortShowHostname switch peer_switch);
  mret (py_split out).

Definition create_trunk (switch name : string) (ports : list string)
    : M string :=
  out ← run_cli (TrunkShowNames switch);
  let trunk_list := py_split out in
  if negb (py_in name trunk_list)
  then
    let ports_string := py_join "," ports in
    run_cli (TrunkCreate switch name ports_string)
  else mret "Already part of a trunk".

Definition leaf_no_cluster (leaf_list : list string) : M (list string) :=
  out ← run_cli ClusterShowNode1;
  let cluster1 := py_split out in
  out ← run_cli ClusterShowNode2;
  let cluster2 := py_split out in
  for_m leaf_list
    (fun leaf non_cluster_leaf =>
       if negb (py_in leaf cluster1) && negb (py_in leaf cluster2)
       then mret (non_cluster_leaf ++ [leaf])
       else mret non_cluster_leaf)
    [].

Definition create_vlag (switch name peer_switch port peer_port : string)
    : M string :=
  out ← run_cli (VlagShowNames switch);
  let vlag_list := py_split out in
  if negb (py_in name vlag_list)
  then run_cli (VlagCreate switch name port peer_switch peer_port)
  else mret "Already part of a vlag".

Definition create_trunk_vlag (node1 : string) (dest_list : list string)
    : M string :=
  let output := " " in
  '(src_ports, string2) ←
     for_m dest_list
       (fun node (st : list string * string) =>
          ports ← get_ports node1 node;
          mret (st.1 ++ ports, st.2 +:+ node))
       ([], "");
  let src_ports := list_set src_ports in
  let name := py_slice_from 5 node1 +:+ "-to-" +:+ string2 in
  out ← create_trunk node1 name src_ports;
  let output := output +:+ out +:+ " " in
  mret name.

(** What follows [create_cluster] in the body of
    [if node2 in non_cluster_leaf]: the second leaf leaves the list, and the
    trunks and vlags of the pair and of the two spines are built. *)
Definition pair_link_groups (node1 node2 : string) (spine_list : list string)
    (non_cluster_leaf : list string) (output : string)
    : M (list string * string) :=
  non_cluster_leaf ← pure (py_remove node2 non_cluster_leaf);
  name1 ← create_trunk_vlag node1 spine_list;
  name2 ← create_trunk_vlag node2 spine_list;
  let name := py_slice_from 5 node1 +:+ node2 +:+ "-to-" +:+ "spine" in
  out ← create_vlag node1 name node2 name1 name2;
  let output := output +:+ out +:+ " " in
  let list1 := [node1; node2] in
  spine1 ← pure (py_index spine_list 0);
  spine2 ← pure (py_index spine_list 1);
  name1 ← create_trunk_vlag spine1 list1;
  name2 ← create_trunk_vlag spine2 list1;
  let name :=
    py_slice_from 5 spine1 +:+ spine2 +:+ "-to-" +:+ node1 +:+ node2 in
  out ← create_vlag spine1 name spine2 name1 name2;
  let output := output +:+ out +:+ " " in
  mret (non_cluster_leaf, output).

(** The body of [if node2 in non_cluster_leaf]. *)
Definition cluster_pair (node1 node2 : string) (spine_list : list string)
    (non_cluster_leaf : list string) (output : string)
    : M (list string * string) :=
  let name := node1 +:+ "-to-" +:+ node2 +:+ "-cluster" in
  out ← create_cluster node2 name node1 node2;
  let output := output +:+ out +:+ " " in
  pair_link_groups node1 node2 spine_list non_cluster_leaf output.

(** [while (node_count < len(system_names)) and (flag1 == 0)]: the list is
    not changed by the loop, so the loop is written over what is left of it;
    it stops at the first neighbour that is clustered with [node1]. *)
Fixpoint scan_neighbours (node1 : string) (spine_list : list string)
    (system_names : list string) (non_cluster_leaf : list string)
    (output : string) : M (list string * string) :=
  match system_names with
  | [] => mret (non_cluster_leaf, output)
  | node2 :: rest =>
      if negb (py_in node2 spine_list)
      then
        if py_in node2 non_cluster_leaf
        then cluster_pair node1 node2 spine_list non_cluster_leaf output
        else scan_neighbours node1 spine_list rest non_cluster_leaf output
      else scan_neighbours node1 spine_list rest non_cluster_leaf output
  end.

(** The neighbours of [node1] that the pairing loop scans. *)
Definition fabric_neighbours (node1 : string) : M (list string) :=
  out ← run_cli (LldpShowSysName node1);
  let system_names := list_set (py_split out) in
  out ← run_cli (FabricNodeShowOn node1);
  let nodes_in_fabric := list_set (py_split out) in
  pure (remove_non_fabric nodes_in_fabric system_names).

(** The [else] branch of the pairing loop: one leaf is taken off the list. *)
Definition pair_first_leaf (spine_list : list string)
    (non_cluster_leaf : list string) (output : string)
    : M (list string * string) :=
  node1 ← pure (py_index non_cluster_leaf 0);
  non_cluster_leaf ← pure (py_remove node1 non_cluster_leaf);
  system_names ← fabric_neighbours node1;
  scan_neighbours node1 spine_list system_names non_cluster_leaf output.

Definition create_leaf_cluster_vlag (non_cluster_leaf spine_list : list string)
    : M string :=
  let output := " " in
  let flag := 0 in
  '(_, _, output) ←
     while_m (2 + length non_cluster_leaf)
       (fun st : Z * list string * string => st.1.1 =? 0)
       (fun st =>
          let '(flag, non_cluster_leaf, output) := st in
          if (Z.of_nat (length non_cluster_leaf) =? 0)
          then
            let output := output +:+ "no more leaf to create cluster" in
            let output := output +:+ " " in
            mret (flag + 1, non_cluster_leaf, output)
          else
            '(non_cluster_leaf, output) ←
               pair_first_leaf spine_list non_cluster_leaf output;
            mret (flag, non_cluster_leaf, output))
       (flag, non_cluster_leaf, output);
  mret output.

Definition create_nonclusterleaf_vlag (non_cluster_leaf spine_list : list string)
    : M string :=
  for_m non_cluster_leaf
    (fun leaf output =>
       _ ← create_trunk_vlag leaf spine_list;
       let list1 := [leaf] in
       spine1 ← pure (py_index spine_list 0);
       spine2 ← pure (py_index spine_list 1);
       name1 ← create_trunk_vlag spine1 list1;
       name2 ← create_trunk_vlag spine2 list1;
       let name := py_slice_from 5 spine1 +:+ spine2 +:+ "-to-" +:+ leaf in
       out ← create_vlag spine1 name spine2 name1 name2;
       mret (output +:+ out +:+ " "))
    " ".

Definition configure_auto_vlag (p : params) : M string :=
  let output := " " in
  let spine_list := pn_spine_list p in
  let leaf_list := pn_leaf_list p in
  spine1 ← pure (py_index spine_list 0);
  spine2 ← pure (py_index spine_list 1);
  out ← create_cluster spine1 "spine-cluster" spine1 spine2;
  let output := output +:+ out in
  non_cluster_leaf ← leaf_no_cluster leaf_list;
  out ← create_leaf_cluster_vlag non_cluster_leaf spine_list;
  let output := output +:+ out in
  let output := " " in
  non_cluster_leaf ← leaf_no_cluster leaf_list;
  out ← create_nonclusterleaf_vlag non_cluster_leaf spine_list;
  let output := output +:+ out in
  let output := output +:+ " " in
  mret output.

Definition disable_trunk (switch : string) : M string :=
  run_cli (SystemSettingsNoAutoTrunk switch).

Definition create_vrouter (p : params) (switch : string) : M string :=
  let switch_temp := py_slice_from 3 switch in
  let vrouter_name := switch_temp +:+ "-vrouter" in
  let vnet_name := pn_fabric_name p +:+ "-global" in
  out ← run_cli (VrouterShowNamesOn switch);
  let existing_vrouter_names := py_split out in
  if negb (py_in vrouter_name existing_vrouter_names)
  then
    _ ← run_cli (VrouterCreate switch vrouter_name vnet_name);
    mret (" Created vrouter " +:+ vrouter_name +:+ " on switch " +:+ switch
          +:+ " ")
  else
    mret (" Vrouter name " +:+ vrouter_name +:+ " on switch " +:+ switch
          +:+ " already exists. ").

Definition create_interface (switch ip port : string) : M string :=
  let output := " " in
  out ← run_cli (VrouterShowLocation switch);
  let vrouter_name := py_split out in
  out ← run_cli (VrouterInterfaceShow port ip);
  let existing_vrouter := list_set (py_split out) in
  vrouter0 ← pure (py_index vrouter_name 0);
  if negb (py_in vrouter0 existing_vrouter)
  then
    _ ← run_cli (VrouterInterfaceAdd vrouter0 ip port);
    mret (output +:+ " and added vrouter interface with ip: " +:+ ip)
  else
    mret (output +:+ " already created interface on vrouter " +:+ vrouter0).

Definition delete_trunk (switch switch_port peer_switch : string) : M string :=
  let output := "" in
  out ← run_cli (PortShowTrunk switch switch_port peer_switch);
  let trunk := list_set (py_split out) in
  if (0 <? Z.of_nat (length trunk))
  then
    trunk0 ← pure (py_index trunk 0);
    out ← run_cli (TrunkDelete switch trunk0);
    mret (output +:+ out +:+ " ")
  else mret output.

Definition assign_loopback_ip (loopback_address : string) : M string :=
  let output := " " in
  let address := py_split_on "." loopback_address in
  a0 ← pure (py_index address 0);
  a1 ← pure (py_index address 1);
  let static_part := a0 +:+ "." +:+ a1 +:+ "." in
  a2 ← pure (py_index address 2);
  let static_part := static_part +:+ a2 +:+ "." in
  out ← run_cli VrouterShowNames;
  let vrouter_names := py_split out in
  if (0 <? Z.of_nat (length vrouter_names))
  then
    let vrouter_count := 1 in
    if (Z.of_nat (length vrouter_names) + vrouter_count - 1 <=? 255)
    then
      '(_, output) ←
         for_m vrouter_names
           (fun vrouter (st : Z * string) =>
              let '(vrouter_count, output) := st in
              let ip := static_part +:+ py_str vrouter_count in
              out ← run_cli (VrouterLoopbackShow ip);
              let existing_vrouter := py_split out in
              output ←
                (if negb (py_in vrouter existing_vrouter)
                 then
                   out ← run_cli (VrouterLoopbackAdd vrouter ip);
                   mret (output +:+ out +:+ " ")
                 else mret output);
              mret (vrouter_count + 1, output))
           (vrouter_count, output);
      mret output
    else mret (output +:+ "Not enough ips for all the vrouters")
  else mret (output +:+ "no vrouters present").

(** Local variables of [while len(leaf_port) > 0]. *)
Record link_vars := LinkVars {
  lv_leaf_port : list string;
  lv_available_ips : list string;
  lv_output : string
}.

(** [while i < count: available_ips.pop(0); i += 1] *)
Definition skip_block (count : Z) (available_ips : list string)
    : result (list string) :=
  '(_, available_ips) ←
     while_loop (2 + Z.to_nat count)
       (fun st : Z * list string => st.1 <? count)
       (fun st => available_ips ← py_pop0 st.2; Ok (st.1 + 1, available_ips))
       (0, available_ips);
  Ok available_ips.

(** [1 << diff], a [ValueError] for a negative shift count. *)
Definition py_shiftl_1 (diff : Z) : result Z :=
  if diff <? 0 then Raise ValueError else Ok (Z.shiftl 1 diff).

(** One round of [while len(leaf_port) > 0]: one physical link between
    [leaf] and [spine]. *)
Definition bind_link (supernet leaf spine : string) (v : link_vars)
    : M link_vars :=
  let output := lv_output v in
  lport ← pure (py_index (lv_leaf_port v) 0);
  ip ← pure (py_index (lv_available_ips v) 0);
  out ← delete_trunk leaf lport spine;
  let output := output +:+ out in
  out ← create_interface leaf ip lport;
  let output := output +:+ out in
  let output := output +:+ " " in
  leaf_port ← pure (py_remove lport (lv_leaf_port v));
  available_ips ← pure (py_remove ip (lv_available_ips v));
  ip ← pure (py_index available_ips 0);
  sport ← run_cli (PortShowRport leaf lport);
  out ← delete_trunk spine sport leaf;
  let output := output +:+ out in
  out ← create_interface spine ip sport;
  let output := output +:+ out in
  available_ips ← pure (py_remove ip available_ips);
  supernet_n ← pure (py_int supernet);
  let diff := 32 - supernet_n in
  shifted ← pure (py_shiftl_1 diff);
  let count := shifted - 4 in
  available_ips ← pure (skip_block count available_ips);
  mret (LinkVars leaf_port available_ips output).

(** Lines 603-631: every spine, every leaf, every port between them. *)
Definition bind_all_links (supernet : string) (spine_list leaf_list : list string)
    (available_ips : list string) (output : string)
    : M (list string * string) :=
  for_m spine_list
    (fun spine st =>
       for_m leaf_list
         (fun leaf (st : list string * string) =>
            out ← run_cli (PortShowHostname leaf spine);
            let leaf_port := py_split out in
            v ← while_m (2 + length leaf_port)
                  (fun v => 0 <? Z.of_nat (length (lv_leaf_port v)))
                  (bind_link supernet leaf spine)
                  (LinkVars leaf_port st.1 st.2);
            mret (lv_available_ips v, lv_output v))
         st)
    (available_ips, output).

Definition auto_configure_link_ips (p : params) : M string :=
  let spine_list := pn_spine_list p in
  let leaf_list := pn_leaf_list p in
  let fabric_loopback := pn_assign_loopback p in
  let output := " " in
  out ← run_cli FabricNodeShow;
  let switch_names := py_split out in
  let switch_names := list_set switch_names in
  output ← for_m switch_names
              (fun switch output =>
                 out ← disable_trunk switch;
                 mret (output +:+ out +:+ " "))
              output;
  let address := pn_net_address p in
  let cidr := pn_cidr p in
  let supernet := pn_supernet p in
  available_ips ← pure (calculate_link_ip_addresses address cidr supernet);
  output ← for_m switch_names
              (fun switch output =>
                 out ← create_vrouter p switch;
                 mret (output +:+ out +:+ " "))
              output;
  '(_, output) ← bind_all_links supernet spine_list leaf_list available_ips
                    output;
  if fabric_loopback
  then
    let loopback_address := pn_loopback_ip p in
    out ← assign_loopback_ip loopback_address;
    mret (output +:+ out +:+ " ")
  else mret output.

End Plane.

(** What the remove-while-iterating loop leaves of a list without repeated
    entries: after an entry is removed, the entry that follows it is never
    tested. *)
Fixpoint skip_filter (keep : string -> bool) (l : list string) : list string :=
  match l with
  | [] => []
  | x :: l' =>
      if keep x then x :: skip_filter keep l'
      else match l' with
           | [] => []
           | y :: l'' => y :: skip_filter keep l''
           end
  end.

(** ** A simulated fabric

    A control plane to run the functions on: topology queries answer from a
    fixed script, changes are accepted and kept in a journal, and the show
    commands of clusters, trunks, vlags, vrouters and interfaces list what
    the journal holds.  A command that prints nothing has an empty output,
    which [run_cli] turns into ['Success']. *)

Record fabric := Fabric {
  fab_script : list (command * string);
  fab_journal : list command
}.

Definition scripted (script : list (command * string)) (c : command) : string :=
  match List.find (fun entry => bool_decide (entry.1 = c)) script with
  | Some entry => entry.2
  | None => EmptyString
  end.

Definition newline : string := String (ascii_of_nat 10) EmptyString.

(** One name per line. *)
Definition lines (names : list string) : string :=
  fold_right (fun name rest => name +:+ newline +:+ rest) EmptyString names.

Definition journal_names (c : command) (journal : list command) : list string :=
  omap (fun done =>
    match c, done with
    | ClusterShowNames _, ClusterCreate _ name _ _ => Some name
    | ClusterShowNode1, ClusterCreate _ _ node1 _ => Some node1
    | ClusterShowNode2, ClusterCreate _ _ _ node2 => Some node2
    | TrunkShowNames switch, TrunkCreate switch' name _ =>
        if String.eqb switch switch' then Some name else None
    | VlagShowNames switch, VlagCreate switch' name _ _ _ =>
        if String.eqb switch switch' then Some name else None
    | VrouterShowNamesOn switch, VrouterCreate switch' name _ =>
        if String.eqb switch switch' then Some name else None
    | VrouterShowLocation switch, VrouterCreate switch' name _ =>
        if String.eqb switch switch' then Some name else None
    | VrouterShowNames, VrouterCreate _ name _ => Some name
    | VrouterInterfaceShow port ip, VrouterInterfaceAdd vrouter ip' port' =>
        if String.eqb ip ip' && String.eqb port port' then Some vrouter
        else None
    | VrouterLoopbackShow ip, VrouterLoopbackAdd vrouter ip' =>
        if String.eqb ip ip' then Some vrouter else None
    | _, _ => None
    end) journal.

Definition journal_keeps (c done : command) : bool :=
  match c, done with
  | TrunkDelete switch name, TrunkCreate switch' name' _ =>
      negb (String.eqb switch switch' && String.eqb name name')
  | _, _ => true
  end.

Definition fabric_exec (c : command) (f : fabric) : reply * fabric :=
  if is_mutation c
  then
    let journal := List.filter (journal_keeps c) (fab_journal f) in
    (Reply "" "", Fabric (fab_script f) (journal ++ [c]))
  else
    let text := scripted (fab_script f) c in
    let listed := lines (journal_names c (fab_journal f)) in
    (Reply (if py_bool text then text +:+ newline +:+ listed else listed) "",
     f).

Definition simulated_fabric : ControlPlane :=
  {| World := fabric; exec := fabric_exec |}.

(** [list(set(l))] keeping the order of last occurrence. *)
Definition stable_set_order : SetOrder :=
  {| list_set := remove_dups;
     list_set_NoDup := NoDup_remove_dups;
     list_set_elem := fun l x => elem_of_remove_dups l x |}.

(** ** Assumptions on a control plane and shapes of the claims *)

Section PlaneAssumptions.
Context {cp : ControlPlane}.

(** A command that leaves the switches as they are. *)
Definition read_only (c : command) : Prop := forall w, (exec c w).2 = w.

(** Once [create] has gone through, [show] lists [name]. *)
Definition listed_after (create show : command) (name : string) : Prop :=
  forall w out,
    reply_text ((exec create w).1) = Ok out ->
    py_in name (py_split (reply_out ((exec show ((exec create w).2)).1)))
    = true.

(** Running [m] again right after it returned only tells that the object is
    there: the switches and the changes issued so far stay as they are. *)
Definition repeats_as_noop (m : M string) (message : string) : Prop :=
  forall σ out σ1,
    m σ = (Ok out, σ1) ->
    exists σ2,
      m σ1 = (Ok message, σ2) /\
      world σ2 = world σ1 /\
      List.filter is_mutation (log σ2) = List.filter is_mutation (log σ1).

End PlaneAssumptions.

(** A name that [split()] gives back whole: not empty, no white space. *)
Fixpoint no_space (s : string) : bool :=
  match s with
  | EmptyString => true
  | String c s' => negb (is_space c) && no_space s'
  end.

Definition is_token (s : string) : bool := py_bool s && no_space s.

(** Empty, or the last character is white space. *)
Fixpoint ends_line (s : string) : bool :=
  match s with
  | EmptyString => true
  | String c EmptyString => is_space c
  | String _ s' => ends_line s'
  end.

(** ** Concrete fabrics used in the examples *)

(** One switch answers the fabric node query; nothing else is scripted. *)
Definition lone_leaf : session (cp := simulated_fabric) :=
  Session (cp := simulated_fabric)
    (Fabric [(FabricNodeShow, "leaf1")] []) [].

Definition no_topology : params :=
  Params "fab" [] [] false "192.168.1.0" "24" "30" "10.0.0.0".

Definition no_leaves : params :=
  Params "fab" ["spine1"; "spine2"] [] false "192.168.1.0" "24" "30" "10.0.0.0".

Definition one_spine : params :=
  Params "fab" ["spine1"] ["leaf1"; "leaf2"] false "192.168.1.0" "24" "30"
    "10.0.0.0".

(** ** What a run writes to the command log *)

Section Traces.
Context {cp : ControlPlane} {so : SetOrder}.

(** [emits m Q]: from any session, [m] appends some commands [d] to the log
    and ends with an outcome [r] such that [Q r d]. *)
Definition emits {A : Type} (m : M A)
    (Q : result A -> list command -> Prop) : Prop :=
  forall σ, exists d, log (m σ).2 = log σ ++ d /\ Q (m σ).1 d.

(** A postcondition for a normal end, one for an exception; running out of
    fuel is excluded. *)
Definition post {A : Type} (Qok : A -> list command -> Prop)
    (Qraise : list command -> Prop) : result A -> list command -> Prop :=
  fun r d =>
    match r with
    | Ok a => Qok a d
    | Raise _ => Qraise d
    | OutOfFuel => False
    end.

End Traces.

(** The members of the clusters that the commands of a log create. *)
Definition cluster_members (d : list command) : list string :=
  flat_map (fun c =>
    match c with
    | ClusterCreate _ _ node1 node2 => [node1; node2]
    | _ => []
    end) d.

(** The leaves whose neighbours were read: one per round of the pairing
    loop. *)
Definition popped_leaves (d : list command) : list string :=
  flat_map (fun c =>
    match c with
    | LldpShowSysName node1 => [node1]
    | _ => []
    end) d.

(** Commands that neither create a cluster nor start a round of the pairing
    loop. *)
Definition apart_from_pairing (c : command) : bool :=
  match c with
  | ClusterCreate _ _ _ _ | LldpShowSysName _ => false
  | _ => true
  end.

Section Only.
Context {cp : ControlPlane} {so : SetOrder}.

(** [m] does not run out of fuel and issues only commands that satisfy
    [allowed], whether it returns or raises; what it returns satisfies
    [R]. *)
Definition only {A : Type} (allowed : command -> bool) (R : A -> Prop)
    (m : M A) : Prop :=
  emits m (post (fun a d => forallb allowed d = true /\ R a)
                (fun d => forallb allowed d = true)).

End Only.

(** The cluster creations of a log. *)
Definition is_cluster_create (c : command) : bool :=
  match c with ClusterCreate _ _ _ _ => true | _ => false end.

Definition cluster_creations (d : list command) : list command :=
  List.filter is_cluster_create d.

(** The commands of [d] start no round of the pairing loop and create at
    most one cluster, the one that [create] creates. *)
Definition pairs_at_most (create : command) (d : list command) : Prop :=
  popped_leaves d = [] /\
  (cluster_creations d = [] \/ cluster_creations d = [create]).

(** The cluster that the pairing loop creates of [node1] and [node2]. *)
Definition pair_cluster (node1 node2 : string) : command :=
  ClusterCreate node2 (node1 +:+ "-to-" +:+ node2 +:+ "-cluster") node1 node2.

(** The test of the scan: not a spine, still on the list. *)
Definition pairing_candidate (spine_list non_cluster_leaf : list string)
    (node2 : string) : bool :=
  negb (py_in node2 spine_list) && py_in node2 non_cluster_leaf.

(** No leaf starts two rounds of the pairing loop, no switch is a member of
    two created clusters, and both kinds of switches come from the list
    [worklist] that the loop was given. *)
Definition pairing_trace_ok (worklist : list string) (d : list command) : Prop :=
  NoDup (cluster_members d) /\ NoDup (popped_leaves d) /\
  (forall x, x ∈ cluster_members d -> x ∈ worklist) /\
  (forall x, x ∈ popped_leaves d -> x ∈ worklist).

(** Leaf 1 sees leaf 2, which the fabric does not list as a node. *)
Definition unlisted_neighbour : session (cp := simulated_fabric) :=
  Session (cp := simulated_fabric)
    (Fabric [(LldpShowSysName "leaf1", "spine1 leaf2");
             (FabricNodeShowOn "leaf1", "spine1 spine2 leaf1");
             (LldpShowSysName "leaf2", "spine1 leaf1");
             (FabricNodeShowOn "leaf2", "spine1 spine2 leaf1")] []) [].

(** Three leaves in a row; every switch is a fabric node. *)
Definition leaf_chain : session (cp := simulated_fabric) :=
  Session (cp := simulated_fabric)
    (Fabric [(LldpShowSysName "leaf1", "spine1 spine2 leaf2");
             (LldpShowSysName "leaf2", "spine1 spine2 leaf1 leaf3");
             (LldpShowSysName "leaf3", "spine1 spine2 leaf2");
             (FabricNodeShowOn "leaf1", "spine1 spine2 leaf1 leaf2 leaf3");
             (FabricNodeShowOn "leaf2", "spine1 spine2 leaf1 leaf2 leaf3");
             (FabricNodeShowOn "leaf3", "spine1 spine2 leaf1 leaf2 leaf3")]
       []) [].

Definition repeated_leaf : params :=
  Params "fab" ["spine1"; "spine2"] ["leaf1"; "leaf2"; "leaf2"; "leaf3"] false
    "192.168.1.0" "24" "30" "10.0.0.0".

(** ** The pairing routine, round by round *)
Section PairingRuns.
Context {cp : ControlPlane} {so : SetOrder}.

(** The cluster of the pair [node1], [node2]: the clusters of [node1] are
    listed, and the cluster is created unless one of its name is listed. *)
Inductive cluster_formed (node1 node2 : string) : session -> session -> Prop :=
| cluster_created σ σ1 σ2 shown out :
    run_cli (ClusterShowNames node1) σ = (Ok shown, σ1) ->
    (node1 +:+ "-to-" +:+ node2 +:+ "-cluster") ∉ py_split shown ->
    run_cli (pair_cluster node1 node2) σ1 = (Ok out, σ2) ->
    cluster_formed node1 node2 σ σ2
| cluster_listed σ σ1 shown :
    run_cli (ClusterShowNames node1) σ = (Ok shown, σ1) ->
    (node1 +:+ "-to-" +:+ node2 +:+ "-cluster") ∈ py_split shown ->
    cluster_formed node1 node2 σ σ1.

(** The pairing routine on a worklist, round by round.  A round takes the
    first leaf off the worklist, reads its neighbours and its fabric nodes,
    and scans the neighbours that the filter leaves for the first one that
    is not a spine and is on the worklist.  Without such a neighbour the
    round is over.  With one, the cluster of the pair is formed, the
    neighbour leaves the worklist too, and the trunks and vlags of the pair
    follow: commands that create no cluster and start no round.  The run
    ends when the worklist is empty, or inside the round in which a command
    fails. *)
Inductive pairing_run (spine_list : list string)
    : list string -> session -> option exn -> session -> Prop :=
| pairing_done σ :
    pairing_run spine_list [] σ None σ
| pairing_unpaired node1 rest σ σ1 σ2 σ3 out nodes system_names o :
    run_cli (LldpShowSysName node1) σ = (Ok out, σ1) ->
    run_cli (FabricNodeShowOn node1) σ1 = (Ok nodes, σ2) ->
    remove_non_fabric (list_set (py_split nodes)) (list_set (py_split out))
    = Ok system_names ->
    List.find (pairing_candidate spine_list rest) system_names = None ->
    pairing_run spine_list rest σ2 o σ3 ->
    pairing_run spine_list (node1 :: rest) σ o σ3
| pairing_paired node1 node2 rest rest' σ σ1 σ2 σ3 σ4 σ5 out nodes
      system_names d o :
    run_cli (LldpShowSysName node1) σ = (Ok out, σ1) ->
    run_cli (FabricNodeShowOn node1) σ1 = (Ok nodes, σ2) ->
    remove_non_fabric (list_set (py_split nodes)) (list_set (py_split out))
    = Ok system_names ->
    List.find (pairing_candidate spine_list rest) system_names = Some node2 ->
    cluster_formed node1 node2 σ2 σ3 ->
    py_remove node2 rest = Ok rest' ->
    log σ4 = log σ3 ++ d ->
    forallb apart_from_pairing d = true ->
    pairing_run spine_list rest' σ4 o σ5 ->
    pairing_run spine_list (node1 :: rest) σ o σ5
| pairing_cut node1 rest σ σ1 e d :
    log σ1 = log σ ++ d ->
    popped_leaves d = [node1] ->
    (cluster_members d = [] \/
     exists node2, node2 ∈ rest /\ cluster_members d = [node1; node2]) ->
    pairing_run spine_list (node1 :: rest) σ (Some e) σ1.

End PairingRuns.

(** ** Loopback addresses *)

(** The address that goes with each vrouter, counting from [vrouter_count]. *)
Fixpoint loopback_plan (static_part : string) (vrouter_count : Z)
    (vrouter_names : list string) : list (string * string) :=
  match vrouter_names with
  | [] => []
  | vrouter :: rest =>
      (vrouter, static_part +:+ py_str vrouter_count)
      :: loopback_plan static_part (vrouter_count + 1) rest
  end.

(** The loopback interfaces that the commands of a log add. *)
Definition loopback_adds (d : list command) : list (string * string) :=
  flat_map (fun c =>
    match c with
    | VrouterLoopbackAdd vrouter ip => [(vrouter, ip)]
    | _ => []
    end) d.

(** Three vrouters are there, none with a loopback interface. *)
Definition three_vrouters : session (cp := simulated_fabric) :=
  Session (cp := simulated_fabric)
    (Fabric [] [VrouterCreate "spine1" "spine1-vrouter" "fab-global";
                VrouterCreate "leaf1" "leaf1-vrouter" "fab-global";
                VrouterCreate "leaf2" "leaf2-vrouter" "fab-global"]) [].

(** The vrouter listing has 256 names. *)
Definition many_vrouters : session (cp := simulated_fabric) :=
  Session (cp := simulated_fabric)
    (Fabric [(VrouterShowNames,
              fold_right (fun _ rest => "v " +:+ rest) "" (seq 0 256))] []) [].

Section LoopbackRun.
Context {cp : ControlPlane}.

(** The loop over the vrouters, from session to session.  Each vrouter of
    the plan has its address looked up; the address is added to the vrouter
    when the reply does not name the vrouter, and is left alone when it
    does.  The run ends after the last vrouter, or at the first command
    that fails. *)
Inductive loopback_run
    : list (string * string) -> session -> option exn -> session -> Prop :=
| loopback_done σ :
    loopback_run [] σ None σ
| loopback_added vrouter ip plan σ σ1 σ2 σ3 shown added o :
    run_cli (VrouterLoopbackShow ip) σ = (Ok shown, σ1) ->
    vrouter ∉ py_split shown ->
    run_cli (VrouterLoopbackAdd vrouter ip) σ1 = (Ok added, σ2) ->
    loopback_run plan σ2 o σ3 ->
    loopback_run ((vrouter, ip) :: plan) σ o σ3
| loopback_present vrouter ip plan σ σ1 σ2 shown o :
    run_cli (VrouterLoopbackShow ip) σ = (Ok shown, σ1) ->
    vrouter ∈ py_split shown ->
    loopback_run plan σ1 o σ2 ->
    loopback_run ((vrouter, ip) :: plan) σ o σ2
| loopback_show_fails vrouter ip plan σ σ1 e :
    run_cli (VrouterLoopbackShow ip) σ = (Raise e, σ1) ->
    loopback_run ((vrouter, ip) :: plan) σ (Some e) σ1
| loopback_add_fails vrouter ip plan σ σ1 σ2 shown e :
    run_cli (VrouterLoopbackShow ip) σ = (Ok shown, σ1) ->
    vrouter ∉ py_split shown ->
    run_cli (VrouterLoopbackAdd vrouter ip) σ1 = (Raise e, σ2) ->
    loopback_run ((vrouter, ip) :: plan) σ (Some e) σ2.

End LoopbackRun.

(** Leaf 1 has its loopback address already; the two others do not. *)
Definition one_loopback_present : session (cp := simulated_fabric) :=
  Session (cp := simulated_fabric)
    (Fabric [] [VrouterCreate "spine1" "spine1-vrouter" "fab-global";
                VrouterCreate "leaf1" "leaf1-vrouter" "fab-global";
                VrouterCreate "leaf2" "leaf2-vrouter" "fab-global";
                VrouterLoopbackAdd "leaf1-vrouter" "10.0.0.2"]) [].

(** ** Link addresses *)

(** The addresses for which a vrouter interface is asked: one for each call
    of [create_interface], in the order of the log. *)
Definition interface_requests (d : list command) : list string :=
  flat_map (fun c =>
    match c with
    | VrouterInterfaceShow _ ip => [ip]
    | _ => []
    end) d.

(** The switches whose vrouter is looked up for an interface. *)
Definition interface_switches (d : list command) : list string :=
  flat_map (fun c =>
    match c with
    | VrouterShowLocation switch => [switch]
    | _ => []
    end) d.

(** Commands outside [create_interface]'s two queries. *)
Definition link_quiet (c : command) : bool :=
  match c with
  | VrouterShowLocation _ | VrouterInterfaceShow _ _ => false
  | _ => true
  end.

(** The first two addresses of each of [links] successive blocks of [block]
    addresses. *)
Fixpoint link_addresses (block links : nat) (available_ips : list string)
    : list string :=
  match links with
  | O => []
  | Datatypes.S links' =>
      take 2 available_ips
      ++ link_addresses block links' (drop block available_ips)
  end.

(** One spine and two leaves, each leaf with one port to the spine. *)
Definition two_links : session (cp := simulated_fabric) :=
  Session (cp := simulated_fabric)
    (Fabric [(FabricNodeShow, "spine1 leaf1 leaf2");
             (PortShowHostname "leaf1" "spine1", "11");
             (PortShowHostname "leaf2" "spine1", "12")] []) [].

Definition one_spine_two_leaves : params :=
  Params "fab" ["spine1"] ["leaf1"; "leaf2"] false "192.168.1.0" "24" "29"
    "10.0.0.0".

(** A postcondition that looks at the interface requests of the commands
    only. *)
Definition link_post {A : Type}
    (Q : A -> list string -> list string -> Prop) (E : list string -> Prop)
    : result A -> list command -> Prop :=
  post (fun a d => Q a (interface_requests d) (interface_switches d))
       (fun d => E (interface_requests d)).

(** ** Sub-blocks of the planner's list *)

(** A list made of pieces that each satisfy [P], one after the other. *)
Inductive chunked {A : Type} (P : list A -> Prop) : list A -> Prop :=
| chunked_nil : chunked P []
| chunked_cons c l : P c -> chunked P l -> chunked P (c ++ l).

(** The host numbers of one sub-block: the [r] numbers after an offset [i]
    that is a multiple of the sub-block size [r + 2], within [lo..hi]. *)
Definition host_chunk (r lo hi : Z) (c : list Z) : Prop :=
  exists i, (r + 2 | i) /\ lo <= i /\ i + r + 1 <= hi /\ c = seqZ (i + 1) r.

(** The addresses of one sub-block as the planner writes them: the hosts
    [i + 1 .. i + r] of the network [b0.b1.t.i], with the third octet [t]
    in [lo2..hi2]. *)
Definition address_chunk (b0 b1 : Z) (supernet_str : string) (r lo2 hi2 : Z)
    (c : list string) : Prop :=
  exists t i,
    lo2 <= t <= hi2 /\ (r + 2 | i) /\ 0 <= i /\ i + r + 1 <= 255 /\
    c = map (render_host
               ((py_str b0 +:+ "." +:+ py_str b1 +:+ ".") +:+ py_str t)
               supernet_str)
          (seqZ (i + 1) r).

(** ** Links, session by session *)

(** The addresses that are added as vrouter interfaces, in the order of the
    log. *)
Definition interface_adds (d : list command) : list string :=
  flat_map (fun c =>
    match c with
    | VrouterInterfaceAdd _ ip _ => [ip]
    | _ => []
    end) d.

(** Commands that the link loops do not issue. *)
Definition outside_links (c : command) : bool :=
  match c with
  | PortShowHostname _ _ | PortShowRport _ _ | PortShowTrunk _ _ _
  | TrunkDelete _ _ | VrouterShowLocation _ | VrouterInterfaceShow _ _
  | VrouterInterfaceAdd _ _ _ => false
  | _ => true
  end.

Section LinkRuns.
Context {cp : ControlPlane} {so : SetOrder}.

(** [create_interface] going through: the vrouter of the switch is looked
    up, then the vrouters that have the address on the port; the interface
    is added to the first vrouter of the switch unless it is among them. *)
Inductive interface_bound (switch ip port : string)
    : session -> session -> Prop :=
| interface_added σ σ1 σ2 σ3 names shown vrouter out :
    run_cli (VrouterShowLocation switch) σ = (Ok names, σ1) ->
    run_cli (VrouterInterfaceShow port ip) σ1 = (Ok shown, σ2) ->
    py_index (py_split names) 0 = Ok vrouter ->
    vrouter ∉ py_split shown ->
    run_cli (VrouterInterfaceAdd vrouter ip port) σ2 = (Ok out, σ3) ->
    interface_bound switch ip port σ σ3
| interface_present σ σ1 σ2 names shown vrouter :
    run_cli (VrouterShowLocation switch) σ = (Ok names, σ1) ->
    run_cli (VrouterInterfaceShow port ip) σ1 = (Ok shown, σ2) ->
    py_index (py_split names) 0 = Ok vrouter ->
    vrouter ∈ py_split shown ->
    interface_bound switch ip port σ σ2.

(** [create_interface] ending in an exception. *)
Inductive interface_fails (switch ip port : string)
    : session -> exn -> session -> Prop :=
| interface_location_fails σ σ1 e :
    run_cli (VrouterShowLocation switch) σ = (Raise e, σ1) ->
    interface_fails switch ip port σ e σ1
| interface_show_fails σ σ1 σ2 names e :
    run_cli (VrouterShowLocation switch) σ = (Ok names, σ1) ->
    run_cli (VrouterInterfaceShow port ip) σ1 = (Raise e, σ2) ->
    interface_fails switch ip port σ e σ2
| interface_no_vrouter σ σ1 σ2 names shown e :
    run_cli (VrouterShowLocation switch) σ = (Ok names, σ1) ->
    run_cli (VrouterInterfaceShow port ip) σ1 = (Ok shown, σ2) ->
    py_index (py_split names) 0 = Raise e ->
    interface_fails switch ip port σ e σ2
| interface_add_fails σ σ1 σ2 σ3 names shown vrouter e :
    run_cli (VrouterShowLocation switch) σ = (Ok names, σ1) ->
    run_cli (VrouterInterfaceShow port ip) σ1 = (Ok shown, σ2) ->
    py_index (py_split names) 0 = Ok vrouter ->
    vrouter ∉ py_split shown ->
    run_cli (VrouterInterfaceAdd vrouter ip port) σ2 = (Raise e, σ3) ->
    interface_fails switch ip port σ e σ3.

(** Both ends of the physical link on port [lport] of [leaf]: the trunk of
    the leaf's port is deleted and [ip_leaf] is bound on the leaf; the port
    of the spine is looked up, its trunk is deleted and [ip_spine] is bound
    on the spine. *)
Inductive link_ends (leaf spine lport ip_leaf ip_spine : string)
    : session -> session -> Prop :=
| link_both_ends σ σ1 σ2 σ3 σ4 σ5 out1 sport out3 :
    delete_trunk leaf lport spine σ = (Ok out1, σ1) ->
    interface_bound leaf ip_leaf lport σ1 σ2 ->
    run_cli (PortShowRport leaf lport) σ2 = (Ok sport, σ3) ->
    delete_trunk spine sport leaf σ3 = (Ok out3, σ4) ->
    interface_bound spine ip_spine sport σ4 σ5 ->
    link_ends leaf spine lport ip_leaf ip_spine σ σ5.

(** The round of one physical link ending in an exception, on the list
    [ips] of the addresses that are left and with sub-blocks of [block]
    addresses. *)
Inductive link_fails (block : nat) (leaf spine lport : string)
    : list string -> session -> exn -> session -> Prop :=
| link_no_address σ :
    link_fails block leaf spine lport [] σ IndexError σ
| link_leaf_trunk_fails ip_leaf rest σ σ1 e :
    delete_trunk leaf lport spine σ = (Raise e, σ1) ->
    link_fails block leaf spine lport (ip_leaf :: rest) σ e σ1
| link_leaf_fails ip_leaf rest σ σ1 σ2 out1 e :
    delete_trunk leaf lport spine σ = (Ok out1, σ1) ->
    interface_fails leaf ip_leaf lport σ1 e σ2 ->
    link_fails block leaf spine lport (ip_leaf :: rest) σ e σ2
| link_one_address ip_leaf σ σ1 σ2 out1 :
    delete_trunk leaf lport spine σ = (Ok out1, σ1) ->
    interface_bound leaf ip_leaf lport σ1 σ2 ->
    link_fails block leaf spine lport [ip_leaf] σ IndexError σ2
| link_rport_fails ip_leaf ip_spine rest σ σ1 σ2 σ3 out1 e :
    delete_trunk leaf lport spine σ = (Ok out1, σ1) ->
    interface_bound leaf ip_leaf lport σ1 σ2 ->
    run_cli (PortShowRport leaf lport) σ2 = (Raise e, σ3) ->
    link_fails block leaf spine lport (ip_leaf :: ip_spine :: rest) σ e σ3
| link_spine_trunk_fails ip_leaf ip_spine rest σ σ1 σ2 σ3 σ4 out1 sport e :
    delete_trunk leaf lport spine σ = (Ok out1, σ1) ->
    interface_bound leaf ip_leaf lport σ1 σ2 ->
    run_cli (PortShowRport leaf lport) σ2 = (Ok sport, σ3) ->
    delete_trunk spine sport leaf σ3 = (Raise e, σ4) ->
    link_fails block leaf spine lport (ip_leaf :: ip_spine :: rest) σ e σ4
| link_spine_fails ip_leaf ip_spine rest σ σ1 σ2 σ3 σ4 σ5 out1 sport out3 e :
    delete_trunk leaf lport spine σ = (Ok out1, σ1) ->
    interface_bound leaf ip_leaf lport σ1 σ2 ->
    run_cli (PortShowRport leaf lport) σ2 = (Ok sport, σ3) ->
    delete_trunk spine sport leaf σ3 = (Ok out3, σ4) ->
    interface_fails spine ip_spine sport σ4 e σ5 ->
    link_fails block leaf spine lport (ip_leaf :: ip_spine :: rest) σ e σ5
| link_block_short ip_leaf ip_spine rest σ σ1 :
    link_ends leaf spine lport ip_leaf ip_spine σ σ1 ->
    (length (ip_leaf :: ip_spine :: rest) < block)%nat ->
    link_fails block leaf spine lport (ip_leaf :: ip_spine :: rest) σ
      IndexError σ1.

(** The ports between [leaf] and [spine], one physical link each, on the
    list of the addresses that are left: every link binds the two addresses
    at the front, one per end, and leaves the list without the [block]
    addresses at its front.  The run ends with the list that is left after
    the last port, or in the round of the first link that fails. *)
Inductive ports_bound (block : nat) (leaf spine : string)
    : list string -> list string -> session -> result (list string) ->
      session -> Prop :=
| ports_done ips σ :
    ports_bound block leaf spine [] ips σ (Ok ips) σ
| ports_link lport ports ip_leaf ip_spine rest σ σ1 σ2 res :
    link_ends leaf spine lport ip_leaf ip_spine σ σ1 ->
    (block <= length (ip_leaf :: ip_spine :: rest))%nat ->
    ports_bound block leaf spine ports
      (drop block (ip_leaf :: ip_spine :: rest)) σ1 res σ2 ->
    ports_bound block leaf spine (lport :: ports)
      (ip_leaf :: ip_spine :: rest) σ res σ2
| ports_cut lport ports ips σ σ1 e :
    link_fails block leaf spine lport ips σ e σ1 ->
    ports_bound block leaf spine (lport :: ports) ips σ (Raise e) σ1.

(** The pairs of a spine and a leaf in turn: the ports of the leaf that face
    the spine are read, and each of them is bound as a physical link. *)
Inductive links_bound (block : nat)
    : list (string * string) -> list string -> session ->
      result (list string) -> session -> Prop :=
| links_done ips σ :
    links_bound block [] ips σ (Ok ips) σ
| links_pair spine leaf pairs ips ips' σ σ1 σ2 σ3 out res :
    run_cli (PortShowHostname leaf spine) σ = (Ok out, σ1) ->
    ports_bound block leaf spine (py_split out) ips σ1 (Ok ips') σ2 ->
    links_bound block pairs ips' σ2 res σ3 ->
    links_bound block ((spine, leaf) :: pairs) ips σ res σ3
| links_ports_fail spine leaf pairs ips σ σ1 σ2 out e :
    run_cli (PortShowHostname leaf spine) σ = (Ok out, σ1) ->
    ports_bound block leaf spine (py_split out) ips σ1 (Raise e) σ2 ->
    links_bound block ((spine, leaf) :: pairs) ips σ (Raise e) σ2
| links_query_fails spine leaf pairs ips σ σ1 e :
    run_cli (PortShowHostname leaf spine) σ = (Raise e, σ1) ->
    links_bound block ((spine, leaf) :: pairs) ips σ (Raise e) σ1.

(** The layer-3 run as a whole: the commands before the link loops, which
    are none of the link loops' commands; the link loops on the planner's
    list; the commands after them, again none of the link loops'.  The run
    ends in an exception before the links, in the link loops, or after
    them, or it ends without one. *)
Inductive layer3_run (block : nat) (pairs : list (string * string))
    (ips : list string) : session -> option exn -> session -> Prop :=
| layer3_setup_fails σ σ1 d e :
    log σ1 = log σ ++ d -> forallb outside_links d = true ->
    layer3_run block pairs ips σ (Some e) σ1
| layer3_links_fail σ σ1 σ2 d e :
    log σ1 = log σ ++ d -> forallb outside_links d = true ->
    links_bound block pairs ips σ1 (Raise e) σ2 ->
    layer3_run block pairs ips σ (Some e) σ2
| layer3_links_bound σ σ1 σ2 σ3 d d' ips' o :
    log σ1 = log σ ++ d -> forallb outside_links d = true ->
    links_bound block pairs ips σ1 (Ok ips') σ2 ->
    log σ3 = log σ2 ++ d' -> forallb outside_links d' = true ->
    layer3_run block pairs ips σ o σ3.

End LinkRuns.

(** ** The commands of each mode *)

(** The commands that the layer-2 run can issue. *)
Definition layer2_command (c : command) : bool :=
  match c with
  | ClusterShowNames _ | ClusterShowNode1 | ClusterShowNode2
  | ClusterCreate _ _ _ _ | LldpShowSysName _ | FabricNodeShowOn _
  | PortShowHostname _ _ | TrunkShowNames _ | TrunkCreate _ _ _
  | VlagShowNames _ | VlagCreate _ _ _ _ _ => true
  | _ => false
  end.

(** The commands that the layer-3 run can issue; those of the loopback
    interfaces only with [pn_assign_loopback]. *)
Definition layer3_command (fabric_loopback : bool) (c : command) : bool :=
  match c with
  | FabricNodeShow | SystemSettingsNoAutoTrunk _
  | VrouterShowNamesOn _ | VrouterCreate _ _ _
  | PortShowHostname _ _ | PortShowTrunk _ _ _ | TrunkDelete _ _
  | PortShowRport _ _ | VrouterShowLocation _
  | VrouterInterfaceShow _ _ | VrouterInterfaceAdd _ _ _ => true
  | VrouterShowNames | VrouterLoopbackShow _ | VrouterLoopbackAdd _ _ =>
      fabric_loopback
  | _ => false
  end.

Definition bad_supernet : params :=
  Params "fab" ["spine1"] ["leaf1"; "leaf2"] false "192.168.1.0" "24" "26"
    "10.0.0.0".

(** ** pn_ebgp.py: leaf clusters

    [run_cli], [leaf_no_cluster] and [create_cluster] of pn_ebgp.py are the
    functions of the same names above, line for line. *)

Section BgpClusters.
Context {cp : ControlPlane} {so : SetOrder}.

(** The body of [if switch in noncluster_leaf]. *)
Definition form_cluster (node1 switch : string)
    (noncluster_leaf : list string) (output : string)
    : M (list string * string) :=
  let name := node1 +:+ "-to-" +:+ switch +:+ "-cluster" in
  out ← create_cluster switch name node1 switch;
  let output := output +:+ out +:+ " " in
  noncluster_leaf ← pure (py_remove switch noncluster_leaf);
  mret (noncluster_leaf, output).

(** [while (cluster_count < len(system_names)) and (cluster_flag == 0)],
    written over what is left of the list, which the loop does not change;
    it stops at the first neighbour that is clustered with [node1]. *)
Fixpoint scan_system_names (node1 : string) (spine_list : list string)
    (system_names : list string) (noncluster_leaf : list string)
    (output : string) : M (list string * string) :=
  match system_names with
  | [] => mret (noncluster_leaf, output)
  | switch :: rest =>
      if negb (py_in switch spine_list)
      then
        if py_in switch noncluster_leaf
        then form_cluster node1 switch noncluster_leaf output
        else scan_system_names node1 spine_list rest noncluster_leaf output
      else scan_system_names node1 spine_list rest noncluster_leaf output
  end.

(** The [else] branch of the loop of [leaf_cluster_formation]. *)
Definition cluster_first_leaf (spine_list : list string)
    (noncluster_leaf : list string) (output : string)
    : M (list string * string) :=
  node1 ← pure (py_index noncluster_leaf 0);
  noncluster_leaf ← pure (py_remove node1 noncluster_leaf);
  out ← run_cli (LldpShowSysName node1);
  let system_names := list_set (py_split out) in
  scan_system_names node1 spine_list system_names noncluster_leaf output.

Definition leaf_cluster_formation (noncluster_leaf spine_list : list string)
    : M string :=
  let output := " " in
  let flag := 0 in
  '(_, _, output) ←
     while_m (2 + length noncluster_leaf)
       (fun st : Z * list string * string => st.1.1 =? 0)
       (fun st =>
          let '(flag, noncluster_leaf, output) := st in
          if (Z.of_nat (length noncluster_leaf) =? 0)
          then
            let output := output +:+ "no more leaf to create cluster" in
            let output := output +:+ " " in
            mret (flag + 1, noncluster_leaf, output)
          else
            '(noncluster_leaf, output) ←
               cluster_first_leaf spine_list noncluster_leaf output;
            mret (flag, noncluster_leaf, output))
       (flag, noncluster_leaf, output);
  mret output.

Definition create_leaf_cluster (p : params) : M string :=
  let output := " " in
  let spine_list := pn_spine_list p in
  let leaf_list := pn_leaf_list p in
  noncluster_leaf ← leaf_no_cluster leaf_list;
  out ← leaf_cluster_formation noncluster_leaf spine_list;
  let output := output +:+ out in
  let output := output +:+ " " in
  mret output.

End BgpClusters.

(** The commands of [create_leaf_cluster]. *)
Definition cluster_command (c : command) : bool :=
  match c with
  | ClusterShowNode1 | ClusterShowNode2 | LldpShowSysName _
  | ClusterShowNames _ | ClusterCreate _ _ _ _ => true
  | _ => false
  end.

(** * The other functions of pn_ztp.py and the BGP functions of pn_ebgp.py

    These functions issue commands that the claims above never meet.  They
    get a command type, a control plane and a session of their own, built
    like the ones above; [result], [reply], [reply_text] and the Python
    helpers are shared.  What the code prints with [print] is not
    represented. *)

Module Netvisor.

Inductive command : Type :=
| EulaAccept (password : string)
    (* --skip-setup --script-password switch-setup-modify
       eula-accepted true password P *)
| StpModify (modify_flag : string)
    (* stp-modify F *)
| StpModifyOn (switch modify_flag : string)
    (* switch S stp-modify F *)
| FabricNodeShow
    (* fabric-node-show format name no-show-headers *)
| ControlNetwork (network : string)
    (* fabric-local-modify control-network N *)
| PortConfigShow
    (* port-config-show format port no-show-headers *)
| PortConfigShow40g
    (* port-config-show format port speed 40g no-show-headers *)
| PortConfigEnable (ports : string)
    (* port-config-modify port P enable *)
| FabricShow
    (* fabric-show format name no-show-headers *)
| FabricCreate (name fabric_network : string)
    (* fabric-create name N fabric-network T *)
| FabricInfo
    (* fabric-info format name no-show-headers *)
| FabricJoin (name : string)
    (* fabric-join name N *)
| FabricNetworkInband (switch : string)
    (* switch S fabric-local-modify fabric-network in-band *)
| LldpLocalPorts (switch : string)
    (* switch S lldp-show format local-port no-show-headers *)
| PortShow40g (switch : string)
    (* switch S port-config-show speed 40g format local-port
       no-show-headers *)
| PortSpeedDisable (switch range_port : string)
    (* switch S port-config-modify port R speed disable *)
| PortSpeed10g (switch range_port : string)
    (* switch S port-config-modify port R speed 10g *)
| PortEnable (switch range_port : string)
    (* switch S port-config-modify port R enable *)
| LocalLldpPorts
    (* switch-local lldp-show format local-port no-show-headers *)
| LocalPortShow40g
    (* switch-local port-config-show speed 40g format port
       no-show-headers *)
| LocalPortSpeedDisable (range_port : string)
    (* switch-local port-config-modify port R speed disable *)
| LocalPortSpeed10g (range_port : string)
    (* switch-local port-config-modify port R speed 10g *)
| LocalPortEnable (range_port : string)
    (* switch-local port-config-modify port R enable *)
| InbandIp (switch ip : string)
    (* switch S switch-setup-modify in-band-ip I *)
| VrouterShow
    (* vrouter-show format name no-show-headers *)
| VrouterLocation (vrouter : string)
    (* vrouter-show name V format location no-show-headers *)
| VrouterBgpAs (vrouter bgp_as : string)
    (* vrouter-modify name V bgp-as A *)
| VrouterRedistribute (vrouter bgp_redis : string)
    (* vrouter-modify name V bgp-redistribute R *)
| VrouterMaxPaths (vrouter bgp_max : string)
    (* vrouter-modify name V bgp-max-paths M *)
| VrouterLoopbackIp (vrouter : string)
    (* vrouter-loopback-interface-show vrouter-name V format ip
       no-show-headers *)
| VrouterRouterId (vrouter router_id : string)
    (* vrouter-modify name V router-id I *)
| VrouterInterfacePorts (vrouter : string)
    (* vrouter-interface-show vrouter-name V format l3-port
       no-show-headers *)
| PortHostname (switch port : string)
    (* switch S port-show port P format hostname no-show-headers *)
| VrouterBgpAsAt (location : string)
    (* vrouter-show location L format bgp-as no-show-headers *)
| PortRport (switch port : string)
    (* switch S port-show port P format rport no-show-headers *)
| VrouterNameAt (location : string)
    (* vrouter-show location L format name no-show-headers *)
| VrouterInterfaceIp (vrouter port : string)
    (* vrouter-interface-show vrouter-name V l3-port P format ip
       no-show-headers *)
| VrouterBgpShow (remote_as neighbor : string)
    (* vrouter-bgp-show remote-as A neighbor N format switch
       no-show-headers *)
| VrouterBgpAdd (vrouter neighbor remote_as : string).
    (* vrouter-bgp-add vrouter-name V neighbor N remote-as A *)

#[global] Instance command_eq_dec : EqDecision command.
Proof. solve_decision. Defined.

(** Commands that change a switch. *)
Definition is_mutation (c : command) : bool :=
  match c with
  | EulaAccept _ | StpModify _ | StpModifyOn _ _ | ControlNetwork _
  | PortConfigEnable _ | FabricCreate _ _ | FabricJoin _
  | FabricNetworkInband _ | PortSpeedDisable _ _ | PortSpeed10g _ _
  | PortEnable _ _ | LocalPortSpeedDisable _ | LocalPortSpeed10g _
  | LocalPortEnable _ | InbandIp _ _ | VrouterBgpAs _ _
  | VrouterRedistribute _ _ | VrouterMaxPaths _ _ | VrouterRouterId _ _
  | VrouterBgpAdd _ _ _ => true
  | _ => false
  end.

Class ControlPlane := {
  World : Type;
  exec : command -> World -> reply * World
}.

(** [list(set(a) - set(b))]: the elements of [a] that are not in [b], once
    each, in an order that Python does not promise. *)
Class SetDifference := {
  list_difference : list string -> list string -> list string;
  list_difference_NoDup : forall a b, NoDup (list_difference a b);
  list_difference_elem :
    forall a b x, x ∈ list_difference a b <-> x ∈ a /\ x ∉ b
}.

(** [module.params], as far as these functions read it. *)
Record params := Params {
  pn_clipassword : string;
  pn_spine_list : list string
}.

Section Plane.
Context {cp : ControlPlane} {so : SetOrder} {sd : SetDifference}.

Record session := Session { world : World; log : list command }.

Definition M (A : Type) : Type := session -> result A * session.

#[export] Instance M_ret : MRet M := fun A a σ => (Ok a, σ).
#[export] Instance M_bind : MBind M := fun A B f m σ =>
  match m σ with
  | (Ok a, σ') => f a σ'
  | (Raise e, σ') => (Raise e, σ')
  | (OutOfFuel, σ') => (OutOfFuel, σ')
  end.

Definition pure {A : Type} (r : result A) : M A := fun σ => (r, σ).

Fixpoint for_m {A S : Type} (xs : list A) (body : A -> S -> M S) (s : S)
    : M S :=
  match xs with
  | [] => mret s
  | x :: xs' => s' ← body x s; for_m xs' body s'
  end.

(** [module.run_command]: the reply as it is. *)
Definition run_command (cli : command) : M reply := fun σ =>
  let '(r, w) := exec cli (world σ) in
  (Ok r, Session w (log σ ++ [cli])).

Definition run_cli (cli : command) : M string := fun σ =>
  let '(r, w) := exec cli (world σ) in
  (reply_text r, Session w (log σ ++ [cli])).

(** ** pn_ztp.py: the setup of one switch *)

Definition auto_accept_eula (p : params) : M string :=
  let password := pn_clipassword p in
  run_cli (EulaAccept password).

Definition modify_stp_local (modify_flag : string) : M string :=
  run_cli (StpModify modify_flag).

Definition modify_stp (modify_flag : string) : M string :=
  let output := " " in
  out ← run_cli FabricNodeShow;
  let switch_names := py_split out in
  for_m switch_names
    (fun switch output =>
       out ← run_cli (StpModifyOn switch modify_flag);
       mret (output +:+ out +:+ " "))
    output.

Definition configure_control_network (network : string) : M string :=
  run_cli (ControlNetwork network).

(** [int(port_number) + k] as a string, for [k] = 1, 2, 3. *)
Definition following_ports (port_number : string) : result (list string) :=
  n1 ← py_int port_number;
  n2 ← py_int port_number;
  n3 ← py_int port_number;
  Ok [py_str (n1 + 1); py_str (n2 + 2); py_str (n3 + 3)].

(** The function returns a string, or [None] when no port is left. *)
Definition enable_ports : M (option string) :=
  out ← run_cli PortConfigShow;
  out_40g ← run_cli PortConfigShow40g;
  let out_remove10g := [] in
  out_remove10g ←
    (if (0 <? Z.of_nat (String.length out_40g))
        && negb (String.eqb out_40g "Success")
     then
       let out_40g := py_split out_40g in
       let out_40g := list_set out_40g in
       if (0 <? Z.of_nat (length out_40g))
       then
         for_m out_40g
           (fun port_number out_remove10g =>
              ports ← pure (following_ports port_number);
              mret (out_remove10g ++ ports))
           out_remove10g
       else mret out_remove10g
     else mret out_remove10g);
  if py_bool out
  then
    let out := py_split out in
    let out := list_difference out out_remove10g in
    if (0 <? Z.of_nat (length out))
    then
      let ports := py_join "," out in
      text ← run_cli (PortConfigEnable ports);
      mret (Some text)
    else mret None
  else mret (Some out).

Definition create_fabric (fabric_name fabric_network : string) : M string :=
  out ← run_cli FabricShow;
  let fabrics_names := py_split out in
  if negb (py_in fabric_name fabrics_names)
  then run_cli (FabricCreate fabric_name fabric_network)
  else
    r ← run_command FabricInfo;
    if py_bool (reply_err r)
    then run_cli (FabricJoin fabric_name)
    else
      if py_bool (reply_out r)
      then
        let myfabricname := py_split (reply_out r) in
        name1 ← pure (py_index myfabricname 1);
        if negb (py_in name1 fabrics_names)
        then run_cli (FabricJoin fabric_name)
        else mret "Switch already in the fabric."
      else
        (* [cli] still holds the fabric-show command *)
        run_cli FabricShow.

Definition update_fabric_network_to_inband : M string :=
  let output := " " in
  out ← run_cli FabricNodeShow;
  let switch_names := py_split out in
  for_m switch_names
    (fun switch output =>
       out ← run_cli (FabricNetworkInband switch);
       mret (output +:+ out))
    output.

(** [port + '-' + str(int(port) + 4)] *)
Definition range_of (port : string) : result string :=
  n ← py_int port;
  let end_port := n + 4 in
  Ok (port +:+ "-" +:+ py_str end_port).

Definition toggle_40g : M string :=
  let output := "" in
  out ← run_cli FabricNodeShow;
  let switch_names := py_split out in
  for_m switch_names
    (fun switch output =>
       out ← run_cli (LldpLocalPorts switch);
       let local_ports := py_split out in
       out ← run_cli (PortShow40g switch);
       let ports_40g := py_split out in
       let ports_to_modify := list_difference ports_40g local_ports in
       for_m ports_to_modify
         (fun port output =>
            range_port ← pure (range_of port);
            out ← run_cli (PortSpeedDisable switch range_port);
            let output := output +:+ out in
            out ← run_cli (PortSpeed10g switch range_port);
            let output := output +:+ out in
            out ← run_cli (PortEnable switch range_port);
            let output := output +:+ out in
            mret output)
         output)
    output.

Definition toggle_40g_local : M string :=
  let output := "" in
  out ← run_cli LocalLldpPorts;
  let local_ports := py_split out in
  ports_40g ← run_cli LocalPortShow40g;
  if (0 <? Z.of_nat (String.length ports_40g))
     && negb (String.eqb ports_40g "Success")
  then
    let ports_40g := py_split ports_40g in
    let ports_to_modify := list_difference ports_40g local_ports in
    for_m ports_to_modify
      (fun port output =>
         range_port ← pure (range_of port);
         let output :=
           output +:+ "port range_port " +:+ range_port +:+ " disabled" in
         let output := output +:+ newline in
         out ← run_cli (LocalPortSpeedDisable range_port);
         let output := output +:+ out in
         let output :=
           output +:+ "port range_port " +:+ range_port
           +:+ " 10g converted" in
         let output := output +:+ newline in
         out ← run_cli (LocalPortSpeed10g range_port);
         let output := output +:+ out in
         let output :=
           output +:+ "port range_port " +:+ range_port +:+ "  enabled" in
         let output := output +:+ newline in
         out ← run_cli (LocalPortEnable range_port);
         let output := output +:+ out in
         mret output)
      output
  else mret output.

Definition assign_inband_ip (inband_address : string) : M string :=
  let output := "" in
  let address := py_split_on "." inband_address in
  a0 ← pure (py_index address 0);
  a1 ← pure (py_index address 1);
  let static_part := a0 +:+ "." +:+ a1 +:+ "." in
  a2 ← pure (py_index address 2);
  let static_part := static_part +:+ a2 +:+ "." in
  a3 ← pure (py_index address 3);
  let last_octet := py_split_on "/" a3 in
  subnet ← pure (py_index last_octet 1);
  out ← run_cli FabricNodeShow;
  let switch_names := py_split out in
  if (0 <? Z.of_nat (length switch_names))
  then
    let ip_count := 1 in
    if (Z.of_nat (length switch_names) + ip_count - 1 <=? 255)
    then
      '(_, output) ←
         for_m switch_names
           (fun switch (st : Z * string) =>
              let '(ip_count, output) := st in
              let ip := static_part +:+ py_str ip_count +:+ "/" +:+ subnet in
              out ← run_cli (InbandIp switch ip);
              let output := output +:+ out in
              let output := output +:+ " " in
              mret (ip_count + 1, output))
           (ip_count, output);
      mret output
    else mret (output +:+ "Not enough inband ips for all the switches")
  else mret (output +:+ "No switches present").

(** ** pn_ebgp.py: the BGP settings of the vrouters *)

Definition assigning_bgp_as (p : params) (bgp_as : string) : M string :=
  let output := " " in
  let bgp_as_spine := bgp_as in
  n ← pure (py_int bgp_as);
  let bgp_leaf := n + 1 in
  let spine_list := pn_spine_list p in
  out ← run_cli VrouterShow;
  let vrouter_names := py_split out in
  if (0 <? Z.of_nat (length vrouter_names))
  then
    '(_, output) ←
       for_m vrouter_names
         (fun vrouter (st : Z * string) =>
            let '(bgp_leaf, output) := st in
            out ← run_cli (VrouterLocation vrouter);
            let switch_vrouter := py_split out in
            switch0 ← pure (py_index switch_vrouter 0);
            if py_in switch0 spine_list
            then
              out ← run_cli (VrouterBgpAs vrouter bgp_as_spine);
              mret (bgp_leaf, output +:+ out +:+ " ")
            else
              out ← run_cli (VrouterBgpAs vrouter (py_str bgp_leaf));
              mret (bgp_leaf + 1, output +:+ out +:+ " "))
         (bgp_leaf, output);
    mret output
  else mret (output +:+ "No vrouters present/created in this switch").

Definition assign_router_id : M string :=
  let output := " " in
  out ← run_cli VrouterShow;
  let vrouter_names := py_split out in
  if (0 <? Z.of_nat (length vrouter_names))
  then
    for_m vrouter_names
      (fun vrouter output =>
         out ← run_cli (VrouterLoopbackIp vrouter);
         let loopback_ip := py_split out in
         loopback_ip ← pure (py_remove vrouter loopback_ip);
         ip0 ← pure (py_index loopback_ip 0);
         out ← run_cli (VrouterRouterId vrouter ip0);
         mret (output +:+ out +:+ " "))
      output
  else mret output.

Definition bgp_redistribute (bgp_redis : string) : M string :=
  let output := " " in
  out ← run_cli VrouterShow;
  let vrouter_names := py_split out in
  for_m vrouter_names
    (fun vrouter output =>
       out ← run_cli (VrouterRedistribute vrouter bgp_redis);
       mret (output +:+ out +:+ " "))
    output.

Definition bgp_maxpath (bgp_max : string) : M string :=
  let output := " " in
  out ← run_cli VrouterShow;
  let vrouter_names := py_split out in
  for_m vrouter_names
    (fun vrouter output =>
       out ← run_cli (VrouterMaxPaths vrouter bgp_max);
       mret (output +:+ out +:+ " "))
    output.

(** The body of [for port in port_num] in [bgp_neighbor]. *)
Definition add_neighbor (vrouter switch0 port : string) (output : string)
    : M string :=
  out ← run_cli (PortHostname switch0 port);
  let hostname := py_split out in
  hostname0 ← pure (py_index hostname 0);
  out ← run_cli (VrouterBgpAsAt hostname0);
  let bgp_hostname := py_split out in
  port_hostname ← run_cli (PortRport switch0 port);
  hostname0 ← pure (py_index hostname 0);
  out ← run_cli (VrouterNameAt hostname0);
  let vrouter_hostname := py_split out in
  vrouter_hostname0 ← pure (py_index vrouter_hostname 0);
  out ← run_cli (VrouterInterfaceIp vrouter_hostname0 port_hostname);
  let ip_hostname_subnet := py_split out in
  vrouter_hostname0 ← pure (py_index vrouter_hostname 0);
  ip_hostname_subnet ← pure (py_remove vrouter_hostname0 ip_hostname_subnet);
  first ← pure (py_index ip_hostname_subnet 0);
  let ip_hostname_subnet := py_split_on "/" first in
  ip_hostname ← pure (py_index ip_hostname_subnet 0);
  bgp_hostname0 ← pure (py_index bgp_hostname 0);
  out ← run_cli (VrouterBgpShow bgp_hostname0 ip_hostname);
  let already_added := py_split out in
  if py_in vrouter already_added
  then
    let output := output +:+ " already exists bgp in " +:+ vrouter +:+ " " in
    mret (output +:+ " ")
  else
    bgp_hostname0 ← pure (py_index bgp_hostname 0);
    out ← run_cli (VrouterBgpAdd vrouter ip_hostname bgp_hostname0);
    let output := output +:+ out in
    mret (output +:+ " added bgp " +:+ vrouter +:+ " ").

Definition bgp_neighbor : M string :=
  let output := " " in
  out ← run_cli VrouterShow;
  let vrouter_names := py_split out in
  if (0 <? Z.of_nat (length vrouter_names))
  then
    for_m vrouter_names
      (fun vrouter output =>
         out ← run_cli (VrouterLocation vrouter);
         let switch := py_split out in
         out ← run_cli (VrouterInterfacePorts vrouter);
         let port_num := py_split out in
         let port_num := list_set port_num in
         port_num ← pure (py_remove vrouter port_num);
         for_m port_num
           (fun port output =>
              switch0 ← pure (py_index switch 0);
              add_neighbor vrouter switch0 port output)
           output)
      output
  else mret output.

(** ** Command logs *)

(** [emits m Q]: from any session, [m] appends some commands [d] to the log
    and ends with an outcome [r] such that [Q r d]. *)
Definition emits {A : Type} (m : M A)
    (Q : result A -> list command -> Prop) : Prop :=
  forall σ, exists d, log (m σ).2 = log σ ++ d /\ Q (m σ).1 d.

(** A postcondition for a normal end, one for an exception. *)
Definition post {A : Type} (Qok : A -> list command -> Prop)
    (Qraise : list command -> Prop) : result A -> list command -> Prop :=
  fun r d =>
    match r with
    | Ok a => Qok a d
    | Raise _ => Qraise d
    | OutOfFuel => False
    end.

End Plane.

(** ** What the logs are compared with *)

(** The AS number that goes to each vrouter: the given one to a vrouter on
    a spine, the next free one to any other.  An entry holds the vrouter,
    whether it is on a spine, and its AS number. *)
Fixpoint as_plan (bgp_as : string) (bgp_leaf : Z)
    (roles : list (string * bool)) : list (string * bool * string) :=
  match roles with
  | [] => []
  | (vrouter, true) :: rest =>
      (vrouter, true, bgp_as) :: as_plan bgp_as bgp_leaf rest
  | (vrouter, false) :: rest =>
      (vrouter, false, py_str bgp_leaf) :: as_plan bgp_as (bgp_leaf + 1) rest
  end.

(** The AS numbers that the commands of a log set. *)
Definition as_given (d : list command) : list (string * string) :=
  flat_map (fun c =>
    match c with
    | VrouterBgpAs vrouter bgp_as => [(vrouter, bgp_as)]
    | _ => []
    end) d.

(** The vrouters whose location a log asks for. *)
Definition located (d : list command) : list string :=
  flat_map (fun c =>
    match c with
    | VrouterLocation vrouter => [vrouter]
    | _ => []
    end) d.

(** The in-band address that goes to each switch, counting from
    [ip_count]. *)
Fixpoint inband_plan (static_part subnet : string) (ip_count : Z)
    (switch_names : list string) : list command :=
  match switch_names with
  | [] => []
  | switch :: rest =>
      InbandIp switch (static_part +:+ py_str ip_count +:+ "/" +:+ subnet)
      :: inband_plan static_part subnet (ip_count + 1) rest
  end.

(** The in-band addresses that the commands of a log set. *)
Definition inband_ips (d : list command) : list string :=
  flat_map (fun c =>
    match c with
    | InbandIp _ ip => [ip]
    | _ => []
    end) d.

(** The three changes that [toggle_40g_local] makes to one port range. *)
Definition local_toggle (port : string) : list command :=
  match range_of port with
  | Ok range_port =>
      [LocalPortSpeedDisable range_port; LocalPortSpeed10g range_port;
       LocalPortEnable range_port]
  | _ => []
  end.

(** The changes of a log. *)
Definition mutations (d : list command) : list command :=
  List.filter is_mutation d.

(** ** A control plane that answers from a script *)

Definition answer (script : list (command * string)) (c : command) : string :=
  match List.find (fun entry => bool_decide (entry.1 = c)) script with
  | Some entry => entry.2
  | None => EmptyString
  end.

(** Every command is accepted; queries print what the script says. *)
Definition scripted_plane : ControlPlane :=
  {| World := list (command * string);
     exec := fun c script => (Reply (answer script c) "", script) |}.

(** [list(set(a) - set(b))] in the order of [a]. *)
Definition ordered_difference (a b : list string) : list string :=
  remove_dups (List.filter (fun x => negb (py_in x b)) a).

Definition stable_difference : SetDifference.
Proof.
  refine {| list_difference := ordered_difference |}.
  - intros a b. apply NoDup_remove_dups.
  - intros a b x. unfold ordered_difference, py_in.
    rewrite elem_of_remove_dups, list_elem_of_In, List.filter_In,
      <- list_elem_of_In, negb_true_iff.
    split; intros [Ha Hb]; (split; [exact Ha|]).
    + intros Hin. apply not_true_iff_false in Hb. apply Hb.
      apply existsb_exists. exists x.
      split; [by apply list_elem_of_In|apply String.eqb_refl].
    + apply not_true_iff_false. intros (y & Hy & Heq)%existsb_exists.
      apply String.eqb_eq in Heq. subst y. by apply Hb, list_elem_of_In.
Defined.


(** ** Scripts used in the examples *)

(** One spine and two leaves, each with a vrouter. *)
Definition bgp_vrouters : session (cp := scripted_plane) :=
  Session (cp := scripted_plane)
    [(VrouterShow, "spine1-vrouter leaf1-vrouter leaf2-vrouter");
     (VrouterLocation "spine1-vrouter", "spine1");
     (VrouterLocation "leaf1-vrouter", "leaf1");
     (VrouterLocation "leaf2-vrouter", "leaf2")] [].

Definition bgp_params : params := Params "secret" ["spine1"].

(** Three switches in the fabric. *)
Definition three_switches : session (cp := scripted_plane) :=
  Session (cp := scripted_plane)
    [(FabricNodeShow, "spine1 leaf1 leaf2")] [].

(** The node listing has 256 names. *)
Definition many_switches : session (cp := scripted_plane) :=
  Session (cp := scripted_plane)
    [(FabricNodeShow,
      fold_right (fun _ rest => "s " +:+ rest) "" (seq 0 256))] [].

(** A switch whose ports 49 and 53 run at 40g; port 53 has a neighbour. *)
Definition two_40g_ports : session (cp := scripted_plane) :=
  Session (cp := scripted_plane)
    [(LocalLldpPorts, "1 53"); (LocalPortShow40g, "49 53")] [].

(** A fabric of one switch that lists neighbours and no 40g port. *)
Definition no_40g_port : session (cp := scripted_plane) :=
  Session (cp := scripted_plane)
    [(FabricNodeShow, "leaf1"); (LldpLocalPorts "leaf1", "1 2")] [].

(** The fabric [fab] is listed and this switch reports another one. *)
Definition other_fabric : session (cp := scripted_plane) :=
  Session (cp := scripted_plane)
    [(FabricShow, "fab"); (FabricInfo, "name lab")] [].

(** Ports 1 to 8, port 5 at 40g. *)
Definition eight_ports : session (cp := scripted_plane) :=
  Session (cp := scripted_plane)
    [(PortConfigShow, "1 2 3 4 5 6 7 8"); (PortConfigShow40g, "5")] [].

(** The vrouter of leaf 1 has the loopback address 10.0.0.2. *)
Definition loopback_listed : session (cp := scripted_plane) :=
  Session (cp := scripted_plane)
    [(VrouterShow, "leaf1-vrouter");
     (VrouterLoopbackIp "leaf1-vrouter", "leaf1-vrouter 10.0.0.2");
     (FabricNodeShow, "spine1 leaf1")] [].

End Netvisor.


(** * Properties *)

(** ** Loops *)

Lemma bind_Ok {A B : Type} (r : result A) (f : A -> result B) (b : B) :
  r ≫= f = Ok b -> exists a, r = Ok a /\ f a = Ok b.
Proof. destruct r as [a| |]; simpl; intros H; try discriminate; eauto. Qed.

Lemma while_loop_S {S : Type} (fuel : nat) (cond : S -> bool)
    (body : S -> result S) (s : S) :
  while_loop (Datatypes.S fuel) cond body s
  = if cond s then s' ← body s; while_loop fuel cond body s' else Ok s.
Proof. reflexivity. Qed.

(** Invariant and variant rule for [while_loop]: with more fuel than the
    variant, the loop ends normally, the invariant holds and the test fails. *)
Lemma while_loop_rule {S : Type} (Inv : S -> Prop) (mu : S -> nat)
    (cond : S -> bool) (body : S -> result S) :
  (forall s, Inv s -> cond s = true ->
     exists s', body s = Ok s' /\ Inv s' /\ (mu s' < mu s)%nat) ->
  forall fuel s, Inv s -> (mu s < fuel)%nat ->
  exists s', while_loop fuel cond body s = Ok s' /\ Inv s' /\ cond s' = false.
Proof.
  intros Hbody fuel. induction fuel as [|fuel IH]; intros s Hinv Hmu; [lia|].
  rewrite while_loop_S. destruct (cond s) eqn:Hc.
  - destruct (Hbody s Hinv Hc) as (s' & -> & Hinv' & Hlt). simpl.
    apply IH; [done|lia].
  - eauto.
Qed.

Lemma append_hosts_spec (hostmax hostmin : Z) (l : list Z) :
  append_hosts hostmax (hostmin, l)
  = Ok (Z.max hostmin (hostmax + 1), l ++ seqZ hostmin (hostmax + 1 - hostmin)).
Proof.
  unfold append_hosts. simpl fst.
  assert (Hfuel : (Z.to_nat (hostmax + 1 - hostmin) < 2 + Z.to_nat (hostmax - hostmin))%nat)
    by lia.
  revert Hfuel. generalize (2 + Z.to_nat (hostmax - hostmin))%nat as fuel.
  intros fuel. revert hostmin l.
  induction fuel as [|fuel IH]; intros hostmin l Hfuel; [lia|].
  rewrite while_loop_S. simpl.
  destruct (Z.leb_spec hostmin hostmax) as [Hle|Hgt].
  - simpl. rewrite IH by lia.
    rewrite (seqZ_cons hostmin) by lia.
    rewrite <- app_assoc. simpl.
    replace (Z.succ hostmin) with (hostmin + 1) by lia.
    replace (Z.pred (hostmax + 1 - hostmin)) with (hostmax + 1 - (hostmin + 1)) by lia.
    do 2 f_equal. lia.
  - rewrite seqZ_nil by lia. rewrite app_nil_r. do 2 f_equal. lia.
Qed.

Lemma host_block_spec (r : Z) (v : host_vars) :
  0 <= r ->
  host_block r v
  = Ok (HostVars (hv_i v + r + 2) (hv_i v + r + 2) (hv_i v + r + 1)
          (hv_i v + r) (hv_ips_list v ++ seqZ (hv_i v + 1) r)).
Proof.
  intros Hr. unfold host_block. rewrite append_hosts_spec. simpl.
  f_equal. f_equal; try lia. f_equal. f_equal. lia.
Qed.

Lemma py_index_of_nat {A : Type} (l : list A) (k : nat) (x : A) :
  l !! k = Some x -> py_index l (Z.of_nat k) = Ok x.
Proof.
  intros Hl. pose proof (lookup_lt_Some _ _ _ Hl) as Hlt.
  unfold py_index, py_position.
  destruct (Z.ltb_spec (Z.of_nat k) 0); [lia|].
  destruct (Z.leb_spec 0 (Z.of_nat k)); [|lia].
  destruct (Z.ltb_spec (Z.of_nat k) (Z.of_nat (length l))); [|lia].
  simpl. rewrite Nat2Z.id. by rewrite Hl.
Qed.

Lemma py_index_head {A : Type} (x : A) (l : list A) : py_index (x :: l) 0 = Ok x.
Proof. by apply (py_index_of_nat (x :: l) 0 x). Qed.

Lemma py_index_nil {A : Type} (k : Z) : py_index (@nil A) k = Raise IndexError.
Proof.
  unfold py_index, py_position.
  change (Z.of_nat (length (@nil A))) with 0.
  destruct (Z.ltb_spec k 0) as [Hk|Hk].
  - cbv iota zeta. by destruct (Z.leb_spec 0 (k + 0)); [lia|].
  - cbv iota zeta. destruct (Z.ltb_spec k 0); [lia|]. by rewrite andb_false_r.
Qed.

Lemma emit_ips_spec (ip_address supernet_str : string) (ips_list : list Z)
    (available_ips : list string) :
  emit_ips ip_address supernet_str ips_list available_ips
  = Ok (available_ips ++ map (render_host ip_address supernet_str) ips_list).
Proof.
  unfold emit_ips.
  set (body := fun st : Z * list string => _ ≫= _).
  set (cond := fun st : Z * list string => st.1 <? _).
  assert (Hgen : forall fuel (k : nat) acc,
    (k <= length ips_list)%nat -> (length ips_list - k < fuel)%nat ->
    while_loop fuel cond body (Z.of_nat k, acc)
    = Ok (Z.of_nat (length ips_list),
          acc ++ map (render_host ip_address supernet_str) (drop k ips_list))).
  { induction fuel as [|fuel IH]; intros k acc Hk Hfuel; [lia|].
    rewrite while_loop_S.
    change (cond (Z.of_nat k, acc))
      with (Z.of_nat k <? Z.of_nat (length ips_list)).
    destruct (Z.ltb_spec (Z.of_nat k) (Z.of_nat (length ips_list))) as [Hlt|Hge].
    - destruct (lookup_lt_is_Some_2 ips_list k) as [h Hh]; [lia|].
      change (body (Z.of_nat k, acc))
        with (py_index ips_list (Z.of_nat k) ≫= fun h =>
              Ok (Z.of_nat k + 1,
                  acc ++ [render_host ip_address supernet_str h])).
      rewrite (py_index_of_nat _ _ _ Hh). simpl.
      replace (Z.of_nat k + 1) with (Z.of_nat (Datatypes.S k)) by lia.
      rewrite IH by lia.
      rewrite (drop_S _ _ _ Hh). simpl. by rewrite <- app_assoc.
    - rewrite drop_ge by lia. simpl. rewrite app_nil_r.
      do 2 f_equal. f_equal. lia. }
  specialize (Hgen (Datatypes.S (length ips_list)) 0%nat available_ips).
  change (Z.of_nat 0) with 0 in Hgen. rewrite Hgen by lia. simpl. by rewrite drop_0.
Qed.

(** ** Bit masks of one octet *)

Ltac list_cases H :=
  repeat (apply elem_of_cons in H as [->|H]); [..|by apply elem_of_nil in H].

Lemma cidr_cases (cidr : Z) : 0 <= cidr <= 32 -> cidr ∈ seqZ 0 33.
Proof. intros H. apply elem_of_seqZ. lia. Qed.

Lemma land_octet_mask (a j : Z) :
  0 <= a <= 255 -> 0 <= j <= 8 -> Z.land a (256 - 2 ^ j) = a - a mod 2 ^ j.
Proof.
  intros Ha Hj.
  assert (Hall : forallb (fun j => forallb (fun a =>
            Z.land a (256 - 2 ^ j) =? a - a mod 2 ^ j) (seqZ 0 256))
            (seqZ 0 9) = true) by (vm_compute; reflexivity).
  rewrite forallb_forall in Hall.
  specialize (Hall j). rewrite forallb_forall in Hall.
  apply Z.eqb_eq, Hall; apply list_elem_of_In, elem_of_seqZ; lia.
Qed.

Lemma netmask_spec (cidr : Z) :
  0 <= cidr <= 32 ->
  netmask cidr = Ok (map (fun k => 256 - 2 ^ host_bits cidr k) [0; 1; 2; 3]).
Proof.
  intros H. apply cidr_cases in H. vm_compute in H.
  list_cases H; vm_compute; reflexivity.
Qed.

(** ** Network and broadcast address as computed by the code *)

Lemma network_of_spec (s0 s1 s2 s3 : string) (a0 a1 a2 a3 m0 m1 m2 m3 : Z) :
  py_int s0 = Ok a0 -> py_int s1 = Ok a1 ->
  py_int s2 = Ok a2 -> py_int s3 = Ok a3 ->
  network_of [s0; s1; s2; s3] [m0; m1; m2; m3]
  = Ok [Z.land a0 m0; Z.land a1 m1; Z.land a2 m2; Z.land a3 m3].
Proof.
  intros H0 H1 H2 H3. unfold network_of.
  change (py_range 4) with [0; 1; 2; 3]. simpl for_each.
  rewrite H0, H1, H2, H3. reflexivity.
Qed.

Lemma py_add_at_shift (n d : list Z) (k v : Z) :
  length n = 4%nat -> length d = 4%nat ->
  py_add_at (zip_with Z.add n d) k v = zip_with Z.add n <$> py_add_at d k v.
Proof.
  intros Hn Hd.
  destruct n as [|n0 [|n1 [|n2 [|n3 [|]]]]]; try discriminate.
  destruct d as [|d0 [|d1 [|d2 [|d3 [|]]]]]; try discriminate.
  unfold py_add_at. simpl length.
  destruct (py_position 4 k) as [p|] eqn:Hp; [|done].
  assert (p < 4)%nat as Hlt.
  { unfold py_position in Hp.
    destruct (_ && _) eqn:E; [|discriminate].
    apply andb_prop in E as [_ E]. apply Z.ltb_lt in E.
    injection Hp as <-. lia. }
  destruct p as [|[|[|[|]]]]; try lia; simpl;
    by rewrite Z.add_assoc.
Qed.

Lemma py_add_at_length (d : list Z) (k v : Z) (d' : list Z) :
  py_add_at d k v = Ok d' -> length d' = length d.
Proof.
  unfold py_add_at. destruct (py_position _ _); [|discriminate].
  destruct (d !! n); [|discriminate].
  intros [= <-]. apply length_insert.
Qed.

Lemma for_each_add_at_shift (f g : Z -> Z) (xs : list Z) (n d : list Z) :
  length n = 4%nat -> length d = 4%nat ->
  for_each xs (fun i b => py_add_at b (f i) (g i)) (zip_with Z.add n d)
  = zip_with Z.add n <$> for_each xs (fun i b => py_add_at b (f i) (g i)) d.
Proof.
  intros Hn. revert d. induction xs as [|x xs IH]; intros d Hd; [done|].
  simpl. rewrite py_add_at_shift by done.
  destruct (py_add_at d (f x) (g x)) as [d'| |] eqn:E; simpl; try done.
  apply IH. by rewrite (py_add_at_length _ _ _ _ E).
Qed.

Lemma broadcast_of_spec (n0 n1 n2 n3 cidr : Z) :
  0 <= cidr <= 32 ->
  broadcast_of [n0; n1; n2; n3] cidr
  = Ok (zip_with Z.add [n0; n1; n2; n3]
          (map (fun k => 2 ^ host_bits cidr k - 1) [0; 1; 2; 3])).
Proof.
  intros H. unfold broadcast_of.
  replace [n0; n1; n2; n3] with (zip_with Z.add [n0; n1; n2; n3] [0; 0; 0; 0])
    at 1 by (simpl; repeat f_equal; lia).
  rewrite (for_each_add_at_shift (fun i => 3 - i / 8)
             (fun i => Z.shiftl 1 (i mod 8))) by done.
  match goal with
  | |- _ <$> ?loop = _ =>
      assert (loop = Ok (map (fun k => 2 ^ host_bits cidr k - 1) [0; 1; 2; 3]))
        as ->; [|done]
  end.
  apply cidr_cases in H. vm_compute in H.
  list_cases H; vm_compute; reflexivity.
Qed.

(** ** The host numbers of one third octet *)

Lemma divide_next_multiple (s i top : Z) :
  0 < s -> (s | i) -> (s | top) -> i < top -> i + s <= top.
Proof.
  intros Hs [q1 ->] [q2 ->] Hlt.
  assert (q1 < q2) by nia. nia.
Qed.

(** When the sub-block size [r + 2] divides the first host offset [i0] and
    the end [hi + 1] of the last octet's range, the blocks produced from
    [i0] stay strictly between [i0] and [hi], and no number repeats. *)
Lemma host_blocks_spec (r hi i0 hostmin hostmax : Z) :
  0 <= r -> (r + 2 | i0) -> (r + 2 | hi + 1) -> 0 <= i0 <= hi ->
  exists v, host_blocks r hi (HostVars i0 0 hostmin hostmax []) = Ok v /\
            Forall (fun h => i0 < h < hi) (hv_ips_list v) /\
            NoDup (hv_ips_list v).
Proof.
  intros Hr Hi0 Hhi Hrange. unfold host_blocks.
  set (Inv := fun v : host_vars =>
    (r + 2 | hv_i v) /\ i0 <= hv_i v <= hi + 1 /\
    (hv_count v = hv_i v \/ (hv_count v = 0 /\ hv_i v < hi)) /\
    Forall (fun h => i0 < h /\ h + 1 < hv_i v) (hv_ips_list v) /\
    NoDup (hv_ips_list v)).
  assert (Hi0lt : i0 < hi).
  { pose proof (divide_next_multiple (r + 2) i0 (hi + 1) ltac:(lia) Hi0 Hhi
                  ltac:(lia)). lia. }
  destruct (while_loop_rule Inv (fun v => Z.to_nat (hi + 1 - hv_i v))
              (fun v => hv_count v <? hi) (host_block r)) with
    (fuel := (2 + Z.to_nat (hi - i0))%nat) (s := HostVars i0 0 hostmin hostmax [])
    as (v & Hv & HInv & _).
  - intros v (Hdiv & Hb & Hc & Hall & Hnd) Hcond.
    apply Z.ltb_lt in Hcond.
    assert (hv_i v < hi) by lia.
    pose proof (divide_next_multiple (r + 2) (hv_i v) (hi + 1) ltac:(lia) Hdiv
                  Hhi ltac:(lia)).
    rewrite host_block_spec by done. eexists; split; [done|].
    split; [|simpl; lia]. unfold Inv; simpl. repeat split.
    + replace (hv_i v + r + 2) with (hv_i v + (r + 2)) by lia.
      apply Z.divide_add_r; [done|apply Z.divide_refl].
    + lia.
    + lia.
    + by left.
    + apply Forall_app. split.
      * eapply Forall_impl; [exact Hall|]. simpl. lia.
      * apply Forall_forall. intros h Hh. apply elem_of_seqZ in Hh. lia.
    + apply NoDup_app. repeat split; [done| |apply NoDup_seqZ].
      intros h Hh1 Hh2. apply elem_of_seqZ in Hh2.
      rewrite Forall_forall in Hall. specialize (Hall h Hh1). lia.
  - unfold Inv; simpl. split; [done|]. split; [lia|]. split; [right; lia|].
    split; [constructor|apply NoDup_nil_2].
  - simpl. lia.
  - exists v. split; [done|]. destruct HInv as (_ & Hb & _ & Hall & Hnd).
    split; [|done]. eapply Forall_impl; [exact Hall|]. simpl. lia.
Qed.

(** ** The loop over third octets *)

Lemma octet_loop_spec (r : Z) (sn : string) (last0 last1 last3 n2 bc2 i0 : Z)
    (h_first h_rest : list Z) :
  n2 <= bc2 ->
  hosts_from r last3 i0 = Ok h_first ->
  (n2 < bc2 -> hosts_from r last3 0 = Ok h_rest) ->
  exists v,
    while_loop (2 + Z.to_nat (bc2 - n2))
      (fun v => ov_third_octet v <=? bc2)
      (octet_block r sn last0 last1 last3)
      (OctetVars n2 i0 0 0 0 []) = Ok v /\
    ov_available_ips v
    = concat (map (fun t => render_octet last0 last1 sn t
                              (if t =? n2 then h_first else h_rest))
                (seqZ n2 (bc2 + 1 - n2))).
Proof.
  intros Hle Hfirst Hrest.
  set (hs := fun t => if t =? n2 then h_first else h_rest).
  set (Inv := fun v : octet_vars =>
    n2 <= ov_third_octet v <= bc2 + 1 /\
    ov_i v = (if ov_third_octet v =? n2 then i0 else 0) /\
    ov_count v = 0 /\ ov_hostmin v = 0 /\ ov_hostmax v = 0 /\
    ov_available_ips v
    = concat (map (fun t => render_octet last0 last1 sn t (hs t))
                (seqZ n2 (ov_third_octet v - n2)))).
  destruct (while_loop_rule Inv (fun v => Z.to_nat (bc2 + 1 - ov_third_octet v))
              (fun v => ov_third_octet v <=? bc2)
              (octet_block r sn last0 last1 last3)) with
    (fuel := (2 + Z.to_nat (bc2 - n2))%nat) (s := OctetVars n2 i0 0 0 0 [])
    as (v & Hv & HInv & Hcond).
  - intros [t i c hm hx av] (Ht & Hi & Hc & Hhm & Hhx & Hav) Hcond.
    simpl in *. apply Z.leb_le in Hcond. subst c hm hx.
    unfold octet_block. simpl.
    assert (Hh : hosts_from r last3 i = Ok (hs t)).
    { subst i. unfold hs. destruct (Z.eqb_spec t n2); [done|].
      apply Hrest. lia. }
    unfold hosts_from in Hh.
    destruct (host_blocks r last3 (HostVars i 0 0 0 [])) as [h| |];
      try discriminate.
    injection Hh as Hh. simpl. rewrite emit_ips_spec. simpl.
    eexists; split; [done|]. split; [|simpl; lia].
    unfold Inv; simpl. split; [lia|].
    split; [destruct (Z.eqb_spec (t + 1) n2); [lia|done]|].
    repeat (split; [done|]).
    replace (t + 1 - n2) with ((t - n2) + 1) by lia.
    rewrite seqZ_app by lia. rewrite map_app, concat_app.
    rewrite <- Hav. f_equal.
    replace (n2 + (t - n2)) with t by lia.
    rewrite seqZ_cons by lia. rewrite seqZ_nil by lia.
    simpl. rewrite app_nil_r. unfold render_octet. by rewrite Hh.
  - unfold Inv; simpl. rewrite Z.eqb_refl, Z.sub_diag.
    repeat split; try done; lia.
  - simpl. lia.
  - exists v. split; [done|]. destruct HInv as (Ht & _ & _ & _ & _ & Hav).
    apply Z.leb_gt in Hcond. rewrite Hav.
    replace (ov_third_octet v - n2) with (bc2 + 1 - n2) by lia. done.
Qed.

(** ** The whole function on a well-formed address *)

Lemma host_bits_range (cidr k : Z) : 0 <= host_bits cidr k <= 8.
Proof. unfold host_bits. lia. Qed.

Lemma calculate_link_ip_addresses_spec
    (address_str cidr_str supernet_str s0 s1 s2 s3 : string)
    (a0 a1 a2 a3 cidr supernet r : Z) (h_first h_rest : list Z) :
  py_split_on "." address_str = [s0; s1; s2; s3] ->
  py_int s0 = Ok a0 -> py_int s1 = Ok a1 ->
  py_int s2 = Ok a2 -> py_int s3 = Ok a3 ->
  0 <= a0 <= 255 -> 0 <= a1 <= 255 -> 0 <= a2 <= 255 -> 0 <= a3 <= 255 ->
  py_int cidr_str = Ok cidr -> 0 <= cidr <= 32 ->
  py_int supernet_str = Ok supernet ->
  supernet_mapping supernet = Some r ->
  hosts_from r (octet_broadcast cidr 3 a3) (a3 - a3 mod (r + 2)) = Ok h_first ->
  (octet_network cidr 2 a2 < octet_broadcast cidr 2 a2 ->
   hosts_from r (octet_broadcast cidr 3 a3) 0 = Ok h_rest) ->
  calculate_link_ip_addresses address_str cidr_str supernet_str
  = Ok (concat (map (fun t =>
          render_octet (octet_broadcast cidr 0 a0) (octet_broadcast cidr 1 a1)
            supernet_str t
            (if t =? octet_network cidr 2 a2 then h_first else h_rest))
          (seqZ (octet_network cidr 2 a2)
             (octet_broadcast cidr 2 a2 + 1 - octet_network cidr 2 a2)))).
Proof.
  intros Hsplit H0 H1 H2 H3 Ha0 Ha1 Ha2 Ha3 Hcidr Hc Hsn Hmap Hfirst Hrest.
  unfold calculate_link_ip_addresses.
  rewrite Hsplit, Hcidr. simpl. rewrite Hsn. simpl.
  unfold py_getitem. rewrite Hmap. simpl. rewrite H3. simpl.
  rewrite netmask_spec by done. simpl.
  rewrite (network_of_spec _ _ _ _ _ _ _ _ _ _ _ _ H0 H1 H2 H3). simpl.
  rewrite broadcast_of_spec by done. simpl.
  rewrite !land_octet_mask by (done || apply host_bits_range).
  fold (octet_network cidr 0 a0) (octet_network cidr 1 a1)
       (octet_network cidr 2 a2) (octet_network cidr 3 a3).
  fold (octet_broadcast cidr 0 a0) (octet_broadcast cidr 1 a1)
       (octet_broadcast cidr 2 a2) (octet_broadcast cidr 3 a3).
  destruct (octet_loop_spec r supernet_str (octet_broadcast cidr 0 a0)
              (octet_broadcast cidr 1 a1) (octet_broadcast cidr 3 a3)
              (octet_network cidr 2 a2) (octet_broadcast cidr 2 a2)
              (a3 - a3 mod (r + 2)) h_first h_rest) as (v & Hw & Hv);
    [|done|done|].
  - unfold octet_broadcast.
    pose proof (Z.pow_pos_nonneg 2 (host_bits cidr 2)).
    pose proof (host_bits_range cidr 2). lia.
  - simpl Nat.add in Hw. rewrite Hw. simpl. by rewrite Hv.
Qed.

(** ** Reading back the strings that the planner writes *)

Lemma string_append_cons (c : ascii) (s1 s2 : string) :
  String c s1 +:+ s2 = String c (s1 +:+ s2).
Proof. reflexivity. Qed.

Lemma string_char_append (c : ascii) (s : string) :
  String c "" +:+ s = String c s.
Proof. reflexivity. Qed.

Lemma string_append_assoc (s1 s2 s3 : string) :
  (s1 +:+ s2) +:+ s3 = s1 +:+ s2 +:+ s3.
Proof.
  induction s1 as [|c s1 IH]; [reflexivity|].
  rewrite !string_append_cons. by rewrite IH.
Qed.

Lemma py_split_on_app (sep : ascii) (x rest : string) :
  lacks_char sep x = true ->
  py_split_on sep (x +:+ String sep rest) = x :: py_split_on sep rest.
Proof.
  induction x as [|c x IH]; intros H.
  - change ("" +:+ String sep rest) with (String sep rest). simpl.
    by rewrite Ascii.eqb_refl.
  - simpl in H. apply andb_prop in H as [Hc Hx]. apply negb_true_iff in Hc.
    rewrite string_append_cons. simpl. rewrite Hc, IH by done. done.
Qed.

Lemma py_split_on_whole (sep : ascii) (x : string) :
  lacks_char sep x = true -> py_split_on sep x = [x].
Proof.
  induction x as [|c x IH]; simpl; intros H; [done|].
  apply andb_prop in H as [Hc Hx]. apply negb_true_iff in Hc.
  by rewrite Hc, IH.
Qed.

Lemma lacks_char_app (c : ascii) (x y : string) :
  lacks_char c (x +:+ y) = lacks_char c x && lacks_char c y.
Proof.
  induction x as [|c' x IH]; [reflexivity|].
  rewrite string_append_cons. simpl. rewrite IH. by rewrite andb_assoc.
Qed.

Lemma octet_text (o : Z) :
  0 <= o <= 255 ->
  lacks_char "." (py_str o) = true /\ lacks_char "/" (py_str o) = true /\
  py_int (py_str o) = Ok o.
Proof.
  intros Ho.
  assert (Hall : forallb octet_text_ok (seqZ 0 256) = true)
    by (vm_compute; reflexivity).
  rewrite forallb_forall in Hall.
  assert (Hin : In o (seqZ 0 256))
    by (apply list_elem_of_In, elem_of_seqZ; lia).
  specialize (Hall o Hin). unfold octet_text_ok in Hall.
  apply andb_prop in Hall as [Hall H3].
  apply andb_prop in Hall as [H1 H2].
  repeat split; try done.
  destruct (py_int (py_str o)); try discriminate.
  by apply Z.eqb_eq in H3 as ->.
Qed.

Lemma address_of_render (b0 b1 t h : Z) (sn : string) :
  0 <= b0 <= 255 -> 0 <= b1 <= 255 -> 0 <= t <= 255 -> 0 <= h <= 255 ->
  address_of (render_host
                ((py_str b0 +:+ "." +:+ py_str b1 +:+ ".") +:+ py_str t) sn h)
  = Some (ip_value [b0; b1; t; h]).
Proof.
  intros Hb0 Hb1 Ht Hh.
  destruct (octet_text b0 Hb0) as (D0 & S0 & I0).
  destruct (octet_text b1 Hb1) as (D1 & S1 & I1).
  destruct (octet_text t Ht) as (D2 & S2 & I2).
  destruct (octet_text h Hh) as (D3 & S3 & I3).
  unfold render_host, address_of.
  rewrite !string_append_assoc.
  rewrite !string_char_append.
  set (quad := py_str b0 +:+ String "." (py_str b1 +:+ String "."
                 (py_str t +:+ String "." (py_str h)))).
  assert (Hq : lacks_char "/" quad = true).
  { unfold quad. rewrite !lacks_char_app. simpl.
    rewrite !lacks_char_app. simpl. rewrite !lacks_char_app. simpl.
    by rewrite S0, S1, S2, S3. }
  replace (py_str b0 +:+ String "." (py_str b1 +:+ String "."
             (py_str t +:+ String "." (py_str h +:+ String "/" sn))))
    with (quad +:+ String "/" sn).
  2:{ unfold quad. rewrite !string_append_assoc, !string_append_cons.
      rewrite !string_append_assoc, !string_append_cons.
      by rewrite !string_append_assoc, !string_append_cons. }
  rewrite py_split_on_app by done.
  unfold parse_quad, quad.
  rewrite !py_split_on_app by done. rewrite py_split_on_whole by done.
  rewrite I0, I1, I2, I3.
  assert (forallb is_octet [b0; b1; t; h] = true) as ->; [|done].
  simpl. unfold is_octet.
  repeat (apply andb_true_intro; split); try done; apply Z.leb_le; lia.
Qed.

(** ** Arithmetic of the block *)

Ltac eval_host_bits :=
  repeat match goal with
  | |- context [host_bits ?c ?k] =>
      let v := eval vm_compute in (host_bits c k) in
      change (host_bits c k) with v
  | H : context [host_bits ?c ?k] |- _ =>
      let v := eval vm_compute in (host_bits c k) in
      change (host_bits c k) with v in H
  end.

Ltac eval_pow2 :=
  repeat match goal with
  | |- context [2 ^ ?n] =>
      let v := eval vm_compute in (2 ^ n) in
      change (2 ^ n) with v
  | H : context [2 ^ ?n] |- _ =>
      let v := eval vm_compute in (2 ^ n) in
      change (2 ^ n) with v in H
  end.

Lemma octet_broadcast_range (cidr k a : Z) :
  0 <= a <= 255 ->
  0 <= octet_network cidr k a <= a /\ a <= octet_broadcast cidr k a <= 255.
Proof.
  intros Ha. unfold octet_broadcast, octet_network.
  pose proof (host_bits_range cidr k) as Hj.
  assert (Hin : host_bits cidr k ∈ seqZ 0 9) by (apply elem_of_seqZ; lia).
  generalize dependent (host_bits cidr k). intros j _ Hin.
  vm_compute in Hin. list_cases Hin; eval_pow2;
    Z.div_mod_to_equations; lia.
Qed.

Lemma ip_value_4 (x0 x1 x2 x3 : Z) :
  ip_value [x0; x1; x2; x3] = ((x0 * 256 + x1) * 256 + x2) * 256 + x3.
Proof. unfold ip_value. simpl. lia. Qed.

Lemma strictly_inside_block (a0 a1 a2 a3 cidr t h : Z) :
  0 <= a0 <= 255 -> 0 <= a1 <= 255 -> 0 <= a2 <= 255 -> 0 <= a3 <= 255 ->
  0 <= cidr <= 32 ->
  octet_network cidr 2 a2 <= t <= octet_broadcast cidr 2 a2 ->
  octet_network cidr 3 a3 < h < octet_broadcast cidr 3 a3 ->
  network_address (ip_value [a0; a1; a2; a3]) cidr
  < ip_value [octet_broadcast cidr 0 a0; octet_broadcast cidr 1 a1; t; h]
  < broadcast_address (ip_value [a0; a1; a2; a3]) cidr.
Proof.
  intros Ha0 Ha1 Ha2 Ha3 Hc Ht Hh.
  rewrite !ip_value_4.
  unfold broadcast_address, network_address, block_size.
  unfold octet_broadcast, octet_network in *.
  apply cidr_cases in Hc. vm_compute in Hc.
  list_cases Hc; eval_host_bits; eval_pow2;
    Z.div_mod_to_equations; lia.
Qed.

Lemma supernet_mapping_Some (supernet r : Z) :
  supernet_mapping supernet = Some r <->
  (supernet = 30 /\ r = 2) \/ (supernet = 29 /\ r = 6) \/
  (supernet = 28 /\ r = 14) \/ (supernet = 27 /\ r = 30).
Proof.
  unfold supernet_mapping.
  repeat match goal with
  | |- context [?x =? ?y] => destruct (Z.eqb_spec x y)
  end; (split; [intros [= <-]; lia | intros H]); try (f_equal; lia); lia.
Qed.

Lemma supernet_mapping_block (supernet r : Z) :
  supernet_mapping supernet = Some r -> r + 2 = 2 ^ (32 - supernet).
Proof.
  intros H%supernet_mapping_Some.
  destruct H as [[-> ->]|[[-> ->]|[[-> ->]|[-> ->]]]]; reflexivity.
Qed.

Lemma mod0_divide (s x : Z) : 0 < s -> x mod s = 0 -> (s | x).
Proof. intros Hs Hx. apply Z.mod_divide; [lia|done]. Qed.

Lemma first_offset_aligned (cidr supernet r a3 : Z) :
  0 <= a3 <= 255 -> 0 <= cidr <= supernet ->
  supernet_mapping supernet = Some r ->
  0 <= r /\
  (r + 2 | a3 - a3 mod (r + 2)) /\
  (r + 2 | octet_broadcast cidr 3 a3 + 1) /\
  octet_network cidr 3 a3 <= a3 - a3 mod (r + 2) <= octet_broadcast cidr 3 a3.
Proof.
  intros Ha Hc H%supernet_mapping_Some.
  unfold octet_broadcast, octet_network.
  assert (Hin : host_bits cidr 3 ∈ seqZ 0 9)
    by (apply elem_of_seqZ; pose proof (host_bits_range cidr 3); lia).
  assert (Hj : 32 - supernet <= host_bits cidr 3) by (unfold host_bits; lia).
  generalize dependent (host_bits cidr 3). intros j Hin Hj.
  vm_compute in Hin.
  destruct H as [[-> ->]|[[-> ->]|[[-> ->]|[-> ->]]]];
    list_cases Hin; try lia; eval_pow2;
    (split; [lia|]);
    (split; [apply mod0_divide; [lia|Z.div_mod_to_equations; lia]|]);
    (split; [apply mod0_divide; [lia|Z.div_mod_to_equations; lia]|]);
    Z.div_mod_to_equations; lia.
Qed.

Lemma several_third_octets (cidr a2 a3 : Z) :
  0 <= a2 <= 255 -> 0 <= a3 <= 255 -> 0 <= cidr <= 32 ->
  octet_network cidr 2 a2 < octet_broadcast cidr 2 a2 ->
  octet_network cidr 3 a3 = 0 /\ octet_broadcast cidr 3 a3 = 255.
Proof.
  intros Ha2 Ha3 Hc. unfold octet_broadcast, octet_network.
  apply cidr_cases in Hc. vm_compute in Hc.
  list_cases Hc; eval_host_bits; eval_pow2; Z.div_mod_to_equations; lia.
Qed.

Lemma parse_quad_Some (s : string) (a0 a1 a2 a3 : Z) :
  parse_quad s = Some [a0; a1; a2; a3] ->
  exists s0 s1 s2 s3,
    py_split_on "." s = [s0; s1; s2; s3] /\
    py_int s0 = Ok a0 /\ py_int s1 = Ok a1 /\
    py_int s2 = Ok a2 /\ py_int s3 = Ok a3 /\
    0 <= a0 <= 255 /\ 0 <= a1 <= 255 /\ 0 <= a2 <= 255 /\ 0 <= a3 <= 255.
Proof.
  unfold parse_quad.
  destruct (py_split_on "." s) as [|s0 [|s1 [|s2 [|s3 [|]]]]]; try discriminate.
  destruct (py_int s0) as [b0| |] eqn:E0; try discriminate.
  destruct (py_int s1) as [b1| |] eqn:E1; try discriminate.
  destruct (py_int s2) as [b2| |] eqn:E2; try discriminate.
  destruct (py_int s3) as [b3| |] eqn:E3; try discriminate.
  destruct (forallb is_octet [b0; b1; b2; b3]) eqn:Hoct; try discriminate.
  intros [= -> -> -> ->]. exists s0, s1, s2, s3.
  simpl in Hoct. unfold is_octet in Hoct.
  repeat match goal with
  | H : _ && _ = true |- _ => apply andb_prop in H as [? ?]
  end.
  repeat match goal with
  | H : (_ <=? _) = true |- _ => apply Z.leb_le in H
  end.
  repeat split; try done; lia.
Qed.

(** ** Termination of the host loop on any block *)

Lemma host_blocks_total (r hi : Z) (v0 : host_vars) :
  0 <= r -> exists v, host_blocks r hi v0 = Ok v.
Proof.
  intros Hr. unfold host_blocks.
  destruct (while_loop_rule (fun _ => True)
              (fun v => if hv_count v <? hi
                        then Datatypes.S (Z.to_nat (hi - hv_i v - (r + 2)))
                        else 0%nat)
              (fun v => hv_count v <? hi) (host_block r)) with
    (fuel := (2 + Z.to_nat (hi - hv_i v0))%nat) (s := v0)
    as (v & Hv & _ & _); [|done| |by exists v].
  - intros v _ Hcond. rewrite host_block_spec by done.
    eexists; split; [done|]. split; [done|]. rewrite Hcond. simpl.
    destruct (Z.ltb_spec (hv_i v + r + 2) hi); lia.
  - destruct (hv_count v0 <? hi); lia.
Qed.

Lemma hosts_from_total (r hi i : Z) :
  0 <= r -> exists hs, hosts_from r hi i = Ok hs.
Proof.
  intros Hr. unfold hosts_from.
  destruct (host_blocks_total r hi (HostVars i 0 0 0 []) Hr) as [v ->].
  by eexists.
Qed.

Lemma hosts_from_aligned (r hi i : Z) :
  0 <= r -> (r + 2 | i) -> (r + 2 | hi + 1) -> 0 <= i <= hi ->
  exists hs, hosts_from r hi i = Ok hs /\
             Forall (fun h => i < h < hi) hs /\ NoDup hs.
Proof.
  intros Hr Hi Hhi Hle. unfold hosts_from.
  destruct (host_blocks_spec r hi i 0 0 Hr Hi Hhi Hle) as (v & -> & H1 & H2).
  by eexists.
Qed.

(** ** Claims about the address planner *)

Lemma calculate_link_ip_addresses_total
    (address_str cidr_str supernet_str : string)
    (a0 a1 a2 a3 cidr supernet : Z) :
  parse_quad address_str = Some [a0; a1; a2; a3] ->
  py_int cidr_str = Ok cidr -> 0 <= cidr <= 32 ->
  py_int supernet_str = Ok supernet -> 27 <= supernet <= 30 ->
  exists r h_first h_rest,
    supernet_mapping supernet = Some r /\
    hosts_from r (octet_broadcast cidr 3 a3) (a3 - a3 mod (r + 2)) = Ok h_first /\
    hosts_from r (octet_broadcast cidr 3 a3) 0 = Ok h_rest /\
    calculate_link_ip_addresses address_str cidr_str supernet_str
    = Ok (concat (map (fun t =>
            render_octet (octet_broadcast cidr 0 a0)
              (octet_broadcast cidr 1 a1) supernet_str t
              (if t =? octet_network cidr 2 a2 then h_first else h_rest))
            (seqZ (octet_network cidr 2 a2)
               (octet_broadcast cidr 2 a2 + 1 - octet_network cidr 2 a2)))).
Proof.
  intros Hq Hcidr Hc Hsn Hs.
  destruct (parse_quad_Some _ _ _ _ _ Hq)
    as (s0 & s1 & s2 & s3 & Hsplit & I0 & I1 & I2 & I3 & B0 & B1 & B2 & B3).
  assert (exists r, supernet_mapping supernet = Some r /\ 0 <= r)
    as (r & Hmap & Hr).
  { assert (Hin : supernet ∈ seqZ 27 4) by (apply elem_of_seqZ; lia).
    vm_compute in Hin. list_cases Hin; eexists; (split; [reflexivity|lia]). }
  destruct (hosts_from_total r (octet_broadcast cidr 3 a3)
              (a3 - a3 mod (r + 2)) Hr) as [h_first Hfirst].
  destruct (hosts_from_total r (octet_broadcast cidr 3 a3) 0 Hr)
    as [h_rest Hrest].
  exists r, h_first, h_rest. repeat (split; [done|]).
  by eapply calculate_link_ip_addresses_spec.
Qed.

(** C9: a supernet outside 27..30 is rejected with the dict's [KeyError]
    (the code's form of an invalid-supernet error), whatever the address;
    a supernet in 27..30 with a prefix length in 0..32 and a dotted-quad
    address yields a list of addresses. *)
Theorem supernet_validation
    (address_str cidr_str supernet_str : string) (cidr supernet : Z) :
  py_int cidr_str = Ok cidr ->
  py_int supernet_str = Ok supernet ->
  (~ (27 <= supernet <= 30) ->
   calculate_link_ip_addresses address_str cidr_str supernet_str
   = Raise KeyError) /\
  (27 <= supernet <= 30 -> 0 <= cidr <= 32 ->
   is_Some (parse_quad address_str) ->
   exists ips,
     calculate_link_ip_addresses address_str cidr_str supernet_str = Ok ips).
Proof.
  intros Hcidr Hsn. split.
  - intros Hout. unfold calculate_link_ip_addresses.
    rewrite Hcidr. simpl. rewrite Hsn. simpl.
    assert (supernet_mapping supernet = None) as Hnone.
    { destruct (supernet_mapping supernet) as [r|] eqn:E; [|done].
      apply supernet_mapping_Some in E. lia. }
    unfold py_getitem. by rewrite Hnone.
  - intros Hs Hc [q Hq].
    assert (exists a0 a1 a2 a3, q = [a0; a1; a2; a3]) as (a0 & a1 & a2 & a3 & ->).
    { unfold parse_quad in Hq.
      repeat (case_match; try discriminate). injection Hq as <-. eauto. }
    destruct (calculate_link_ip_addresses_total _ _ _ _ _ _ _ _ _
                Hq Hcidr Hc Hsn Hs) as (r & hf & hr & _ & _ & _ & ->).
    by eexists.
Qed.

Lemma supernet_validation_witness :
  calculate_link_ip_addresses "192.168.1.0" "24" "26" = Raise KeyError /\
  exists ips, calculate_link_ip_addresses "192.168.1.0" "24" "30" = Ok ips.
Proof.
  split.
  - apply (supernet_validation "192.168.1.0" "24" "26" 24 26);
      [reflexivity|reflexivity|lia].
  - apply (supernet_validation "192.168.1.0" "24" "30" 24 30);
      [reflexivity|reflexivity|lia|lia|].
    vm_compute. eauto.
Defined.

(** C4: for 192.168.1.0/24 with supernet 30 the first four addresses are
    .1, .2, .5 and .6, and .3 and .4 are not produced at all. *)
Theorem first_link_addresses :
  exists ips,
    calculate_link_ip_addresses "192.168.1.0" "24" "30" = Ok ips /\
    take 4 ips = ["192.168.1.1/30"; "192.168.1.2/30";
                  "192.168.1.5/30"; "192.168.1.6/30"] /\
    ("192.168.1.3/30" ∉ ips) /\ ("192.168.1.4/30" ∉ ips).
Proof.
  eexists. split; [vm_compute; reflexivity|].
  split; [reflexivity|].
  split; apply (bool_decide_unpack _); vm_compute; reflexivity.
Qed.

(** C1 as stated fails: for 192.168.1.0/28 with supernet 27 the result
    contains the block's broadcast address 192.168.1.15 and the address
    192.168.1.16, which lies outside the block. *)
Lemma link_addresses_leave_small_block :
  exists ips,
    calculate_link_ip_addresses "192.168.1.0" "28" "27" = Ok ips /\
    "192.168.1.15/27" ∈ ips /\
    address_of "192.168.1.15/27"
      = Some (broadcast_address (ip_value [192; 168; 1; 0]) 28) /\
    ~ usable_in (ip_value [192; 168; 1; 0]) 28 "192.168.1.15/27" /\
    "192.168.1.16/27" ∈ ips /\
    ~ usable_in (ip_value [192; 168; 1; 0]) 28 "192.168.1.16/27".
Proof.
  eexists. split; [vm_compute; reflexivity|].
  split; [apply (bool_decide_unpack _); vm_compute; reflexivity|].
  split; [vm_compute; reflexivity|].
  split; [|split; [apply (bool_decide_unpack _); vm_compute; reflexivity|]].
  - intros (x & Hx & _ & _ & Hb). vm_compute in Hx. injection Hx as <-.
    apply Hb. vm_compute. reflexivity.
  - intros (x & Hx & [_ Hin] & _). vm_compute in Hx. injection Hx as <-.
    vm_compute in Hin. by apply Hin.
Qed.

(** C1, amended: when the supernet prefix is at least as long as the block's
    prefix ([cidr <= supernet]), the function returns, and every string it
    returns is an address strictly inside [base/cidr]: within the block and
    neither its network nor its broadcast address. *)
Theorem link_addresses_usable
    (address_str cidr_str supernet_str : string)
    (a0 a1 a2 a3 cidr supernet : Z) :
  parse_quad address_str = Some [a0; a1; a2; a3] ->
  py_int cidr_str = Ok cidr ->
  py_int supernet_str = Ok supernet ->
  27 <= supernet <= 30 ->
  0 <= cidr <= supernet ->
  exists ips,
    calculate_link_ip_addresses address_str cidr_str supernet_str = Ok ips /\
    forall s, s ∈ ips -> usable_in (ip_value [a0; a1; a2; a3]) cidr s.
Proof.
  intros Hq Hcidr Hsn Hs Hc.
  destruct (calculate_link_ip_addresses_total _ _ _ _ _ _ _ _ _
              Hq Hcidr ltac:(lia) Hsn Hs)
    as (r & h_first & h_rest & Hmap & Hfirst & Hrest & ->).
  destruct (parse_quad_Some _ _ _ _ _ Hq)
    as (_ & _ & _ & _ & _ & _ & _ & _ & _ & B0 & B1 & B2 & B3).
  eexists; split; [done|]. intros s Hin.
  apply list_elem_of_In, in_concat in Hin as (block & Hblock & Hs_in).
  apply in_map_iff in Hblock as (t & <- & Ht).
  apply list_elem_of_In, elem_of_seqZ in Ht.
  unfold render_octet in Hs_in.
  apply in_map_iff in Hs_in as (h & <- & Hh).
  apply list_elem_of_In in Hh.
  destruct (first_offset_aligned cidr supernet r a3 B3 Hc Hmap)
    as (Hr & Hdiv_i & Hdiv_hi & Hlo).
  pose proof (octet_broadcast_range cidr 0 a0 B0) as R0.
  pose proof (octet_broadcast_range cidr 1 a1 B1) as R1.
  pose proof (octet_broadcast_range cidr 2 a2 B2) as R2.
  pose proof (octet_broadcast_range cidr 3 a3 B3) as R3.
  assert (octet_network cidr 3 a3 < h < octet_broadcast cidr 3 a3) as Hh_in.
  { destruct (Z.eqb_spec t (octet_network cidr 2 a2)) as [->|Hne].
    - destruct (hosts_from_aligned r (octet_broadcast cidr 3 a3)
                  (a3 - a3 mod (r + 2)) Hr Hdiv_i Hdiv_hi ltac:(lia))
        as (hs & Hhs & Hall & _).
      rewrite Hfirst in Hhs. injection Hhs as <-.
      rewrite Forall_forall in Hall. specialize (Hall h Hh). lia.
    - destruct (several_third_octets cidr a2 a3 B2 B3 ltac:(lia) ltac:(lia))
        as [Hn3 Hb3].
      destruct (hosts_from_aligned r (octet_broadcast cidr 3 a3) 0 Hr
                  (Z.divide_0_r _) Hdiv_hi ltac:(lia)) as (hs & Hhs & Hall & _).
      rewrite Hrest in Hhs. injection Hhs as <-.
      rewrite Forall_forall in Hall. specialize (Hall h Hh). lia. }
  exists (ip_value [octet_broadcast cidr 0 a0; octet_broadcast cidr 1 a1; t; h]).
  split; [apply address_of_render; lia|].
  pose proof (strictly_inside_block a0 a1 a2 a3 cidr t h B0 B1 B2 B3
                ltac:(lia) ltac:(lia) Hh_in) as Hin.
  unfold in_network. lia.
Qed.

Lemma link_addresses_usable_witness :
  exists ips,
    calculate_link_ip_addresses "10.1.2.3" "22" "29" = Ok ips /\
    forall s, s ∈ ips -> usable_in (ip_value [10; 1; 2; 3]) 22 s.
Proof.
  apply (link_addresses_usable "10.1.2.3" "22" "29" 10 1 2 3 22 29);
    [reflexivity|reflexivity|reflexivity|lia|lia].
Defined.

(** ** The fabric-node filter of the pairing loop *)

Lemma py_in_true (x : string) (l : list string) : py_in x l = true <-> x ∈ l.
Proof.
  unfold py_in. rewrite existsb_exists. split.
  - intros (y & Hy & ->%String.eqb_eq). by apply list_elem_of_In.
  - intros Hx. exists x. split; [by apply list_elem_of_In|apply String.eqb_refl].
Qed.

Lemma py_in_false (x : string) (l : list string) : py_in x l = false <-> x ∉ l.
Proof.
  rewrite <- py_in_true. destruct (py_in x l); split; try done.
Qed.

Lemma py_remove_middle (x : string) (l1 l2 : list string) :
  x ∉ l1 -> py_remove x (l1 ++ x :: l2) = Ok (l1 ++ l2).
Proof.
  induction l1 as [|y l1 IH]; simpl; intros Hx.
  - by rewrite String.eqb_refl.
  - apply not_elem_of_cons in Hx as [Hne Hx].
    destruct (String.eqb_spec x y) as [->|_]; [done|].
    by rewrite IH.
Qed.

Lemma py_index_app_length {A : Type} (l1 l2 : list A) (x : A) :
  py_index (l1 ++ x :: l2) (Z.of_nat (length l1)) = Ok x.
Proof. apply py_index_of_nat. by rewrite list_lookup_middle. Qed.

Lemma remove_if_not_fabric_at (fabric done todo : list string) (x : string) :
  x ∉ done ->
  remove_if_not_fabric fabric (Z.of_nat (length done), done ++ x :: todo)
  = Ok (Z.of_nat (length (done ++ [x])),
        if py_in x fabric then (done ++ [x]) ++ todo else done ++ todo).
Proof.
  intros Hx. unfold remove_if_not_fabric. simpl fst. simpl snd.
  rewrite py_index_app_length. simpl.
  replace (Z.of_nat (length done) + 1) with (Z.of_nat (length (done ++ [x])))
    by (rewrite length_app; simpl; lia).
  destruct (py_in x fabric); simpl.
  - by rewrite <- app_assoc.
  - by rewrite py_remove_middle.
Qed.

Lemma iterator_has_next_at (done todo : list string) :
  iterator_has_next (Z.of_nat (length done), done ++ todo)
  = match todo with [] => false | _ => true end.
Proof.
  unfold iterator_has_next. simpl. rewrite length_app.
  destruct todo; simpl.
  - apply Z.ltb_ge. lia.
  - apply Z.ltb_lt. lia.
Qed.

Lemma remove_non_fabric_loop (fabric : list string) :
  forall (fuel : nat) (done todo : list string),
    NoDup (done ++ todo) -> (length todo < fuel)%nat ->
    exists k,
      while_loop fuel iterator_has_next (remove_if_not_fabric fabric)
        (Z.of_nat (length done), done ++ todo)
      = Ok (k, done ++ skip_filter (fun x => py_in x fabric) todo).
Proof.
  induction fuel as [|fuel IH]; intros done todo Hnd Hfuel; [lia|].
  rewrite while_loop_S, iterator_has_next_at.
  destruct todo as [|x todo]; [simpl; rewrite app_nil_r; eauto|].
  assert (Hx : x ∉ done).
  { apply NoDup_app in Hnd as (_ & Hdisj & _).
    intros Hin. apply (Hdisj x Hin). by left. }
  rewrite remove_if_not_fabric_at by done. simpl mbind.
  simpl in Hfuel.
  simpl skip_filter. destruct (py_in x fabric) eqn:Hfab.
  - destruct (IH (done ++ [x]) todo) as [k Hk];
      [rewrite <- app_assoc; exact Hnd|lia|].
    exists k. rewrite Hk. by rewrite <- app_assoc.
  - destruct todo as [|y todo].
    + rewrite app_nil_r. destruct fuel as [|fuel]; [lia|].
      rewrite while_loop_S. unfold iterator_has_next. simpl.
      destruct (Z.ltb_spec (Z.of_nat (length (done ++ [x])))
                  (Z.of_nat (length done))) as [Hlt|_]; [|eauto].
      rewrite length_app in Hlt. simpl in Hlt. lia.
    + replace (length (done ++ [x])) with (length (done ++ [y]))
        by (by rewrite !length_app).
      replace (done ++ y :: todo) with ((done ++ [y]) ++ todo)
        by (by rewrite <- app_assoc).
      destruct (IH (done ++ [y]) todo) as [k Hk].
      * rewrite <- app_assoc. change ([y] ++ todo) with (y :: todo).
        apply NoDup_app in Hnd as (H1 & H2 & H3).
        apply NoDup_app. split; [done|]. split.
        -- intros z Hz Hz'. apply (H2 z Hz). by right.
        -- by apply NoDup_cons_1_2 in H3.
      * simpl in Hfuel. lia.
      * exists k. rewrite Hk. by rewrite <- app_assoc.
Qed.

Lemma remove_non_fabric_spec (fabric system_names : list string) :
  NoDup system_names ->
  remove_non_fabric fabric system_names
  = Ok (skip_filter (fun x => py_in x fabric) system_names).
Proof.
  intros Hnd. unfold remove_non_fabric.
  destruct (remove_non_fabric_loop fabric (Datatypes.S (length system_names))
              [] system_names Hnd ltac:(lia)) as [k Hk].
  change (Z.of_nat (length [])) with 0 in Hk.
  change ([] ++ system_names) with system_names in Hk.
  rewrite Hk. reflexivity.
Qed.

(** C10: in a neighbour list without repeated entries, when two entries in
    a row are not fabric nodes and everything before them is, the second
    one survives the filter although it is not a fabric node; it is then
    among the candidates that the pairing loop scans. *)
Theorem non_fabric_neighbour_survives
    (fabric before after : list string) (x y : string) :
  NoDup (before ++ x :: y :: after) ->
  Forall (fun z => z ∈ fabric) before ->
  x ∉ fabric -> y ∉ fabric ->
  exists survivors,
    remove_non_fabric fabric (before ++ x :: y :: after) = Ok survivors /\
    y ∈ survivors /\ y ∉ fabric.
Proof.
  intros Hnd Hbefore Hx Hy. rewrite remove_non_fabric_spec by done.
  eexists; split; [done|]. split; [|done].
  clear Hnd. induction Hbefore as [|z before Hz _ IH]; simpl.
  - apply py_in_false in Hx. rewrite Hx. by left.
  - apply py_in_true in Hz. rewrite Hz. by right.
Qed.

Lemma non_fabric_neighbour_survives_witness :
  exists survivors,
    remove_non_fabric ["spine1"; "spine2"; "leaf1"]
      (["spine1"] ++ "host7" :: "leaf9" :: ["spine2"]) = Ok survivors /\
    "leaf9" ∈ survivors /\ "leaf9" ∉ ["spine1"; "spine2"; "leaf1"].
Proof.
  apply (non_fabric_neighbour_survives ["spine1"; "spine2"; "leaf1"]
           ["spine1"] ["spine2"] "host7" "leaf9").
  - apply (bool_decide_unpack _). vm_compute. reflexivity.
  - apply (bool_decide_unpack _). vm_compute. reflexivity.
  - apply (bool_decide_unpack _). vm_compute. reflexivity.
  - apply (bool_decide_unpack _). vm_compute. reflexivity.
Defined.

(** ** Commands and the session *)

Section PlaneFacts.
Context {cp : ControlPlane} {so : SetOrder}.

Lemma run_cli_eq (c : command) (σ : session) :
  run_cli c σ = (reply_text ((exec c (world σ)).1),
                 Session ((exec c (world σ)).2) (log σ ++ [c])).
Proof. unfold run_cli. by destruct (exec c (world σ)). Qed.

Lemma reply_text_listed (r : reply) (name : string) :
  py_in name (py_split (reply_out r)) = true -> reply_text r = Ok (reply_out r).
Proof.
  intros Hin. unfold reply_text.
  destruct (reply_out r); [discriminate|done].
Qed.

Lemma filter_mutation_query (l : list command) (c : command) :
  is_mutation c = false ->
  List.filter is_mutation (l ++ [c]) = List.filter is_mutation l.
Proof. intros Hc. rewrite List.filter_app. simpl. rewrite Hc. apply app_nil_r. Qed.

(** A guarded creation: look the name up, create the object when it is not
    listed. *)
Lemma guarded_create_twice (show create : command) (name message : string) :
  is_mutation show = false ->
  read_only show -> listed_after create show name ->
  repeats_as_noop
    (out ← run_cli show;
     if negb (py_in name (py_split out)) then run_cli create else mret message)
    message.
Proof.
  intros Hq Hro Hlisted σ out σ1 Hfirst.
  assert (Hsecond : forall σa shown,
            reply_text ((exec show (world σa)).1) = Ok shown ->
            py_in name (py_split shown) = true ->
            exists σ2,
              (out ← run_cli show;
               if negb (py_in name (py_split out)) then run_cli create
               else mret message) σa = (Ok message, σ2) /\
              world σ2 = world σa /\
              List.filter is_mutation (log σ2) = List.filter is_mutation (log σa)).
  { intros σa shown Hshown Hin. unfold mbind, M_bind.
    rewrite run_cli_eq, Hshown, Hin. simpl.
    eexists; split; [done|]. simpl. split; [apply Hro|].
    by apply filter_mutation_query. }
  unfold mbind, M_bind in Hfirst. rewrite run_cli_eq in Hfirst.
  destruct (reply_text ((exec show (world σ)).1)) as [shown| |] eqn:Hshow;
    try discriminate.
  rewrite Hro in Hfirst.
  destruct (py_in name (py_split shown)) eqn:Hin; simpl in Hfirst.
  - injection Hfirst as <- <-. by apply (Hsecond _ shown).
  - rewrite run_cli_eq in Hfirst. simpl in Hfirst.
    injection Hfirst as Hout <-.
    pose proof (Hlisted _ _ Hout) as Hin'.
    apply (Hsecond (Session _ _) _ (reply_text_listed _ _ Hin') Hin').
Qed.

End PlaneFacts.

(** ** Splitting what the simulated fabric prints *)

Lemma string_append_nil_r (s : string) : s +:+ "" = s.
Proof. induction s as [|c s IH]; [done|]. by rewrite string_append_cons, IH. Qed.

Lemma py_split_go_token (t cur rest : string) (c : ascii) :
  no_space t = true -> is_space c = true -> py_bool (cur +:+ t) = true ->
  py_split_go cur (t +:+ String c rest) = (cur +:+ t) :: py_split_go "" rest.
Proof.
  revert cur. induction t as [|a t IH]; intros cur Ht Hc Hne.
  - rewrite string_append_nil_r in *. change ("" +:+ String c rest)
      with (String c rest). simpl. rewrite Hc. by destruct cur.
  - simpl in Ht. apply andb_prop in Ht as [Ha Ht]. apply negb_true_iff in Ha.
    rewrite string_append_cons. simpl. rewrite Ha.
    rewrite IH; [|done|done|].
    + by rewrite string_append_assoc.
    + rewrite string_append_assoc. exact Hne.
Qed.

Lemma py_split_go_cons (cur : string) (c : ascii) (s : string) :
  py_split_go cur (String c s)
  = if is_space c
    then match cur with
         | EmptyString => py_split_go EmptyString s
         | _ => cur :: py_split_go EmptyString s
         end
    else py_split_go (cur +:+ String c EmptyString) s.
Proof. reflexivity. Qed.

Lemma py_split_go_line (p cur s : string) :
  ends_line p = true -> py_bool p = true ->
  py_split_go cur (p +:+ s) = py_split_go cur p ++ py_split_go "" s.
Proof.
  revert cur. induction p as [|c p IH]; intros cur Hp Hne; [discriminate|].
  rewrite string_append_cons. destruct p as [|c' p].
  - simpl in Hp. change ("" +:+ s) with s. simpl. rewrite Hp.
    by destruct cur.
  - rewrite !(py_split_go_cons cur c). destruct (is_space c).
    + destruct cur; rewrite IH by done; done.
    + by rewrite IH.
Qed.

Lemma py_split_prefix_token (p t : string) (c : ascii) (rest : string) :
  ends_line p = true -> is_token t = true -> is_space c = true ->
  t ∈ py_split (p +:+ t +:+ String c rest).
Proof.
  intros Hp [Hne Ht]%andb_prop Hc. unfold py_split.
  destruct p as [|a p].
  - change ("" +:+ t +:+ String c rest) with (t +:+ String c rest).
    rewrite py_split_go_token by done. by left.
  - rewrite py_split_go_line by done.
    rewrite py_split_go_token by done.
    apply elem_of_app. right. by left.
Qed.

Lemma ends_line_app (p q : string) :
  ends_line q = true -> py_bool q = true -> ends_line (p +:+ q) = true.
Proof.
  intros Hq Hne. induction p as [|c p IH]; [done|].
  rewrite string_append_cons. simpl.
  destruct (p +:+ q) eqn:E; [|done].
  destruct p; [|discriminate]. change ("" +:+ q) with q in E.
  subst q. discriminate.
Qed.

Lemma ends_line_lines (names : list string) : ends_line (lines names) = true.
Proof.
  induction names as [|n names IH]; [done|]. simpl.
  apply ends_line_app; [|by destruct (lines names)].
  unfold newline. change (ends_line (String (ascii_of_nat 10) (lines names)) = true).
  simpl. by destruct (lines names).
Qed.

Lemma lines_app (l1 l2 : list string) : lines (l1 ++ l2) = lines l1 +:+ lines l2.
Proof.
  induction l1 as [|n l1 IH]; [done|]. simpl.
  by rewrite IH, !string_append_assoc.
Qed.

(** On the simulated fabric a name that was just added to the journal is
    among the names that the matching show command prints. *)
Lemma fabric_lists_last (show : command) (f : fabric) (journal : list command)
    (c : command) (name : string) :
  is_mutation show = false ->
  journal_names show [c] = [name] -> is_token name = true ->
  py_in name (py_split (reply_out
    (fabric_exec show (Fabric (fab_script f) (journal ++ [c]))).1)) = true.
Proof.
  intros Hq Hc Htok. apply py_in_true.
  unfold fabric_exec. rewrite Hq. simpl.
  unfold journal_names in *. rewrite omap_app, Hc, lines_app. simpl.
  set (before := lines (omap _ journal)).
  assert (Hbefore : ends_line before = true) by apply ends_line_lines.
  change (name +:+ newline +:+ "") with (name +:+ String (ascii_of_nat 10) "").
  destruct (py_bool (scripted (fab_script f) show)) eqn:Htext.
  - rewrite <- !string_append_assoc. rewrite string_append_assoc.
    apply py_split_prefix_token; [|done|done].
    rewrite string_append_assoc. apply ends_line_app.
    + unfold newline. change (ends_line (String (ascii_of_nat 10) before) = true).
      simpl. by destruct before.
    + done.
  - by apply py_split_prefix_token.
Qed.

Lemma fabric_read_only (c : command) :
  is_mutation c = false -> read_only (cp := simulated_fabric) c.
Proof. intros Hc w. simpl. unfold fabric_exec. by rewrite Hc. Qed.

Lemma fabric_listed_after (create show : command) (name : string) :
  is_mutation create = true -> is_mutation show = false ->
  journal_names show [create] = [name] -> is_token name = true ->
  listed_after (cp := simulated_fabric) create show name.
Proof.
  intros Hm Hq Hn Htok w out _. simpl.
  unfold fabric_exec at 2. rewrite Hm. simpl.
  by apply (fabric_lists_last show w).
Qed.

(** ** Claims about trunk, vlag and cluster creation *)

Section Creation.
Context {cp : ControlPlane} {so : SetOrder}.

(** C5: on a control plane where the show command is read-only and lists a
    name once its creation went through, calling [create_trunk],
    [create_vlag] or [create_cluster] again right after it returned issues no
    creation: it finds the name in the show output, returns the "Already part
    of ..." message and leaves the switches and the set of changes as they
    were after the first call. *)
Theorem creation_idempotent :
  (forall switch name ports,
     read_only (TrunkShowNames switch) ->
     listed_after (TrunkCreate switch name (py_join "," ports))
       (TrunkShowNames switch) name ->
     repeats_as_noop (create_trunk switch name ports)
       "Already part of a trunk") /\
  (forall switch name peer_switch port peer_port,
     read_only (VlagShowNames switch) ->
     listed_after (VlagCreate switch name port peer_switch peer_port)
       (VlagShowNames switch) name ->
     repeats_as_noop (create_vlag switch name peer_switch port peer_port)
       "Already part of a vlag") /\
  (forall switch name node1 node2,
     read_only (ClusterShowNames node1) ->
     listed_after (ClusterCreate switch name node1 node2)
       (ClusterShowNames node1) name ->
     repeats_as_noop (create_cluster switch name node1 node2)
       "Already part of a cluster").
Proof.
  repeat split; intros; by apply guarded_create_twice.
Qed.

End Creation.

Lemma creation_idempotent_witness :
  repeats_as_noop (cp := simulated_fabric)
    (create_trunk "leaf1" "leaf1-to-spines" ["11"; "12"])
    "Already part of a trunk" /\
  repeats_as_noop (cp := simulated_fabric)
    (create_vlag "leaf1" "leaf1-vlag" "leaf2" "t1" "t2")
    "Already part of a vlag" /\
  repeats_as_noop (cp := simulated_fabric)
    (create_cluster "leaf2" "leaf1-to-leaf2-cluster" "leaf1" "leaf2")
    "Already part of a cluster".
Proof.
  pose proof (creation_idempotent (cp := simulated_fabric)) as (Ht & Hv & Hc).
  split; [|split].
  - apply Ht; [by apply fabric_read_only|by apply fabric_listed_after].
  - apply Hv; [by apply fabric_read_only|by apply fabric_listed_after].
  - apply Hc; [by apply fabric_read_only|by apply fabric_listed_after].
Defined.

(** ** Claims about the orchestrators *)

Section Orchestrators.
Context {cp : ControlPlane} {so : SetOrder}.

(** C7, amended: in layer-2 mode a spine list with fewer than two entries
    ends the run with [IndexError] before any command is issued: the session
    (switches and command log) is the one the run started from. *)
Theorem layer2_needs_two_spines (p : params) (σ : session) :
  (length (pn_spine_list p) < 2)%nat ->
  configure_auto_vlag p σ = (Raise IndexError, σ).
Proof.
  intros Hlen. unfold configure_auto_vlag.
  destruct (pn_spine_list p) as [|spine1 [|spine2 rest]]; simpl in Hlen;
    [reflexivity|reflexivity|lia].
Qed.

End Orchestrators.

Lemma layer2_needs_two_spines_witness :
  configure_auto_vlag (cp := simulated_fabric) (so := stable_set_order)
    one_spine lone_leaf = (Raise IndexError, lone_leaf).
Proof.
  apply (layer2_needs_two_spines (cp := simulated_fabric)). simpl. lia.
Defined.

(** C7 as stated fails.  With no spine and no leaf, the layer-3 run ends
    normally after it has switched off auto-trunk and created a vrouter on
    the switch it found; with two spines and no leaf, the layer-2 run ends
    normally after it has created the spine cluster. *)
Lemma incomplete_topology_still_mutates :
  (exists out σ,
     auto_configure_link_ips (cp := simulated_fabric) (so := stable_set_order)
       no_topology lone_leaf = (Ok out, σ) /\
     List.filter is_mutation (log σ)
     = [SystemSettingsNoAutoTrunk "leaf1";
        VrouterCreate "leaf1" "f1-vrouter" "fab-global"]) /\
  (exists out σ,
     configure_auto_vlag (cp := simulated_fabric) (so := stable_set_order)
       no_leaves lone_leaf = (Ok out, σ) /\
     List.filter is_mutation (log σ)
     = [ClusterCreate "spine1" "spine-cluster" "spine1" "spine2"]).
Proof.
  split; eexists _, _; (split; [vm_compute; reflexivity|reflexivity]).
Qed.

(** ** Rules for [emits] *)

Section TraceRules.
Context {cp : ControlPlane} {so : SetOrder}.

Lemma emits_weaken {A : Type} (m : M A) (Q Q' : result A -> list command -> Prop) :
  emits m Q -> (forall r d, Q r d -> Q' r d) -> emits m Q'.
Proof. intros Hm HQ σ. destruct (Hm σ) as (d & Hd & Hq). eauto. Qed.

Lemma emits_ret {A : Type} (a : A) (Q : result A -> list command -> Prop) :
  Q (Ok a) [] -> emits (mret a) Q.
Proof. intros HQ σ. exists []. simpl. by rewrite app_nil_r. Qed.

Lemma emits_pure {A : Type} (r : result A) (Q : result A -> list command -> Prop) :
  Q r [] -> emits (pure r) Q.
Proof. intros HQ σ. exists []. simpl. by rewrite app_nil_r. Qed.

Lemma emits_run_cli (c : command) (Qok : string -> list command -> Prop)
    (Qraise : list command -> Prop) :
  (forall out, Qok out [c]) -> Qraise [c] -> emits (run_cli c) (post Qok Qraise).
Proof.
  intros Hok Hraise σ. exists [c]. rewrite run_cli_eq. simpl. split; [done|].
  unfold reply_text.
  destruct (py_bool (reply_out _)); [apply Hok|].
  destruct (py_bool (reply_err _)); [apply Hraise|apply Hok].
Qed.

Lemma emits_bind {A B : Type} (m : M A) (f : A -> M B)
    (Q1 : A -> list command -> Prop) (E1 : list command -> Prop)
    (Q : B -> list command -> Prop) (E : list command -> Prop) :
  emits m (post Q1 E1) ->
  (forall a d1, Q1 a d1 ->
     emits (f a) (post (fun b d2 => Q b (d1 ++ d2)) (fun d2 => E (d1 ++ d2)))) ->
  (forall d1, E1 d1 -> E d1) ->
  emits (m ≫= f) (post Q E).
Proof.
  intros Hm Hf HE σ. unfold mbind, M_bind.
  destruct (Hm σ) as (d1 & Hd1 & H1).
  destruct (m σ) as [[a|e|] σ1]; simpl in *.
  - destruct (Hf a d1 H1 σ1) as (d2 & Hd2 & H2).
    exists (d1 ++ d2). rewrite Hd2, Hd1, <- List.app_assoc. split; [done|].
    by destruct (f a σ1) as [[b|e|] σ2].
  - exists d1. split; [done|]. by apply HE.
  - done.
Qed.

Lemma emits_for {A S : Type} (xs : list A) (body : A -> S -> M S)
    (I : S -> list command -> Prop) (E : list command -> Prop) :
  (forall x s d, x ∈ xs -> I s d ->
     emits (body x s)
       (post (fun s' d2 => I s' (d ++ d2)) (fun d2 => E (d ++ d2)))) ->
  forall s d, I s d ->
  emits (for_m xs body s)
    (post (fun s' d2 => I s' (d ++ d2)) (fun d2 => E (d ++ d2))).
Proof.
  induction xs as [|x xs IH]; intros Hbody s d HI.
  - apply emits_ret. simpl. by rewrite app_nil_r.
  - simpl. eapply emits_bind.
    + apply (Hbody x s d); [by left|done].
    + intros s' d1 HI'. simpl in HI'.
      eapply emits_weaken.
      * apply (IH (fun x0 s0 d0 Hx => Hbody x0 s0 d0 (list_elem_of_further _ _ _ Hx))
                  s' (d ++ d1) HI').
      * intros [s''|e|] d2; simpl; by rewrite ?List.app_assoc.
    + done.
Qed.

Lemma emits_while {S : Type} (cond : S -> bool) (body : S -> M S)
    (I : S -> list command -> Prop) (E : list command -> Prop)
    (mu : S -> nat) :
  (forall s d, I s d -> cond s = true ->
     emits (body s)
       (post (fun s' d2 => I s' (d ++ d2) /\ (mu s' < mu s)%nat)
             (fun d2 => E (d ++ d2)))) ->
  forall fuel s d, I s d -> (mu s < fuel)%nat ->
  emits (while_m fuel cond body s)
    (post (fun s' d2 => I s' (d ++ d2) /\ cond s' = false)
          (fun d2 => E (d ++ d2))).
Proof.
  intros Hbody. induction fuel as [|fuel IH]; intros s d HI Hmu; [lia|].
  simpl. destruct (cond s) eqn:Hc.
  - eapply emits_bind.
    + by apply (Hbody s d).
    + intros s' d1 [HI' Hlt]. eapply emits_weaken.
      * apply (IH s' (d ++ d1) HI'). lia.
      * intros [s''|e|] d2; simpl; by rewrite ?List.app_assoc.
    + done.
  - apply emits_ret. simpl. by rewrite app_nil_r.
Qed.

End TraceRules.

(** ** Functions that issue only some kinds of commands *)

Section OnlyRules.
Context {cp : ControlPlane} {so : SetOrder}.
Variable allowed : command -> bool.

Lemma only_weaken {A : Type} (R R' : A -> Prop) (m : M A) :
  only allowed R m -> (forall a, R a -> R' a) -> only allowed R' m.
Proof.
  intros Hm HR. eapply emits_weaken; [exact Hm|].
  intros [a|e|] d; simpl; try done. intros [? ?]. auto.
Qed.

Lemma only_ret {A : Type} (R : A -> Prop) (a : A) :
  R a -> only allowed R (mret a).
Proof. intros Ha. by apply emits_ret. Qed.

Lemma only_pure {A : Type} (R : A -> Prop) (r : result A) :
  r <> OutOfFuel -> (forall a, r = Ok a -> R a) -> only allowed R (pure r).
Proof. intros Hr HR. apply emits_pure. destruct r; simpl; auto. Qed.

Lemma only_run_cli (R : string -> Prop) (c : command) :
  allowed c = true -> (forall out, R out) -> only allowed R (run_cli c).
Proof.
  intros Hc HR. apply emits_run_cli; [intros out|]; simpl; rewrite Hc; auto.
Qed.

Lemma only_bind {A B : Type} (R1 : A -> Prop) (R : B -> Prop)
    (m : M A) (f : A -> M B) :
  only allowed R1 m -> (forall a, R1 a -> only allowed R (f a)) ->
  only allowed R (m ≫= f).
Proof.
  intros Hm Hf. eapply emits_bind; [exact Hm| |done].
  intros a d1 [Hd1 Ha]. eapply emits_weaken; [apply (Hf a Ha)|].
  intros [b|e|] d2; simpl; try done; rewrite forallb_app, Hd1; simpl; auto.
Qed.

Lemma only_for {A S : Type} (J : S -> Prop) (xs : list A)
    (body : A -> S -> M S) (s : S) :
  (forall x s, J s -> only allowed J (body x s)) -> J s ->
  only allowed J (for_m xs body s).
Proof.
  intros Hbody. revert s. induction xs as [|x xs IH]; intros s Hs.
  - by apply only_ret.
  - simpl. eapply only_bind; [by apply Hbody|]. intros s' Hs'. by apply IH.
Qed.

Lemma only_while {S : Type} (J : S -> Prop) (mu : S -> nat)
    (cond : S -> bool) (body : S -> M S) :
  (forall s, J s -> cond s = true ->
     only allowed (fun s' => J s' /\ (mu s' < mu s)%nat) (body s)) ->
  forall fuel s, J s -> (mu s < fuel)%nat ->
  only allowed (fun s' => J s' /\ cond s' = false) (while_m fuel cond body s).
Proof.
  intros Hbody. induction fuel as [|fuel IH]; intros s Hs Hmu; [lia|].
  simpl. destruct (cond s) eqn:Hc.
  - eapply only_bind; [by apply Hbody|].
    intros s' [Hs' Hlt]. apply IH; [done|lia].
  - by apply only_ret.
Qed.

(** What a function that issues only allowed commands adds to a trace. *)
Lemma only_emits {A : Type} (R : A -> Prop) (m : M A)
    (Q : A -> list command -> Prop) (E : list command -> Prop) :
  only allowed R m ->
  (forall a d, forallb allowed d = true -> R a -> Q a d) ->
  (forall d, forallb allowed d = true -> E d) ->
  emits m (post Q E).
Proof.
  intros Hm HQ HE. eapply emits_weaken; [exact Hm|].
  intros [a|e|] d; simpl; try done; [intros [? ?]|]; auto.
Qed.

End OnlyRules.

Lemma py_index_fuel {A : Type} (l : list A) (k : Z) : py_index l k <> OutOfFuel.
Proof. unfold py_index. repeat case_match; done. Qed.

Lemma py_remove_fuel (x : string) (l : list string) : py_remove x l <> OutOfFuel.
Proof.
  induction l as [|y l IH]; simpl; [done|].
  destruct (String.eqb x y); [done|]. by destruct (py_remove x l).
Qed.

Lemma py_int_fuel (s : string) : py_int s <> OutOfFuel.
Proof. unfold py_int. repeat case_match; done. Qed.

Section PairingQuiet.
Context {cp : ControlPlane} {so : SetOrder}.

Lemma get_ports_apart (switch peer : string) :
  only apart_from_pairing (fun _ => True) (get_ports switch peer).
Proof.
  unfold get_ports.
  eapply only_bind; [by apply (only_run_cli _ (fun _ => True))|].
  intros out _. by apply only_ret.
Qed.

Lemma create_trunk_apart (switch name : string) (ports : list string) :
  only apart_from_pairing (fun _ => True) (create_trunk switch name ports).
Proof.
  unfold create_trunk.
  eapply only_bind; [by apply (only_run_cli _ (fun _ => True))|].
  intros out _. destruct (negb _); [by apply only_run_cli|by apply only_ret].
Qed.

Lemma create_vlag_apart (switch name peer_switch port peer_port : string) :
  only apart_from_pairing (fun _ => True)
    (create_vlag switch name peer_switch port peer_port).
Proof.
  unfold create_vlag.
  eapply only_bind; [by apply (only_run_cli _ (fun _ => True))|].
  intros out _. destruct (negb _); [by apply only_run_cli|by apply only_ret].
Qed.

Lemma create_trunk_vlag_apart (node1 : string) (dest_list : list string) :
  only apart_from_pairing (fun _ => True) (create_trunk_vlag node1 dest_list).
Proof.
  unfold create_trunk_vlag. eapply only_bind.
  - apply (only_for _ (fun _ => True)); [|done]. intros node st _.
    eapply only_bind; [apply get_ports_apart|].
    intros ports _. by apply only_ret.
  - intros [src_ports string2] _.
    eapply only_bind; [apply create_trunk_apart|].
    intros out _. by apply only_ret.
Qed.

End PairingQuiet.

(** ** The trace of the pairing loop *)

Lemma cluster_members_app (d1 d2 : list command) :
  cluster_members (d1 ++ d2) = cluster_members d1 ++ cluster_members d2.
Proof. apply flat_map_app. Qed.

Lemma popped_leaves_app (d1 d2 : list command) :
  popped_leaves (d1 ++ d2) = popped_leaves d1 ++ popped_leaves d2.
Proof. apply flat_map_app. Qed.

Lemma apart_quiet (d : list command) :
  forallb apart_from_pairing d = true ->
  cluster_members d = [] /\ popped_leaves d = [].
Proof.
  induction d as [|c d IH]; [done|]. simpl.
  intros [Hc Hd]%andb_prop. destruct (IH Hd) as [-> ->].
  by destruct c.
Qed.

Lemma cluster_creations_app (d1 d2 : list command) :
  cluster_creations (d1 ++ d2) = cluster_creations d1 ++ cluster_creations d2.
Proof. apply List.filter_app. Qed.

Lemma cluster_members_creations (d : list command) :
  cluster_members d = cluster_members (cluster_creations d).
Proof.
  induction d as [|c d IH]; [done|].
  change (c :: d) with ([c] ++ d).
  rewrite cluster_creations_app, !cluster_members_app, <- IH.
  by destruct c.
Qed.

Lemma apart_no_creation (d : list command) :
  forallb apart_from_pairing d = true -> cluster_creations d = [].
Proof.
  induction d as [|c d IH]; [done|]. simpl.
  intros [Hc Hd]%andb_prop. unfold cluster_creations in *. simpl.
  rewrite (IH Hd). by destruct c.
Qed.

Lemma pairs_at_most_apart (create : command) (d1 d2 : list command) :
  pairs_at_most create d1 -> forallb apart_from_pairing d2 = true ->
  pairs_at_most create (d1 ++ d2).
Proof.
  intros [Hp Hm] Hd2. pose proof (apart_no_creation _ Hd2) as Hc2.
  apply apart_quiet in Hd2 as [_ Hp2]. unfold pairs_at_most.
  rewrite popped_leaves_app, cluster_creations_app, Hp, Hp2, Hc2.
  rewrite !app_nil_r. done.
Qed.

Lemma pairs_at_most_members (node1 node2 : string) (d : list command) :
  pairs_at_most (pair_cluster node1 node2) d ->
  cluster_members d = [] \/ cluster_members d = [node1; node2].
Proof.
  intros [_ Hc]. rewrite cluster_members_creations.
  destruct Hc as [-> | ->]; auto.
Qed.

Section PairingTrace.
Context {cp : ControlPlane} {so : SetOrder}.

Lemma create_cluster_trace (switch name node1 node2 : string) :
  emits (create_cluster switch name node1 node2)
    (post (fun _ d => pairs_at_most (ClusterCreate switch name node1 node2) d)
          (pairs_at_most (ClusterCreate switch name node1 node2))).
Proof.
  unfold create_cluster.
  eapply (emits_bind _ _ (fun _ d => d = [ClusterShowNames node1])
            (fun d => d = [ClusterShowNames node1])).
  - by apply emits_run_cli.
  - intros out d1 ->. destruct (negb _).
    + apply emits_run_cli; [intros _|]; split; simpl; auto.
    + apply emits_ret. split; simpl; auto.
  - intros d1 ->. split; simpl; auto.
Qed.

Lemma pair_link_groups_apart (node1 node2 : string)
    (spine_list non_cluster_leaf : list string) (output : string) :
  only apart_from_pairing
    (fun res => py_remove node2 non_cluster_leaf = Ok res.1)
    (pair_link_groups node1 node2 spine_list non_cluster_leaf output).
Proof.
  unfold pair_link_groups.
  eapply only_bind.
  { apply (only_pure _ (fun l => py_remove node2 non_cluster_leaf = Ok l));
      [apply py_remove_fuel|done]. }
  intros l Hl.
  eapply only_bind; [apply create_trunk_vlag_apart|]. intros name1 _.
  eapply only_bind; [apply create_trunk_vlag_apart|]. intros name2 _.
  eapply only_bind; [apply create_vlag_apart|]. intros out1 _.
  eapply only_bind.
  { apply (only_pure _ (fun _ => True)); [apply py_index_fuel|done]. }
  intros spine1 _.
  eapply only_bind.
  { apply (only_pure _ (fun _ => True)); [apply py_index_fuel|done]. }
  intros spine2 _.
  eapply only_bind; [apply create_trunk_vlag_apart|]. intros name1' _.
  eapply only_bind; [apply create_trunk_vlag_apart|]. intros name2' _.
  eapply only_bind; [apply create_vlag_apart|]. intros out2 _.
  by apply only_ret.
Qed.

Lemma cluster_pair_trace (node1 node2 : string)
    (spine_list non_cluster_leaf : list string) (output : string) :
  emits (cluster_pair node1 node2 spine_list non_cluster_leaf output)
    (post (fun res d =>
             py_remove node2 non_cluster_leaf = Ok res.1 /\
             pairs_at_most (pair_cluster node1 node2) d)
          (pairs_at_most (pair_cluster node1 node2))).
Proof.
  unfold cluster_pair.
  eapply emits_bind; [apply create_cluster_trace| |done].
  intros out d1 Hd1.
  eapply (only_emits apart_from_pairing
            (fun res => py_remove node2 non_cluster_leaf = Ok res.1)).
  - apply pair_link_groups_apart.
  - intros res d2 Hd2 Hres. split; [done|]. by apply pairs_at_most_apart.
  - intros d2 Hd2. by apply pairs_at_most_apart.
Qed.

Lemma scan_neighbours_trace (node1 : string)
    (spine_list system_names non_cluster_leaf : list string) (output : string) :
  emits (scan_neighbours node1 spine_list system_names non_cluster_leaf output)
    (post (fun res d =>
             (res.1 = non_cluster_leaf /\ d = []) \/
             (exists node2,
                node2 ∈ non_cluster_leaf /\ (node2 ∉ spine_list) /\
                py_remove node2 non_cluster_leaf = Ok res.1 /\
                pairs_at_most (pair_cluster node1 node2) d))
          (fun d => exists node2,
             node2 ∈ non_cluster_leaf /\
             pairs_at_most (pair_cluster node1 node2) d)).
Proof.
  induction system_names as [|node2 rest IH]; simpl.
  - apply emits_ret. simpl. by left.
  - destruct (py_in node2 spine_list) eqn:Hspine; simpl; [exact IH|].
    destruct (py_in node2 non_cluster_leaf) eqn:Hin; [|exact IH].
    apply py_in_true in Hin. apply py_in_false in Hspine.
    eapply emits_weaken; [apply cluster_pair_trace|].
    intros [res|e|] d; simpl; try done.
    + intros [Hres Hd]. right. by exists node2.
    + intros Hd. by exists node2.
Qed.

Lemma fabric_neighbours_trace (node1 : string) :
  emits (fabric_neighbours node1)
    (post (fun _ d => d = [LldpShowSysName node1; FabricNodeShowOn node1])
          (fun d => popped_leaves d = [node1] /\ cluster_members d = [])).
Proof.
  unfold fabric_neighbours.
  eapply (emits_bind _ _ (fun _ d => d = [LldpShowSysName node1])
            (fun d => d = [LldpShowSysName node1])).
  - by apply emits_run_cli.
  - intros out1 d1 ->.
    eapply (emits_bind _ _ (fun _ d => d = [FabricNodeShowOn node1])
              (fun d => d = [FabricNodeShowOn node1])).
    + by apply emits_run_cli.
    + intros out2 d2 ->. apply emits_pure.
      rewrite remove_non_fabric_spec by apply list_set_NoDup. done.
    + intros d2 ->. done.
  - intros d1 ->. done.
Qed.

End PairingTrace.

Lemma py_remove_Ok (x : string) (l l' : list string) :
  py_remove x l = Ok l' ->
  exists l1 l2, l = l1 ++ x :: l2 /\ l' = l1 ++ l2 /\ x ∉ l1.
Proof.
  revert l'. induction l as [|y l IH]; simpl; intros l' H; [discriminate|].
  destruct (String.eqb_spec x y) as [->|Hne].
  - injection H as <-. exists [], l. repeat split. apply not_elem_of_nil.
  - destruct (py_remove x l) as [l''| |]; try discriminate.
    injection H as <-. destruct (IH l'' eq_refl) as (l1 & l2 & -> & -> & Hx).
    exists (y :: l1), l2. repeat split.
    apply not_elem_of_cons. done.
Qed.

Lemma py_remove_head (x : string) (l : list string) :
  py_remove x (x :: l) = Ok l.
Proof. simpl. by rewrite String.eqb_refl. Qed.

Lemma py_remove_length (x : string) (l l' : list string) :
  py_remove x l = Ok l' -> length l = Datatypes.S (length l').
Proof.
  intros (l1 & l2 & -> & -> & _)%py_remove_Ok.
  rewrite !length_app. simpl. lia.
Qed.

Section PairingLoop.
Context {cp : ControlPlane} {so : SetOrder}.

(** One round: the first leaf leaves the list; at most one cluster is
    created, of that leaf and a leaf that was still on the list. *)
Lemma pair_first_leaf_round (spine_list : list string) (node1 : string)
    (rest : list string) (output : string) :
  emits (pair_first_leaf spine_list (node1 :: rest) output)
    (post (fun res d =>
             popped_leaves d = [node1] /\
             ((res.1 = rest /\ cluster_members d = []) \/
              (exists node2,
                 node2 ∈ rest /\ (node2 ∉ spine_list) /\
                 py_remove node2 rest = Ok res.1 /\
                 (cluster_members d = [] \/
                  cluster_members d = [node1; node2]))))
          (fun d =>
             popped_leaves d = [node1] /\
             (cluster_members d = [] \/
              exists node2, node2 ∈ rest /\ cluster_members d = [node1; node2]))).
Proof.
  unfold pair_first_leaf.
  change (py_index (node1 :: rest) 0) with (Ok node1).
  change (pure (Ok node1) ≫= ?f) with (f node1).
  cbv beta. rewrite py_remove_head.
  change (pure (Ok rest) ≫= ?f) with (f rest). cbv beta.
  eapply emits_bind; [apply fabric_neighbours_trace| |].
  - intros system_names d1 ->.
    eapply emits_weaken; [apply scan_neighbours_trace|].
    intros [res|e|] d; simpl; try done.
    + intros [[H1 H2]|(node2 & Hin & Hsp & Hrem & Hpair)].
      * subst d. split; [done|]. by left.
      * pose proof (pairs_at_most_members _ _ _ Hpair) as Hm.
        destruct Hpair as [Hp _]. rewrite Hp. split; [done|].
        right. exists node2. done.
    + intros (node2 & Hin & Hpair).
      pose proof (pairs_at_most_members _ _ _ Hpair) as Hm.
      destruct Hpair as [Hp _]. rewrite Hp. split; [done|].
      destruct Hm as [-> | ->]; [by left|right; by exists node2].
  - intros d [Hp Hm]. split; [done|]. by left.
Qed.

End PairingLoop.

#[local] Set Warnings "-clear-no-such-hyp".

Ltac nodup_solver :=
  rewrite ?app_nil_r, ?NoDup_app, ?NoDup_cons, ?NoDup_app, ?NoDup_cons;
  intros;
  repeat match goal with H : _ /\ _ |- _ => destruct H end;
  repeat split; try done; try apply NoDup_nil_2; set_solver.

Lemma pairing_round_lists (M P : list string) (node1 : string)
    (rest wl' m2 : list string) :
  NoDup (M ++ node1 :: rest) -> NoDup (P ++ node1 :: rest) ->
  ((wl' = rest /\ m2 = []) \/
   (exists node2,
      node2 ∈ rest /\ py_remove node2 rest = Ok wl' /\
      (m2 = [] \/ m2 = [node1; node2]))) ->
  NoDup ((M ++ m2) ++ wl') /\ NoDup ((P ++ [node1]) ++ wl') /\
  (forall x, x ∈ (M ++ m2) ++ wl' -> x ∈ M ++ node1 :: rest) /\
  (forall x, x ∈ (P ++ [node1]) ++ wl' -> x ∈ P ++ node1 :: rest) /\
  (length wl' <= length rest)%nat.
Proof.
  intros HM HP [[-> ->]|(node2 & Hin & Hrem & Hm2)].
  - rewrite app_nil_r. repeat split; [| | | |lia].
    + clear -HM. revert HM. nodup_solver.
    + clear -HP. revert HP. nodup_solver.
    + clear. set_solver.
    + clear. set_solver.
  - apply py_remove_Ok in Hrem as (l1 & l2 & -> & -> & Hnot).
    repeat split.
    + clear -HM Hm2. revert HM. destruct Hm2 as [-> | ->]; nodup_solver.
    + clear -HP. revert HP. nodup_solver.
    + clear -Hm2. destruct Hm2 as [-> | ->]; set_solver.
    + clear. set_solver.
    + rewrite !length_app. simpl. lia.
Qed.

Lemma py_remove_elem (x : string) (l : list string) :
  x ∈ l -> exists l', py_remove x l = Ok l'.
Proof.
  induction l as [|y l IH]; intros Hx; [by apply elem_of_nil in Hx|].
  simpl. destruct (String.eqb_spec x y) as [->|Hne]; [eauto|].
  apply elem_of_cons in Hx as [->|Hx]; [done|].
  destruct (IH Hx) as [l' ->]. eauto.
Qed.

Section PairingRun.
Context {cp : ControlPlane} {so : SetOrder}.

Lemma pairing_loop_trace (worklist spine_list : list string) :
  NoDup worklist ->
  emits (create_leaf_cluster_vlag worklist spine_list)
    (post (fun _ d => pairing_trace_ok worklist d) (pairing_trace_ok worklist)).
Proof.
  intros Hnd. unfold create_leaf_cluster_vlag.
  set (I := fun (st : Z * list string * string) (d : list command) =>
    NoDup (cluster_members d ++ st.1.2) /\ NoDup (popped_leaves d ++ st.1.2) /\
    (forall x, x ∈ cluster_members d ++ st.1.2 -> x ∈ worklist) /\
    (forall x, x ∈ popped_leaves d ++ st.1.2 -> x ∈ worklist)).
  set (mu := fun st : Z * list string * string =>
    ((if (st.1.1 =? 0)%Z then 1 else 0) + length st.1.2)%nat).
  assert (Hweak : forall st d, I st d -> pairing_trace_ok worklist d).
  { intros [[flag wl] out] d (H1 & H2 & H3 & H4). simpl in *.
    apply NoDup_app in H1 as (H1 & _ & _). apply NoDup_app in H2 as (H2 & _ & _).
    repeat split; try done; intros x Hx; [apply H3|apply H4];
      apply elem_of_app; by left. }
  eapply emits_bind with
    (Q1 := fun st d => I st d) (E1 := pairing_trace_ok worklist).
  - eapply emits_weaken.
    + apply (emits_while _ _ I (pairing_trace_ok worklist) mu) with (d := []).
      * intros [[flag wl] out] d HI Hcond. simpl in Hcond.
        apply Z.eqb_eq in Hcond. subst flag.
        destruct wl as [|node1 rest].
        -- simpl. apply emits_ret. simpl. rewrite app_nil_r.
           split; [|unfold mu; simpl; lia].
           destruct HI as (H1 & H2 & H3 & H4). by repeat split.
        -- change (Z.of_nat (length (node1 :: rest)) =? 0) with false.
           cbv iota. destruct HI as (H1 & H2 & H3 & H4). simpl in *.
           assert (Hround : forall wl' d2,
             popped_leaves d2 = [node1] ->
             ((wl' = rest /\ cluster_members d2 = []) \/
              (exists node2,
                 node2 ∈ rest /\ py_remove node2 rest = Ok wl' /\
                 (cluster_members d2 = [] \/
                  cluster_members d2 = [node1; node2]))) ->
             I (0, wl', out) (d ++ d2) /\ (length wl' <= length rest)%nat).
           { intros wl' d2 Hp Hm.
             destruct (pairing_round_lists (cluster_members d)
                         (popped_leaves d) node1 rest wl' (cluster_members d2)
                         H1 H2 Hm) as (G1 & G2 & G3 & G4 & G5).
             split; [|done]. unfold I. simpl.
             rewrite cluster_members_app, popped_leaves_app, Hp.
             repeat split; try done; intros x Hx; auto. }
           eapply emits_bind; [apply pair_first_leaf_round| |].
           ++ intros [wl' out'] d2 [Hp Hm]. apply emits_ret. simpl.
              rewrite app_nil_r.
              destruct (Hround wl' d2 Hp) as [G1 G2].
              { simpl in Hm.
                destruct Hm as [[? ?]|(node2 & ? & ? & ? & ?)];
                  [by left|right; by exists node2]. }
              split; [exact G1|unfold mu; simpl; lia].
           ++ intros d2 [Hp Hm].
              destruct Hm as [Hm|(node2 & Hin & Hm)].
              ** apply (Hweak (0, rest, out)), (Hround rest d2 Hp).
                 by left.
              ** destruct (py_remove_elem _ _ Hin) as [wl' Hwl'].
                 apply (Hweak (0, wl', out)), (Hround wl' d2 Hp).
                 right. exists node2. auto.
      * unfold I. simpl. repeat split; try done; apply NoDup_nil_2.
      * unfold mu. simpl. lia.
    + intros [st|e|] d; simpl; try done. intros [HI _]. exact HI.
  - intros [[flag wl] out] d HI. apply emits_ret. simpl.
    rewrite app_nil_r. by apply (Hweak _ _ HI).
  - done.
Qed.

End PairingRun.

(** ** Claims about cluster pairing *)

Lemma ret_eq {cp : ControlPlane} {A : Type} (a : A) (σ : session) :
  (mret a : M A) σ = (Ok a, σ).
Proof. reflexivity. Qed.

Lemma pure_bind_eq {cp : ControlPlane} {A B : Type} (r : result A)
    (f : A -> M B) (σ : session) :
  (pure r ≫= f) σ
  = match r with
    | Ok a => f a σ
    | Raise e => (Raise e, σ)
    | OutOfFuel => (OutOfFuel, σ)
    end.
Proof. by destruct r. Qed.

Lemma while_m_S {cp : ControlPlane} {S : Type} (fuel : nat) (cond : S -> bool)
    (body : S -> M S) (s : S) :
  while_m (Datatypes.S fuel) cond body s
  = if cond s then s' ← body s; while_m fuel cond body s' else mret s.
Proof. reflexivity. Qed.

Lemma run_cli_fuel {cp : ControlPlane} (c : command) (σ : session) :
  (run_cli c σ).1 <> OutOfFuel.
Proof. rewrite run_cli_eq. simpl. unfold reply_text. by repeat case_match. Qed.

Lemma run_cli_log {cp : ControlPlane} (c : command) (σ σ' : session)
    (r : result string) :
  run_cli c σ = (r, σ') -> log σ' = log σ ++ [c].
Proof. rewrite run_cli_eq. by intros [= _ <-]. Qed.

Section PairingClaims.
Context {cp : ControlPlane} {so : SetOrder}.

Lemma bind_eq {A B : Type} (m : M A) (f : A -> M B) (σ : session) :
  (m ≫= f) σ
  = match m σ with
    | (Ok a, σ') => f a σ'
    | (Raise e, σ') => (Raise e, σ')
    | (OutOfFuel, σ') => (OutOfFuel, σ')
    end.
Proof. reflexivity. Qed.

Lemma scan_neighbours_find (node1 : string)
    (spine_list system_names non_cluster_leaf : list string) (output : string) :
  scan_neighbours node1 spine_list system_names non_cluster_leaf output
  = match List.find (pairing_candidate spine_list non_cluster_leaf)
            system_names with
    | Some node2 =>
        cluster_pair node1 node2 spine_list non_cluster_leaf output
    | None => mret (non_cluster_leaf, output)
    end.
Proof.
  induction system_names as [|node2 rest IH]; [done|]. simpl.
  unfold pairing_candidate at 1.
  destruct (py_in node2 spine_list); simpl; [exact IH|].
  destruct (py_in node2 non_cluster_leaf); [done|exact IH].
Qed.

(** ** The pairing routine, round by round *)

Lemma skip_filter_sublist (keep : string -> bool) (l : list string) :
  skip_filter keep l `sublist_of` l.
Proof.
  assert (forall n l, (length l <= n)%nat -> skip_filter keep l `sublist_of` l)
    as Hgen.
  { clear l. induction n as [|n IH]; intros l Hlen.
    - destruct l; [constructor|simpl in Hlen; lia].
    - destruct l as [|x l]; [constructor|]. simpl in *.
      destruct (keep x).
      + apply sublist_skip, IH. lia.
      + destruct l as [|y l]; [apply sublist_nil_l|].
        apply sublist_cons, sublist_skip, IH. simpl in Hlen. lia. }
  by apply (Hgen (length l)).
Qed.

Lemma skip_filter_keeps (keep : string -> bool) (l : list string) (x : string) :
  x ∈ l -> keep x = true -> x ∈ skip_filter keep l.
Proof.
  assert (forall n l, (length l <= n)%nat ->
            x ∈ l -> keep x = true -> x ∈ skip_filter keep l) as Hgen.
  { clear l. induction n as [|n IH]; intros l Hlen Hx Hkeep.
    - destruct l; [by apply elem_of_nil in Hx|simpl in Hlen; lia].
    - destruct l as [|a l]; [by apply elem_of_nil in Hx|]. simpl in *.
      destruct (keep a) eqn:Ha.
      + apply elem_of_cons in Hx as [->|Hx]; [by left|].
        right. apply IH; [lia|done|done].
      + apply elem_of_cons in Hx as [->|Hx]; [congruence|].
        destruct l as [|y l]; [by apply elem_of_nil in Hx|].
        apply elem_of_cons in Hx as [->|Hx]; [by left|].
        right. apply IH; [simpl in Hlen; lia|done|done]. }
  by apply (Hgen (length l)).
Qed.

Lemma remove_non_fabric_kept (nodes_in_fabric system_names : list string) :
  NoDup system_names ->
  exists kept,
    remove_non_fabric nodes_in_fabric system_names = Ok kept /\
    kept `sublist_of` system_names /\
    (forall x, x ∈ system_names -> x ∈ nodes_in_fabric -> x ∈ kept).
Proof.
  intros Hnd. rewrite remove_non_fabric_spec by done.
  eexists. split; [done|]. split; [apply skip_filter_sublist|].
  intros x Hx Hfabric. apply skip_filter_keeps; [done|].
  by apply py_in_true.
Qed.

(** What [create_cluster] of a pair does, seen from the sessions. *)
Lemma create_cluster_formed (node1 node2 out : string) (σ σ' : session) :
  create_cluster node2 (node1 +:+ "-to-" +:+ node2 +:+ "-cluster") node1 node2 σ
  = (Ok out, σ') ->
  cluster_formed node1 node2 σ σ'.
Proof.
  unfold create_cluster. rewrite bind_eq.
  destruct (run_cli (ClusterShowNames node1) σ) as [[shown|e|] σ1] eqn:Hshow;
    [|done|done].
  destruct (py_in _ (py_split shown)) eqn:Hin.
  - change (negb true) with false. cbv iota. rewrite ret_eq.
    intros [= _ <-]. apply py_in_true in Hin. by eapply cluster_listed.
  - change (negb false) with true. cbv iota. intros Hcreate.
    apply py_in_false in Hin. by eapply cluster_created.
Qed.

(** A round that goes through, seen from the sessions. *)
Lemma pair_first_leaf_steps (spine_list : list string) (node1 : string)
    (rest rest' : list string) (output output' : string) (σ σ' : session) :
  pair_first_leaf spine_list (node1 :: rest) output σ
  = (Ok (rest', output'), σ') ->
  exists out nodes system_names σ1 σ2,
    run_cli (LldpShowSysName node1) σ = (Ok out, σ1) /\
    run_cli (FabricNodeShowOn node1) σ1 = (Ok nodes, σ2) /\
    remove_non_fabric (list_set (py_split nodes)) (list_set (py_split out))
    = Ok system_names /\
    ((List.find (pairing_candidate spine_list rest) system_names = None /\
      rest' = rest /\ σ' = σ2) \/
     (exists node2 σ3 d,
        List.find (pairing_candidate spine_list rest) system_names
        = Some node2 /\
        cluster_formed node1 node2 σ2 σ3 /\
        py_remove node2 rest = Ok rest' /\
        log σ' = log σ3 ++ d /\
        forallb apart_from_pairing d = true)).
Proof.
  unfold pair_first_leaf.
  rewrite pure_bind_eq, py_index_head, pure_bind_eq, py_remove_head.
  rewrite bind_eq. unfold fabric_neighbours. rewrite bind_eq.
  destruct (run_cli (LldpShowSysName node1) σ) as [[out|e|] σ1] eqn:Hlldp;
    [|done|done].
  cbv zeta. rewrite bind_eq.
  destruct (run_cli (FabricNodeShowOn node1) σ1) as [[nodes|e|] σ2] eqn:Hnodes;
    [|done|done].
  unfold pure at 1.
  destruct (remove_non_fabric _ _) as [system_names|e|] eqn:Hfilter;
    [|done|done].
  rewrite scan_neighbours_find.
  destruct (List.find _ system_names) as [node2|] eqn:Hfind.
  - unfold cluster_pair. cbv zeta. rewrite bind_eq.
    destruct (create_cluster _ _ _ _ σ2) as [[out2|e|] σ3] eqn:Hcreate;
      [|done|done].
    apply create_cluster_formed in Hcreate.
    intros Hgroups.
    destruct (pair_link_groups_apart node1 node2 spine_list rest
                (output +:+ out2 +:+ " ") σ3) as (d & Hlog & Hpost).
    rewrite Hgroups in Hlog, Hpost. simpl in Hlog, Hpost.
    destruct Hpost as [Hapart Hremove].
    exists out, nodes, system_names, σ1, σ2. repeat (split; [done|]).
    right. exists node2, σ3, d. done.
  - rewrite ret_eq. intros [= <- <- <-].
    exists out, nodes, system_names, σ1, σ2. repeat (split; [done|]).
    by left.
Qed.

(** The loop of [create_leaf_cluster_vlag] goes through the rounds until
    the worklist is empty; the fuel it is given is enough. *)
Lemma pairing_loop_run (spine_list : list string) (n : nat) :
  forall (worklist : list string) (output : string) (σ : session) (fuel : nat),
    (length worklist <= n)%nat -> (length worklist + 2 <= fuel)%nat ->
    (while_m fuel
       (fun st : Z * list string * string => st.1.1 =? 0)
       (fun st =>
          let '(flag, non_cluster_leaf, output) := st in
          if (Z.of_nat (length non_cluster_leaf) =? 0)
          then
            let output := output +:+ "no more leaf to create cluster" in
            let output := output +:+ " " in
            mret (flag + 1, non_cluster_leaf, output)
          else
            '(non_cluster_leaf, output) ←
               pair_first_leaf spine_list non_cluster_leaf output;
            mret (flag, non_cluster_leaf, output))
       (0, worklist, output) σ).1 <> OutOfFuel /\
    pairing_run spine_list worklist σ
      (raised
         (while_m fuel
            (fun st : Z * list string * string => st.1.1 =? 0)
            (fun st =>
               let '(flag, non_cluster_leaf, output) := st in
               if (Z.of_nat (length non_cluster_leaf) =? 0)
               then
                 let output := output +:+ "no more leaf to create cluster" in
                 let output := output +:+ " " in
                 mret (flag + 1, non_cluster_leaf, output)
               else
                 '(non_cluster_leaf, output) ←
                    pair_first_leaf spine_list non_cluster_leaf output;
                 mret (flag, non_cluster_leaf, output))
            (0, worklist, output) σ).1)
      (while_m fuel
         (fun st : Z * list string * string => st.1.1 =? 0)
         (fun st =>
            let '(flag, non_cluster_leaf, output) := st in
            if (Z.of_nat (length non_cluster_leaf) =? 0)
            then
              let output := output +:+ "no more leaf to create cluster" in
              let output := output +:+ " " in
              mret (flag + 1, non_cluster_leaf, output)
            else
              '(non_cluster_leaf, output) ←
                 pair_first_leaf spine_list non_cluster_leaf output;
              mret (flag, non_cluster_leaf, output))
         (0, worklist, output) σ).2.
Proof.
  set (cond := fun st : Z * list string * string => st.1.1 =? 0).
  set (body := fun st : Z * list string * string =>
                 let '(flag, non_cluster_leaf, output) := st in
                 if (Z.of_nat (length non_cluster_leaf) =? 0)
                 then
                   let output :=
                     output +:+ "no more leaf to create cluster" in
                   let output := output +:+ " " in
                   mret (flag + 1, non_cluster_leaf, output)
                 else
                   '(non_cluster_leaf, output) ←
                      pair_first_leaf spine_list non_cluster_leaf output;
                   mret (flag, non_cluster_leaf, output)).
  assert (Hempty : forall output σ,
            body (0, [], output) σ
            = (Ok (1, [],
                   (output +:+ "no more leaf to create cluster") +:+ " "), σ))
    by done.
  assert (Hround : forall node1 rest output σ,
            body (0, node1 :: rest, output) σ
            = match pair_first_leaf spine_list (node1 :: rest) output σ with
              | (Ok (rest', output'), σ') => (Ok (0, rest', output'), σ')
              | (Raise e, σ') => (Raise e, σ')
              | (OutOfFuel, σ') => (OutOfFuel, σ')
              end).
  { intros node1 rest output σ. unfold body.
    change (Z.of_nat (length (node1 :: rest)) =? 0) with false. cbv iota.
    rewrite bind_eq.
    by destruct (pair_first_leaf _ _ _ σ) as [[[rest' output']|e|] σ']. }
  clearbody body.
  induction n as [|n IH]; intros worklist output σ fuel Hn Hfuel.
  - destruct worklist; [|simpl in Hn; lia].
    destruct fuel as [|[|fuel]]; [simpl in Hfuel; lia..|].
    rewrite while_m_S. change (cond (0, [], output)) with true. cbv iota.
    rewrite bind_eq, Hempty, while_m_S.
    change (cond (1, [], ?o)) with false. cbv iota. rewrite ret_eq.
    split; [done|]. apply pairing_done.
  - destruct worklist as [|node1 rest].
    { destruct fuel as [|[|fuel]]; [simpl in Hfuel; lia..|].
      rewrite while_m_S. change (cond (0, [], output)) with true. cbv iota.
      rewrite bind_eq, Hempty, while_m_S.
      change (cond (1, [], ?o)) with false. cbv iota. rewrite ret_eq.
      split; [done|]. apply pairing_done. }
    destruct fuel as [|fuel]; [simpl in Hfuel; lia|].
    rewrite while_m_S. change (cond (0, node1 :: rest, output)) with true.
    cbv iota. rewrite bind_eq, Hround.
    destruct (pair_first_leaf_round spine_list node1 rest output σ)
      as (d & Hlog & Hpost).
    destruct (pair_first_leaf spine_list (node1 :: rest) output σ)
      as [[[rest' output']|e|] σ'] eqn:Hfirst; [| |done].
    + destruct (pair_first_leaf_steps _ _ _ _ _ _ _ _ Hfirst)
        as (out & nodes & system_names & σ1 & σ2 & Hlldp & Hnodes & Hfilter
            & Hscan).
      simpl in Hn, Hfuel.
      destruct Hscan as [(Hfind & -> & ->)
                        |(node2 & σ3 & d' & Hfind & Hformed & Hremove & Hlog'
                          & Hapart)].
      * destruct (IH rest output' σ2 fuel ltac:(lia) ltac:(lia))
          as [Hfuel' Hrun].
        split; [exact Hfuel'|]. by eapply pairing_unpaired.
      * pose proof (py_remove_length _ _ _ Hremove) as Hlen.
        destruct (IH rest' output' σ' fuel ltac:(lia) ltac:(lia))
          as [Hfuel' Hrun].
        split; [exact Hfuel'|]. by eapply pairing_paired.
    + cbn [fst snd raised] in *. split; [done|].
      destruct Hpost as [Hpopped Hmembers].
      by eapply pairing_cut.
Qed.


End PairingClaims.

(** The run on the chain of three leaves: leaf 1 is paired with leaf 2, and
    leaf 3 has its round without a partner. *)
Example leaf_chain_rounds :
  popped_leaves
    (log (create_leaf_cluster_vlag (cp := simulated_fabric)
            (so := stable_set_order) ["leaf1"; "leaf2"; "leaf3"]
            ["spine1"; "spine2"] leaf_chain).2)
  = ["leaf1"; "leaf3"] /\
  cluster_creations
    (log (create_leaf_cluster_vlag (cp := simulated_fabric)
            (so := stable_set_order) ["leaf1"; "leaf2"; "leaf3"]
            ["spine1"; "spine2"] leaf_chain).2)
  = [pair_cluster "leaf1" "leaf2"].
Proof. split; vm_compute; reflexivity. Qed.


Lemma NoDup_list_filter {A : Type} (f : A -> bool) (l : list A) :
  NoDup l -> NoDup (List.filter f l).
Proof.
  induction 1 as [|x l Hx Hl IH]; simpl; [constructor|].
  destruct (f x); [|done]. constructor; [|done].
  intros Hin%list_elem_of_In%List.filter_In. apply Hx.
  apply list_elem_of_In. tauto.
Qed.

Section OneClusterPerLeaf.
Context {cp : ControlPlane} {so : SetOrder}.

Lemma keep_unclustered (cluster1 cluster2 leaf_list acc : list string)
    (σ : session) :
  for_m leaf_list
    (fun leaf non_cluster_leaf =>
       if negb (py_in leaf cluster1) && negb (py_in leaf cluster2)
       then mret (non_cluster_leaf ++ [leaf])
       else mret non_cluster_leaf)
    acc σ
  = (Ok (acc ++ List.filter
                  (fun leaf => negb (py_in leaf cluster1)
                               && negb (py_in leaf cluster2)) leaf_list), σ).
Proof.
  revert acc. induction leaf_list as [|leaf leaf_list IH]; intros acc; simpl.
  - by rewrite app_nil_r.
  - rewrite bind_eq.
    destruct (negb (py_in leaf cluster1) && negb (py_in leaf cluster2)); simpl.
    + rewrite IH. by rewrite <- List.app_assoc.
    + apply IH.
Qed.

(** C6, amended: for a leaf list without repeated entries, the pairing run
    (the leaves outside every existing cluster are worked out, then paired)
    does not run out of fuel, and the clusters it creates have members that
    are pairwise distinct, come from the leaf list and are neither a
    cluster-node-1 nor a cluster-node-2 of the existing-cluster view: no
    switch is put into two clusters, and a leaf that is clustered already is
    never paired. *)
Theorem one_cluster_per_leaf (leaf_list spine_list : list string)
    (σ σ1 σ2 : session) (out1 out2 : string) :
  NoDup leaf_list ->
  run_cli ClusterShowNode1 σ = (Ok out1, σ1) ->
  run_cli ClusterShowNode2 σ1 = (Ok out2, σ2) ->
  exists r σ' d,
    (non_cluster_leaf ← leaf_no_cluster leaf_list;
     create_leaf_cluster_vlag non_cluster_leaf spine_list) σ = (r, σ') /\
    r <> OutOfFuel /\
    log σ' = log σ2 ++ d /\
    NoDup (cluster_members d) /\
    forall x, x ∈ cluster_members d ->
      x ∈ leaf_list /\ (x ∉ py_split out1) /\ (x ∉ py_split out2).
Proof.
  intros Hnd H1 H2.
  set (keep := fun leaf => negb (py_in leaf (py_split out1))
                           && negb (py_in leaf (py_split out2))).
  assert (Hleaf : leaf_no_cluster leaf_list σ
                  = (Ok (List.filter keep leaf_list), σ2)).
  { unfold leaf_no_cluster. rewrite bind_eq, H1, bind_eq, H2.
    by rewrite keep_unclustered. }
  rewrite bind_eq, Hleaf.
  destruct (pairing_loop_trace (List.filter keep leaf_list) spine_list
              (NoDup_list_filter keep _ Hnd) σ2) as (d & Hd & Hpost).
  destruct (create_leaf_cluster_vlag _ _ σ2) as [r σ'] eqn:Hrun.
  exists r, σ', d. simpl in *. split; [done|].
  assert (r <> OutOfFuel /\ pairing_trace_ok (List.filter keep leaf_list) d)
    as [Hr (Hm & _ & Hsub & _)] by (by destruct r).
  repeat split; try done; intros; specialize (Hsub x H);
    apply list_elem_of_In, List.filter_In in Hsub as [Hin Hkeep];
    unfold keep in Hkeep; apply andb_prop in Hkeep as [K1 K2];
    apply negb_true_iff in K1, K2.
  - by apply list_elem_of_In.
  - by apply py_in_false.
  - by apply py_in_false.
Qed.

End OneClusterPerLeaf.

Lemma one_cluster_per_leaf_witness :
  exists r σ' d,
    (non_cluster_leaf ←
       leaf_no_cluster (cp := simulated_fabric) ["leaf1"; "leaf2"; "leaf3"];
     create_leaf_cluster_vlag (so := stable_set_order) non_cluster_leaf
       ["spine1"; "spine2"]) leaf_chain = (r, σ') /\
    r <> OutOfFuel /\
    log σ' = [ClusterShowNode1; ClusterShowNode2] ++ d /\
    NoDup (cluster_members d) /\
    forall x, x ∈ cluster_members d ->
      x ∈ ["leaf1"; "leaf2"; "leaf3"] /\ (x ∉ py_split "Success") /\
      (x ∉ py_split "Success").
Proof.
  apply (one_cluster_per_leaf (cp := simulated_fabric)
           (so := stable_set_order) ["leaf1"; "leaf2"; "leaf3"]
           ["spine1"; "spine2"] leaf_chain
           (Session (cp := simulated_fabric) (world leaf_chain)
              [ClusterShowNode1])
           (Session (cp := simulated_fabric) (world leaf_chain)
              [ClusterShowNode1; ClusterShowNode2])
           "Success" "Success").
  - apply (bool_decide_unpack _). vm_compute. reflexivity.
  - reflexivity.
  - reflexivity.
Defined.

(** C6 as stated fails on a leaf list that names a leaf twice: the
    layer-2 run on leaf1, leaf2, leaf2, leaf3 creates the cluster of leaf 1
    and leaf 2 and then the cluster of leaf 2 and leaf 3. *)
Lemma repeated_leaf_in_two_clusters :
  exists out σ,
    configure_auto_vlag (cp := simulated_fabric) (so := stable_set_order)
      repeated_leaf leaf_chain = (Ok out, σ) /\
    cluster_creations (log σ)
    = [ClusterCreate "spine1" "spine-cluster" "spine1" "spine2";
       pair_cluster "leaf1" "leaf2"; pair_cluster "leaf2" "leaf3"] /\
    ~ NoDup (cluster_members (log σ)).
Proof.
  eexists _, _. split; [vm_compute; reflexivity|]. split; [reflexivity|].
  apply (bool_decide_unpack _). vm_compute. reflexivity.
Qed.

(** ** Claims about loopback assignment *)

Lemma loopback_plan_addresses (static_part : string) (count : Z)
    (vrouter_names : list string) :
  map snd (loopback_plan static_part count vrouter_names)
  = map (fun i => static_part +:+ py_str i)
      (seqZ count (Z.of_nat (length vrouter_names))).
Proof.
  revert count. induction vrouter_names as [|v vs IH]; intros count; [done|].
  cbn [length loopback_plan map snd]. rewrite seqZ_cons by lia. cbn [map].
  f_equal. rewrite IH. do 2 f_equal; lia.
Qed.

Lemma NoDup_map_inj {A B : Type} (f : A -> B) (l : list A) :
  (forall x y, f x = f y -> x = y) -> NoDup l -> NoDup (map f l).
Proof.
  intros Hf. induction 1 as [|x l Hx Hl IH]; simpl; constructor; [|done].
  intros Hin%list_elem_of_In%in_map_iff. destruct Hin as (y & Hy & Hin).
  apply Hf in Hy as ->. by apply Hx, list_elem_of_In.
Qed.

Lemma loopback_plan_distinct (static_part : string) (count : Z)
    (vrouter_names : list string) :
  NoDup (map snd (loopback_plan static_part count vrouter_names)).
Proof.
  rewrite loopback_plan_addresses.
  apply NoDup_map_inj; [|apply NoDup_seqZ].
  intros i j Hij. apply (inj (String.append static_part)) in Hij.
  by apply (inj pretty) in Hij.
Qed.

Lemma loopback_run_adds {cp : ControlPlane} (plan : list (string * string))
    (σ σ' : session) (o : option exn) :
  loopback_run plan σ o σ' ->
  exists d, log σ' = log σ ++ d /\ sublist (loopback_adds d) plan.
Proof.
  induction 1 as [σ|vrouter ip plan σ σ1 σ2 σ3 shown added o Hshow Hnot Hadd _ IH
                 |vrouter ip plan σ σ1 σ2 shown o Hshow Hin _ IH
                 |vrouter ip plan σ σ1 e Hshow
                 |vrouter ip plan σ σ1 σ2 shown e Hshow Hnot Hadd].
  - exists []. split; [by rewrite app_nil_r|constructor].
  - destruct IH as (d & Hd & Hsub).
    exists ([VrouterLoopbackShow ip; VrouterLoopbackAdd vrouter ip] ++ d).
    rewrite Hd, (run_cli_log _ _ _ _ Hadd), (run_cli_log _ _ _ _ Hshow).
    rewrite <- !List.app_assoc. split; [done|]. simpl. by constructor.
  - destruct IH as (d & Hd & Hsub).
    exists ([VrouterLoopbackShow ip] ++ d).
    rewrite Hd, (run_cli_log _ _ _ _ Hshow), <- !List.app_assoc.
    split; [done|]. simpl. by apply sublist_cons.
  - exists [VrouterLoopbackShow ip].
    rewrite (run_cli_log _ _ _ _ Hshow). split; [done|]. simpl.
    apply sublist_nil_l.
  - exists [VrouterLoopbackShow ip; VrouterLoopbackAdd vrouter ip].
    rewrite (run_cli_log _ _ _ _ Hadd), (run_cli_log _ _ _ _ Hshow),
      <- !List.app_assoc.
    split; [done|]. simpl. constructor. apply sublist_nil_l.
Qed.

Section LoopbackSteps.
Context {cp : ControlPlane} {so : SetOrder}.

(** The loop of [assign_loopback_ip] goes through the plan step by step. *)
Lemma loopback_loop_run (static_part : string) (vrouter_names : list string)
    (count : Z) (output : string) (σ : session) :
  (for_m vrouter_names
     (fun vrouter (st : Z * string) =>
        let '(vrouter_count, output) := st in
        let ip := static_part +:+ py_str vrouter_count in
        out ← run_cli (VrouterLoopbackShow ip);
        let existing_vrouter := py_split out in
        output ←
          (if negb (py_in vrouter existing_vrouter)
           then
             out ← run_cli (VrouterLoopbackAdd vrouter ip);
             mret (output +:+ out +:+ " ")
           else mret output);
        mret (vrouter_count + 1, output))
     (count, output) σ).1 <> OutOfFuel /\
  loopback_run (loopback_plan static_part count vrouter_names) σ
    (raised
       (for_m vrouter_names
          (fun vrouter (st : Z * string) =>
             let '(vrouter_count, output) := st in
             let ip := static_part +:+ py_str vrouter_count in
             out ← run_cli (VrouterLoopbackShow ip);
             let existing_vrouter := py_split out in
             output ←
               (if negb (py_in vrouter existing_vrouter)
                then
                  out ← run_cli (VrouterLoopbackAdd vrouter ip);
                  mret (output +:+ out +:+ " ")
                else mret output);
             mret (vrouter_count + 1, output))
          (count, output) σ).1)
    (for_m vrouter_names
       (fun vrouter (st : Z * string) =>
          let '(vrouter_count, output) := st in
          let ip := static_part +:+ py_str vrouter_count in
          out ← run_cli (VrouterLoopbackShow ip);
          let existing_vrouter := py_split out in
          output ←
            (if negb (py_in vrouter existing_vrouter)
             then
               out ← run_cli (VrouterLoopbackAdd vrouter ip);
               mret (output +:+ out +:+ " ")
             else mret output);
          mret (vrouter_count + 1, output))
       (count, output) σ).2.
Proof.
  revert count output σ.
  set (body := fun (vrouter : string) (st : Z * string) =>
                 let '(vrouter_count, output) := st in
                 let ip := static_part +:+ py_str vrouter_count in
                 out ← run_cli (VrouterLoopbackShow ip);
                 let existing_vrouter := py_split out in
                 output ←
                   (if negb (py_in vrouter existing_vrouter)
                    then
                      out ← run_cli (VrouterLoopbackAdd vrouter ip);
                      mret (output +:+ out +:+ " ")
                    else mret output);
                 mret (vrouter_count + 1, output)).
  assert (Hstep : forall v count output σ,
            body v (count, output) σ
            = match run_cli (VrouterLoopbackShow (static_part +:+ py_str count))
                      σ with
              | (Ok shown, σ1) =>
                  if py_in v (py_split shown)
                  then (Ok (count + 1, output), σ1)
                  else
                    match run_cli
                            (VrouterLoopbackAdd v
                               (static_part +:+ py_str count)) σ1 with
                    | (Ok added, σ2) =>
                        (Ok (count + 1, output +:+ added +:+ " "), σ2)
                    | (Raise e, σ2) => (Raise e, σ2)
                    | (OutOfFuel, σ2) => (OutOfFuel, σ2)
                    end
              | (Raise e, σ1) => (Raise e, σ1)
              | (OutOfFuel, σ1) => (OutOfFuel, σ1)
              end).
  { intros v count output σ. unfold body. cbv zeta. rewrite bind_eq.
    destruct (run_cli (VrouterLoopbackShow _) σ) as [[shown|e|] σ1];
      [|done|done].
    rewrite bind_eq. destruct (py_in v (py_split shown)); [done|].
    change (negb false) with true. cbv iota. rewrite bind_eq.
    by destruct (run_cli (VrouterLoopbackAdd _ _) σ1) as [[added|e|] σ2]. }
  clearbody body.
  induction vrouter_names as [|v vs IH]; intros count output σ.
  - split; [done|]. apply loopback_done.
  - cbn [for_m loopback_plan]. rewrite bind_eq, Hstep.
    pose proof (run_cli_fuel (VrouterLoopbackShow (static_part +:+ py_str count))
                  σ) as Hfuel1.
    destruct (run_cli (VrouterLoopbackShow (static_part +:+ py_str count)) σ)
      as [[shown|e|] σ1] eqn:Hshow; [| |done].
    + destruct (py_in v (py_split shown)) eqn:Hin.
      * apply py_in_true in Hin.
        destruct (IH (count + 1) output σ1) as [Hfuel Hrun].
        split; [exact Hfuel|].
        by eapply loopback_present.
      * apply py_in_false in Hin.
        pose proof (run_cli_fuel
                      (VrouterLoopbackAdd v (static_part +:+ py_str count)) σ1)
          as Hfuel2.
        destruct (run_cli (VrouterLoopbackAdd v (static_part +:+ py_str count))
                    σ1) as [[added|e|] σ2] eqn:Hadd; [| |done].
        -- destruct (IH (count + 1) (output +:+ added +:+ " ") σ2)
             as [Hfuel Hrun].
           split; [exact Hfuel|]. by eapply loopback_added.
        -- split; [done|]. by eapply loopback_add_fails.
    + split; [done|]. by eapply loopback_show_fails.
Qed.

End LoopbackSteps.

Lemma loopback_plan_vrouters (static_part : string) (count : Z)
    (vrouter_names : list string) :
  map fst (loopback_plan static_part count vrouter_names) = vrouter_names.
Proof.
  revert count. induction vrouter_names as [|v vs IH]; intros count; [done|].
  simpl. by rewrite IH.
Qed.

Section LoopbackClaim.
Context {cp : ControlPlane}.

(** The loopback addresses of the network of [loopback_address]: its first
    three parts, then the counter. *)
Lemma loopback_static_part (loopback_address a0 a1 a2 : string)
    (rest : list string) (σ : session) :
  py_split_on "." loopback_address = a0 :: a1 :: a2 :: rest ->
  assign_loopback_ip loopback_address σ
  = (out ← run_cli VrouterShowNames;
     let static_part := (a0 +:+ "." +:+ a1 +:+ ".") +:+ a2 +:+ "." in
     let vrouter_names := py_split out in
     if (0 <? Z.of_nat (length vrouter_names))
     then
       if (Z.of_nat (length vrouter_names) + 1 - 1 <=? 255)
       then
         '(_, output) ← for_m vrouter_names
           (fun vrouter (st : Z * string) =>
              let '(vrouter_count, output) := st in
              let ip := static_part +:+ py_str vrouter_count in
              out ← run_cli (VrouterLoopbackShow ip);
              let existing_vrouter := py_split out in
              output ←
                (if negb (py_in vrouter existing_vrouter)
                 then
                   out ← run_cli (VrouterLoopbackAdd vrouter ip);
                   mret (output +:+ out +:+ " ")
                 else mret output);
              mret (vrouter_count + 1, output))
           (1, " ");
         mret output
       else mret (" " +:+ "Not enough ips for all the vrouters")
     else mret (" " +:+ "no vrouters present")) σ.
Proof.
  intros Haddress. unfold assign_loopback_ip. rewrite Haddress.
  rewrite (py_index_of_nat _ 0 a0), (py_index_of_nat _ 1 a1),
    (py_index_of_nat _ 2 a2) by done.
  reflexivity.
Qed.

(** C8, as amended: when the address has its three leading parts and the
    vrouter listing is read, then (1) with at most 255 vrouters the run
    takes them in the order of the listing, each with the address whose last
    part counts up from 1, so the addresses are pairwise distinct; for each
    vrouter in turn it looks the address up, adds it to the vrouter when the
    reply does not name the vrouter and leaves it alone when it does; the
    run never runs out of fuel, it ends after the last vrouter or at the
    first command that fails, and the addresses it adds are addresses of
    the plan, in the order of the plan; (2) with 256 vrouters or more it
    issues no further command and returns, without raising, its output
    ending in [Not enough ips for all the vrouters]. *)
Theorem loopback_assignment (loopback_address a0 a1 a2 : string)
    (rest : list string) (σ σ1 : session) (out : string) :
  py_split_on "." loopback_address = a0 :: a1 :: a2 :: rest ->
  run_cli VrouterShowNames σ = (Ok out, σ1) ->
  let static_part := (a0 +:+ "." +:+ a1 +:+ ".") +:+ a2 +:+ "." in
  let vrouter_names := py_split out in
  let count := Z.of_nat (length vrouter_names) in
  let plan := loopback_plan static_part 1 vrouter_names in
  (count <= 255 ->
     map fst plan = vrouter_names /\
     map snd plan = map (fun i => static_part +:+ py_str i) (seqZ 1 count) /\
     NoDup (map snd plan) /\
     (assign_loopback_ip loopback_address σ).1 <> OutOfFuel /\
     loopback_run plan σ1 (raised (assign_loopback_ip loopback_address σ).1)
       (assign_loopback_ip loopback_address σ).2 /\
     exists d,
       log (assign_loopback_ip loopback_address σ).2 = log σ1 ++ d /\
       sublist (loopback_adds d) plan) /\
  (256 <= count ->
     assign_loopback_ip loopback_address σ
     = (Ok (" " +:+ "Not enough ips for all the vrouters"), σ1)).
Proof.
  intros Haddress Hshow static_part vrouter_names count plan.
  rewrite (loopback_static_part _ _ _ _ _ _ Haddress), bind_eq, Hshow.
  cbv zeta. fold static_part vrouter_names. fold count. split.
  - intros Hcount. split; [|split; [|split]].
    + apply loopback_plan_vrouters.
    + apply loopback_plan_addresses.
    + apply loopback_plan_distinct.
    + destruct (Z.ltb_spec 0 count) as [Hpos|Hzero].
      * destruct (Z.leb_spec (count + 1 - 1) 255) as [_|?]; [|lia].
        cbv iota. rewrite bind_eq.
        destruct (loopback_loop_run static_part vrouter_names 1 " " σ1)
          as [Hfuel Hrun].
        fold plan in Hrun.
        destruct (for_m _ _ _ σ1) as [[[c output]|e|] σ2]; [| |done].
        -- cbn [fst snd raised] in *. split; [done|]. split; [exact Hrun|].
           by apply loopback_run_adds in Hrun.
        -- cbn [fst snd raised] in *. split; [done|]. split; [exact Hrun|].
           by apply loopback_run_adds in Hrun.
      * assert (vrouter_names = []) as Hnil
          by (apply length_zero_iff_nil; lia).
        subst plan. rewrite Hnil. cbn [fst snd raised loopback_plan].
        split; [done|]. split; [apply loopback_done|].
        exists []. split; [by rewrite app_nil_r|constructor].
  - intros Hcount.
    destruct (Z.ltb_spec 0 count) as [_|?]; [|lia].
    by destruct (Z.leb_spec (count + 1 - 1) 255) as [?|_]; [lia|].
Qed.

End LoopbackClaim.

Lemma loopback_assignment_witness :
  loopback_run (cp := simulated_fabric)
    [("spine1-vrouter", "10.0.0.1"); ("leaf1-vrouter", "10.0.0.2");
     ("leaf2-vrouter", "10.0.0.3")]
    (Session (cp := simulated_fabric) (world three_vrouters)
       [VrouterShowNames])
    None
    (assign_loopback_ip (cp := simulated_fabric) "10.0.0.0" three_vrouters).2 /\
  assign_loopback_ip (cp := simulated_fabric) "10.0.0.0" many_vrouters
  = (Ok " Not enough ips for all the vrouters",
     Session (cp := simulated_fabric) (world many_vrouters)
       [VrouterShowNames]).
Proof.
  split.
  - destruct (loopback_assignment (cp := simulated_fabric) "10.0.0.0"
                "10" "0" "0" ["0"] three_vrouters
                (Session (cp := simulated_fabric) (world three_vrouters)
                   [VrouterShowNames])
                (lines ["spine1-vrouter"; "leaf1-vrouter"; "leaf2-vrouter"])
                eq_refl eq_refl) as [Hfew _].
    destruct Hfew as (_ & _ & _ & _ & Hrun & _);
      [vm_compute; discriminate|].
    exact Hrun.
  - destruct (loopback_assignment (cp := simulated_fabric) "10.0.0.0"
                "10" "0" "0" ["0"] many_vrouters
                (Session (cp := simulated_fabric) (world many_vrouters)
                   [VrouterShowNames])
                (reply_out (exec (ControlPlane := simulated_fabric)
                              VrouterShowNames (world many_vrouters)).1)
                eq_refl eq_refl) as [_ Hmany].
    apply Hmany. vm_compute. discriminate.
Defined.

(** Leaf 1 has its address already: it is looked up and not added again. *)
Example loopback_present_skipped :
  log (assign_loopback_ip (cp := simulated_fabric) "10.0.0.0"
         one_loopback_present).2
  = [VrouterShowNames;
     VrouterLoopbackShow "10.0.0.1";
     VrouterLoopbackAdd "spine1-vrouter" "10.0.0.1";
     VrouterLoopbackShow "10.0.0.2";
     VrouterLoopbackShow "10.0.0.3";
     VrouterLoopbackAdd "leaf2-vrouter" "10.0.0.3"].
Proof. vm_compute. reflexivity. Qed.

(** C8 as stated fails with 256 vrouters: the run raises no error.  It
    returns its output, the message at its end, after the listing of the
    vrouters alone. *)
Lemma loopback_exhaustion_returns :
  exists output σ,
    assign_loopback_ip (cp := simulated_fabric) "10.0.0.0" many_vrouters
    = (Ok output, σ) /\
    output = " Not enough ips for all the vrouters" /\
    log σ = [VrouterShowNames].
Proof. eexists _, _. split; [vm_compute; reflexivity|]. done. Qed.

(** The scenario of three switches on the base 10.0.0.0: the three addresses
    are added in the order of the listing. *)
Example loopback_three_vrouters :
  loopback_adds
    (log (assign_loopback_ip (cp := simulated_fabric) "10.0.0.0"
            three_vrouters).2)
  = [("spine1-vrouter", "10.0.0.1"); ("leaf1-vrouter", "10.0.0.2");
     ("leaf2-vrouter", "10.0.0.3")].
Proof. vm_compute. reflexivity. Qed.

(** ** Claims about the link addresses *)

Lemma skip_block_spec (count : Z) (available_ips : list string) :
  0 <= count ->
  skip_block count available_ips
  = if (Z.to_nat count <=? length available_ips)%nat
    then Ok (drop (Z.to_nat count) available_ips)
    else Raise IndexError.
Proof.
  intros Hcount. unfold skip_block.
  set (cond := fun st : Z * list string => st.1 <? count).
  set (body := fun st : Z * list string => _ ≫= _).
  assert (Hgen : forall fuel (i : nat) l,
    (i <= Z.to_nat count)%nat -> (Z.to_nat count - i < fuel)%nat ->
    while_loop fuel cond body (Z.of_nat i, l)
    = if (Z.to_nat count - i <=? length l)%nat
      then Ok (count, drop (Z.to_nat count - i) l)
      else Raise IndexError).
  { induction fuel as [|fuel IH]; intros i l Hi Hfuel; [lia|].
    rewrite while_loop_S.
    change (cond (Z.of_nat i, l)) with (Z.of_nat i <? count).
    destruct (Z.ltb_spec (Z.of_nat i) count) as [Hlt|Hge].
    - change (body (Z.of_nat i, l))
        with (py_pop0 l ≫= fun l' => Ok (Z.of_nat i + 1, l')).
      destruct l as [|x l]; simpl.
      + destruct (Nat.leb_spec (Z.to_nat count - i) 0); [lia|done].
      + replace (Z.of_nat i + 1) with (Z.of_nat (Datatypes.S i)) by lia.
        rewrite IH by lia.
        replace (Z.to_nat count - i)%nat
          with (Datatypes.S (Z.to_nat count - Datatypes.S i)) by lia.
        reflexivity.
    - replace (Z.to_nat count - i)%nat with 0%nat by lia. simpl.
      f_equal. f_equal. lia. }
  change (0, available_ips) with (Z.of_nat 0, available_ips).
  rewrite Hgen by lia. rewrite Nat.sub_0_r.
  by destruct (Z.to_nat count <=? length available_ips)%nat.
Qed.

Lemma interface_requests_app (d1 d2 : list command) :
  interface_requests (d1 ++ d2)
  = interface_requests d1 ++ interface_requests d2.
Proof. apply flat_map_app. Qed.

Lemma link_quiet_requests (d : list command) :
  forallb link_quiet d = true ->
  interface_requests d = [] /\ interface_switches d = [].
Proof.
  induction d as [|c d IH]; simpl; [done|].
  intros [Hc Hd]%andb_prop. destruct (IH Hd) as [-> ->].
  by destruct c.
Qed.

Lemma link_addresses_sublist (block links : nat) (available_ips : list string) :
  (2 <= block)%nat ->
  sublist (link_addresses block links available_ips) available_ips.
Proof.
  intros Hblock. revert available_ips.
  induction links as [|links IH]; intros ips; simpl.
  - apply sublist_nil_l.
  - rewrite <- (take_drop block ips) at 3.
    apply sublist_app; [|apply IH].
    assert (take 2 ips = take 2 (take block ips)) as ->
      by (rewrite take_take; f_equal; lia).
    apply sublist_take.
Qed.

Section LinkTrace.
Context {cp : ControlPlane} {so : SetOrder}.

Lemma emits_bind_pure {A B : Type} (r : result A) (f : A -> M B)
    (Q : result B -> list command -> Prop) :
  match r with
  | Ok a => emits (f a) Q
  | Raise e => Q (Raise e) []
  | OutOfFuel => Q OutOfFuel []
  end ->
  emits (pure r ≫= f) Q.
Proof.
  intros H σ. unfold mbind, M_bind, pure.
  destruct r as [a|e|]; [apply H| |]; exists []; by rewrite app_nil_r.
Qed.

Lemma delete_trunk_quiet (switch switch_port peer_switch : string) :
  only link_quiet (fun _ => True) (delete_trunk switch switch_port peer_switch).
Proof.
  unfold delete_trunk.
  eapply only_bind; [by apply (only_run_cli _ (fun _ => True))|].
  intros out _. destruct (0 <? _); [|by apply only_ret].
  eapply only_bind;
    [apply (only_pure _ (fun _ => True)); [apply py_index_fuel|done]|].
  intros trunk0 _.
  eapply only_bind; [by apply (only_run_cli _ (fun _ => True))|].
  intros out' _. by apply only_ret.
Qed.

End LinkTrace.

Lemma link_block_count (n r : Z) :
  supernet_mapping n = Some r ->
  py_shiftl_1 (32 - n) = Ok (r + 2) /\ 2 <= r.
Proof.
  intros Hmap. apply supernet_mapping_Some in Hmap.
  destruct Hmap as [[-> ->]|[[-> ->]|[[-> ->]|[-> ->]]]];
    split; (reflexivity || lia).
Qed.

Lemma NoDup_map_on {A B : Type} (f : A -> B) (l : list A) :
  (forall x y, x ∈ l -> y ∈ l -> f x = f y -> x = y) ->
  NoDup l -> NoDup (map f l).
Proof.
  intros Hf Hl. induction Hl as [|x l Hx Hl IH]; simpl; constructor.
  - intros Hin%list_elem_of_In%in_map_iff. destruct Hin as (y & Hy & Hin).
    apply list_elem_of_In in Hin.
    apply Hf in Hy; [|by right|by left]. by subst y.
  - apply IH. intros y z Hy Hz. apply Hf; by right.
Qed.

Lemma NoDup_concat_map {A B : Type} (f : A -> list B) (l : list A) :
  NoDup l ->
  (forall x, x ∈ l -> NoDup (f x)) ->
  (forall x y b, x ∈ l -> y ∈ l -> b ∈ f x -> b ∈ f y -> x = y) ->
  NoDup (concat (map f l)).
Proof.
  intros Hl. induction Hl as [|x l Hx Hl IH]; intros Hin Hcross; simpl.
  - constructor.
  - apply NoDup_app. split; [apply Hin; by left|]. split.
    + intros b Hb Hb'.
      apply list_elem_of_In, in_concat in Hb' as (block & Hblock & Hb').
      apply in_map_iff in Hblock as (y & <- & Hy).
      apply list_elem_of_In in Hy, Hb'.
      assert (x = y) by (apply (Hcross x y b); [by left|by right|done|done]).
      by subst y.
    + apply IH.
      * intros y Hy. apply Hin. by right.
      * intros y z b Hy Hz. apply Hcross; by right.
Qed.

(** ** Sub-blocks of the planner's list *)

Lemma chunked_app {A : Type} (P : list A -> Prop) (l1 l2 : list A) :
  chunked P l1 -> chunked P l2 -> chunked P (l1 ++ l2).
Proof.
  induction 1 as [|c l Hc Hl IH]; intros H2; [done|].
  rewrite <- List.app_assoc. constructor; auto.
Qed.

Lemma chunked_snoc {A : Type} (P : list A -> Prop) (l c : list A) :
  chunked P l -> P c -> chunked P (l ++ c).
Proof.
  intros Hl Hc. apply chunked_app; [done|].
  rewrite <- (app_nil_r c). by constructor; [|constructor].
Qed.

Lemma chunked_map {A B : Type} (f : A -> B) (P : list A -> Prop)
    (Q : list B -> Prop) (l : list A) :
  (forall c, P c -> Q (map f c)) -> chunked P l -> chunked Q (map f l).
Proof.
  intros Hf. induction 1 as [|c l Hc Hl IH]; simpl; [constructor|].
  rewrite map_app. constructor; auto.
Qed.

Lemma chunked_impl {A : Type} (P Q : list A -> Prop) (l : list A) :
  (forall c, P c -> Q c) -> chunked P l -> chunked Q l.
Proof. intros HPQ. induction 1; constructor; auto. Qed.

Lemma chunked_concat {A : Type} (P : list A -> Prop) (ls : list (list A)) :
  Forall (chunked P) ls -> chunked P (concat ls).
Proof.
  induction 1 as [|l ls Hl Hls IH]; simpl; [constructor|].
  by apply chunked_app.
Qed.

Lemma chunked_length {A : Type} (P : list A -> Prop) (r : nat) (l : list A) :
  (forall c, P c -> length c = r) -> chunked P l ->
  exists blocks : nat, length l = (blocks * r)%nat.
Proof.
  intros Hlen. induction 1 as [|c l Hc Hl [blocks IH]].
  - by exists 0%nat.
  - exists (Datatypes.S blocks). rewrite length_app, (Hlen c Hc), IH. lia.
Qed.

Lemma chunked_drop {A : Type} (P : list A -> Prop) (r k : nat) (l : list A) :
  (forall c, P c -> length c = r) -> chunked P l ->
  chunked P (drop (k * r) l).
Proof.
  intros Hlen Hl. revert l Hl. induction k as [|k IH]; intros l Hl.
  - by rewrite drop_0.
  - destruct Hl as [|c l Hc Hl]; [rewrite drop_nil; constructor|].
    replace (Datatypes.S k * r)%nat with (length c + k * r)%nat
      by (rewrite (Hlen c Hc); lia).
    rewrite drop_app_add. by apply IH.
Qed.

(** ** The host loop on any block *)

(** Whatever the end [hi] of the last octet's range, the host loop that
    starts at a multiple [i0] of the sub-block size produces whole sub-blocks
    only, each at a multiple of the sub-block size, with host numbers below
    255 and none twice. *)
Lemma host_blocks_general (r hi i0 hostmin hostmax : Z) :
  0 <= r -> (r + 2 | i0) -> (r + 2 | 256) -> 0 <= i0 <= hi -> hi <= 255 ->
  exists v, host_blocks r hi (HostVars i0 0 hostmin hostmax []) = Ok v /\
            chunked (host_chunk r i0 255) (hv_ips_list v) /\
            Forall (fun h => i0 < h < 255) (hv_ips_list v) /\
            NoDup (hv_ips_list v).
Proof.
  intros Hr Hi0 Htop Hrange Hhi. unfold host_blocks.
  set (Inv := fun v : host_vars =>
    (r + 2 | hv_i v) /\ i0 <= hv_i v /\
    (hv_count v = hv_i v \/ (hv_count v = 0 /\ hv_i v = i0)) /\
    chunked (host_chunk r i0 255) (hv_ips_list v) /\
    Forall (fun h => i0 < h /\ h + 1 < hv_i v /\ h < 255) (hv_ips_list v) /\
    NoDup (hv_ips_list v)).
  destruct (while_loop_rule Inv
              (fun v => if hv_count v <? hi
                        then Datatypes.S (Z.to_nat (hi - hv_i v - (r + 2)))
                        else 0%nat)
              (fun v => hv_count v <? hi) (host_block r)) with
    (fuel := (2 + Z.to_nat (hi - i0))%nat) (s := HostVars i0 0 hostmin hostmax [])
    as (v & Hv & HInv & _).
  - intros v (Hdiv & Hb & Hc & Hchunks & Hall & Hnd) Hcond.
    pose proof Hcond as Hlt. apply Z.ltb_lt in Hlt.
    assert (hv_i v <= hi) by lia.
    pose proof (divide_next_multiple (r + 2) (hv_i v) 256 ltac:(lia) Hdiv
                  Htop ltac:(lia)).
    rewrite host_block_spec by done. eexists; split; [done|].
    split.
    + unfold Inv; simpl. split; [|split; [|split; [|split; [|split]]]].
      * replace (hv_i v + r + 2) with (hv_i v + (r + 2)) by lia.
        apply Z.divide_add_r; [done|apply Z.divide_refl].
      * lia.
      * by left.
      * apply chunked_snoc; [done|]. exists (hv_i v).
        split; [done|]. split; [lia|]. split; [lia|done].
      * apply Forall_app. split.
        -- eapply Forall_impl; [exact Hall|]. simpl. lia.
        -- apply Forall_forall. intros h Hh. apply elem_of_seqZ in Hh. lia.
      * apply NoDup_app. split; [done|]. split; [|apply NoDup_seqZ].
        intros h Hh1 Hh2. apply elem_of_seqZ in Hh2.
        rewrite Forall_forall in Hall. specialize (Hall h Hh1). lia.
    + rewrite Hcond. simpl.
      destruct (Z.ltb_spec (hv_i v + r + 2) hi); lia.
  - unfold Inv; simpl. split; [done|]. split; [lia|]. split; [right; lia|].
    split; [constructor|]. split; [constructor|apply NoDup_nil_2].
  - simpl. destruct (0 <? hi); lia.
  - exists v. split; [done|].
    destruct HInv as (_ & _ & _ & Hchunks & Hall & Hnd).
    split; [done|]. split; [|done].
    eapply Forall_impl; [exact Hall|]. simpl. lia.
Qed.

Lemma hosts_from_general (r hi i : Z) :
  0 <= r -> (r + 2 | i) -> (r + 2 | 256) -> 0 <= i <= hi -> hi <= 255 ->
  exists hs, hosts_from r hi i = Ok hs /\
             chunked (host_chunk r i 255) hs /\
             Forall (fun h => i < h < 255) hs /\ NoDup hs.
Proof.
  intros Hr Hi Htop Hle Hhi. unfold hosts_from.
  destruct (host_blocks_general r hi i 0 0 Hr Hi Htop Hle Hhi)
    as (v & -> & H1 & H2 & H3).
  by eexists.
Qed.

Lemma first_offset_multiple (supernet r a3 : Z) :
  0 <= a3 <= 255 ->
  supernet_mapping supernet = Some r ->
  2 <= r /\ (r + 2 | 256) /\ (r + 2 | a3 - a3 mod (r + 2)) /\
  0 <= a3 - a3 mod (r + 2) <= a3.
Proof.
  intros Ha H%supernet_mapping_Some.
  destruct H as [[-> ->]|[[-> ->]|[[-> ->]|[-> ->]]]];
    (split; [lia|]);
    (split; [apply mod0_divide; [lia|reflexivity]|]);
    (split; [apply mod0_divide; [lia|Z.div_mod_to_equations; lia]|]);
    Z.div_mod_to_equations; lia.
Qed.

(** The planner's list on any block: the host numbers of each third octet
    are whole sub-blocks, below 255 and without repeats. *)
Lemma planner_octets
    (address_str cidr_str supernet_str : string)
    (a0 a1 a2 a3 cidr supernet : Z) :
  parse_quad address_str = Some [a0; a1; a2; a3] ->
  py_int cidr_str = Ok cidr -> 0 <= cidr <= 32 ->
  py_int supernet_str = Ok supernet -> 27 <= supernet <= 30 ->
  exists r (hs : Z -> list Z),
    supernet_mapping supernet = Some r /\
    calculate_link_ip_addresses address_str cidr_str supernet_str
    = Ok (concat (map (fun t =>
            render_octet (octet_broadcast cidr 0 a0)
              (octet_broadcast cidr 1 a1) supernet_str t (hs t))
            (seqZ (octet_network cidr 2 a2)
               (octet_broadcast cidr 2 a2 + 1 - octet_network cidr 2 a2)))) /\
    forall t,
      chunked (host_chunk r 0 255) (hs t) /\
      Forall (fun h => 0 < h < 255) (hs t) /\ NoDup (hs t).
Proof.
  intros Hq Hcidr Hc Hsn Hs.
  destruct (calculate_link_ip_addresses_total _ _ _ _ _ _ _ _ _
              Hq Hcidr Hc Hsn Hs)
    as (r & h_first & h_rest & Hmap & Hfirst & Hrest & Hips).
  destruct (parse_quad_Some _ _ _ _ _ Hq)
    as (_ & _ & _ & _ & _ & _ & _ & _ & _ & B0 & B1 & B2 & B3).
  destruct (first_offset_multiple supernet r a3 B3 Hmap)
    as (Hr & Htop & Hdiv & Hlo).
  pose proof (octet_broadcast_range cidr 3 a3 B3) as R3.
  exists r, (fun t => if t =? octet_network cidr 2 a2 then h_first else h_rest).
  split; [done|]. split; [done|]. intros t.
  destruct (t =? octet_network cidr 2 a2).
  - destruct (hosts_from_general r (octet_broadcast cidr 3 a3)
                (a3 - a3 mod (r + 2)) ltac:(lia) Hdiv Htop ltac:(lia)
                ltac:(lia)) as (hs' & Hhs & Hchunks & Hall & Hnd).
    rewrite Hfirst in Hhs. injection Hhs as <-.
    split; [|split; [|done]].
    + eapply chunked_impl; [|exact Hchunks].
      intros c (i & Hi & Hlo' & Hhi' & ->). exists i.
      split; [done|]. split; [lia|]. split; [lia|done].
    + eapply Forall_impl; [exact Hall|]. simpl. lia.
  - destruct (hosts_from_general r (octet_broadcast cidr 3 a3) 0
                ltac:(lia) (Z.divide_0_r _) Htop ltac:(lia) ltac:(lia))
      as (hs' & Hhs & Hchunks & Hall & Hnd).
    rewrite Hrest in Hhs. by injection Hhs as <-.
Qed.

(** The planner's list holds no address twice, on any block. *)
Lemma planner_distinct
    (address_str cidr_str supernet_str : string)
    (a0 a1 a2 a3 cidr supernet : Z) :
  parse_quad address_str = Some [a0; a1; a2; a3] ->
  py_int cidr_str = Ok cidr -> 0 <= cidr <= 32 ->
  py_int supernet_str = Ok supernet -> 27 <= supernet <= 30 ->
  exists ips,
    calculate_link_ip_addresses address_str cidr_str supernet_str = Ok ips /\
    NoDup ips.
Proof.
  intros Hq Hcidr Hc Hsn Hs.
  destruct (planner_octets _ _ _ _ _ _ _ _ _ Hq Hcidr Hc Hsn Hs)
    as (r & hs & Hmap & -> & Hhosts).
  destruct (parse_quad_Some _ _ _ _ _ Hq)
    as (_ & _ & _ & _ & _ & _ & _ & _ & _ & B0 & B1 & B2 & B3).
  eexists; split; [done|].
  pose proof (octet_broadcast_range cidr 0 a0 B0) as R0.
  pose proof (octet_broadcast_range cidr 1 a1 B1) as R1.
  pose proof (octet_broadcast_range cidr 2 a2 B2) as R2.
  assert (Hvalue : forall t s,
            octet_network cidr 2 a2 <= t <= octet_broadcast cidr 2 a2 ->
            s ∈ render_octet (octet_broadcast cidr 0 a0)
                  (octet_broadcast cidr 1 a1) supernet_str t (hs t) ->
            exists h, 0 <= h <= 255 /\
              address_of s
              = Some (ip_value [octet_broadcast cidr 0 a0;
                                octet_broadcast cidr 1 a1; t; h])).
  { intros t s Ht Hin. unfold render_octet in Hin.
    apply list_elem_of_In, in_map_iff in Hin as (h & <- & Hh).
    apply list_elem_of_In in Hh.
    destruct (Hhosts t) as (_ & Hall & _). rewrite Forall_forall in Hall.
    specialize (Hall h Hh). exists h. split; [lia|].
    apply address_of_render; lia. }
  apply (NoDup_concat_map
           (fun t => render_octet (octet_broadcast cidr 0 a0)
                       (octet_broadcast cidr 1 a1) supernet_str t (hs t))).
  - apply NoDup_seqZ.
  - intros t Ht%elem_of_seqZ. destruct (Hhosts t) as (_ & Hall & Hnd).
    rewrite Forall_forall in Hall.
    unfold render_octet. apply NoDup_map_on; [|done].
    intros h h' Hh Hh' Heq. apply (f_equal address_of) in Heq.
    pose proof (Hall h Hh). pose proof (Hall h' Hh').
    rewrite !address_of_render in Heq by lia.
    injection Heq as Heq. rewrite !ip_value_4 in Heq. lia.
  - intros t t' s Ht%elem_of_seqZ Ht'%elem_of_seqZ Hin Hin'.
    destruct (Hvalue t s ltac:(lia) Hin) as (h & Hh & Hs1).
    destruct (Hvalue t' s ltac:(lia) Hin') as (h' & Hh' & Hs2).
    rewrite Hs1 in Hs2. injection Hs2 as Heq. rewrite !ip_value_4 in Heq.
    lia.
Qed.

(** The planner's list is made of whole sub-blocks, on any block. *)
Lemma planner_blocks
    (address_str cidr_str supernet_str : string)
    (a0 a1 a2 a3 cidr supernet : Z) :
  parse_quad address_str = Some [a0; a1; a2; a3] ->
  py_int cidr_str = Ok cidr -> 0 <= cidr <= 32 ->
  py_int supernet_str = Ok supernet -> 27 <= supernet <= 30 ->
  exists r ips,
    supernet_mapping supernet = Some r /\
    calculate_link_ip_addresses address_str cidr_str supernet_str = Ok ips /\
    chunked (address_chunk (octet_broadcast cidr 0 a0)
               (octet_broadcast cidr 1 a1) supernet_str r
               (octet_network cidr 2 a2) (octet_broadcast cidr 2 a2)) ips.
Proof.
  intros Hq Hcidr Hc Hsn Hs.
  destruct (planner_octets _ _ _ _ _ _ _ _ _ Hq Hcidr Hc Hsn Hs)
    as (r & hs & Hmap & -> & Hhosts).
  exists r. eexists. split; [done|]. split; [done|].
  apply chunked_concat, Forall_forall. intros block Hblock.
  apply list_elem_of_In, in_map_iff in Hblock as (t & <- & Ht).
  apply list_elem_of_In, elem_of_seqZ in Ht.
  destruct (Hhosts t) as (Hchunks & _ & _).
  unfold render_octet. eapply chunked_map; [|exact Hchunks].
  intros c (i & Hdiv & Hi & Hhi & ->). exists t, i.
  repeat split; try done; lia.
Qed.

Lemma prefix_sublist {A : Type} (l1 l2 : list A) :
  l1 `prefix_of` l2 -> l1 `sublist_of` l2.
Proof. intros [k ->]. by apply sublist_inserts_r. Qed.

(** ** Links, session by session *)

Lemma interface_adds_app (d1 d2 : list command) :
  interface_adds (d1 ++ d2) = interface_adds d1 ++ interface_adds d2.
Proof. apply flat_map_app. Qed.

Lemma outside_links_quiet (d : list command) :
  forallb outside_links d = true ->
  interface_requests d = [] /\ interface_adds d = [].
Proof.
  induction d as [|c d IH]; simpl; [done|].
  intros [Hc Hd]%andb_prop. destruct (IH Hd) as [-> ->].
  by destruct c.
Qed.

Section LinkSteps.
Context {cp : ControlPlane} {so : SetOrder}.

Lemma delete_trunk_fuel (switch switch_port peer_switch : string)
    (σ : session) :
  (delete_trunk switch switch_port peer_switch σ).1 <> OutOfFuel.
Proof.
  destruct (delete_trunk_quiet switch switch_port peer_switch σ)
    as (d & _ & Hpost).
  by destruct (delete_trunk _ _ _ σ) as [[out|e|] σ'].
Qed.

(** [delete_trunk] asks for no interface and adds none. *)
Lemma delete_trunk_log (switch switch_port peer_switch : string)
    (σ σ' : session) (res : result string) :
  delete_trunk switch switch_port peer_switch σ = (res, σ') ->
  exists d, log σ' = log σ ++ d /\
            interface_requests d = [] /\ interface_adds d = [].
Proof.
  unfold delete_trunk. cbv zeta. rewrite bind_eq.
  destruct (run_cli (PortShowTrunk _ _ _) σ) as [[out|e|] σ1] eqn:Hshow.
  - destruct (0 <? _).
    + rewrite pure_bind_eq.
      destruct (py_index _ 0) as [trunk0|e|].
      * rewrite bind_eq.
        destruct (run_cli (TrunkDelete switch trunk0) σ1)
          as [[out'|e|] σ2] eqn:Hdelete;
          [rewrite ret_eq| |]; intros [= _ <-];
          exists [PortShowTrunk switch switch_port peer_switch;
                  TrunkDelete switch trunk0];
          by rewrite (run_cli_log _ _ _ _ Hdelete), (run_cli_log _ _ _ _ Hshow),
               <- List.app_assoc.
      * intros [= _ <-].
        exists [PortShowTrunk switch switch_port peer_switch].
        by rewrite (run_cli_log _ _ _ _ Hshow).
      * intros [= _ <-].
        exists [PortShowTrunk switch switch_port peer_switch].
        by rewrite (run_cli_log _ _ _ _ Hshow).
    + rewrite ret_eq. intros [= _ <-].
      exists [PortShowTrunk switch switch_port peer_switch].
      by rewrite (run_cli_log _ _ _ _ Hshow).
  - intros [= _ <-]. exists [PortShowTrunk switch switch_port peer_switch].
    by rewrite (run_cli_log _ _ _ _ Hshow).
  - intros [= _ <-]. exists [PortShowTrunk switch switch_port peer_switch].
    by rewrite (run_cli_log _ _ _ _ Hshow).
Qed.

(** The runs of [create_interface]. *)
Lemma create_interface_cases (switch ip port : string) (σ : session) :
  match create_interface switch ip port σ with
  | (Ok _, σ') => interface_bound switch ip port σ σ'
  | (Raise e, σ') => interface_fails switch ip port σ e σ'
  | (OutOfFuel, _) => False
  end.
Proof.
  unfold create_interface. cbv zeta. rewrite bind_eq.
  pose proof (run_cli_fuel (VrouterShowLocation switch) σ) as Hfuel1.
  destruct (run_cli (VrouterShowLocation switch) σ)
    as [[names|e|] σ1] eqn:Hlocation; [| |done].
  2: { by apply interface_location_fails. }
  rewrite bind_eq.
  pose proof (run_cli_fuel (VrouterInterfaceShow port ip) σ1) as Hfuel2.
  destruct (run_cli (VrouterInterfaceShow port ip) σ1)
    as [[shown|e|] σ2] eqn:Hshow; [| |done].
  2: { by eapply interface_show_fails. }
  rewrite pure_bind_eq.
  destruct (py_index (py_split names) 0) as [vrouter|e|] eqn:Hindex.
  3: { by apply py_index_fuel in Hindex. }
  2: { by eapply interface_no_vrouter. }
  destruct (py_in vrouter (list_set (py_split shown))) eqn:Hin.
  - change (negb true) with false. cbv iota. rewrite ret_eq.
    apply py_in_true in Hin. rewrite list_set_elem in Hin.
    by eapply interface_present.
  - change (negb false) with true. cbv iota. rewrite bind_eq.
    apply py_in_false in Hin. rewrite list_set_elem in Hin.
    pose proof (run_cli_fuel (VrouterInterfaceAdd vrouter ip port) σ2)
      as Hfuel3.
    destruct (run_cli (VrouterInterfaceAdd vrouter ip port) σ2)
      as [[out|e|] σ3] eqn:Hadd; [| |done].
    + rewrite ret_eq. by eapply interface_added.
    + by eapply interface_add_fails.
Qed.

(** What a bound interface leaves in the log: one request for the address,
    and at most one interface added, with that address. *)
Lemma interface_bound_log (switch ip port : string) (σ σ' : session) :
  interface_bound switch ip port σ σ' ->
  exists d, log σ' = log σ ++ d /\ interface_requests d = [ip] /\
            interface_switches d = [switch] /\
            interface_adds d `sublist_of` [ip].
Proof.
  intros [σ0 σ1 σ2 σ3 names shown vrouter out Hlocation Hshow _ _ Hadd
         |σ0 σ1 σ2 names shown vrouter Hlocation Hshow _ _].
  - exists [VrouterShowLocation switch; VrouterInterfaceShow port ip;
            VrouterInterfaceAdd vrouter ip port].
    rewrite (run_cli_log _ _ _ _ Hadd), (run_cli_log _ _ _ _ Hshow),
      (run_cli_log _ _ _ _ Hlocation), <- !List.app_assoc.
    done.
  - exists [VrouterShowLocation switch; VrouterInterfaceShow port ip].
    rewrite (run_cli_log _ _ _ _ Hshow), (run_cli_log _ _ _ _ Hlocation),
      <- !List.app_assoc.
    repeat split; try done. simpl. apply sublist_nil_l.
Qed.

Lemma interface_fails_log (switch ip port : string) (σ σ' : session)
    (e : exn) :
  interface_fails switch ip port σ e σ' ->
  exists d, log σ' = log σ ++ d /\ interface_requests d `prefix_of` [ip] /\
            interface_adds d `sublist_of` interface_requests d.
Proof.
  intros [σ0 σ1 e0 Hlocation
         |σ0 σ1 σ2 names e0 Hlocation Hshow
         |σ0 σ1 σ2 names shown e0 Hlocation Hshow _
         |σ0 σ1 σ2 σ3 names shown vrouter e0 Hlocation Hshow _ _ Hadd].
  - exists [VrouterShowLocation switch].
    rewrite (run_cli_log _ _ _ _ Hlocation). simpl.
    split; [done|]. split; [apply prefix_nil|done].
  - exists [VrouterShowLocation switch; VrouterInterfaceShow port ip].
    rewrite (run_cli_log _ _ _ _ Hshow), (run_cli_log _ _ _ _ Hlocation),
      <- !List.app_assoc. simpl.
    split; [done|]. split; [done|apply sublist_nil_l].
  - exists [VrouterShowLocation switch; VrouterInterfaceShow port ip].
    rewrite (run_cli_log _ _ _ _ Hshow), (run_cli_log _ _ _ _ Hlocation),
      <- !List.app_assoc. simpl.
    split; [done|]. split; [done|apply sublist_nil_l].
  - exists [VrouterShowLocation switch; VrouterInterfaceShow port ip;
            VrouterInterfaceAdd vrouter ip port].
    rewrite (run_cli_log _ _ _ _ Hadd), (run_cli_log _ _ _ _ Hshow),
      (run_cli_log _ _ _ _ Hlocation), <- !List.app_assoc. simpl.
    done.
Qed.

End LinkSteps.

Lemma link_addresses_add (block k1 k2 : nat) (ips : list string) :
  link_addresses block (k1 + k2) ips
  = link_addresses block k1 ips
    ++ link_addresses block k2 (drop (k1 * block) ips).
Proof.
  revert ips. induction k1 as [|k1 IH]; intros ips; simpl.
  - by rewrite drop_0.
  - by rewrite IH, <- List.app_assoc, drop_drop.
Qed.

Section LinkLogs.
Context {cp : ControlPlane} {so : SetOrder}.

(** What a link leaves in the log: its two addresses are asked for, the
    leaf's first, and no other address is added. *)
Lemma link_ends_log (leaf spine lport ip_leaf ip_spine : string)
    (σ σ' : session) :
  link_ends leaf spine lport ip_leaf ip_spine σ σ' ->
  exists d, log σ' = log σ ++ d /\
            interface_requests d = [ip_leaf; ip_spine] /\
            interface_adds d `sublist_of` [ip_leaf; ip_spine].
Proof.
  intros [σ0 σ1 σ2 σ3 σ4 σ5 out1 sport out3 Htrunk1 Hleaf Hrport Htrunk2
            Hspine].
  destruct (delete_trunk_log _ _ _ _ _ _ Htrunk1) as (d1 & Hd1 & Hr1 & Ha1).
  destruct (interface_bound_log _ _ _ _ _ Hleaf)
    as (d2 & Hd2 & Hr2 & _ & Ha2).
  destruct (delete_trunk_log _ _ _ _ _ _ Htrunk2) as (d4 & Hd4 & Hr4 & Ha4).
  destruct (interface_bound_log _ _ _ _ _ Hspine)
    as (d5 & Hd5 & Hr5 & _ & Ha5).
  exists (d1 ++ d2 ++ [PortShowRport leaf lport] ++ d4 ++ d5).
  rewrite Hd5, Hd4, (run_cli_log _ _ _ _ Hrport), Hd2, Hd1.
  rewrite <- !List.app_assoc. split; [done|].
  rewrite !interface_requests_app, !interface_adds_app,
    Hr1, Hr2, Hr4, Hr5, Ha1, Ha4.
  split; [done|]. simpl.
  change [ip_leaf; ip_spine] with ([ip_leaf] ++ [ip_spine]).
  by apply sublist_app.
Qed.

Lemma link_fails_log (block : nat) (leaf spine lport : string)
    (ips : list string) (σ σ' : session) (e : exn) :
  link_fails block leaf spine lport ips σ e σ' ->
  exists d, log σ' = log σ ++ d /\
            interface_requests d `prefix_of` take 2 ips /\
            interface_adds d `sublist_of` interface_requests d.
Proof.
  intros [σ0
         |ip_leaf rest σ0 σ1 e0 Htrunk1
         |ip_leaf rest σ0 σ1 σ2 out1 e0 Htrunk1 Hleaf
         |ip_leaf σ0 σ1 σ2 out1 Htrunk1 Hleaf
         |ip_leaf ip_spine rest σ0 σ1 σ2 σ3 out1 e0 Htrunk1 Hleaf Hrport
         |ip_leaf ip_spine rest σ0 σ1 σ2 σ3 σ4 out1 sport e0 Htrunk1 Hleaf
            Hrport Htrunk2
         |ip_leaf ip_spine rest σ0 σ1 σ2 σ3 σ4 σ5 out1 sport out3 e0 Htrunk1
            Hleaf Hrport Htrunk2 Hspine
         |ip_leaf ip_spine rest σ0 σ1 Hends Hshort].
  - exists []. rewrite app_nil_r. by repeat split.
  - destruct (delete_trunk_log _ _ _ _ _ _ Htrunk1) as (d1 & Hd1 & Hr1 & Ha1).
    exists d1. rewrite Hr1, Ha1. split; [done|]. split; [apply prefix_nil|done].
  - destruct (delete_trunk_log _ _ _ _ _ _ Htrunk1) as (d1 & Hd1 & Hr1 & Ha1).
    destruct (interface_fails_log _ _ _ _ _ _ Hleaf) as (d2 & Hd2 & Hr2 & Ha2).
    exists (d1 ++ d2). rewrite Hd2, Hd1, <- List.app_assoc.
    rewrite interface_requests_app, interface_adds_app, Hr1, Ha1.
    split; [done|]. split; [|done]. simpl.
    etrans; [exact Hr2|]. destruct rest; [done|].
    by apply prefix_cons, prefix_nil.
  - destruct (delete_trunk_log _ _ _ _ _ _ Htrunk1) as (d1 & Hd1 & Hr1 & Ha1).
    destruct (interface_bound_log _ _ _ _ _ Hleaf)
      as (d2 & Hd2 & Hr2 & _ & Ha2).
    exists (d1 ++ d2). rewrite Hd2, Hd1, <- List.app_assoc.
    rewrite interface_requests_app, interface_adds_app, Hr1, Ha1, Hr2.
    done.
  - destruct (delete_trunk_log _ _ _ _ _ _ Htrunk1) as (d1 & Hd1 & Hr1 & Ha1).
    destruct (interface_bound_log _ _ _ _ _ Hleaf)
      as (d2 & Hd2 & Hr2 & _ & Ha2).
    exists (d1 ++ d2 ++ [PortShowRport leaf lport]).
    rewrite (run_cli_log _ _ _ _ Hrport), Hd2, Hd1, <- !List.app_assoc.
    rewrite !interface_requests_app, !interface_adds_app, Hr1, Ha1, Hr2.
    simpl. rewrite !app_nil_r. split; [done|].
    split; [by apply prefix_cons, prefix_nil|done].
  - destruct (delete_trunk_log _ _ _ _ _ _ Htrunk1) as (d1 & Hd1 & Hr1 & Ha1).
    destruct (interface_bound_log _ _ _ _ _ Hleaf)
      as (d2 & Hd2 & Hr2 & _ & Ha2).
    destruct (delete_trunk_log _ _ _ _ _ _ Htrunk2) as (d4 & Hd4 & Hr4 & Ha4).
    exists (d1 ++ d2 ++ [PortShowRport leaf lport] ++ d4).
    rewrite Hd4, (run_cli_log _ _ _ _ Hrport), Hd2, Hd1, <- !List.app_assoc.
    rewrite !interface_requests_app, !interface_adds_app, Hr1, Ha1, Hr2,
      Hr4, Ha4.
    simpl. rewrite !app_nil_r. split; [done|].
    split; [by apply prefix_cons, prefix_nil|done].
  - destruct (delete_trunk_log _ _ _ _ _ _ Htrunk1) as (d1 & Hd1 & Hr1 & Ha1).
    destruct (interface_bound_log _ _ _ _ _ Hleaf)
      as (d2 & Hd2 & Hr2 & _ & Ha2).
    destruct (delete_trunk_log _ _ _ _ _ _ Htrunk2) as (d4 & Hd4 & Hr4 & Ha4).
    destruct (interface_fails_log _ _ _ _ _ _ Hspine)
      as (d5 & Hd5 & Hr5 & Ha5).
    exists (d1 ++ d2 ++ [PortShowRport leaf lport] ++ d4 ++ d5).
    rewrite Hd5, Hd4, (run_cli_log _ _ _ _ Hrport), Hd2, Hd1,
      <- !List.app_assoc.
    rewrite !interface_requests_app, !interface_adds_app, Hr1, Ha1, Hr2,
      Hr4, Ha4.
    simpl. split; [done|]. split.
    + by apply prefix_cons.
    + change (ip_leaf :: interface_requests d5)
        with ([ip_leaf] ++ interface_requests d5).
      by apply sublist_app.
  - destruct (link_ends_log _ _ _ _ _ _ _ Hends) as (d & Hd & Hr & Ha).
    exists d. rewrite Hr. done.
Qed.

Lemma ports_bound_fuel (block : nat) (leaf spine : string)
    (ports ips : list string) (σ σ' : session) (res : result (list string)) :
  ports_bound block leaf spine ports ips σ res σ' -> res <> OutOfFuel.
Proof. by induction 1. Qed.

Lemma links_bound_fuel (block : nat) (pairs : list (string * string))
    (ips : list string) (σ σ' : session) (res : result (list string)) :
  links_bound block pairs ips σ res σ' -> res <> OutOfFuel.
Proof. by induction 1. Qed.

Lemma ports_bound_log (block : nat) (leaf spine : string)
    (ports ips : list string) (σ σ' : session) (res : result (list string)) :
  ports_bound block leaf spine ports ips σ res σ' ->
  exists d (links : nat),
    log σ' = log σ ++ d /\
    interface_adds d `sublist_of` interface_requests d /\
    interface_requests d `prefix_of` link_addresses block links ips /\
    forall ips', res = Ok ips' ->
      interface_requests d = link_addresses block links ips /\
      ips' = drop (links * block) ips /\
      (links * block <= length ips)%nat.
Proof.
  induction 1 as [ips σ
                 |lport ports ip_leaf ip_spine rest σ σ1 σ2 res Hends Hblock
                    _ IH
                 |lport ports ips σ σ1 e Hfails].
  - exists [], 0%nat. rewrite app_nil_r. simpl.
    split; [done|]. split; [done|]. split; [done|].
    intros ips' [= <-]. rewrite drop_0. split; [done|]. split; [done|lia].
  - destruct (link_ends_log _ _ _ _ _ _ _ Hends) as (d1 & Hd1 & Hr1 & Ha1).
    destruct IH as (d2 & links & Hd2 & Ha2 & Hr2 & Hok).
    exists (d1 ++ d2), (Datatypes.S links).
    rewrite Hd2, Hd1, <- List.app_assoc.
    rewrite interface_requests_app, interface_adds_app, Hr1.
    split; [done|]. split; [by apply sublist_app|].
    split.
    + cbn [link_addresses]. change (take 2 (ip_leaf :: ip_spine :: rest))
        with [ip_leaf; ip_spine].
      by apply prefix_app.
    + intros ips' Hres. destruct (Hok ips' Hres) as (Hrq & Hips' & Hlen).
      cbn [link_addresses]. change (take 2 (ip_leaf :: ip_spine :: rest))
        with [ip_leaf; ip_spine].
      rewrite Hrq. split; [done|].
      rewrite Hips', drop_drop. rewrite length_drop in Hlen.
      split; [f_equal; lia|lia].
  - destruct (link_fails_log _ _ _ _ _ _ _ _ Hfails) as (d & Hd & Hr & Ha).
    exists d, 1%nat. split; [done|]. split; [done|]. split; [|done].
    simpl. by rewrite app_nil_r.
Qed.

Lemma links_bound_log (block : nat) (pairs : list (string * string))
    (ips : list string) (σ σ' : session) (res : result (list string)) :
  links_bound block pairs ips σ res σ' ->
  exists d (links : nat),
    log σ' = log σ ++ d /\
    interface_adds d `sublist_of` interface_requests d /\
    interface_requests d `prefix_of` link_addresses block links ips /\
    forall ips', res = Ok ips' ->
      interface_requests d = link_addresses block links ips /\
      ips' = drop (links * block) ips /\
      (links * block <= length ips)%nat.
Proof.
  induction 1 as [ips σ
                 |spine leaf pairs ips ips' σ σ1 σ2 σ3 out res Hquery Hports
                    _ IH
                 |spine leaf pairs ips σ σ1 σ2 out e Hquery Hports
                 |spine leaf pairs ips σ σ1 e Hquery].
  - exists [], 0%nat. rewrite app_nil_r. simpl.
    split; [done|]. split; [done|]. split; [done|].
    intros ips' [= <-]. rewrite drop_0. split; [done|]. split; [done|lia].
  - destruct (ports_bound_log _ _ _ _ _ _ _ _ Hports)
      as (d1 & k1 & Hd1 & Ha1 & _ & Hok1).
    destruct (Hok1 ips' eq_refl) as (Hr1 & Hips' & Hlen1).
    destruct IH as (d2 & k2 & Hd2 & Ha2 & Hr2 & Hok2).
    exists ([PortShowHostname leaf spine] ++ d1 ++ d2), (k1 + k2)%nat.
    rewrite Hd2, Hd1, (run_cli_log _ _ _ _ Hquery), <- !List.app_assoc.
    rewrite !interface_requests_app, !interface_adds_app, Hr1,
      link_addresses_add.
    simpl interface_requests. simpl interface_adds. rewrite !app_nil_l.
    split; [done|]. split; [rewrite <- Hr1; by apply sublist_app|].
    rewrite <- Hips'. split; [by apply prefix_app|].
    intros ips'' Hres. destruct (Hok2 ips'' Hres) as (Hrq & Hips'' & Hlen2).
    rewrite Hrq. split; [done|].
    rewrite Hips'', Hips', drop_drop. rewrite Hips', length_drop in Hlen2.
    split; [f_equal; lia|lia].
  - destruct (ports_bound_log _ _ _ _ _ _ _ _ Hports)
      as (d1 & k1 & Hd1 & Ha1 & Hr1 & _).
    exists ([PortShowHostname leaf spine] ++ d1), k1.
    rewrite Hd1, (run_cli_log _ _ _ _ Hquery), <- !List.app_assoc.
    rewrite !interface_requests_app, !interface_adds_app.
    simpl interface_requests. simpl interface_adds. rewrite !app_nil_l.
    done.
  - exists [PortShowHostname leaf spine], 0%nat.
    rewrite (run_cli_log _ _ _ _ Hquery). simpl.
    split; [done|]. split; [done|]. split; [apply prefix_nil|done].
Qed.

Lemma links_bound_app (block : nat) (pairs1 pairs2 : list (string * string))
    (ips ips1 : list string) (σ σ1 σ2 : session) (res : result (list string)) :
  links_bound block pairs1 ips σ (Ok ips1) σ1 ->
  links_bound block pairs2 ips1 σ1 res σ2 ->
  links_bound block (pairs1 ++ pairs2) ips σ res σ2.
Proof.
  intros H1. remember (Ok ips1) as res1 eqn:Hres1. revert ips1 Hres1.
  induction H1 as [ips σ
                  |spine leaf pairs ips ips' σ σ0 σ0' σ3 out res1 Hquery
                     Hports _ IH
                  |spine leaf pairs ips σ σ0 σ0' out e Hquery Hports
                  |spine leaf pairs ips σ σ0 e Hquery];
    intros ips1 Hres1 H2; [|simpl|done|done].
  - by injection Hres1 as ->.
  - eapply links_pair; [exact Hquery|exact Hports|]. by eapply IH.
Qed.

Lemma links_bound_app_fails (block : nat)
    (pairs1 pairs2 : list (string * string)) (ips : list string)
    (σ σ1 : session) (e : exn) :
  links_bound block pairs1 ips σ (Raise e) σ1 ->
  links_bound block (pairs1 ++ pairs2) ips σ (Raise e) σ1.
Proof.
  intros H1. remember (Raise e) as res1 eqn:Hres1. revert Hres1.
  induction H1 as [ips σ
                  |spine leaf pairs ips ips' σ σ0 σ0' σ3 out res1 Hquery
                     Hports _ IH
                  |spine leaf pairs ips σ σ0 σ0' out e0 Hquery Hports
                  |spine leaf pairs ips σ σ0 e0 Hquery];
    intros Hres1; [done|simpl..].
  - eapply links_pair; [exact Hquery|exact Hports|]. by apply IH.
  - by eapply links_ports_fail.
  - by eapply links_query_fails.
Qed.

End LinkLogs.

Section LinkRounds.
Context {cp : ControlPlane} {so : SetOrder}.
Variables (supernet : string) (n r : Z).
Hypothesis Hparse : py_int supernet = Ok n.
Hypothesis Hmap : supernet_mapping n = Some r.

(** The runs of one round of [while len(leaf_port) > 0]. *)
Lemma bind_link_cases (leaf spine lport : string) (ports ips : list string)
    (output : string) (σ : session) :
  match bind_link supernet leaf spine (LinkVars (lport :: ports) ips output) σ
  with
  | (Ok v', σ') =>
      lv_leaf_port v' = ports /\
      lv_available_ips v' = drop (Z.to_nat r) ips /\
      exists ip_leaf ip_spine rest,
        ips = ip_leaf :: ip_spine :: rest /\
        (Z.to_nat r <= length ips)%nat /\
        link_ends leaf spine lport ip_leaf ip_spine σ σ'
  | (Raise e, σ') => link_fails (Z.to_nat r) leaf spine lport ips σ e σ'
  | (OutOfFuel, _) => False
  end.
Proof.
  destruct (link_block_count n r Hmap) as [Hshift Hr].
  unfold bind_link. cbn [lv_leaf_port lv_available_ips lv_output]. cbv zeta.
  rewrite pure_bind_eq, py_index_head.
  destruct ips as [|ip_leaf ips1].
  { rewrite pure_bind_eq, py_index_nil. apply link_no_address. }
  rewrite pure_bind_eq, py_index_head, bind_eq.
  pose proof (delete_trunk_fuel leaf lport spine σ) as Hfuel1.
  destruct (delete_trunk leaf lport spine σ) as [[out1|e|] σ1] eqn:Htrunk1;
    [| |done].
  2: { by apply link_leaf_trunk_fails. }
  rewrite bind_eq.
  pose proof (create_interface_cases leaf ip_leaf lport σ1) as Hleaf.
  destruct (create_interface leaf ip_leaf lport σ1) as [[out2|e|] σ2];
    [| |done].
  2: { by eapply link_leaf_fails. }
  rewrite pure_bind_eq, py_remove_head, pure_bind_eq, py_remove_head.
  destruct ips1 as [|ip_spine rest].
  { rewrite pure_bind_eq, py_index_nil. by eapply link_one_address. }
  rewrite pure_bind_eq, py_index_head, bind_eq.
  pose proof (run_cli_fuel (PortShowRport leaf lport) σ2) as Hfuel3.
  destruct (run_cli (PortShowRport leaf lport) σ2) as [[sport|e|] σ3]
    eqn:Hrport; [| |done].
  2: { by eapply link_rport_fails. }
  rewrite bind_eq.
  pose proof (delete_trunk_fuel spine sport leaf σ3) as Hfuel4.
  destruct (delete_trunk spine sport leaf σ3) as [[out3|e|] σ4] eqn:Htrunk2;
    [| |done].
  2: { by eapply link_spine_trunk_fails. }
  rewrite bind_eq.
  pose proof (create_interface_cases spine ip_spine sport σ4) as Hspine.
  destruct (create_interface spine ip_spine sport σ4) as [[out4|e|] σ5];
    [| |done].
  2: { by eapply link_spine_fails. }
  assert (Hends : link_ends leaf spine lport ip_leaf ip_spine σ σ5)
    by (by eapply link_both_ends).
  rewrite pure_bind_eq, py_remove_head, pure_bind_eq, Hparse, pure_bind_eq,
    Hshift, pure_bind_eq, skip_block_spec by lia.
  replace (Z.to_nat (r + 2 - 4)) with (Z.to_nat r - 2)%nat by lia.
  destruct (Nat.leb_spec (Z.to_nat r - 2) (length rest)) as [Hlen|Hlen].
  - rewrite ret_eq. cbn [lv_leaf_port lv_available_ips].
    split; [done|]. split.
    + replace (Z.to_nat r) with (2 + (Z.to_nat r - 2))%nat at 2 by lia.
      done.
    + exists ip_leaf, ip_spine, rest. split; [done|].
      split; [simpl; lia|done].
  - apply link_block_short; [done|]. simpl. lia.
Qed.

(** The loop over the ports of one leaf that face one spine. *)
Lemma ports_loop_run (leaf spine : string) :
  forall (ports ips : list string) (output : string) (σ : session)
         (fuel : nat),
    (length ports < fuel)%nat ->
    ports_bound (Z.to_nat r) leaf spine ports ips σ
      (lv_available_ips <$>
         (while_m fuel (fun v => 0 <? Z.of_nat (length (lv_leaf_port v)))
            (bind_link supernet leaf spine) (LinkVars ports ips output) σ).1)
      (while_m fuel (fun v => 0 <? Z.of_nat (length (lv_leaf_port v)))
         (bind_link supernet leaf spine) (LinkVars ports ips output) σ).2.
Proof.
  induction ports as [|lport ports IH]; intros ips output σ fuel Hfuel.
  - destruct fuel as [|fuel]; [simpl in Hfuel; lia|].
    rewrite while_m_S. cbv beta.
    change (0 <? Z.of_nat (length (lv_leaf_port (LinkVars [] ips output))))
      with false.
    cbv iota. rewrite ret_eq. apply ports_done.
  - destruct fuel as [|fuel]; [simpl in Hfuel; lia|].
    rewrite while_m_S. cbv beta. cbn [lv_leaf_port].
    replace (0 <? Z.of_nat (length (lport :: ports))) with true
      by (symmetry; apply Z.ltb_lt; simpl; lia).
    cbv iota. rewrite bind_eq.
    pose proof (bind_link_cases leaf spine lport ports ips output σ) as Hlink.
    destruct (bind_link supernet leaf spine
                (LinkVars (lport :: ports) ips output) σ)
      as [[[ports' ips' output']|e|] σ1]; [| |done].
    + cbn [lv_leaf_port lv_available_ips] in Hlink.
      destruct Hlink as (-> & -> & ip_leaf & ip_spine & rest & -> & Hlen
                         & Hends).
      eapply ports_link; [exact Hends|exact Hlen|].
      apply IH. simpl in Hfuel. lia.
    + by apply ports_cut.
Qed.

(** The loop over the leaves, for one spine. *)
Lemma leaf_loop_run (spine : string) (leaf_list : list string) :
  forall (ips : list string) (output : string) (σ : session),
    links_bound (Z.to_nat r) (map (pair spine) leaf_list) ips σ
      (fst <$>
         (for_m leaf_list
            (fun leaf (st : list string * string) =>
               out ← run_cli (PortShowHostname leaf spine);
               let leaf_port := py_split out in
               v ← while_m (2 + length leaf_port)
                     (fun v => 0 <? Z.of_nat (length (lv_leaf_port v)))
                     (bind_link supernet leaf spine)
                     (LinkVars leaf_port st.1 st.2);
               mret (lv_available_ips v, lv_output v))
            (ips, output) σ).1)
      (for_m leaf_list
         (fun leaf (st : list string * string) =>
            out ← run_cli (PortShowHostname leaf spine);
            let leaf_port := py_split out in
            v ← while_m (2 + length leaf_port)
                  (fun v => 0 <? Z.of_nat (length (lv_leaf_port v)))
                  (bind_link supernet leaf spine)
                  (LinkVars leaf_port st.1 st.2);
            mret (lv_available_ips v, lv_output v))
         (ips, output) σ).2.
Proof.
  set (body := fun leaf (st : list string * string) =>
                 out ← run_cli (PortShowHostname leaf spine);
                 let leaf_port := py_split out in
                 v ← while_m (2 + length leaf_port)
                       (fun v => 0 <? Z.of_nat (length (lv_leaf_port v)))
                       (bind_link supernet leaf spine)
                       (LinkVars leaf_port st.1 st.2);
                 mret (lv_available_ips v, lv_output v)).
  assert (Hstep : forall leaf ips output σ,
            body leaf (ips, output) σ
            = match run_cli (PortShowHostname leaf spine) σ with
              | (Ok out, σ1) =>
                  match while_m (2 + length (py_split out))
                          (fun v => 0 <? Z.of_nat (length (lv_leaf_port v)))
                          (bind_link supernet leaf spine)
                          (LinkVars (py_split out) ips output) σ1 with
                  | (Ok v, σ2) => (Ok (lv_available_ips v, lv_output v), σ2)
                  | (Raise e, σ2) => (Raise e, σ2)
                  | (OutOfFuel, σ2) => (OutOfFuel, σ2)
                  end
              | (Raise e, σ1) => (Raise e, σ1)
              | (OutOfFuel, σ1) => (OutOfFuel, σ1)
              end).
  { intros leaf ips output σ. unfold body. cbv zeta. rewrite bind_eq.
    destruct (run_cli (PortShowHostname leaf spine) σ) as [[out|e|] σ1];
      [|done|done].
    rewrite bind_eq. cbn [fst snd].
    by destruct (while_m _ _ _ _ σ1) as [[v|e|] σ2]. }
  clearbody body.
  induction leaf_list as [|leaf leaf_list IH]; intros ips output σ.
  - cbn [for_m map]. rewrite ret_eq. apply links_done.
  - cbn [for_m map]. rewrite bind_eq, Hstep.
    pose proof (run_cli_fuel (PortShowHostname leaf spine) σ) as Hfuel1.
    destruct (run_cli (PortShowHostname leaf spine) σ) as [[out|e|] σ1]
      eqn:Hquery; [| |done].
    2: { by apply links_query_fails. }
    pose proof (ports_loop_run leaf spine (py_split out) ips output σ1
                  (2 + length (py_split out)) ltac:(lia)) as Hports.
    destruct (while_m _ _ _ _ σ1) as [[v|e|] σ2].
    + cbn [fst snd fmap result_fmap] in Hports.
      eapply links_pair; [exact Hquery|exact Hports|]. apply IH.
    + cbn [fst snd fmap result_fmap] in Hports.
      by eapply links_ports_fail.
    + cbn [fst snd fmap result_fmap] in Hports.
      by apply ports_bound_fuel in Hports.
Qed.

(** Lines 603-631: the run of the link loops is a run of [links_bound] over
    the pairs of a spine and a leaf, spine by spine. *)
Lemma bind_all_links_run (spine_list leaf_list : list string) :
  forall (ips : list string) (output : string) (σ : session),
    links_bound (Z.to_nat r) (list_prod spine_list leaf_list) ips σ
      (fst <$> (bind_all_links supernet spine_list leaf_list ips output σ).1)
      (bind_all_links supernet spine_list leaf_list ips output σ).2.
Proof.
  unfold bind_all_links.
  induction spine_list as [|spine spine_list IH]; intros ips output σ.
  - cbn [for_m list_prod]. rewrite ret_eq. apply links_done.
  - cbn [for_m list_prod]. rewrite bind_eq.
    pose proof (leaf_loop_run spine leaf_list ips output σ) as Hleaves.
    destruct (for_m leaf_list _ (ips, output) σ) as [[[ips1 output1]|e|] σ1].
    + cbn [fst snd fmap result_fmap] in Hleaves.
      eapply links_bound_app; [exact Hleaves|]. apply IH.
    + cbn [fst snd fmap result_fmap] in Hleaves.
      by apply links_bound_app_fails.
    + cbn [fst snd fmap result_fmap] in Hleaves.
      by apply links_bound_fuel in Hleaves.
Qed.

End LinkRounds.

Section LinkOutside.
Context {cp : ControlPlane} {so : SetOrder}.

Lemma create_vrouter_outside (p : params) (switch : string) :
  only outside_links (fun _ => True) (create_vrouter p switch).
Proof.
  unfold create_vrouter.
  eapply only_bind; [by apply (only_run_cli _ (fun _ => True))|].
  intros out _. destruct (negb _); [|by apply only_ret].
  eapply only_bind; [by apply (only_run_cli _ (fun _ => True))|].
  intros out' _. by apply only_ret.
Qed.

Lemma assign_loopback_ip_outside (loopback_address : string) :
  only outside_links (fun _ => True) (assign_loopback_ip loopback_address).
Proof.
  unfold assign_loopback_ip.
  do 3 (eapply only_bind;
          [apply (only_pure _ (fun _ => True)); [apply py_index_fuel|done]|];
        intros ? _).
  eapply only_bind; [by apply (only_run_cli _ (fun _ => True))|].
  intros out _. destruct (0 <? _); [|by apply only_ret].
  destruct (_ <=? 255); [|by apply only_ret].
  eapply only_bind.
  - apply (only_for _ (fun _ => True)); [|done].
    intros vrouter [count output] _.
    eapply only_bind; [by apply (only_run_cli _ (fun _ => True))|].
    intros out1 _. eapply (only_bind _ (fun _ => True)).
    + destruct (negb _); [|by apply only_ret].
      eapply only_bind; [by apply (only_run_cli _ (fun _ => True))|].
      intros out2 _. by apply only_ret.
    + intros output' _. by apply only_ret.
  - intros [count output] _. by apply only_ret.
Qed.

(** Lines 571-638: the layer-3 run as a whole. *)
Lemma auto_configure_link_ips_run (p : params) (n r : Z)
    (available_ips : list string) (σ : session) :
  py_int (pn_supernet p) = Ok n ->
  supernet_mapping n = Some r ->
  calculate_link_ip_addresses (pn_net_address p) (pn_cidr p) (pn_supernet p)
  = Ok available_ips ->
  (auto_configure_link_ips p σ).1 <> OutOfFuel /\
  layer3_run (Z.to_nat r) (list_prod (pn_spine_list p) (pn_leaf_list p))
    available_ips σ (raised (auto_configure_link_ips p σ).1)
    (auto_configure_link_ips p σ).2.
Proof.
  intros Hparse Hmap Hips. unfold auto_configure_link_ips. cbv zeta.
  rewrite bind_eq.
  pose proof (run_cli_fuel FabricNodeShow σ) as Hfuel0.
  destruct (run_cli FabricNodeShow σ) as [[out|e|] σ1] eqn:Hnodes; [| |done].
  2: { split; [done|].
       apply (layer3_setup_fails _ _ _ _ _ [FabricNodeShow]);
         [by apply run_cli_log in Hnodes|done]. }
  apply run_cli_log in Hnodes. rewrite bind_eq.
  match goal with
  | |- context [for_m ?xs ?body ?s σ1] =>
      assert (Hsetup : only outside_links (fun _ => True) (for_m xs body s))
  end.
  { apply (only_for _ (fun _ => True)); [|done]. intros switch output _.
    eapply only_bind; [by apply (only_run_cli _ (fun _ => True))|].
    intros out' _. by apply only_ret. }
  destruct (Hsetup σ1) as (d1 & Hd1 & Hp1). clear Hsetup.
  destruct (for_m _ _ _ σ1) as [[output1|e|] σ2]; cbn [fst snd post] in *;
    [| |done].
  2: { split; [done|].
       apply (layer3_setup_fails _ _ _ _ _ ([FabricNodeShow] ++ d1)).
       - by rewrite Hd1, Hnodes, <- List.app_assoc.
       - by rewrite forallb_app, Hp1. }
  destruct Hp1 as [Hp1 _].
  rewrite pure_bind_eq, Hips, bind_eq.
  match goal with
  | |- context [for_m ?xs ?body ?s σ2] =>
      assert (Hsetup : only outside_links (fun _ => True) (for_m xs body s))
  end.
  { apply (only_for _ (fun _ => True)); [|done]. intros switch output _.
    eapply only_bind; [apply create_vrouter_outside|].
    intros out' _. by apply only_ret. }
  destruct (Hsetup σ2) as (d2 & Hd2 & Hp2). clear Hsetup.
  destruct (for_m _ _ _ σ2) as [[output2|e|] σ3]; cbn [fst snd post] in *;
    [| |done].
  2: { split; [done|].
       apply (layer3_setup_fails _ _ _ _ _ ([FabricNodeShow] ++ d1 ++ d2)).
       - by rewrite Hd2, Hd1, Hnodes, <- !List.app_assoc.
       - by rewrite !forallb_app, Hp1, Hp2. }
  destruct Hp2 as [Hp2 _].
  assert (Hlog3 : log σ3 = log σ ++ [FabricNodeShow] ++ d1 ++ d2)
    by (by rewrite Hd2, Hd1, Hnodes, <- !List.app_assoc).
  assert (Hout3 : forallb outside_links ([FabricNodeShow] ++ d1 ++ d2) = true)
    by (by rewrite !forallb_app, Hp1, Hp2).
  rewrite bind_eq.
  pose proof (bind_all_links_run (pn_supernet p) n r Hparse Hmap
                (pn_spine_list p) (pn_leaf_list p) available_ips output2 σ3)
    as Hlinks.
  destruct (bind_all_links _ _ _ _ _ σ3) as [[[ips' output3]|e|] σ4];
    cbn [fst snd fmap result_fmap] in Hlinks.
  3: { by apply links_bound_fuel in Hlinks. }
  2: { split; [done|]. by eapply layer3_links_fail. }
  destruct (pn_assign_loopback p).
  - rewrite bind_eq.
    destruct (assign_loopback_ip_outside (pn_loopback_ip p) σ4)
      as (d4 & Hd4 & Hp4).
    destruct (assign_loopback_ip _ σ4) as [[out4|e|] σ5];
      cbn [fst snd post] in *; [| |done].
    + rewrite ret_eq. split; [done|]. destruct Hp4 as [Hp4 _].
      by eapply layer3_links_bound.
    + split; [done|]. by eapply layer3_links_bound.
  - rewrite ret_eq. split; [done|].
    eapply (layer3_links_bound _ _ _ _ _ _ _ _ []);
      [exact Hlog3|exact Hout3|exact Hlinks|by rewrite app_nil_r|done].
Qed.

(** What a layer-3 run leaves in the log: the addresses it asks for are the
    first two of successive sub-blocks of the planner's list, and it adds
    no other address. *)
Lemma layer3_run_log (block : nat) (pairs : list (string * string))
    (ips : list string) (σ σ' : session) (o : option exn) :
  layer3_run block pairs ips σ o σ' ->
  exists d (links : nat),
    log σ' = log σ ++ d /\
    interface_adds d `sublist_of` interface_requests d /\
    interface_requests d `prefix_of` link_addresses block links ips.
Proof.
  intros [σ0 σ1 d e Hd Hout
         |σ0 σ1 σ2 d e Hd Hout Hlinks
         |σ0 σ1 σ2 σ3 d d' ips' o' Hd Hout Hlinks Hd' Hout'].
  - destruct (outside_links_quiet d Hout) as [Hr Ha].
    exists d, 0%nat. rewrite Hr, Ha. done.
  - destruct (outside_links_quiet d Hout) as [Hr Ha].
    destruct (links_bound_log _ _ _ _ _ _ Hlinks)
      as (d1 & links & Hd1 & Ha1 & Hr1 & _).
    exists (d ++ d1), links.
    rewrite Hd1, Hd, <- List.app_assoc, interface_requests_app,
      interface_adds_app, Hr, Ha.
    done.
  - destruct (outside_links_quiet d Hout) as [Hr Ha].
    destruct (outside_links_quiet d' Hout') as [Hr' Ha'].
    destruct (links_bound_log _ _ _ _ _ _ Hlinks)
      as (d1 & links & Hd1 & Ha1 & Hr1 & _).
    exists (d ++ d1 ++ d'), links.
    rewrite Hd', Hd1, Hd, <- !List.app_assoc, !interface_requests_app,
      !interface_adds_app, Hr, Ha, Hr', Ha', !app_nil_r.
    done.
Qed.

End LinkOutside.

Section LinkConsumption.
Context {cp : ControlPlane} {so : SetOrder}.


End LinkConsumption.


(** One spine and two leaves with one link each, on 192.168.1.0/24 in
    sub-blocks of six addresses: the links get .1 and .2, then .9 and .10,
    and each of the four is added as an interface. *)
Example two_links_bound :
  exists out σ,
    auto_configure_link_ips (cp := simulated_fabric) (so := stable_set_order)
      one_spine_two_leaves two_links = (Ok out, σ) /\
    interface_adds (log σ)
    = ["192.168.1.1/29"; "192.168.1.2/29";
       "192.168.1.9/29"; "192.168.1.10/29"].
Proof. eexists _, _. split; [vm_compute; reflexivity|reflexivity]. Qed.

(** On a block smaller than a sub-block the list still has no address
    twice: 192.168.1.0/28 in sub-blocks of thirty addresses. *)
Example small_block_addresses :
  exists available_ips,
    calculate_link_ip_addresses "192.168.1.0" "28" "27" = Ok available_ips /\
    length available_ips = 30%nat /\ NoDup available_ips.
Proof.
  destruct (planner_distinct "192.168.1.0" "28" "27" 192 168 1 0 28 27)
    as (ips & Hips & Hnd); [reflexivity|reflexivity|lia|reflexivity|lia|].
  exists ips. split; [exact Hips|]. split; [|exact Hnd].
  revert Hips. vm_compute. by intros [= <-].
Qed.

(** One spine and two leaves with one link each, on 192.168.1.0/24 in
    sub-blocks of six addresses: the links get .1 and .2, then .9 and .10;
    the leaf comes first, the spine second. *)
Example two_links_addresses :
  exists out σ,
    auto_configure_link_ips (cp := simulated_fabric) (so := stable_set_order)
      one_spine_two_leaves two_links = (Ok out, σ) /\
    interface_requests (log σ)
    = ["192.168.1.1/29"; "192.168.1.2/29";
       "192.168.1.9/29"; "192.168.1.10/29"] /\
    interface_switches (log σ) = ["leaf1"; "spine1"; "leaf2"; "spine1"].
Proof. eexists _, _. split; [vm_compute; reflexivity|]. split; reflexivity. Qed.

(** ** More on the address planner *)

Lemma for_each_app {A S : Type} (xs ys : list A) (body : A -> S -> result S)
    (s : S) :
  for_each (xs ++ ys) body s = for_each xs body s ≫= for_each ys body.
Proof.
  revert s. induction xs as [|x xs IH]; intros s; [done|].
  simpl. destruct (body x s) as [s'| |]; simpl; [apply IH|done|done].
Qed.

Lemma netmask_above_32 (cidr : Z) : 32 < cidr -> netmask cidr = Raise IndexError.
Proof.
  intros Hc. unfold netmask, py_range.
  replace cidr with (33 + (cidr - 33)) by lia.
  rewrite seqZ_app by lia. rewrite for_each_app.
  assert (for_each (seqZ 0 33)
            (fun i mask => py_add_at mask (i / 8) (Z.shiftl 1 (7 - i mod 8)))
            [0; 0; 0; 0] = Raise IndexError) as -> by (vm_compute; reflexivity).
  reflexivity.
Qed.



(** X2.  The two addresses of every link, the first two of a sub-block, are
    the hosts 1 and 2 of one [/supernet] network, and neither is its
    broadcast address; the list holds whole sub-blocks only. *)
Theorem link_ends_share_subnet
    (address_str cidr_str supernet_str : string)
    (a0 a1 a2 a3 cidr supernet : Z) :
  parse_quad address_str = Some [a0; a1; a2; a3] ->
  py_int cidr_str = Ok cidr ->
  py_int supernet_str = Ok supernet ->
  27 <= supernet <= 30 ->
  0 <= cidr <= 32 ->
  exists r ips,
    supernet_mapping supernet = Some r /\
    calculate_link_ip_addresses address_str cidr_str supernet_str = Ok ips /\
    (exists blocks : nat, length ips = (blocks * Z.to_nat r)%nat) /\
    forall (links : nat) (ip1 ip2 : string),
      take 2 (drop (links * Z.to_nat r) ips) = [ip1; ip2] ->
      exists x1 x2,
        address_of ip1 = Some x1 /\ address_of ip2 = Some x2 /\
        x1 = network_address x1 supernet + 1 /\
        x2 = network_address x1 supernet + 2 /\
        network_address x2 supernet = network_address x1 supernet /\
        x2 < broadcast_address x1 supernet.
Proof.
  intros Hq Hcidr Hsn Hs Hc.
  destruct (planner_blocks _ _ _ _ _ _ _ _ _ Hq Hcidr Hc Hsn Hs)
    as (r & ips & Hmap & Hips & Hchunks).
  destruct (parse_quad_Some _ _ _ _ _ Hq)
    as (_ & _ & _ & _ & _ & _ & _ & _ & _ & B0 & B1 & B2 & B3).
  pose proof (octet_broadcast_range cidr 0 a0 B0) as R0.
  pose proof (octet_broadcast_range cidr 1 a1 B1) as R1.
  pose proof (octet_broadcast_range cidr 2 a2 B2) as R2.
  destruct (link_block_count supernet r Hmap) as [_ Hr].
  assert (Hlen : forall c,
            address_chunk (octet_broadcast cidr 0 a0)
              (octet_broadcast cidr 1 a1) supernet_str r
              (octet_network cidr 2 a2) (octet_broadcast cidr 2 a2) c ->
            length c = Z.to_nat r).
  { intros c (t & i & _ & _ & _ & _ & ->). by rewrite length_map, length_seqZ. }
  exists r, ips. split; [done|]. split; [done|].
  split; [by apply (chunked_length _ _ _ Hlen)|].
  intros links ip1 ip2 Htake.
  pose proof (chunked_drop _ _ links _ Hlen Hchunks) as Hdrop.
  destruct Hdrop as [|c l (t & i & Ht & Hdiv & Hi0 & Hi1 & ->) _];
    [discriminate|].
  rewrite (seqZ_cons (i + 1)) in Htake by lia.
  rewrite (seqZ_cons (Z.succ (i + 1))) in Htake by lia.
  simpl in Htake. injection Htake as <- <-.
  exists (ip_value [octet_broadcast cidr 0 a0; octet_broadcast cidr 1 a1;
                    t; i + 1]),
         (ip_value [octet_broadcast cidr 0 a0; octet_broadcast cidr 1 a1;
                    t; Z.succ (i + 1)]).
  split; [apply address_of_render; lia|].
  split; [apply address_of_render; lia|].
  rewrite !ip_value_4. unfold broadcast_address, network_address, block_size.
  destruct Hdiv as [q Hq'].
  apply supernet_mapping_Some in Hmap.
  destruct Hmap as [[-> ->]|[[-> ->]|[[-> ->]|[-> ->]]]]; eval_pow2;
    repeat split; Z.div_mod_to_equations; lia.
Qed.

Lemma link_ends_share_subnet_witness :
  exists r ips,
    supernet_mapping 29 = Some r /\
    calculate_link_ip_addresses "10.1.2.3" "22" "29" = Ok ips /\
    (exists blocks : nat, length ips = (blocks * Z.to_nat r)%nat) /\
    forall (links : nat) (ip1 ip2 : string),
      take 2 (drop (links * Z.to_nat r) ips) = [ip1; ip2] ->
      exists x1 x2,
        address_of ip1 = Some x1 /\ address_of ip2 = Some x2 /\
        x1 = network_address x1 29 + 1 /\
        x2 = network_address x1 29 + 2 /\
        network_address x2 29 = network_address x1 29 /\
        x2 < broadcast_address x1 29.
Proof.
  apply (link_ends_share_subnet "10.1.2.3" "22" "29" 10 1 2 3 22 29);
    [reflexivity|reflexivity|reflexivity|lia|lia].
Defined.

(** ** Termination of the planner on any input *)

Lemma bind_fuel {A B : Type} (r : result A) (f : A -> result B) :
  r <> OutOfFuel -> (forall a, r = Ok a -> f a <> OutOfFuel) ->
  r ≫= f <> OutOfFuel.
Proof. intros Hr Hf. destruct r as [a|e|]; simpl; [by apply Hf|done|done]. Qed.

Lemma for_each_fuel {A S : Type} (xs : list A) (body : A -> S -> result S)
    (s : S) :
  (forall x s, body x s <> OutOfFuel) -> for_each xs body s <> OutOfFuel.
Proof.
  intros Hbody. revert s. induction xs as [|x xs IH]; intros s; [done|].
  simpl. apply bind_fuel; [apply Hbody|auto].
Qed.

Lemma py_add_at_fuel (l : list Z) (k v : Z) : py_add_at l k v <> OutOfFuel.
Proof. unfold py_add_at. repeat case_match; done. Qed.

Lemma py_getitem_fuel (d : Z -> option Z) (k : Z) : py_getitem d k <> OutOfFuel.
Proof. unfold py_getitem. by case_match. Qed.

Lemma octet_block_Ok (r : Z) (sn : string) (last0 last1 last3 : Z)
    (v : octet_vars) :
  0 <= r ->
  exists ips,
    octet_block r sn last0 last1 last3 v
    = Ok (OctetVars (ov_third_octet v + 1) 0 0 0 0 ips).
Proof.
  intros Hr. unfold octet_block.
  destruct (host_blocks_total r last3
              (HostVars (ov_i v) (ov_count v) (ov_hostmin v) (ov_hostmax v) [])
              Hr) as [h ->].
  simpl. rewrite emit_ips_spec. simpl. by eexists.
Qed.

(** The planner ends on every input, with a list or with an exception. *)
Lemma calculate_link_ip_addresses_fuel
    (address_str cidr_str supernet_str : string) :
  calculate_link_ip_addresses address_str cidr_str supernet_str <> OutOfFuel.
Proof.
  unfold calculate_link_ip_addresses.
  apply bind_fuel; [apply py_int_fuel|]. intros cidr _.
  apply bind_fuel; [apply py_int_fuel|]. intros supernet _.
  apply bind_fuel; [apply py_getitem_fuel|]. intros r Hr.
  assert (0 <= r) as Hr0.
  { unfold py_getitem in Hr.
    destruct (supernet_mapping supernet) as [r'|] eqn:Hmap; [|done].
    injection Hr as ->. apply link_block_count in Hmap. lia. }
  apply bind_fuel; [apply py_index_fuel|]. intros a3 _.
  apply bind_fuel; [apply py_int_fuel|]. intros base_addr _.
  apply bind_fuel;
    [apply for_each_fuel; intros; apply py_add_at_fuel|]. intros mask _.
  apply bind_fuel.
  { apply for_each_fuel. intros i network.
    apply bind_fuel; [apply py_index_fuel|]. intros a _.
    apply bind_fuel; [apply py_int_fuel|]. intros a' _.
    apply bind_fuel; [apply py_index_fuel|]. done. }
  intros network _.
  apply bind_fuel;
    [apply for_each_fuel; intros; apply py_add_at_fuel|]. intros broadcast _.
  apply bind_fuel; [apply py_index_fuel|]. intros third_octet _.
  apply bind_fuel; [apply py_index_fuel|]. intros last0 _.
  apply bind_fuel; [apply py_index_fuel|]. intros last1 _.
  apply bind_fuel; [apply py_index_fuel|]. intros last2 _.
  apply bind_fuel; [apply py_index_fuel|]. intros last3 _.
  apply bind_fuel; [|done].
  destruct (while_loop_rule (fun _ => True)
              (fun v => Z.to_nat (last2 + 1 - ov_third_octet v))
              (fun v => ov_third_octet v <=? last2)
              (octet_block r supernet_str last0 last1 last3))
    with (fuel := (2 + Z.to_nat (last2 - third_octet))%nat)
         (s := OctetVars third_octet
                 (base_addr - base_addr mod (r + 2)) 0 0 0 [])
    as (v & -> & _); [|done|simpl; lia|done].
  intros v _ Hcond. apply Z.leb_le in Hcond.
  destruct (octet_block_Ok r supernet_str last0 last1 last3 v Hr0)
    as [ips ->].
  eexists. split; [done|]. split; [done|]. simpl. lia.
Qed.

(** ** The commands of the two modes *)

Ltac only_step :=
  lazymatch goal with
  | |- only _ _ (mret _) => apply only_ret; try done
  | |- only _ _ (pure _) =>
      apply only_pure;
      [first [apply py_index_fuel|apply py_remove_fuel|apply py_int_fuel
             |apply calculate_link_ip_addresses_fuel|done]
      |try done]
  | |- only _ _ (run_cli _) => apply only_run_cli; [reflexivity|try done]
  | |- only _ _ (_ ≫= _) =>
      eapply (only_bind _ (fun _ => True)); [|intros ? _]
  | |- only _ _ (if ?b then _ else _) => destruct b
  end.

Ltac only_leaf :=
  first [apply only_ret; done
        |apply only_run_cli; [reflexivity|done]
        |apply only_pure;
         [first [apply py_index_fuel|apply py_remove_fuel|apply py_int_fuel
                |apply calculate_link_ip_addresses_fuel]|done]].

Ltac only_next tac :=
  eapply (only_bind _ (fun _ => True)); [tac|intros ? _].

Lemma skip_block_fuel (count : Z) (available_ips : list string) :
  skip_block count available_ips <> OutOfFuel.
Proof.
  destruct (Z.le_gt_cases 0 count) as [Hc|Hc].
  - rewrite skip_block_spec by done. by case_match.
  - unfold skip_block. replace (Z.to_nat count) with 0%nat by lia.
    simpl Nat.add. rewrite while_loop_S. simpl.
    by destruct (Z.ltb_spec 0 count); [lia|].
Qed.

Lemma py_shiftl_1_fuel (diff : Z) : py_shiftl_1 diff <> OutOfFuel.
Proof. unfold py_shiftl_1. by case_match. Qed.

Section Layer3Commands.
Context {cp : ControlPlane} {so : SetOrder}.
Variable fabric_loopback : bool.

Lemma delete_trunk_layer3 (switch switch_port peer_switch : string) :
  only (layer3_command fabric_loopback) (fun _ => True)
    (delete_trunk switch switch_port peer_switch).
Proof. unfold delete_trunk. repeat only_step. Qed.

Lemma create_interface_layer3 (switch ip port : string) :
  only (layer3_command fabric_loopback) (fun _ => True)
    (create_interface switch ip port).
Proof. unfold create_interface. repeat only_step. Qed.

Lemma create_vrouter_layer3 (p : params) (switch : string) :
  only (layer3_command fabric_loopback) (fun _ => True)
    (create_vrouter p switch).
Proof. unfold create_vrouter. repeat only_step. Qed.

(** One link: the list of ports still to do gets shorter. *)
Lemma bind_link_layer3 (supernet leaf spine : string) (v : link_vars) :
  only (layer3_command fabric_loopback)
    (fun v' => (length (lv_leaf_port v') < length (lv_leaf_port v))%nat)
    (bind_link supernet leaf spine v).
Proof.
  unfold bind_link. destruct v as [[|lport ports] ips output];
    cbn [lv_leaf_port lv_available_ips lv_output].
  { eapply (only_bind _ (fun _ => False)); [|intros ? []].
    apply only_pure; [apply py_index_fuel|].
    intros a Ha. by rewrite py_index_nil in Ha. }
  eapply (only_bind _ (fun a => a = lport)).
  { apply only_pure; [apply py_index_fuel|].
    intros a Ha. rewrite py_index_head in Ha. by injection Ha. }
  intros ? ->. only_next only_leaf.
  only_next ltac:(apply delete_trunk_layer3).
  only_next ltac:(apply create_interface_layer3).
  eapply (only_bind _ (fun l => l = ports)).
  { apply only_pure; [apply py_remove_fuel|].
    intros l Hl. rewrite py_remove_head in Hl. by injection Hl. }
  intros ? ->. do 3 (only_next only_leaf).
  only_next ltac:(apply delete_trunk_layer3).
  only_next ltac:(apply create_interface_layer3).
  do 2 (only_next only_leaf).
  only_next ltac:(apply only_pure; [apply py_shiftl_1_fuel|done]).
  only_next ltac:(apply only_pure; [apply skip_block_fuel|done]).
  apply only_ret. simpl. lia.
Qed.

Lemma bind_all_links_layer3 (supernet : string)
    (spine_list leaf_list available_ips : list string) (output : string) :
  only (layer3_command fabric_loopback) (fun _ => True)
    (bind_all_links supernet spine_list leaf_list available_ips output).
Proof.
  unfold bind_all_links.
  apply (only_for _ (fun _ => True)); [|done]. intros spine st _.
  apply (only_for _ (fun _ => True)); [|done]. intros leaf st' _.
  only_step; [only_step|]. only_step; [|only_step].
  eapply only_weaken.
  - apply (only_while _ (fun _ => True)
             (fun v => length (lv_leaf_port v))); [|done|simpl; lia].
    intros v _ _. eapply only_weaken; [apply bind_link_layer3|].
    by intros v' Hv'.
  - done.
Qed.

End Layer3Commands.

Section Layer3Run.
Context {cp : ControlPlane} {so : SetOrder}.

Lemma assign_loopback_ip_layer3 (loopback_address : string) :
  only (layer3_command true) (fun _ => True)
    (assign_loopback_ip loopback_address).
Proof.
  unfold assign_loopback_ip. do 4 (only_next only_leaf).
  destruct (0 <? _); [|only_leaf]. destruct (_ <=? 255); [|only_leaf].
  eapply (only_bind _ (fun _ => True)).
  - apply (only_for _ (fun _ => True)); [|done].
    intros vrouter [count output] _. only_next only_leaf.
    eapply (only_bind _ (fun _ => True)); [|intros ? _; only_leaf].
    destruct (negb _); [|only_leaf]. only_next only_leaf. only_leaf.
  - intros [count output] _. only_leaf.
Qed.

Lemma auto_configure_link_ips_layer3 (p : params) :
  only (layer3_command (pn_assign_loopback p)) (fun _ => True)
    (auto_configure_link_ips p).
Proof.
  unfold auto_configure_link_ips. only_next only_leaf.
  only_next ltac:(apply (only_for _ (fun _ => True)); [|done]).
  { intros switch output _. unfold disable_trunk.
    only_next only_leaf. only_leaf. }
  only_next only_leaf.
  only_next ltac:(apply (only_for _ (fun _ => True)); [|done]).
  { intros switch output _.
    only_next ltac:(apply create_vrouter_layer3). only_leaf. }
  eapply (only_bind _ (fun _ => True)); [apply bind_all_links_layer3|].
  intros [ips output] _.
  destruct (pn_assign_loopback p); [|only_leaf].
  only_next ltac:(apply assign_loopback_ip_layer3). only_leaf.
Qed.

(** X3.  The layer-3 run ends on every input and on every control plane, and
    issues only the commands of [layer3_command]: it switches auto-trunk
    off, creates vrouters, deletes trunks and adds interfaces (loopback
    interfaces only when asked to); it never creates a cluster, a trunk or a
    vlag. *)
Theorem layer3_commands (p : params) (σ : session) :
  exists d,
    (auto_configure_link_ips p σ).1 <> OutOfFuel /\
    log (auto_configure_link_ips p σ).2 = log σ ++ d /\
    forallb (layer3_command (pn_assign_loopback p)) d = true /\
    forallb (fun c => negb (is_mutation c && layer2_command c)) d = true.
Proof.
  destruct (auto_configure_link_ips_layer3 p σ) as (d & Hlog & Hpost).
  exists d.
  assert (forallb (layer3_command (pn_assign_loopback p)) d = true) as Hd
    by (destruct (auto_configure_link_ips p σ).1; simpl in Hpost; tauto).
  split; [by destruct (auto_configure_link_ips p σ).1|].
  split; [done|]. split; [done|].
  rewrite forallb_forall in Hd. apply forallb_forall. intros c Hc.
  specialize (Hd c Hc). by destruct c.
Qed.

End Layer3Run.

Section Layer2Run.
Context {cp : ControlPlane} {so : SetOrder}.

Lemma create_cluster_layer2 (switch name node1 node2 : string) :
  only layer2_command (fun _ => True) (create_cluster switch name node1 node2).
Proof. unfold create_cluster. repeat only_step. Qed.

Lemma create_trunk_layer2 (switch name : string) (ports : list string) :
  only layer2_command (fun _ => True) (create_trunk switch name ports).
Proof. unfold create_trunk. repeat only_step. Qed.

Lemma create_vlag_layer2 (switch name peer_switch port peer_port : string) :
  only layer2_command (fun _ => True)
    (create_vlag switch name peer_switch port peer_port).
Proof. unfold create_vlag. repeat only_step. Qed.

Lemma create_trunk_vlag_layer2 (node1 : string) (dest_list : list string) :
  only layer2_command (fun _ => True) (create_trunk_vlag node1 dest_list).
Proof.
  unfold create_trunk_vlag. eapply (only_bind _ (fun _ => True)).
  - apply (only_for _ (fun _ => True)); [|done]. intros node st _.
    unfold get_ports. only_next ltac:(only_next only_leaf; only_leaf).
    only_leaf.
  - intros [src_ports string2] _.
    only_next ltac:(apply create_trunk_layer2). only_leaf.
Qed.

Lemma pair_link_groups_layer2 (node1 node2 : string)
    (spine_list non_cluster_leaf : list string) (output : string) :
  only layer2_command
    (fun res => (length res.1 <= length non_cluster_leaf)%nat)
    (pair_link_groups node1 node2 spine_list non_cluster_leaf output).
Proof.
  unfold pair_link_groups.
  eapply (only_bind _
            (fun l => (length l <= length non_cluster_leaf)%nat)).
  { apply only_pure; [apply py_remove_fuel|].
    intros l Hl%py_remove_length. lia. }
  intros l Hl.
  do 2 (only_next ltac:(apply create_trunk_vlag_layer2)).
  only_next ltac:(apply create_vlag_layer2).
  do 2 (only_next only_leaf).
  do 2 (only_next ltac:(apply create_trunk_vlag_layer2)).
  only_next ltac:(apply create_vlag_layer2).
  by apply only_ret.
Qed.

Lemma scan_neighbours_layer2 (node1 : string)
    (spine_list system_names non_cluster_leaf : list string) (output : string) :
  only layer2_command
    (fun res => (length res.1 <= length non_cluster_leaf)%nat)
    (scan_neighbours node1 spine_list system_names non_cluster_leaf output).
Proof.
  induction system_names as [|node2 rest IH]; simpl; [by apply only_ret|].
  destruct (negb _); [|exact IH]. destruct (py_in node2 non_cluster_leaf);
    [|exact IH].
  unfold cluster_pair. only_next ltac:(apply create_cluster_layer2).
  apply pair_link_groups_layer2.
Qed.

Lemma pair_first_leaf_layer2 (spine_list non_cluster_leaf : list string)
    (output : string) :
  only layer2_command
    (fun res => (length res.1 < length non_cluster_leaf)%nat)
    (pair_first_leaf spine_list non_cluster_leaf output).
Proof.
  unfold pair_first_leaf. only_next only_leaf.
  eapply (only_bind _
            (fun l => (length l < length non_cluster_leaf)%nat)).
  { apply only_pure; [apply py_remove_fuel|].
    intros l Hl%py_remove_length. lia. }
  intros l Hl.
  eapply (only_bind _ (fun _ => True)).
  { unfold fabric_neighbours. do 2 (only_next only_leaf).
    apply only_pure; [|done].
    by rewrite remove_non_fabric_spec by apply list_set_NoDup. }
  intros system_names _.
  eapply only_weaken; [apply scan_neighbours_layer2|].
  intros res Hres. simpl in *. lia.
Qed.

Lemma create_leaf_cluster_vlag_layer2 (non_cluster_leaf spine_list : list string) :
  only layer2_command (fun _ => True)
    (create_leaf_cluster_vlag non_cluster_leaf spine_list).
Proof.
  unfold create_leaf_cluster_vlag.
  eapply (only_bind _ (fun _ => True)).
  - eapply only_weaken.
    + apply (only_while _ (fun _ => True)
               (fun st : Z * list string * string =>
                  ((if (st.1.1 =? 0)%Z then 1 else 0) + length st.1.2)%nat));
        [|done|simpl; lia].
      intros [[flag l] output] _ Hcond. simpl in Hcond.
      apply Z.eqb_eq in Hcond. subst flag. simpl.
      destruct (Z.eqb_spec (Z.of_nat (length l)) 0) as [Hl|Hl].
      * apply only_ret. split; [done|]. simpl. lia.
      * eapply (only_bind _ (fun res => (length res.1 < length l)%nat));
          [apply pair_first_leaf_layer2|].
        intros [l' output'] Hl'. apply only_ret. split; [done|].
        simpl in *. lia.
    + done.
  - intros [[flag l] output] _. only_leaf.
Qed.

Lemma leaf_no_cluster_layer2 (leaf_list : list string) :
  only layer2_command (fun _ => True) (leaf_no_cluster leaf_list).
Proof.
  unfold leaf_no_cluster. do 2 (only_next only_leaf).
  apply (only_for _ (fun _ => True)); [|done].
  intros leaf l _. destruct (_ && _); only_leaf.
Qed.

Lemma create_nonclusterleaf_vlag_layer2
    (non_cluster_leaf spine_list : list string) :
  only layer2_command (fun _ => True)
    (create_nonclusterleaf_vlag non_cluster_leaf spine_list).
Proof.
  unfold create_nonclusterleaf_vlag.
  apply (only_for _ (fun _ => True)); [|done]. intros leaf output _.
  only_next ltac:(apply create_trunk_vlag_layer2).
  do 2 (only_next only_leaf).
  do 2 (only_next ltac:(apply create_trunk_vlag_layer2)).
  only_next ltac:(apply create_vlag_layer2). only_leaf.
Qed.

Lemma configure_auto_vlag_layer2 (p : params) :
  only layer2_command (fun _ => True) (configure_auto_vlag p).
Proof.
  unfold configure_auto_vlag. do 2 (only_next only_leaf).
  only_next ltac:(apply create_cluster_layer2).
  only_next ltac:(apply leaf_no_cluster_layer2).
  only_next ltac:(apply create_leaf_cluster_vlag_layer2).
  only_next ltac:(apply leaf_no_cluster_layer2).
  only_next ltac:(apply create_nonclusterleaf_vlag_layer2).
  only_leaf.
Qed.

(** X4.  The layer-2 run ends on every input and on every control plane, and
    issues only the commands of [layer2_command]: the changes it makes are
    creations of clusters, trunks and vlags; it never deletes a trunk and
    never touches auto-trunk settings, vrouters or interfaces. *)
Theorem layer2_commands (p : params) (σ : session) :
  exists d,
    (configure_auto_vlag p σ).1 <> OutOfFuel /\
    log (configure_auto_vlag p σ).2 = log σ ++ d /\
    forallb layer2_command d = true /\
    forallb (fun c => negb (is_mutation c && layer3_command true c)) d = true.
Proof.
  destruct (configure_auto_vlag_layer2 p σ) as (d & Hlog & Hpost).
  exists d.
  assert (forallb layer2_command d = true) as Hd
    by (destruct (configure_auto_vlag p σ).1; simpl in Hpost; tauto).
  split; [by destruct (configure_auto_vlag p σ).1|].
  split; [done|]. split; [done|].
  rewrite forallb_forall in Hd. apply forallb_forall. intros c Hc.
  specialize (Hd c Hc). by destruct c.
Qed.

End Layer2Run.

Section InvalidSupernet.
Context {cp : ControlPlane} {so : SetOrder}.

Lemma disable_trunk_all (switch_names : list string) (output : string)
    (σ : session) :
  exists r σ',
    for_m switch_names
      (fun switch output =>
         out ← disable_trunk switch; mret (output +:+ out +:+ " "))
      output σ = (r, σ') /\
    ((exists output', r = Ok output' /\
        log σ' = log σ ++ map SystemSettingsNoAutoTrunk switch_names) \/
     (r = Raise SystemExit /\
      exists done, done `prefix_of` switch_names /\ done <> [] /\
        log σ' = log σ ++ map SystemSettingsNoAutoTrunk done)).
Proof.
  revert output σ. induction switch_names as [|switch rest IH];
    intros output σ.
  - eexists _, _. split; [done|]. left. eexists. split; [done|].
    simpl. by rewrite app_nil_r.
  - cbn [for_m]. rewrite bind_eq. cbn beta. unfold disable_trunk at 1.
    rewrite bind_eq, run_cli_eq. unfold reply_text.
    destruct (py_bool (reply_out _)) eqn:Hout;
      [|destruct (py_bool (reply_err _)) eqn:Herr].
    + destruct (IH (output +:+ reply_out
                      (exec (SystemSettingsNoAutoTrunk switch) (world σ)).1
                    +:+ " ")
                  (Session (exec (SystemSettingsNoAutoTrunk switch) (world σ)).2
                     (log σ ++ [SystemSettingsNoAutoTrunk switch])))
        as (r & σ' & Hrun & Hcases).
      exists r, σ'. split; [exact Hrun|]. simpl in Hcases.
      destruct Hcases as [(output' & -> & Hlog)|(-> & done & Hpre & _ & Hlog)].
      * left. eexists. split; [done|]. by rewrite Hlog, <- List.app_assoc.
      * right. split; [done|]. exists (switch :: done).
        split; [by apply prefix_cons|]. split; [done|].
        by rewrite Hlog, <- List.app_assoc.
    + eexists _, _. split; [done|]. right. split; [done|].
      exists [switch]. split; [by apply prefix_cons, prefix_nil|]. done.
    + destruct (IH (output +:+ "Success" +:+ " ")
                  (Session (exec (SystemSettingsNoAutoTrunk switch) (world σ)).2
                     (log σ ++ [SystemSettingsNoAutoTrunk switch])))
        as (r & σ' & Hrun & Hcases).
      exists r, σ'. split; [exact Hrun|]. simpl in Hcases.
      destruct Hcases as [(output' & -> & Hlog)|(-> & done & Hpre & _ & Hlog)].
      * left. eexists. split; [done|]. by rewrite Hlog, <- List.app_assoc.
      * right. split; [done|]. exists (switch :: done).
        split; [by apply prefix_cons|]. split; [done|].
        by rewrite Hlog, <- List.app_assoc.
Qed.

(** X5.  With a supernet outside 27..30 the layer-3 run has switched
    auto-trunk off on every fabric node before the planner rejects the
    supernet with [KeyError]; no vrouter is created.  (A run that one of
    these commands ends has issued them up to that one.) *)
Theorem invalid_supernet_after_auto_trunk (p : params) (cidr n : Z)
    (σ σ1 : session) (out : string) :
  py_int (pn_cidr p) = Ok cidr ->
  py_int (pn_supernet p) = Ok n ->
  ~ (27 <= n <= 30) ->
  run_cli FabricNodeShow σ = (Ok out, σ1) ->
  exists e σ',
    auto_configure_link_ips p σ = (Raise e, σ') /\
    ((e = KeyError /\
      log σ' = log σ1
               ++ map SystemSettingsNoAutoTrunk (list_set (py_split out))) \/
     (e = SystemExit /\
      exists done,
        done `prefix_of` list_set (py_split out) /\ done <> [] /\
        log σ' = log σ1 ++ map SystemSettingsNoAutoTrunk done)).
Proof.
  intros Hcidr Hsn Hn Hshow. unfold auto_configure_link_ips.
  rewrite bind_eq, Hshow, bind_eq.
  destruct (disable_trunk_all (list_set (py_split out)) " " σ1)
    as (r & σ2 & -> & [(output' & -> & Hlog)|(-> & done & Hpre & Hne & Hlog)]).
  - rewrite bind_eq. unfold pure.
    assert (calculate_link_ip_addresses (pn_net_address p) (pn_cidr p)
              (pn_supernet p) = Raise KeyError) as ->.
    { unfold calculate_link_ip_addresses. rewrite Hcidr. simpl.
      rewrite Hsn. simpl. unfold py_getitem.
      destruct (supernet_mapping n) as [r|] eqn:Hmap; [|done].
      apply supernet_mapping_Some in Hmap. lia. }
    eexists _, _. split; [done|]. left. by split.
  - eexists _, _. split; [done|]. right. split; [done|]. by exists done.
Qed.

End InvalidSupernet.

Lemma invalid_supernet_after_auto_trunk_witness :
  exists e σ',
    auto_configure_link_ips (cp := simulated_fabric) (so := stable_set_order)
      bad_supernet two_links = (Raise e, σ') /\
    ((e = KeyError /\
      log σ' = [FabricNodeShow]
               ++ map SystemSettingsNoAutoTrunk ["spine1"; "leaf1"; "leaf2"]) \/
     (e = SystemExit /\
      exists done,
        done `prefix_of` ["spine1"; "leaf1"; "leaf2"] /\ done <> [] /\
        log σ' = [FabricNodeShow] ++ map SystemSettingsNoAutoTrunk done)).
Proof.
  apply (invalid_supernet_after_auto_trunk (cp := simulated_fabric)
           (so := stable_set_order) bad_supernet 24 26 two_links
           (Session (cp := simulated_fabric) (world two_links) [FabricNodeShow])
           (reply_out (exec (ControlPlane := simulated_fabric) FabricNodeShow
                         (world two_links)).1));
    [reflexivity|reflexivity|lia|reflexivity].
Defined.

Section LoopbackBase.
Context {cp : ControlPlane}.

(** X6.  Of the loopback base address only the first three parts between
    dots are read: two bases that agree on them give the same run; a base
    with fewer than three parts ends the run with [IndexError] before any
    command. *)
Theorem loopback_base_parts (loopback_address : string) :
  ((length (py_split_on "." loopback_address) < 3)%nat ->
   forall σ, assign_loopback_ip loopback_address σ = (Raise IndexError, σ)) /\
  (forall other,
     (3 <= length (py_split_on "." loopback_address))%nat ->
     take 3 (py_split_on "." other) = take 3 (py_split_on "." loopback_address) ->
     forall σ, assign_loopback_ip other σ = assign_loopback_ip loopback_address σ).
Proof.
  split.
  - intros Hlen σ. unfold assign_loopback_ip.
    destruct (py_split_on "." loopback_address) as [|a0 [|a1 [|a2 rest]]];
      [| | |simpl in Hlen; lia].
    + by rewrite py_index_nil.
    + rewrite py_index_head. by vm_compute.
    + rewrite py_index_head, (py_index_of_nat _ 1 a1) by done. by vm_compute.
  - intros other Hlen Htake σ.
    destruct (py_split_on "." loopback_address) as [|a0 [|a1 [|a2 rest]]] eqn:Ha;
      [simpl in Hlen; lia..|].
    destruct (py_split_on "." other) as [|b0 [|b1 [|b2 rest']]] eqn:Hb;
      [discriminate..|].
    injection Htake as -> -> ->.
    by rewrite (loopback_static_part _ _ _ _ _ _ Ha),
      (loopback_static_part _ _ _ _ _ _ Hb).
Qed.

End LoopbackBase.

Lemma loopback_base_parts_witness :
  (forall σ, assign_loopback_ip (cp := simulated_fabric) "10.0" σ
             = (Raise IndexError, σ)) /\
  (forall σ, assign_loopback_ip (cp := simulated_fabric) "10.0.0.77/24" σ
             = assign_loopback_ip "10.0.0.0" σ).
Proof.
  split.
  - destruct (loopback_base_parts (cp := simulated_fabric) "10.0")
      as [Hshort _].
    apply Hshort. vm_compute. lia.
  - destruct (loopback_base_parts (cp := simulated_fabric) "10.0.0.0")
      as [_ Hsame].
    apply Hsame; [vm_compute; lia|reflexivity].
Defined.

Lemma list_set_singleton {so : SetOrder} (x : string) : list_set [x] = [x].
Proof.
  pose proof (list_set_NoDup [x]) as Hnd.
  pose proof (list_set_elem [x]) as Helem.
  destruct (list_set [x]) as [|y l].
  - destruct (Helem x) as [_ Hx]. specialize (Hx ltac:(by left)).
    by apply elem_of_nil in Hx.
  - assert (y = x) as ->.
    { destruct (Helem y) as [Hy _]. specialize (Hy ltac:(by left)).
      by apply list_elem_of_singleton in Hy. }
    destruct l as [|z l]; [done|].
    assert (z = x) as ->.
    { destruct (Helem z) as [Hz _]. specialize (Hz ltac:(right; by left)).
      by apply list_elem_of_singleton in Hz. }
    apply NoDup_cons in Hnd as [Hx _]. exfalso. apply Hx. by left.
Qed.

Section SilentReply.
Context {cp : ControlPlane} {so : SetOrder}.

(** X7.  [run_cli] never hands back an empty text: a command that prints
    nothing gives ['Success'], which [split()] turns into one name.  So on a
    port that is in no trunk (the query prints nothing) [delete_trunk] goes
    on to delete a trunk called [Success]; only a reply of white space alone
    makes it skip the deletion. *)
Theorem silent_reply_is_a_name (switch switch_port peer_switch : string)
    (σ : session) :
  (forall c out σ', run_cli c σ = (Ok out, σ') -> out <> "") /\
  (reply_out (exec (PortShowTrunk switch switch_port peer_switch) (world σ)).1
   = "" ->
   reply_err (exec (PortShowTrunk switch switch_port peer_switch) (world σ)).1
   = "" ->
   log (delete_trunk switch switch_port peer_switch σ).2
   = log σ ++ [PortShowTrunk switch switch_port peer_switch;
               TrunkDelete switch "Success"]) /\
  (forall out σ',
     run_cli (PortShowTrunk switch switch_port peer_switch) σ = (Ok out, σ') ->
     py_split out = [] ->
     delete_trunk switch switch_port peer_switch σ = (Ok "", σ')).
Proof.
  split; [|split].
  - intros c out σ'. rewrite run_cli_eq. unfold reply_text.
    destruct (reply_out (exec c (world σ)).1) as [|a s] eqn:Hout; simpl.
    + destruct (py_bool (reply_err _)); [done|]. by intros [= <- _].
    + by intros [= <- _].
  - intros Hout Herr. unfold delete_trunk.
    rewrite bind_eq, run_cli_eq. unfold reply_text. rewrite Hout, Herr.
    cbn [py_bool]. change (py_split "Success") with ["Success"].
    rewrite list_set_singleton. cbv iota.
    change (0 <? Z.of_nat (length ["Success"])) with true. cbv iota.
    rewrite bind_eq. unfold pure. rewrite py_index_head.
    rewrite bind_eq, run_cli_eq. cbn [log].
    destruct (reply_text _); simpl; by rewrite <- List.app_assoc.
  - intros out σ' Hrun Hsplit. unfold delete_trunk.
    rewrite bind_eq, Hrun, Hsplit.
    assert (list_set [] = []) as ->.
    { pose proof (list_set_elem []) as Helem.
      destruct (list_set []) as [|y l]; [done|].
      destruct (Helem y) as [Hy _]. specialize (Hy ltac:(by left)).
      by apply elem_of_nil in Hy. }
    reflexivity.
Qed.

End SilentReply.

Lemma silent_reply_is_a_name_witness :
  log (delete_trunk (cp := simulated_fabric) (so := stable_set_order)
         "leaf1" "11" "spine1" two_links).2
  = [PortShowTrunk "leaf1" "11" "spine1"; TrunkDelete "leaf1" "Success"].
Proof.
  destruct (silent_reply_is_a_name (cp := simulated_fabric)
              (so := stable_set_order) "leaf1" "11" "spine1" two_links)
    as (_ & Hsilent & _).
  apply Hsilent; reflexivity.
Defined.

Section VrouterCreation.
Context {cp : ControlPlane}.

(** X8.  [create_vrouter] names the vrouter after the switch without its
    first three characters and puts it in the fabric's global vnet; on a
    control plane where the listing is read-only and shows a vrouter once it
    is created, a second call right after the first creates nothing and
    reports that the vrouter exists. *)
Theorem create_vrouter_idempotent (p : params) (switch : string) :
  let vrouter_name := py_slice_from 3 switch +:+ "-vrouter" in
  let vnet_name := pn_fabric_name p +:+ "-global" in
  read_only (VrouterShowNamesOn switch) ->
  listed_after (VrouterCreate switch vrouter_name vnet_name)
    (VrouterShowNamesOn switch) vrouter_name ->
  (forall σ, exists d,
     log (create_vrouter p switch σ).2 = log σ ++ d /\
     (d = [VrouterShowNamesOn switch] \/
      d = [VrouterShowNamesOn switch;
           VrouterCreate switch vrouter_name vnet_name])) /\
  repeats_as_noop (create_vrouter p switch)
    (" Vrouter name " +:+ vrouter_name +:+ " on switch " +:+ switch
     +:+ " already exists. ").
Proof.
  intros vrouter_name vnet_name Hro Hlisted. split.
  - intros σ. unfold create_vrouter. fold vrouter_name vnet_name.
    rewrite bind_eq, run_cli_eq.
    destruct (reply_text _) as [shown| |]; simpl;
      [|by eexists; split; [done|left]..].
    destruct (negb _); simpl; [|by eexists; split; [done|left]].
    rewrite bind_eq, run_cli_eq. simpl.
    exists [VrouterShowNamesOn switch;
            VrouterCreate switch vrouter_name vnet_name].
    split; [|by right].
    destruct (reply_text _); simpl; by rewrite <- List.app_assoc.
  - intros σ out σ1 Hfirst.
    assert (Hsecond : forall σa shown,
              reply_text ((exec (VrouterShowNamesOn switch) (world σa)).1)
              = Ok shown ->
              py_in vrouter_name (py_split shown) = true ->
              exists σ2,
                create_vrouter p switch σa
                = (Ok (" Vrouter name " +:+ vrouter_name +:+ " on switch "
                       +:+ switch +:+ " already exists. "), σ2) /\
                world σ2 = world σa /\
                List.filter is_mutation (log σ2)
                = List.filter is_mutation (log σa)).
    { intros σa shown Hshown Hin. unfold create_vrouter.
      fold vrouter_name vnet_name.
      rewrite bind_eq, run_cli_eq, Hshown, Hin. simpl.
      eexists; split; [done|]. simpl. split; [apply Hro|].
      by apply filter_mutation_query. }
    unfold create_vrouter in Hfirst. fold vrouter_name vnet_name in Hfirst.
    rewrite bind_eq, run_cli_eq in Hfirst.
    destruct (reply_text ((exec (VrouterShowNamesOn switch) (world σ)).1))
      as [shown| |] eqn:Hshow; try discriminate.
    rewrite Hro in Hfirst.
    destruct (py_in vrouter_name (py_split shown)) eqn:Hin; simpl in Hfirst.
    + injection Hfirst as <- <-. by apply (Hsecond _ shown).
    + rewrite bind_eq, run_cli_eq in Hfirst. simpl in Hfirst.
      destruct (reply_text ((exec (VrouterCreate switch vrouter_name vnet_name)
                               (world σ)).1)) as [made| |] eqn:Hmade;
        try discriminate.
      injection Hfirst as <- <-.
      pose proof (Hlisted _ _ Hmade) as Hin'.
      apply (Hsecond (Session _ _) _ (reply_text_listed _ _ Hin') Hin').
Qed.

End VrouterCreation.

Lemma create_vrouter_idempotent_witness :
  repeats_as_noop (cp := simulated_fabric)
    (create_vrouter one_spine_two_leaves "auto-leaf1")
    " Vrouter name o-leaf1-vrouter on switch auto-leaf1 already exists. ".
Proof.
  apply (create_vrouter_idempotent (cp := simulated_fabric)
           one_spine_two_leaves "auto-leaf1").
  - by apply fabric_read_only.
  - by apply fabric_listed_after.
Defined.

(** ** Leaf clusters of pn_ebgp.py *)

Section BgpClusterRound.
Context {cp : ControlPlane} {so : SetOrder}.

Lemma scan_system_names_find (node1 : string)
    (spine_list system_names noncluster_leaf : list string) (output : string) :
  scan_system_names node1 spine_list system_names noncluster_leaf output
  = match List.find (pairing_candidate spine_list noncluster_leaf)
            system_names with
    | Some switch => form_cluster node1 switch noncluster_leaf output
    | None => mret (noncluster_leaf, output)
    end.
Proof.
  induction system_names as [|switch rest IH]; [done|]. simpl.
  unfold pairing_candidate at 1.
  destruct (py_in switch spine_list); simpl; [exact IH|].
  destruct (py_in switch noncluster_leaf); [done|exact IH].
Qed.

Lemma form_cluster_trace (node1 switch : string)
    (noncluster_leaf : list string) (output : string) :
  emits (form_cluster node1 switch noncluster_leaf output)
    (post (fun res d =>
             py_remove switch noncluster_leaf = Ok res.1 /\
             pairs_at_most (pair_cluster node1 switch) d)
          (pairs_at_most (pair_cluster node1 switch))).
Proof.
  unfold form_cluster.
  eapply emits_bind; [apply create_cluster_trace| |done].
  intros out d1 Hd1. apply emits_bind_pure.
  destruct (py_remove switch noncluster_leaf) as [l| |] eqn:Hrem.
  - apply emits_ret. simpl. by rewrite app_nil_r.
  - simpl. by rewrite app_nil_r.
  - by apply py_remove_fuel in Hrem.
Qed.

Lemma scan_system_names_trace (node1 : string)
    (spine_list system_names noncluster_leaf : list string) (output : string) :
  emits (scan_system_names node1 spine_list system_names noncluster_leaf output)
    (post (fun res d =>
             (res.1 = noncluster_leaf /\ d = []) \/
             (exists node2,
                node2 ∈ noncluster_leaf /\ (node2 ∉ spine_list) /\
                py_remove node2 noncluster_leaf = Ok res.1 /\
                pairs_at_most (pair_cluster node1 node2) d))
          (fun d => exists node2,
             node2 ∈ noncluster_leaf /\
             pairs_at_most (pair_cluster node1 node2) d)).
Proof.
  induction system_names as [|node2 rest IH]; simpl.
  - apply emits_ret. simpl. by left.
  - destruct (py_in node2 spine_list) eqn:Hspine; simpl; [exact IH|].
    destruct (py_in node2 noncluster_leaf) eqn:Hin; [|exact IH].
    apply py_in_true in Hin. apply py_in_false in Hspine.
    eapply emits_weaken; [apply form_cluster_trace|].
    intros [res|e|] d; simpl; try done.
    + intros [Hres Hd]. right. by exists node2.
    + intros Hd. by exists node2.
Qed.

(** One round: the first leaf leaves the list; at most one cluster is
    created, of that leaf and a leaf that was still on the list. *)
Lemma cluster_first_leaf_round (spine_list : list string) (node1 : string)
    (rest : list string) (output : string) :
  emits (cluster_first_leaf spine_list (node1 :: rest) output)
    (post (fun res d =>
             popped_leaves d = [node1] /\
             ((res.1 = rest /\ cluster_members d = []) \/
              (exists node2,
                 node2 ∈ rest /\ (node2 ∉ spine_list) /\
                 py_remove node2 rest = Ok res.1 /\
                 (cluster_members d = [] \/
                  cluster_members d = [node1; node2]))))
          (fun d =>
             popped_leaves d = [node1] /\
             (cluster_members d = [] \/
              exists node2, node2 ∈ rest /\ cluster_members d = [node1; node2]))).
Proof.
  unfold cluster_first_leaf.
  apply emits_bind_pure. rewrite py_index_head.
  apply emits_bind_pure. rewrite py_remove_head.
  eapply (emits_bind _ _ (fun _ d => d = [LldpShowSysName node1])
            (fun d => d = [LldpShowSysName node1])).
  - by apply emits_run_cli.
  - intros out d1 ->.
    eapply emits_weaken; [apply scan_system_names_trace|].
    intros [res|e|] d; simpl; try done.
    + intros [[H1 H2]|(node2 & Hin & Hsp & Hrem & Hpair)].
      * subst d. split; [done|]. by left.
      * pose proof (pairs_at_most_members _ _ _ Hpair) as Hm.
        destruct Hpair as [Hp _]. rewrite Hp. split; [done|].
        right. exists node2. done.
    + intros (node2 & Hin & Hpair).
      pose proof (pairs_at_most_members _ _ _ Hpair) as Hm.
      destruct Hpair as [Hp _]. rewrite Hp. split; [done|].
      destruct Hm as [-> | ->]; [by left|right; by exists node2].
  - intros d ->. split; [done|]. by left.
Qed.

Lemma leaf_cluster_formation_trace (worklist spine_list : list string) :
  NoDup worklist ->
  emits (leaf_cluster_formation worklist spine_list)
    (post (fun _ d => pairing_trace_ok worklist d) (pairing_trace_ok worklist)).
Proof.
  intros Hnd. unfold leaf_cluster_formation.
  set (I := fun (st : Z * list string * string) (d : list command) =>
    NoDup (cluster_members d ++ st.1.2) /\ NoDup (popped_leaves d ++ st.1.2) /\
    (forall x, x ∈ cluster_members d ++ st.1.2 -> x ∈ worklist) /\
    (forall x, x ∈ popped_leaves d ++ st.1.2 -> x ∈ worklist)).
  set (mu := fun st : Z * list string * string =>
    ((if (st.1.1 =? 0)%Z then 1 else 0) + length st.1.2)%nat).
  assert (Hweak : forall st d, I st d -> pairing_trace_ok worklist d).
  { intros [[flag wl] out] d (H1 & H2 & H3 & H4). simpl in *.
    apply NoDup_app in H1 as (H1 & _ & _). apply NoDup_app in H2 as (H2 & _ & _).
    repeat split; try done; intros x Hx; [apply H3|apply H4];
      apply elem_of_app; by left. }
  eapply emits_bind with
    (Q1 := fun st d => I st d) (E1 := pairing_trace_ok worklist).
  - eapply emits_weaken.
    + apply (emits_while _ _ I (pairing_trace_ok worklist) mu) with (d := []).
      * intros [[flag wl] out] d HI Hcond. simpl in Hcond.
        apply Z.eqb_eq in Hcond. subst flag.
        destruct wl as [|node1 rest].
        -- simpl. apply emits_ret. simpl. rewrite app_nil_r.
           split; [|unfold mu; simpl; lia].
           destruct HI as (H1 & H2 & H3 & H4). by repeat split.
        -- change (Z.of_nat (length (node1 :: rest)) =? 0) with false.
           cbv iota. destruct HI as (H1 & H2 & H3 & H4). simpl in *.
           assert (Hround : forall wl' d2,
             popped_leaves d2 = [node1] ->
             ((wl' = rest /\ cluster_members d2 = []) \/
              (exists node2,
                 node2 ∈ rest /\ py_remove node2 rest = Ok wl' /\
                 (cluster_members d2 = [] \/
                  cluster_members d2 = [node1; node2]))) ->
             I (0, wl', out) (d ++ d2) /\ (length wl' <= length rest)%nat).
           { intros wl' d2 Hp Hm.
             destruct (pairing_round_lists (cluster_members d)
                         (popped_leaves d) node1 rest wl' (cluster_members d2)
                         H1 H2 Hm) as (G1 & G2 & G3 & G4 & G5).
             split; [|done]. unfold I. simpl.
             rewrite cluster_members_app, popped_leaves_app, Hp.
             repeat split; try done; intros x Hx; auto. }
           eapply emits_bind; [apply cluster_first_leaf_round| |].
           ++ intros [wl' out'] d2 [Hp Hm]. apply emits_ret. simpl.
              rewrite app_nil_r.
              destruct (Hround wl' d2 Hp) as [G1 G2].
              { simpl in Hm.
                destruct Hm as [[? ?]|(node2 & ? & ? & ? & ?)];
                  [by left|right; by exists node2]. }
              split; [exact G1|unfold mu; simpl; lia].
           ++ intros d2 [Hp Hm].
              destruct Hm as [Hm|(node2 & Hin & Hm)].
              ** apply (Hweak (0, rest, out)), (Hround rest d2 Hp).
                 by left.
              ** destruct (py_remove_elem _ _ Hin) as [wl' Hwl'].
                 apply (Hweak (0, wl', out)), (Hround wl' d2 Hp).
                 right. exists node2. auto.
      * unfold I. simpl. repeat split; try done; apply NoDup_nil_2.
      * unfold mu. simpl. lia.
    + intros [st|e|] d; simpl; try done. intros [HI _]. exact HI.
  - intros [[flag wl] out] d HI. apply emits_ret. simpl.
    rewrite app_nil_r. by apply (Hweak _ _ HI).
  - done.
Qed.

End BgpClusterRound.

Section BgpClusterRun.
Context {cp : ControlPlane} {so : SetOrder}.

Lemma create_cluster_only (switch name node1 node2 : string) :
  only cluster_command (fun _ => True) (create_cluster switch name node1 node2).
Proof. unfold create_cluster. repeat only_step. Qed.

Lemma scan_system_names_only (node1 : string)
    (spine_list system_names noncluster_leaf : list string) (output : string) :
  only cluster_command
    (fun res => (length res.1 <= length noncluster_leaf)%nat)
    (scan_system_names node1 spine_list system_names noncluster_leaf output).
Proof.
  induction system_names as [|switch rest IH]; simpl; [by apply only_ret|].
  destruct (negb _); [|exact IH].
  destruct (py_in switch noncluster_leaf); [|exact IH].
  unfold form_cluster. only_next ltac:(apply create_cluster_only).
  eapply (only_bind _
            (fun l => (length l <= length noncluster_leaf)%nat)).
  { apply only_pure; [apply py_remove_fuel|].
    intros l Hl%py_remove_length. lia. }
  intros l Hl. by apply only_ret.
Qed.

Lemma cluster_first_leaf_only (spine_list noncluster_leaf : list string)
    (output : string) :
  only cluster_command
    (fun res => (length res.1 < length noncluster_leaf)%nat)
    (cluster_first_leaf spine_list noncluster_leaf output).
Proof.
  unfold cluster_first_leaf. only_next only_leaf.
  eapply (only_bind _
            (fun l => (length l < length noncluster_leaf)%nat)).
  { apply only_pure; [apply py_remove_fuel|].
    intros l Hl%py_remove_length. lia. }
  intros l Hl. only_next only_leaf.
  eapply only_weaken; [apply scan_system_names_only|].
  intros res Hres. simpl in *. lia.
Qed.

Lemma leaf_cluster_formation_only (noncluster_leaf spine_list : list string) :
  only cluster_command (fun _ => True)
    (leaf_cluster_formation noncluster_leaf spine_list).
Proof.
  unfold leaf_cluster_formation.
  eapply (only_bind _ (fun _ => True)).
  - eapply only_weaken.
    + apply (only_while _ (fun _ => True)
               (fun st : Z * list string * string =>
                  ((if (st.1.1 =? 0)%Z then 1 else 0) + length st.1.2)%nat));
        [|done|simpl; lia].
      intros [[flag l] output] _ Hcond. simpl in Hcond.
      apply Z.eqb_eq in Hcond. subst flag. simpl.
      destruct (Z.eqb_spec (Z.of_nat (length l)) 0) as [Hl|Hl].
      * apply only_ret. split; [done|]. simpl. lia.
      * eapply (only_bind _ (fun res => (length res.1 < length l)%nat));
          [apply cluster_first_leaf_only|].
        intros [l' output'] Hl'. apply only_ret. split; [done|].
        simpl in *. lia.
    + done.
  - intros [[flag l] output] _. only_leaf.
Qed.

Lemma create_leaf_cluster_only (p : params) :
  only cluster_command (fun _ => True) (create_leaf_cluster p).
Proof.
  unfold create_leaf_cluster.
  eapply (only_bind _ (fun _ => True)).
  { unfold leaf_no_cluster. do 2 (only_next only_leaf).
    apply (only_for _ (fun _ => True)); [|done].
    intros leaf l _. destruct (_ && _); only_leaf. }
  intros l _. only_next ltac:(apply leaf_cluster_formation_only). only_leaf.
Qed.

(** X9.  One round of [leaf_cluster_formation] on a list that starts with
    [node1]: the neighbours of [node1] are read and deduplicated, and
    [node1] is clustered with the first of them that is not a spine and is
    still on the list; without such a neighbour the round only takes [node1]
    off the list.  No fabric-node listing is consulted. *)
Theorem bgp_cluster_round (spine_list : list string) (node1 : string)
    (rest : list string) (output : string) (σ σ1 : session) (out : string) :
  run_cli (LldpShowSysName node1) σ = (Ok out, σ1) ->
  cluster_first_leaf spine_list (node1 :: rest) output σ
  = match List.find (pairing_candidate spine_list rest)
            (list_set (py_split out)) with
    | Some switch => form_cluster node1 switch rest output σ1
    | None => (Ok (rest, output), σ1)
    end.
Proof.
  intros Hshow. unfold cluster_first_leaf.
  rewrite bind_eq. unfold pure at 1. rewrite py_index_head.
  rewrite bind_eq. unfold pure at 1. rewrite py_remove_head.
  rewrite bind_eq, Hshow, scan_system_names_find.
  by destruct (List.find _ _).
Qed.

(** X10.  On a leaf list without repeated entries the run of
    [create_leaf_cluster] ends, issues only cluster queries, neighbour
    queries and cluster creations, and the clusters it creates have members
    that are pairwise distinct, come from the leaf list and are not in a
    cluster already. *)
Theorem bgp_one_cluster_per_leaf (p : params) (σ σ1 σ2 : session)
    (out1 out2 : string) :
  NoDup (pn_leaf_list p) ->
  run_cli ClusterShowNode1 σ = (Ok out1, σ1) ->
  run_cli ClusterShowNode2 σ1 = (Ok out2, σ2) ->
  exists r σ' d,
    create_leaf_cluster p σ = (r, σ') /\
    r <> OutOfFuel /\
    log σ' = log σ2 ++ d /\
    forallb cluster_command d = true /\
    NoDup (cluster_members d) /\
    forall x, x ∈ cluster_members d ->
      x ∈ pn_leaf_list p /\ (x ∉ py_split out1) /\ (x ∉ py_split out2).
Proof.
  intros Hnd H1 H2.
  set (keep := fun leaf => negb (py_in leaf (py_split out1))
                           && negb (py_in leaf (py_split out2))).
  assert (Hleaf : leaf_no_cluster (pn_leaf_list p) σ
                  = (Ok (List.filter keep (pn_leaf_list p)), σ2)).
  { unfold leaf_no_cluster. rewrite bind_eq, H1, bind_eq, H2.
    by rewrite keep_unclustered. }
  unfold create_leaf_cluster. rewrite bind_eq, Hleaf, bind_eq.
  destruct (leaf_cluster_formation_trace (List.filter keep (pn_leaf_list p))
              (pn_spine_list p) (NoDup_list_filter keep _ Hnd) σ2)
    as (d & Hd & Hpost).
  destruct (leaf_cluster_formation_only (List.filter keep (pn_leaf_list p))
              (pn_spine_list p) σ2) as (d' & Hd' & Honly).
  rewrite Hd in Hd'. apply app_inv_head in Hd'. subst d'.
  destruct (leaf_cluster_formation _ _ σ2) as [r σ'] eqn:Hrun.
  simpl in Hd, Hpost, Honly.
  assert (r <> OutOfFuel /\ forallb cluster_command d = true /\
          pairing_trace_ok (List.filter keep (pn_leaf_list p)) d)
    as (Hr & Hc & (Hm & _ & Hsub & _)).
  { destruct r; simpl in *;
      [split; [done|tauto]|split; [done|tauto]|done]. }
  assert (Hmem : forall x, x ∈ cluster_members d ->
            x ∈ pn_leaf_list p /\ (x ∉ py_split out1) /\ (x ∉ py_split out2)).
  { intros x Hx. specialize (Hsub x Hx).
    apply list_elem_of_In, List.filter_In in Hsub as [Hin Hkeep].
    unfold keep in Hkeep. apply andb_prop in Hkeep as [K1 K2].
    apply negb_true_iff in K1, K2.
    split; [by apply list_elem_of_In|]. split; by apply py_in_false. }
  destruct r as [out| |]; [| |done].
  - eexists _, _, d. split; [reflexivity|]. split; [done|].
    split; [exact Hd|]. split; [exact Hc|]. split; [exact Hm|exact Hmem].
  - eexists _, _, d. split; [reflexivity|]. split; [done|].
    split; [exact Hd|]. split; [exact Hc|]. split; [exact Hm|exact Hmem].
Qed.

End BgpClusterRun.

Lemma bgp_cluster_round_witness :
  cluster_first_leaf (cp := simulated_fabric) (so := stable_set_order)
    ["spine1"; "spine2"] ["leaf1"; "leaf2"] " " unlisted_neighbour
  = form_cluster (cp := simulated_fabric) "leaf1" "leaf2" ["leaf2"] " "
      (Session (cp := simulated_fabric) (world unlisted_neighbour)
         [LldpShowSysName "leaf1"]).
Proof.
  apply (bgp_cluster_round (cp := simulated_fabric) (so := stable_set_order)
           ["spine1"; "spine2"] "leaf1" ["leaf2"] " " unlisted_neighbour
           (Session (cp := simulated_fabric) (world unlisted_neighbour)
              [LldpShowSysName "leaf1"])
           (reply_out (exec (ControlPlane := simulated_fabric)
                         (LldpShowSysName "leaf1")
                         (world unlisted_neighbour)).1)).
  reflexivity.
Defined.

Lemma bgp_one_cluster_per_leaf_witness :
  exists r σ' d,
    create_leaf_cluster (cp := simulated_fabric) (so := stable_set_order)
      one_spine leaf_chain = (r, σ') /\
    r <> OutOfFuel /\
    log σ' = [ClusterShowNode1; ClusterShowNode2] ++ d /\
    forallb cluster_command d = true /\
    NoDup (cluster_members d) /\
    forall x, x ∈ cluster_members d ->
      x ∈ ["leaf1"; "leaf2"] /\ (x ∉ py_split "Success") /\
      (x ∉ py_split "Success").
Proof.
  apply (bgp_one_cluster_per_leaf (cp := simulated_fabric)
           (so := stable_set_order) one_spine leaf_chain
           (Session (cp := simulated_fabric) (world leaf_chain)
              [ClusterShowNode1])
           (Session (cp := simulated_fabric) (world leaf_chain)
              [ClusterShowNode1; ClusterShowNode2])
           "Success" "Success").
  - apply (bool_decide_unpack _). vm_compute. reflexivity.
  - reflexivity.
  - reflexivity.
Defined.

(** ** Rules for the command logs of the other functions *)

Section NetvisorRules.
Import Netvisor.
Context {cp : Netvisor.ControlPlane}.

Lemma nv_bind_eq {A B : Type} (m : M A) (f : A -> M B) (σ : session) :
  (m ≫= f) σ
  = match m σ with
    | (Ok a, σ') => f a σ'
    | (Raise e, σ') => (Raise e, σ')
    | (OutOfFuel, σ') => (OutOfFuel, σ')
    end.
Proof. reflexivity. Qed.

Lemma nv_pure_bind {A B : Type} (a : A) (f : A -> M B) (σ : session) :
  (pure (Ok a) ≫= f) σ = f a σ.
Proof. reflexivity. Qed.

Lemma nv_pure_raise {A B : Type} (e : exn) (f : A -> M B) (σ : session) :
  (pure (Raise e) ≫= f) σ = (Raise e, σ).
Proof. reflexivity. Qed.

Lemma nv_run_cli_eq (c : command) (σ : session) :
  run_cli c σ = (reply_text ((exec c (world σ)).1),
                 Session ((exec c (world σ)).2) (log σ ++ [c])).
Proof. unfold run_cli. by destruct (exec c (world σ)). Qed.

Lemma nv_run_command_eq (c : command) (σ : session) :
  run_command c σ = (Ok ((exec c (world σ)).1),
                     Session ((exec c (world σ)).2) (log σ ++ [c])).
Proof. unfold run_command. by destruct (exec c (world σ)). Qed.

Lemma nv_emits_weaken {A : Type} (m : M A)
    (Q Q' : result A -> list command -> Prop) :
  emits m Q -> (forall r d, Q r d -> Q' r d) -> emits m Q'.
Proof. intros Hm HQ σ. destruct (Hm σ) as (d & Hd & Hq). eauto. Qed.

Lemma nv_emits_ret {A : Type} (a : A) (Q : result A -> list command -> Prop) :
  Q (Ok a) [] -> emits (mret a) Q.
Proof. intros HQ σ. exists []. simpl. by rewrite app_nil_r. Qed.

Lemma nv_emits_run_cli (c : command) (Qok : string -> list command -> Prop)
    (Qraise : list command -> Prop) :
  (forall out, out <> "" -> Qok out [c]) -> Qraise [c] ->
  emits (run_cli c) (post Qok Qraise).
Proof.
  intros Hok Hraise σ. exists [c]. rewrite nv_run_cli_eq. simpl.
  split; [done|]. unfold reply_text.
  destruct (reply_out _) as [|a s]; simpl; [|by apply Hok].
  destruct (py_bool (reply_err _)); [apply Hraise|by apply Hok].
Qed.

Lemma nv_emits_run_command (c : command) (Qok : reply -> list command -> Prop)
    (Qraise : list command -> Prop) :
  (forall r, Qok r [c]) -> emits (run_command c) (post Qok Qraise).
Proof.
  intros Hok σ. exists [c]. rewrite nv_run_command_eq. simpl.
  split; [done|apply Hok].
Qed.

Lemma nv_emits_bind {A B : Type} (m : M A) (f : A -> M B)
    (Q1 : A -> list command -> Prop) (E1 : list command -> Prop)
    (Q : B -> list command -> Prop) (E : list command -> Prop) :
  emits m (post Q1 E1) ->
  (forall a d1, Q1 a d1 ->
     emits (f a) (post (fun b d2 => Q b (d1 ++ d2)) (fun d2 => E (d1 ++ d2)))) ->
  (forall d1, E1 d1 -> E d1) ->
  emits (m ≫= f) (post Q E).
Proof.
  intros Hm Hf HE σ. rewrite nv_bind_eq.
  destruct (Hm σ) as (d1 & Hd1 & H1).
  destruct (m σ) as [[a|e|] σ1]; simpl in *.
  - destruct (Hf a d1 H1 σ1) as (d2 & Hd2 & H2).
    exists (d1 ++ d2). rewrite Hd2, Hd1, List.app_assoc. split; [done|].
    by destruct (f a σ1).1.
  - exists d1. split; [done|]. by apply HE.
  - done.
Qed.

Lemma nv_emits_bind_pure {A B : Type} (r : result A) (f : A -> M B)
    (Q : result B -> list command -> Prop) :
  match r with
  | Ok a => emits (f a) Q
  | Raise e => Q (Raise e) []
  | OutOfFuel => Q OutOfFuel []
  end ->
  emits (pure r ≫= f) Q.
Proof.
  intros H σ. rewrite nv_bind_eq. unfold pure.
  destruct r as [a|e|]; [apply H| |]; exists []; by rewrite app_nil_r.
Qed.

Lemma nv_emits_for {A S : Type} (xs : list A) (body : A -> S -> M S)
    (I : list A -> S -> list command -> Prop) (E : list command -> Prop) :
  (forall done x rest s d, xs = done ++ x :: rest -> I done s d ->
     emits (body x s)
       (post (fun s' d2 => I (done ++ [x]) s' (d ++ d2))
             (fun d2 => E (d ++ d2)))) ->
  forall s, I [] s [] ->
  emits (for_m xs body s) (post (fun s' d => I xs s' d) E).
Proof.
  intros Hbody.
  assert (Hgen : forall rest done s d, xs = done ++ rest -> I done s d ->
            emits (for_m rest body s)
              (post (fun s' d2 => I xs s' (d ++ d2)) (fun d2 => E (d ++ d2)))).
  { induction rest as [|x rest IH]; intros done s d Hxs HI.
    - apply nv_emits_ret. simpl. rewrite app_nil_r in *. by subst.
    - simpl. eapply nv_emits_bind.
      + by apply (Hbody done x rest s d).
      + intros s' d1 HI'. simpl in HI'.
        eapply nv_emits_weaken.
        * apply (IH (done ++ [x]) s' (d ++ d1)); [|done].
          by rewrite <- List.app_assoc.
        * intros [s''|e|] d2; simpl; by rewrite ?List.app_assoc.
      + done. }
  intros s HI. by apply (Hgen xs [] s []).
Qed.

End NetvisorRules.

(** ** The BGP settings of pn_ebgp.py *)

Lemma as_given_app (d1 d2 : list Netvisor.command) :
  Netvisor.as_given (d1 ++ d2) = Netvisor.as_given d1 ++ Netvisor.as_given d2.
Proof. apply flat_map_app. Qed.

Lemma located_app (d1 d2 : list Netvisor.command) :
  Netvisor.located (d1 ++ d2) = Netvisor.located d1 ++ Netvisor.located d2.
Proof. apply flat_map_app. Qed.

Lemma as_plan_app (bgp_as : string) (bgp_leaf : Z)
    (roles1 roles2 : list (string * bool)) :
  Netvisor.as_plan bgp_as bgp_leaf (roles1 ++ roles2)
  = Netvisor.as_plan bgp_as bgp_leaf roles1
    ++ Netvisor.as_plan bgp_as
         (bgp_leaf
          + Z.of_nat (length (List.filter (fun role => negb role.2) roles1)))
         roles2.
Proof.
  revert bgp_leaf. induction roles1 as [|[v [|]] roles1 IH]; intros bgp_leaf.
  - simpl. by rewrite Z.add_0_r.
  - simpl. by rewrite IH.
  - simpl. rewrite IH. do 3 f_equal. lia.
Qed.

(** The AS numbers of the plan: the given one on the spines, consecutive
    numbers from [bgp_leaf] on elsewhere. *)
Lemma as_plan_numbers (bgp_as : string) (bgp_leaf : Z)
    (roles : list (string * bool)) :
  let plan := Netvisor.as_plan bgp_as bgp_leaf roles in
  map (fun entry => entry.1) plan = roles /\
  Forall (fun entry => entry.1.2 = true -> entry.2 = bgp_as) plan /\
  map snd (List.filter (fun entry => negb entry.1.2) plan)
  = map py_str
      (seqZ bgp_leaf
         (Z.of_nat (length (List.filter (fun role => negb role.2) roles)))).
Proof.
  revert bgp_leaf. induction roles as [|[v [|]] roles IH]; intros bgp_leaf.
  - done.
  - destruct (IH bgp_leaf) as (H1 & H2 & H3). simpl. split; [by rewrite H1|].
    split; [by constructor|done].
  - destruct (IH (bgp_leaf + 1)) as (H1 & H2 & H3). cbn [Netvisor.as_plan].
    split; [simpl; by rewrite H1|]. split; [by constructor|].
    cbn [List.filter negb snd fst map length]. rewrite H3.
    rewrite Nat2Z.inj_succ, (seqZ_cons bgp_leaf) by lia. simpl.
    do 3 f_equal; lia.
Qed.

Section BgpAs.
Import Netvisor.
Context {cp : Netvisor.ControlPlane}.

Lemma assigning_bgp_as_loop (spine_list : list string) (bgp_as : string)
    (vrouter_names : list string) (bgp_leaf : Z) (output : string) :
  emits
    (for_m vrouter_names
       (fun vrouter (st : Z * string) =>
          let '(bgp_leaf, output) := st in
          out ← run_cli (VrouterLocation vrouter);
          let switch_vrouter := py_split out in
          switch0 ← pure (py_index switch_vrouter 0);
          if py_in switch0 spine_list
          then
            out ← run_cli (VrouterBgpAs vrouter bgp_as);
            mret (bgp_leaf, output +:+ out +:+ " ")
          else
            out ← run_cli (VrouterBgpAs vrouter (py_str bgp_leaf));
            mret (bgp_leaf + 1, output +:+ out +:+ " "))
       (bgp_leaf, output))
    (post (fun _ d =>
             exists roles,
               map fst roles = vrouter_names /\ located d = vrouter_names /\
               as_given d
               = map (fun entry => (entry.1.1, entry.2))
                   (as_plan bgp_as bgp_leaf roles))
          (fun d =>
             exists roles,
               map fst roles `prefix_of` vrouter_names /\
               as_given d
               = map (fun entry => (entry.1.1, entry.2))
                   (as_plan bgp_as bgp_leaf roles))).
Proof.
  revert bgp_leaf output.
  induction vrouter_names as [|v vs IH]; intros bgp_leaf output.
  - apply nv_emits_ret. by exists [].
  - cbn [for_m].
    assert (Hnone : exists roles : list (string * bool),
              map fst roles `prefix_of` v :: vs /\
              @nil (string * string)
              = map (fun entry => (entry.1.1, entry.2))
                  (as_plan bgp_as bgp_leaf roles)).
    { exists []. split; [apply prefix_nil|done]. }
    eapply (nv_emits_bind _ _
              (fun st d =>
                 located d = [v] /\
                 exists spine : bool,
                   st.1 = (if spine then bgp_leaf else bgp_leaf + 1) /\
                   as_given d
                   = [(v, if spine then bgp_as else py_str bgp_leaf)])
              (fun d =>
                 as_given d = [] \/
                 exists spine : bool,
                   as_given d
                   = [(v, if spine then bgp_as else py_str bgp_leaf)])).
    + eapply (nv_emits_bind _ _ (fun _ d => d = [VrouterLocation v])
                (fun d => d = [VrouterLocation v])).
      * by apply nv_emits_run_cli.
      * intros out d1 ->. apply nv_emits_bind_pure.
        destruct (py_index (py_split out) 0) as [switch0|e|] eqn:Hindex;
          [|by left|by apply py_index_fuel in Hindex].
        destruct (py_in switch0 spine_list).
        -- eapply (nv_emits_bind _ _ (fun _ d => d = [VrouterBgpAs v bgp_as])
                     (fun d => d = [VrouterBgpAs v bgp_as])).
           ++ by apply nv_emits_run_cli.
           ++ intros out2 d2 ->. apply nv_emits_ret. simpl.
              split; [done|]. by exists true.
           ++ intros d2 ->. right. by exists true.
        -- eapply (nv_emits_bind _ _
                     (fun _ d => d = [VrouterBgpAs v (py_str bgp_leaf)])
                     (fun d => d = [VrouterBgpAs v (py_str bgp_leaf)])).
           ++ by apply nv_emits_run_cli.
           ++ intros out2 d2 ->. apply nv_emits_ret. simpl.
              split; [done|]. by exists false.
           ++ intros d2 ->. right. by exists false.
      * intros d1 ->. by left.
    + intros [bgp_leaf' output'] d1 (Hloc & spine & Hleaf & Hgiven).
      simpl in Hleaf. subst bgp_leaf'.
      eapply nv_emits_weaken; [apply IH|].
      intros [st|e|] d2; simpl; [| |done].
      * intros (roles & Hroles & Hloc2 & Hplan). exists ((v, spine) :: roles).
        rewrite located_app, as_given_app, Hloc, Hloc2, Hgiven, Hplan.
        split; [simpl; by rewrite Hroles|]. split; [done|].
        by destruct spine.
      * intros (roles & Hroles & Hplan). exists ((v, spine) :: roles).
        rewrite as_given_app, Hgiven, Hplan.
        split; [simpl; by apply prefix_cons|]. by destruct spine.
    + intros d1 [Hd1|[spine Hd1]].
      * exists []. split; [apply prefix_nil|]. by rewrite Hd1.
      * exists [(v, spine)]. rewrite Hd1.
        split; [simpl; apply prefix_cons, prefix_nil|]. by destruct spine.
Qed.


End BgpAs.


(** One spine, two leaves and the AS 65000: the spine's vrouter gets 65000,
    the leaves' vrouters 65001 and 65002. *)
Example bgp_vrouters_as :
  Netvisor.as_given
    (Netvisor.log
       (Netvisor.assigning_bgp_as (cp := Netvisor.scripted_plane)
          Netvisor.bgp_params "65000" Netvisor.bgp_vrouters).2)
  = [("spine1-vrouter", "65000"); ("leaf1-vrouter", "65001");
     ("leaf2-vrouter", "65002")].
Proof. vm_compute. reflexivity. Qed.

(** ** In-band addresses *)

Lemma string_length_app (x y : string) :
  String.length (x +:+ y) = (String.length x + String.length y)%nat.
Proof.
  induction x as [|a x IH]; [done|]. rewrite string_append_cons. simpl.
  by rewrite IH.
Qed.

Lemma string_append_cancel_r (x y z : string) :
  x +:+ z = y +:+ z -> x = y.
Proof.
  intros Heq.
  assert (String.length x = String.length y) as Hlen.
  { apply (f_equal String.length) in Heq.
    rewrite !string_length_app in Heq. lia. }
  revert y Heq Hlen. induction x as [|a x IH]; intros [|b y] Heq Hlen;
    try discriminate; [done|].
  rewrite !string_append_cons in Heq. injection Heq as -> Heq.
  f_equal. apply IH; [done|]. simpl in Hlen. lia.
Qed.

Lemma inband_plan_distinct (static_part subnet : string) (ip_count : Z)
    (switch_names : list string) :
  NoDup (Netvisor.inband_ips
           (Netvisor.inband_plan static_part subnet ip_count switch_names)).
Proof.
  assert (Netvisor.inband_ips
            (Netvisor.inband_plan static_part subnet ip_count switch_names)
          = map (fun i => static_part +:+ py_str i +:+ "/" +:+ subnet)
              (seqZ ip_count (Z.of_nat (length switch_names)))) as ->.
  { revert ip_count. induction switch_names as [|s l IH]; intros ip_count;
      [done|].
    cbn [length Netvisor.inband_plan]. rewrite seqZ_cons by lia.
    cbn [map]. change (Netvisor.inband_ips (?c :: ?d))
      with (Netvisor.inband_ips [c] ++ Netvisor.inband_ips d).
    simpl. f_equal. rewrite IH. do 2 f_equal; lia. }
  apply NoDup_map_inj; [|apply NoDup_seqZ].
  intros i j Hij. apply (inj (String.append static_part)) in Hij.
  apply (inj pretty). by apply (string_append_cancel_r _ _ ("/" +:+ subnet)).
Qed.

Section InbandIp.
Import Netvisor.
Context {cp : Netvisor.ControlPlane}.

Lemma inband_loop (static_part subnet : string) (switch_names : list string)
    (ip_count : Z) (output : string) :
  emits
    (for_m switch_names
       (fun switch (st : Z * string) =>
          let '(ip_count, output) := st in
          let ip := static_part +:+ py_str ip_count +:+ "/" +:+ subnet in
          out ← run_cli (InbandIp switch ip);
          let output := output +:+ out in
          let output := output +:+ " " in
          mret (ip_count + 1, output))
       (ip_count, output))
    (post (fun _ d => d = inband_plan static_part subnet ip_count switch_names)
          (fun d =>
             d `prefix_of`
               inband_plan static_part subnet ip_count switch_names)).
Proof.
  revert ip_count output.
  induction switch_names as [|s l IH]; intros ip_count output.
  - by apply nv_emits_ret.
  - cbn [for_m inband_plan].
    set (c := InbandIp s (static_part +:+ py_str ip_count +:+ "/" +:+ subnet)).
    eapply (nv_emits_bind _ _ (fun st d => st.1 = ip_count + 1 /\ d = [c])
              (fun d => d = [c])).
    + eapply (nv_emits_bind _ _ (fun _ d => d = [c]) (fun d => d = [c])).
      * by apply nv_emits_run_cli.
      * intros out d1 ->. by apply nv_emits_ret.
      * done.
    + intros [count' output'] d1 [Hcount ->]. simpl in Hcount. subst count'.
      eapply nv_emits_weaken; [apply IH|].
      intros [st|e|] d2; simpl; [by intros ->| |done].
      intros Hpre. by apply prefix_cons.
    + intros d1 ->. by apply prefix_cons, prefix_nil.
Qed.

(** X12.  When the in-band base has four parts between dots, the fourth with
    a [/] and a prefix length after it, and the node listing is read: with
    at most 255 switches every switch of the listing is given, in order, the
    address whose last part counts up from 1 (pairwise distinct addresses),
    whether it has one already or not; a run that a command ends has issued
    the first of these commands.  With 256 switches or more nothing is
    changed and the text returned says that the addresses do not suffice. *)
Theorem inband_assignment (inband_address a0 a1 a2 a3 l0 subnet : string)
    (rest rest' : list string) (σ σ1 : session) (out : string) :
  py_split_on "." inband_address = a0 :: a1 :: a2 :: a3 :: rest ->
  py_split_on "/" a3 = l0 :: subnet :: rest' ->
  run_cli FabricNodeShow σ = (Ok out, σ1) ->
  let static_part := (a0 +:+ "." +:+ a1 +:+ ".") +:+ a2 +:+ "." in
  let switch_names := py_split out in
  let plan := inband_plan static_part subnet 1 switch_names in
  (Z.of_nat (length switch_names) <= 255 ->
   NoDup (inband_ips plan) /\
   exists d,
     log (assign_inband_ip inband_address σ).2 = log σ1 ++ d /\
     match (assign_inband_ip inband_address σ).1 with
     | Ok _ => d = plan
     | Raise _ => d `prefix_of` plan
     | OutOfFuel => False
     end) /\
  (256 <= Z.of_nat (length switch_names) ->
   assign_inband_ip inband_address σ
   = (Ok "Not enough inband ips for all the switches", σ1)).
Proof.
  intros Haddress Hlast Hshow static_part switch_names plan.
  unfold assign_inband_ip. rewrite Haddress.
  rewrite py_index_head, (py_index_of_nat _ 1 a1), (py_index_of_nat _ 2 a2),
    (py_index_of_nat _ 3 a3) by done.
  rewrite !nv_pure_bind. cbv beta. rewrite Hlast.
  rewrite (py_index_of_nat _ 1 subnet) by done.
  rewrite nv_pure_bind. cbv beta. rewrite nv_bind_eq.
  rewrite Hshow. fold static_part switch_names. split.
  - intros Hcount. split; [apply inband_plan_distinct|].
    destruct (Z.ltb_spec 0 (Z.of_nat (length switch_names))) as [Hpos|Hzero].
    + destruct (Z.leb_spec (Z.of_nat (length switch_names) + 1 - 1) 255)
        as [_|?]; [|lia].
      rewrite nv_bind_eq.
      destruct (inband_loop static_part subnet switch_names 1 "" σ1)
        as (d & Hlog & Hpost).
      fold plan in Hpost. exists d.
      by destruct (for_m _ _ _ σ1) as [[[c output]|e|] σ2].
    + exists []. simpl. rewrite app_nil_r. split; [done|].
      assert (switch_names = []) as Hnil
        by (apply length_zero_iff_nil; lia).
      subst plan. by rewrite Hnil.
  - intros Hcount.
    destruct (Z.ltb_spec 0 (Z.of_nat (length switch_names))) as [_|?]; [|lia].
    by destruct (Z.leb_spec (Z.of_nat (length switch_names) + 1 - 1) 255)
      as [?|_]; [lia|].
Qed.

(** X13.  A base without a prefix length after a [/] in its fourth part ends
    [assign_inband_ip] with [IndexError] before any command is issued. *)
Theorem inband_needs_prefix_length (inband_address a0 a1 a2 a3 : string)
    (rest : list string) (σ : session) :
  py_split_on "." inband_address = a0 :: a1 :: a2 :: a3 :: rest ->
  lacks_char "/" a3 = true ->
  assign_inband_ip inband_address σ = (Raise IndexError, σ).
Proof.
  intros Haddress Hlacks. unfold assign_inband_ip. rewrite Haddress.
  rewrite py_index_head, (py_index_of_nat _ 1 a1), (py_index_of_nat _ 2 a2),
    (py_index_of_nat _ 3 a3) by done.
  rewrite !nv_pure_bind. cbv beta.
  rewrite (py_split_on_whole "/" a3) by done.
  assert (py_index [a3] 1 = Raise IndexError) as -> by reflexivity.
  apply nv_pure_raise.
Qed.

End InbandIp.

Lemma inband_assignment_witness :
  (exists d,
     Netvisor.log
       (Netvisor.assign_inband_ip (cp := Netvisor.scripted_plane)
          "172.16.0.0/24" Netvisor.three_switches).2
     = [Netvisor.FabricNodeShow] ++ d /\
     d = [Netvisor.InbandIp "spine1" "172.16.0.1/24";
          Netvisor.InbandIp "leaf1" "172.16.0.2/24";
          Netvisor.InbandIp "leaf2" "172.16.0.3/24"]) /\
  Netvisor.assign_inband_ip (cp := Netvisor.scripted_plane) "172.16.0.0/24"
    Netvisor.many_switches
  = (Ok "Not enough inband ips for all the switches",
     Netvisor.Session (cp := Netvisor.scripted_plane)
       (Netvisor.world Netvisor.many_switches) [Netvisor.FabricNodeShow]).
Proof.
  split.
  - destruct (inband_assignment (cp := Netvisor.scripted_plane)
                "172.16.0.0/24" "172" "16" "0" "0/24" "0" "24" [] []
                Netvisor.three_switches
                (Netvisor.Session (cp := Netvisor.scripted_plane)
                   (Netvisor.world Netvisor.three_switches)
                   [Netvisor.FabricNodeShow])
                "spine1 leaf1 leaf2" eq_refl eq_refl eq_refl) as [Hfew _].
    destruct Hfew as (_ & d & Hlog & Hd); [vm_compute; discriminate|].
    exists d. split; [exact Hlog|]. vm_compute in Hd. exact Hd.
  - destruct (inband_assignment (cp := Netvisor.scripted_plane)
                "172.16.0.0/24" "172" "16" "0" "0/24" "0" "24" [] []
                Netvisor.many_switches
                (Netvisor.Session (cp := Netvisor.scripted_plane)
                   (Netvisor.world Netvisor.many_switches)
                   [Netvisor.FabricNodeShow])
                (Netvisor.answer (Netvisor.world Netvisor.many_switches)
                   Netvisor.FabricNodeShow)
                eq_refl eq_refl eq_refl) as [_ Hmany].
    apply Hmany. vm_compute. discriminate.
Defined.

Lemma inband_needs_prefix_length_witness :
  Netvisor.assign_inband_ip (cp := Netvisor.scripted_plane) "172.16.0.0"
    Netvisor.three_switches
  = (Raise IndexError, Netvisor.three_switches).
Proof.
  apply (inband_needs_prefix_length (cp := Netvisor.scripted_plane)
           "172.16.0.0" "172" "16" "0" "0" []); reflexivity.
Defined.

(** ** 40g ports *)

Lemma list_difference_singleton {sd : Netvisor.SetDifference} (x : string)
    (b : list string) :
  x ∉ b -> Netvisor.list_difference [x] b = [x].
Proof.
  intros Hx.
  pose proof (Netvisor.list_difference_NoDup [x] b) as Hnd.
  pose proof (Netvisor.list_difference_elem [x] b) as Helem.
  destruct (Netvisor.list_difference [x] b) as [|y l].
  - destruct (Helem x) as [_ H]. specialize (H ltac:(split; [by left|done])).
    by apply elem_of_nil in H.
  - assert (y = x) as ->.
    { destruct (Helem y) as [Hy _]. specialize (Hy ltac:(by left)).
      destruct Hy as [Hy _]. by apply list_elem_of_singleton in Hy. }
    destruct l as [|z l]; [done|].
    assert (z = x) as ->.
    { destruct (Helem z) as [Hz _]. specialize (Hz ltac:(right; by left)).
      destruct Hz as [Hz _]. by apply list_elem_of_singleton in Hz. }
    apply NoDup_cons in Hnd as [Hnot _]. exfalso. apply Hnot. by left.
Qed.

Section Toggle40g.
Import Netvisor.
Context {cp : Netvisor.ControlPlane} {sd : Netvisor.SetDifference}.

Lemma toggle_local_loop (ports : list string) (output : string) :
  emits
    (for_m ports
       (fun port output =>
          range_port ← pure (range_of port);
          let output :=
            output +:+ "port range_port " +:+ range_port +:+ " disabled" in
          let output := output +:+ newline in
          out ← run_cli (LocalPortSpeedDisable range_port);
          let output := output +:+ out in
          let output :=
            output +:+ "port range_port " +:+ range_port
            +:+ " 10g converted" in
          let output := output +:+ newline in
          out ← run_cli (LocalPortSpeed10g range_port);
          let output := output +:+ out in
          let output :=
            output +:+ "port range_port " +:+ range_port +:+ "  enabled" in
          let output := output +:+ newline in
          out ← run_cli (LocalPortEnable range_port);
          let output := output +:+ out in
          mret output)
       output)
    (post (fun _ d => d = flat_map local_toggle ports)
          (fun d => d `prefix_of` flat_map local_toggle ports)).
Proof.
  revert output. induction ports as [|port ports IH]; intros output.
  - by apply nv_emits_ret.
  - cbn [for_m flat_map].
    eapply (nv_emits_bind _ _ (fun _ d => d = local_toggle port)
              (fun d => d `prefix_of` local_toggle port)).
    + apply nv_emits_bind_pure. unfold local_toggle.
      destruct (range_of port) as [range_port|e|] eqn:Hrange.
      * eapply (nv_emits_bind _ _
                  (fun _ d => d = [LocalPortSpeedDisable range_port])
                  (fun d => d = [LocalPortSpeedDisable range_port])).
        -- by apply nv_emits_run_cli.
        -- intros out1 d1 ->.
           eapply (nv_emits_bind _ _
                     (fun _ d => d = [LocalPortSpeed10g range_port])
                     (fun d => d = [LocalPortSpeed10g range_port])).
           ++ by apply nv_emits_run_cli.
           ++ intros out2 d2 ->.
              eapply (nv_emits_bind _ _
                        (fun _ d => d = [LocalPortEnable range_port])
                        (fun d => d = [LocalPortEnable range_port])).
              ** by apply nv_emits_run_cli.
              ** intros out3 d3 ->. by apply nv_emits_ret.
              ** intros d3 ->. done.
           ++ intros d2 ->. simpl. by apply prefix_cons, prefix_cons, prefix_nil.
        -- intros d1 ->. by apply prefix_cons, prefix_nil.
      * simpl. done.
      * unfold range_of in Hrange.
        destruct (py_int port) eqn:Hint; try discriminate.
        by apply py_int_fuel in Hint.
    + intros output' d1 ->.
      eapply nv_emits_weaken; [apply IH|].
      intros [st|e|] d2; simpl; [by intros ->| |done].
      intros Hpre. by apply prefix_app.
    + intros d1 Hd1. etrans; [exact Hd1|]. by apply prefix_app_r.
Qed.

(** X14.  [toggle_40g_local] leaves alone every 40g port that has a
    neighbour: the ports it changes are those of the 40g listing that the
    neighbour listing does not name, each once, and each gets its three
    changes (speed disable, speed 10g, enable) on the range from the port to
    the port plus 4.  A 40g listing that prints nothing changes nothing. *)
Theorem toggle_40g_local_ports (σ σ1 : session) (lldp : string) :
  run_cli LocalLldpPorts σ = (Ok lldp, σ1) ->
  (reply_out (exec LocalPortShow40g (world σ1)).1 = "" ->
   reply_err (exec LocalPortShow40g (world σ1)).1 = "" ->
   exists σ2,
     toggle_40g_local σ = (Ok "", σ2) /\
     log σ2 = log σ1 ++ [LocalPortShow40g]) /\
  (forall ports_40g σ2,
     run_cli LocalPortShow40g σ1 = (Ok ports_40g, σ2) ->
     ports_40g <> "Success" ->
     let ports_to_modify :=
       list_difference (py_split ports_40g) (py_split lldp) in
     NoDup ports_to_modify /\
     (forall port, port ∈ ports_to_modify ->
        port ∈ py_split ports_40g /\ port ∉ py_split lldp) /\
     exists d,
       log (toggle_40g_local σ).2 = log σ2 ++ d /\
       match (toggle_40g_local σ).1 with
       | Ok _ => d = flat_map local_toggle ports_to_modify
       | Raise _ => d `prefix_of` flat_map local_toggle ports_to_modify
       | OutOfFuel => False
       end).
Proof.
  intros Hlldp. split.
  - intros Hout Herr. unfold toggle_40g_local.
    rewrite nv_bind_eq, Hlldp, nv_bind_eq, nv_run_cli_eq.
    unfold reply_text. rewrite Hout, Herr. simpl. by eexists.
  - intros ports_40g σ2 H40 Hne ports_to_modify.
    split; [apply list_difference_NoDup|].
    split; [intros port; apply list_difference_elem|].
    unfold toggle_40g_local. rewrite nv_bind_eq, Hlldp, nv_bind_eq, H40.
    assert (ports_40g <> "") as Hfull.
    { intros ->. rewrite nv_run_cli_eq in H40. unfold reply_text in H40.
      destruct (reply_out _); simpl in H40;
        [destruct (py_bool (reply_err _))|]; by injection H40. }
    destruct ports_40g as [|a s]; [done|].
    change (0 <? Z.of_nat (String.length (String a s))) with true.
    destruct (String.eqb_spec (String a s) "Success") as [?|_]; [done|].
    simpl andb. cbv iota. fold ports_to_modify.
    destruct (toggle_local_loop ports_to_modify "" σ2) as (d & Hlog & Hpost).
    exists d. split; [exact Hlog|exact Hpost].
Qed.

(** X15.  [toggle_40g] does not test for a 40g listing that prints nothing:
    when a switch lists neighbours but its 40g listing prints nothing, the
    text ['Success'] is taken for a port and the run ends with [ValueError]
    right after that query. *)
Theorem toggle_40g_silent_listing (σ σ1 σ2 : session)
    (nodes lldp switch : string) (rest : list string) :
  run_cli FabricNodeShow σ = (Ok nodes, σ1) ->
  py_split nodes = switch :: rest ->
  run_cli (LldpLocalPorts switch) σ1 = (Ok lldp, σ2) ->
  "Success" ∉ py_split lldp ->
  reply_out (exec (PortShow40g switch) (world σ2)).1 = "" ->
  reply_err (exec (PortShow40g switch) (world σ2)).1 = "" ->
  exists σ3,
    toggle_40g σ = (Raise ValueError, σ3) /\
    log σ3 = log σ2 ++ [PortShow40g switch].
Proof.
  intros Hnodes Hsplit Hlldp Hnot Hout Herr. unfold toggle_40g.
  rewrite nv_bind_eq, Hnodes, Hsplit. cbn [for_m].
  rewrite nv_bind_eq. cbv beta. rewrite nv_bind_eq, Hlldp.
  rewrite nv_bind_eq, nv_run_cli_eq. unfold reply_text.
  rewrite Hout, Herr. simpl py_bool. cbv iota.
  change (py_split "Success") with ["Success"].
  rewrite list_difference_singleton by done.
  cbn [for_m]. rewrite !nv_bind_eq.
  assert (range_of "Success" = Raise ValueError) as -> by reflexivity.
  eexists. split; [reflexivity|done].
Qed.

End Toggle40g.

Lemma toggle_40g_local_ports_witness :
  exists d,
    Netvisor.log
      (Netvisor.toggle_40g_local (cp := Netvisor.scripted_plane)
         (sd := Netvisor.stable_difference) Netvisor.two_40g_ports).2
    = [Netvisor.LocalLldpPorts; Netvisor.LocalPortShow40g] ++ d /\
    d = [Netvisor.LocalPortSpeedDisable "49-53";
         Netvisor.LocalPortSpeed10g "49-53";
         Netvisor.LocalPortEnable "49-53"].
Proof.
  destruct (toggle_40g_local_ports (cp := Netvisor.scripted_plane)
              (sd := Netvisor.stable_difference) Netvisor.two_40g_ports
              (Netvisor.Session (cp := Netvisor.scripted_plane)
                 (Netvisor.world Netvisor.two_40g_ports)
                 [Netvisor.LocalLldpPorts])
              "1 53" eq_refl) as [_ Hports].
  destruct (Hports "49 53"
              (Netvisor.Session (cp := Netvisor.scripted_plane)
                 (Netvisor.world Netvisor.two_40g_ports)
                 [Netvisor.LocalLldpPorts; Netvisor.LocalPortShow40g])
              eq_refl ltac:(discriminate)) as (_ & _ & d & Hlog & Hd).
  exists d. split; [exact Hlog|]. vm_compute in Hd. exact Hd.
Defined.

Lemma toggle_40g_silent_listing_witness :
  exists σ3,
    Netvisor.toggle_40g (cp := Netvisor.scripted_plane)
      (sd := Netvisor.stable_difference) Netvisor.no_40g_port
    = (Raise ValueError, σ3) /\
    Netvisor.log σ3
    = [Netvisor.FabricNodeShow; Netvisor.LldpLocalPorts "leaf1"]
      ++ [Netvisor.PortShow40g "leaf1"].
Proof.
  apply (toggle_40g_silent_listing (cp := Netvisor.scripted_plane)
           (sd := Netvisor.stable_difference) Netvisor.no_40g_port
           (Netvisor.Session (cp := Netvisor.scripted_plane)
              (Netvisor.world Netvisor.no_40g_port)
              [Netvisor.FabricNodeShow])
           (Netvisor.Session (cp := Netvisor.scripted_plane)
              (Netvisor.world Netvisor.no_40g_port)
              [Netvisor.FabricNodeShow; Netvisor.LldpLocalPorts "leaf1"])
           "leaf1" "1 2" "leaf1" []); try reflexivity.
  apply (bool_decide_unpack _). vm_compute. reflexivity.
Defined.

(** ** Fabric membership *)

Lemma mutations_app (d1 d2 : list Netvisor.command) :
  Netvisor.mutations (d1 ++ d2)
  = Netvisor.mutations d1 ++ Netvisor.mutations d2.
Proof. apply List.filter_app. Qed.

Section CreateFabric.
Import Netvisor.
Context {cp : Netvisor.ControlPlane}.

(** X16.  [create_fabric] makes at most one change: it creates the fabric
    when the listing does not name it, and otherwise joins it or leaves the
    switch as it is; it never does both. *)
Theorem create_fabric_one_change (fabric_name fabric_network : string)
    (σ σ1 : session) (out : string) :
  run_cli FabricShow σ = (Ok out, σ1) ->
  exists d,
    log (create_fabric fabric_name fabric_network σ).2 = log σ1 ++ d /\
    (create_fabric fabric_name fabric_network σ).1 <> OutOfFuel /\
    (py_in fabric_name (py_split out) = false ->
     d = [FabricCreate fabric_name fabric_network]) /\
    (py_in fabric_name (py_split out) = true ->
     mutations d = [] \/ mutations d = [FabricJoin fabric_name]).
Proof.
  intros Hshow. unfold create_fabric. rewrite nv_bind_eq, Hshow.
  cbv zeta.
  destruct (py_in fabric_name (py_split out)) eqn:Hin.
  - change (negb true) with false. cbv iota.
    rewrite nv_bind_eq, nv_run_command_eq. cbv iota beta.
    set (σ2 := Session _ _).
    set (r := (exec FabricInfo (world σ1)).1).
    assert (log σ2 = log σ1 ++ [FabricInfo]) as Hlog2 by done.
    assert (forall c, is_mutation c = true \/ c = FabricShow ->
              exists d,
                log (run_cli c σ2).2 = log σ1 ++ d /\
                (run_cli c σ2).1 <> OutOfFuel /\
                (mutations d = [] \/ mutations d = [c] /\ is_mutation c = true))
      as Hrun.
    { intros c Hc. exists [FabricInfo; c]. rewrite nv_run_cli_eq. simpl.
      rewrite <- List.app_assoc. split; [done|]. split.
      - unfold reply_text. by repeat case_match.
      - destruct Hc as [Hc | ->]; [|by left]. right.
        unfold mutations. simpl. by rewrite Hc. }
    destruct (py_bool (reply_err r)).
    + destruct (Hrun (FabricJoin fabric_name) ltac:(by left))
        as (d & Hd & Hfuel & Hm).
      exists d. split; [done|]. split; [done|]. split; [done|].
      intros _. destruct Hm as [Hm|[Hm _]]; auto.
    + destruct (py_bool (reply_out r)).
      * rewrite nv_bind_eq. unfold pure.
        destruct (py_index (py_split (reply_out r)) 1) as [name1|e|] eqn:Hindex.
        -- destruct (negb (py_in name1 (py_split out))).
           ++ destruct (Hrun (FabricJoin fabric_name) ltac:(by left))
                as (d & Hd & Hfuel & Hm).
              exists d. split; [done|]. split; [done|]. split; [done|].
              intros _. destruct Hm as [Hm|[Hm _]]; auto.
           ++ exists [FabricInfo]. simpl. split; [done|]. split; [done|].
              split; [done|]. intros _. by left.
        -- exists [FabricInfo]. simpl. split; [done|]. split; [done|].
           split; [done|]. intros _. by left.
        -- by apply py_index_fuel in Hindex.
      * destruct (Hrun FabricShow ltac:(by right)) as (d & Hd & Hfuel & Hm).
        exists d. split; [done|]. split; [done|]. split; [done|].
        intros _. destruct Hm as [Hm|[_ Hm]]; [by left|done].
  - change (negb false) with true. cbv iota.
    exists [FabricCreate fabric_name fabric_network].
    rewrite nv_run_cli_eq. simpl. split; [done|].
    split; [unfold reply_text; by repeat case_match|]. split; [done|].
    intros Hfalse. done.
Qed.

End CreateFabric.

Lemma create_fabric_one_change_witness :
  exists d,
    Netvisor.log
      (Netvisor.create_fabric (cp := Netvisor.scripted_plane) "fab" "mgmt"
         Netvisor.other_fabric).2
    = [Netvisor.FabricShow] ++ d /\
    (Netvisor.mutations d = [] \/
     Netvisor.mutations d = [Netvisor.FabricJoin "fab"]).
Proof.
  destruct (create_fabric_one_change (cp := Netvisor.scripted_plane)
              "fab" "mgmt" Netvisor.other_fabric
              (Netvisor.Session (cp := Netvisor.scripted_plane)
                 (Netvisor.world Netvisor.other_fabric) [Netvisor.FabricShow])
              "fab" eq_refl) as (d & Hlog & _ & _ & Hlisted).
  exists d. split; [exact Hlog|]. apply Hlisted. reflexivity.
Defined.

(** The switch reports the fabric [lab], which the listing does not name:
    it joins [fab]. *)
Example other_fabric_joins :
  Netvisor.log
    (Netvisor.create_fabric (cp := Netvisor.scripted_plane) "fab" "mgmt"
       Netvisor.other_fabric).2
  = [Netvisor.FabricShow; Netvisor.FabricInfo; Netvisor.FabricJoin "fab"].
Proof. vm_compute. reflexivity. Qed.

(** ** Enabling the ports of a switch *)

Lemma py_int_cases (s : string) :
  (exists n, py_int s = Ok n) \/ py_int s = Raise ValueError.
Proof. unfold py_int. cbv zeta. repeat case_match; eauto. Qed.

Lemma py_remove_absent (x : string) (l : list string) :
  x ∉ l -> py_remove x l = Raise ValueError.
Proof.
  induction l as [|y l IH]; simpl; intros Hx; [done|].
  apply not_elem_of_cons in Hx as [Hne Hx].
  destruct (String.eqb_spec x y) as [->|_]; [done|]. by rewrite IH.
Qed.

Section EnablePorts.
Import Netvisor.
Context {cp : Netvisor.ControlPlane} {so : SetOrder}
  {sd : Netvisor.SetDifference}.

Lemma nv_ret_eq {A : Type} (a : A) (σ : session) :
  (mret a : M A) σ = (Ok a, σ).
Proof. reflexivity. Qed.

Lemma nv_run_cli_nonempty (c : command) (σ σ' : session) (out : string) :
  run_cli c σ = (Ok out, σ') -> py_bool out = true.
Proof.
  rewrite nv_run_cli_eq. unfold reply_text. intros H.
  destruct (reply_out _) eqn:Hout; simpl in H.
  - destruct (py_bool (reply_err _)); [discriminate|]. by injection H as <- _.
  - by injection H as <- _.
Qed.

Lemma following_ports_step (p : string) (n : Z) (acc : list string)
    (σ : session) :
  py_int p = Ok n ->
  (ports ← pure (following_ports p); mret (acc ++ ports)) σ
  = (Ok (acc ++ [py_str (n + 1); py_str (n + 2); py_str (n + 3)]), σ).
Proof. intros Hn. unfold following_ports. rewrite Hn. reflexivity. Qed.

Lemma following_ports_error (p : string) (acc : list string) (σ : session) :
  py_int p = Raise ValueError ->
  (ports ← pure (following_ports p); mret (acc ++ ports)) σ
  = (Raise ValueError, σ).
Proof. intros Hn. unfold following_ports. rewrite Hn. reflexivity. Qed.

Lemma following_ports_loop (ports acc : list string) (σ : session) :
  (forall p, p ∈ ports -> exists n, py_int p = Ok n) ->
  exists rem,
    for_m ports
      (fun port_number out_remove10g =>
         ports ← pure (following_ports port_number);
         mret (out_remove10g ++ ports))
      acc σ
    = (Ok (acc ++ rem), σ) /\
    forall x, x ∈ rem <->
      exists p n k, p ∈ ports /\ py_int p = Ok n /\ 1 <= k <= 3 /\
                    x = py_str (n + k).
Proof.
  set (body := fun (port_number : string) (out_remove10g : list string) =>
                 ports ← pure (following_ports port_number);
                 mret (out_remove10g ++ ports)).
  assert (Hstep : forall p n acc σ, py_int p = Ok n ->
            body p acc σ
            = (Ok (acc ++ [py_str (n + 1); py_str (n + 2); py_str (n + 3)]),
               σ))
    by (intros; by apply following_ports_step).
  clearbody body.
  revert acc. induction ports as [|p ports IH]; intros acc Hnum.
  - exists []. split; [by rewrite app_nil_r|]. intros x.
    split; [by intros ?%elem_of_nil|].
    intros (p & n & k & Hp & _). by apply elem_of_nil in Hp.
  - destruct (Hnum p ltac:(by left)) as [n Hn].
    destruct (IH (acc ++ [py_str (n + 1); py_str (n + 2); py_str (n + 3)])
                ltac:(intros; apply Hnum; by right))
      as (rem & Hrun & Hrem).
    exists ([py_str (n + 1); py_str (n + 2); py_str (n + 3)] ++ rem).
    split.
    + cbn [for_m]. rewrite nv_bind_eq, (Hstep p n) by done.
      rewrite Hrun. by rewrite <- List.app_assoc.
    + intros x. rewrite elem_of_app, Hrem. split.
      * intros [Hx | (p' & n' & k & Hp' & Hn' & Hk & ->)].
        -- exists p, n.
           apply elem_of_cons in Hx as [->|Hx]; [exists 1|];
             [split; [by left|done]|].
           apply elem_of_cons in Hx as [->|Hx]; [exists 2|];
             [split; [by left|done]|].
           apply list_elem_of_singleton in Hx as ->. exists 3.
           split; [by left|done].
        -- exists p', n', k. split; [by right|done].
      * intros (p' & n' & k & Hp' & Hn' & Hk & ->).
        apply elem_of_cons in Hp' as [->|Hp'].
        -- left. rewrite Hn in Hn'. injection Hn' as <-.
           assert (k = 1 \/ k = 2 \/ k = 3) as [->|[->| ->]] by lia.
           ++ by left.
           ++ right. by left.
           ++ right. right. by left.
        -- right. by exists p', n', k.
Qed.

Lemma following_ports_loop_error (ports acc : list string) (σ : session) :
  (exists p, p ∈ ports /\ py_int p = Raise ValueError) ->
  for_m ports
    (fun port_number out_remove10g =>
       ports ← pure (following_ports port_number);
       mret (out_remove10g ++ ports))
    acc σ
  = (Raise ValueError, σ).
Proof.
  set (body := fun (port_number : string) (out_remove10g : list string) =>
                 ports ← pure (following_ports port_number);
                 mret (out_remove10g ++ ports)).
  assert (Hstep : forall p n acc σ, py_int p = Ok n ->
            body p acc σ
            = (Ok (acc ++ [py_str (n + 1); py_str (n + 2); py_str (n + 3)]),
               σ))
    by (intros; by apply following_ports_step).
  assert (Hbad : forall p acc σ, py_int p = Raise ValueError ->
            body p acc σ = (Raise ValueError, σ))
    by (intros; by apply following_ports_error).
  clearbody body.
  revert acc. induction ports as [|p ports IH]; intros acc (p' & Hp' & Hbad').
  - by apply elem_of_nil in Hp'.
  - cbn [for_m]. rewrite nv_bind_eq.
    destruct (py_int_cases p) as [[n Hn]|Hn].
    + rewrite (Hstep p n) by done.
      apply IH. exists p'. split; [|done].
      apply elem_of_cons in Hp' as [->|Hp']; [congruence|done].
    + by rewrite Hbad.
Qed.

(** X17.  [enable_ports] leaves out the three ports that follow each 40g
    port: the ports it enables, in one command, are the listed ports that
    are not a 40g port number plus 1, 2 or 3, each once.  When none is left
    it issues no further command and returns [None].  A 40g port that is not
    a number ends the run with [ValueError] before anything is enabled. *)
Theorem enable_ports_skips_breakout (σ σ1 σ2 : session)
    (out out_40g : string) :
  run_cli PortConfigShow σ = (Ok out, σ1) ->
  run_cli PortConfigShow40g σ1 = (Ok out_40g, σ2) ->
  let ports_40g :=
    if String.eqb out_40g "Success" then [] else py_split out_40g in
  ((exists p, p ∈ ports_40g /\ py_int p = Raise ValueError) ->
   enable_ports σ = (Raise ValueError, σ2)) /\
  ((forall p, p ∈ ports_40g -> exists n, py_int p = Ok n) ->
   exists ports,
     NoDup ports /\
     (forall x, x ∈ ports <->
        x ∈ py_split out /\
        ~ exists p n k, p ∈ ports_40g /\ py_int p = Ok n /\ 1 <= k <= 3 /\
                        x = py_str (n + k)) /\
     (ports = [] -> enable_ports σ = (Ok None, σ2)) /\
     (ports <> [] ->
      log (enable_ports σ).2
      = log σ2 ++ [PortConfigEnable (py_join "," ports)] /\
      (enable_ports σ).1 <> OutOfFuel)).
Proof.
  intros Hshow H40 ports_40g.
  pose proof (nv_run_cli_nonempty _ _ _ _ Hshow) as Hout.
  pose proof (nv_run_cli_nonempty _ _ _ _ H40) as Hout40.
  unfold enable_ports. rewrite nv_bind_eq, Hshow, nv_bind_eq, H40.
  cbv zeta.
  destruct out_40g as [|a s]; [done|].
  change (0 <? Z.of_nat (String.length (String a s))) with true.
  rewrite Hout.
  set (body := fun (port_number : string) (out_remove10g : list string) =>
                 ports ← pure (following_ports port_number);
                 mret (out_remove10g ++ ports)).
  assert (forall rem,
            (forall x, x ∈ rem <->
               exists p n k, p ∈ ports_40g /\ py_int p = Ok n /\
                             1 <= k <= 3 /\ x = py_str (n + k)) ->
            exists ports,
              NoDup ports /\
              (forall x, x ∈ ports <->
                 x ∈ py_split out /\
                 ~ exists p n k, p ∈ ports_40g /\ py_int p = Ok n /\
                                 1 <= k <= 3 /\ x = py_str (n + k)) /\
              (ports = [] ->
               (if 0 <? Z.of_nat (length (list_difference (py_split out) rem))
                then
                  text ← run_cli
                           (PortConfigEnable
                              (py_join ","
                                 (list_difference (py_split out) rem)));
                  mret (Some text)
                else mret None) σ2 = (Ok None, σ2)) /\
              (ports <> [] ->
               log ((if 0 <? Z.of_nat
                              (length (list_difference (py_split out) rem))
                     then
                       text ← run_cli
                                (PortConfigEnable
                                   (py_join ","
                                      (list_difference (py_split out) rem)));
                       mret (Some text)
                     else mret None) σ2).2
               = log σ2 ++ [PortConfigEnable (py_join "," ports)] /\
               ((if 0 <? Z.of_nat
                           (length (list_difference (py_split out) rem))
                 then
                   text ← run_cli
                            (PortConfigEnable
                               (py_join ","
                                  (list_difference (py_split out) rem)));
                   mret (Some text)
                 else mret None) σ2).1 <> OutOfFuel)) as Htail.
  { intros rem Hrem. exists (list_difference (py_split out) rem).
    split; [apply list_difference_NoDup|]. split.
    { intros x. rewrite list_difference_elem, Hrem. done. }
    destruct (list_difference (py_split out) rem) as [|y l].
    - split; [done|]. by intros [].
    - split; [done|]. intros _.
      change (0 <? Z.of_nat (length (y :: l))) with true. cbv iota.
      rewrite nv_bind_eq, nv_run_cli_eq. unfold reply_text.
      by repeat case_match. }
  destruct (String.eqb_spec (String a s) "Success") as [Heq|Hne].
  - subst ports_40g. change (negb true) with false. simpl andb. cbv iota.
    split; [intros (p & Hp & _); by apply elem_of_nil in Hp|]. intros _.
    rewrite nv_bind_eq. rewrite nv_ret_eq. cbv iota beta.
    apply Htail. intros x. split; [by intros ?%elem_of_nil|].
    intros (p & n & k & Hp & _). by apply elem_of_nil in Hp.
  - subst ports_40g. change (negb false) with true. simpl andb. cbv iota.
    set (l40 := list_set (py_split (String a s))).
    assert ((if 0 <? Z.of_nat (length l40) then for_m l40 body [] else mret [])
            = for_m l40 body []) as -> by (by destruct l40).
    subst body l40. cbv beta. rewrite nv_bind_eq. split.
    + intros (p & Hp & Hbad).
      rewrite following_ports_loop_error; [done|].
      exists p. by rewrite list_set_elem.
    + intros Hnum.
      destruct (following_ports_loop
                  (list_set (py_split (String a s))) [] σ2)
        as (rem & -> & Hrem).
      { intros p Hp. apply Hnum. by rewrite list_set_elem in Hp. }
      cbv iota beta. apply Htail. intros x. rewrite Hrem.
      split; intros (p & n & k & Hp & H); exists p, n, k;
        rewrite list_set_elem in *; done.
Qed.

End EnablePorts.

Lemma enable_ports_skips_breakout_witness :
  exists ports,
    Netvisor.log
      (Netvisor.enable_ports (cp := Netvisor.scripted_plane)
         (so := stable_set_order) (sd := Netvisor.stable_difference)
         Netvisor.eight_ports).2
    = [Netvisor.PortConfigShow; Netvisor.PortConfigShow40g]
      ++ [Netvisor.PortConfigEnable (py_join "," ports)] /\
    "5" ∈ ports /\ "6" ∉ ports.
Proof.
  destruct (enable_ports_skips_breakout (cp := Netvisor.scripted_plane)
              (so := stable_set_order) (sd := Netvisor.stable_difference)
              Netvisor.eight_ports
              (Netvisor.Session (cp := Netvisor.scripted_plane)
                 (Netvisor.world Netvisor.eight_ports)
                 [Netvisor.PortConfigShow])
              (Netvisor.Session (cp := Netvisor.scripted_plane)
                 (Netvisor.world Netvisor.eight_ports)
                 [Netvisor.PortConfigShow; Netvisor.PortConfigShow40g])
              "1 2 3 4 5 6 7 8" "5" eq_refl eq_refl) as [_ Hports].
  destruct Hports as (ports & _ & Helem & _ & Hlog).
  { intros p Hp. change (p ∈ ["5"]) in Hp.
    apply list_elem_of_singleton in Hp as ->. by exists 5. }
  assert ("5" ∈ ports) as H5.
  { apply Helem. split.
    - apply (bool_decide_unpack _). vm_compute. reflexivity.
    - intros (p & n & k & Hp & Hn & Hk & Hx). change (p ∈ ["5"]) in Hp.
      apply list_elem_of_singleton in Hp as ->.
      vm_compute in Hn. injection Hn as <-.
      assert (k = 1 \/ k = 2 \/ k = 3) as [->|[->| ->]] by lia;
        vm_compute in Hx; discriminate. }
  exists ports. split; [|split; [exact H5|]].
  - apply Hlog. intros ->. by apply elem_of_nil in H5.
  - intros H6. apply Helem in H6 as [_ H6]. apply H6.
    exists "5", 5, 1. split; [by left|]. split; [reflexivity|].
    split; [lia|reflexivity].
Defined.

(** ** Router ids *)

Section RouterId.
Import Netvisor.
Context {cp : Netvisor.ControlPlane}.

Lemma router_id_loop (vrouters : list string) (output : string) :
  emits
    (for_m vrouters
       (fun vrouter output =>
          out ← run_cli (VrouterLoopbackIp vrouter);
          loopback_ip ← pure (py_remove vrouter (py_split out));
          ip0 ← pure (py_index loopback_ip 0);
          out ← run_cli (VrouterRouterId vrouter ip0);
          mret (output +:+ out +:+ " "))
       output)
    (post (fun _ _ => True) (fun _ => True)).
Proof.
  apply (nv_emits_for _ _ (fun _ _ _ => True) (fun _ => True)); [|done].
  intros done x rest s d _ _.
  eapply (nv_emits_bind _ _ (fun _ _ => True) (fun _ => True));
    [by apply nv_emits_run_cli| |done].
  intros out d1 _. cbv zeta. apply nv_emits_bind_pure.
  destruct (py_remove x (py_split out)) as [l|e|] eqn:Hremove;
    [|done|by apply py_remove_fuel in Hremove].
  apply nv_emits_bind_pure.
  destruct (py_index l 0) as [ip0|e|] eqn:Hindex;
    [|done|by apply py_index_fuel in Hindex].
  eapply (nv_emits_bind _ _ (fun _ _ => True) (fun _ => True));
    [by apply nv_emits_run_cli| |done].
  intros out2 d2 _. by apply nv_emits_ret.
Qed.

(** X18.  [assign_router_id] takes as router id the first word of the
    loopback listing once the first occurrence of the vrouter name is taken
    out.  A listing that does not name the vrouter ends the run with
    [ValueError], one that names nothing else with [IndexError]; in both
    cases right after the query, so that no router id is set. *)
Theorem router_id_from_listing (σ σ1 σ2 : session)
    (names vrouter listing : string) (rest : list string) :
  run_cli VrouterShow σ = (Ok names, σ1) ->
  py_split names = vrouter :: rest ->
  run_cli (VrouterLoopbackIp vrouter) σ1 = (Ok listing, σ2) ->
  (vrouter ∉ py_split listing ->
   assign_router_id σ = (Raise ValueError, σ2)) /\
  (py_split listing = [vrouter] ->
   assign_router_id σ = (Raise IndexError, σ2)) /\
  (forall before after ip,
     py_split listing = before ++ vrouter :: after ->
     vrouter ∉ before ->
     head (before ++ after) = Some ip ->
     exists d,
       log (assign_router_id σ).2
       = log σ2 ++ VrouterRouterId vrouter ip :: d).
Proof.
  intros Hshow Hsplit Hloop. unfold assign_router_id.
  rewrite nv_bind_eq, Hshow, Hsplit. cbv zeta.
  change (0 <? Z.of_nat (length (vrouter :: rest))) with true. cbv iota.
  cbn [for_m]. rewrite nv_bind_eq. cbv beta. rewrite nv_bind_eq, Hloop.
  split; [|split].
  - intros Habsent. by rewrite (py_remove_absent _ _ Habsent).
  - intros ->. by rewrite py_remove_head.
  - intros before after ip -> Hbefore Hhead.
    rewrite (py_remove_middle _ _ _ Hbefore), nv_pure_bind. cbv beta.
    assert (py_index (before ++ after) 0 = Ok ip) as ->.
    { destruct (before ++ after) as [|y l]; [done|].
      injection Hhead as ->. apply py_index_head. }
    rewrite nv_pure_bind. cbv beta. rewrite nv_bind_eq, nv_run_cli_eq.
    destruct (reply_text _) as [text| |].
    + cbv iota beta. rewrite nv_ret_eq. cbv iota.
      set (σ3 := Session _ _).
      destruct (router_id_loop rest (" " +:+ text +:+ " ") σ3)
        as (d & Hd & _).
      exists d. rewrite Hd. subst σ3. simpl. by rewrite <- List.app_assoc.
    + exists []. done.
    + exists []. done.
Qed.

End RouterId.

Lemma router_id_from_listing_witness :
  exists d,
    Netvisor.log
      (Netvisor.assign_router_id (cp := Netvisor.scripted_plane)
         Netvisor.loopback_listed).2
    = [Netvisor.VrouterShow; Netvisor.VrouterLoopbackIp "leaf1-vrouter"]
      ++ Netvisor.VrouterRouterId "leaf1-vrouter" "10.0.0.2" :: d.
Proof.
  destruct (router_id_from_listing (cp := Netvisor.scripted_plane)
              Netvisor.loopback_listed
              (Netvisor.Session (cp := Netvisor.scripted_plane)
                 (Netvisor.world Netvisor.loopback_listed)
                 [Netvisor.VrouterShow])
              (Netvisor.Session (cp := Netvisor.scripted_plane)
                 (Netvisor.world Netvisor.loopback_listed)
                 [Netvisor.VrouterShow;
                  Netvisor.VrouterLoopbackIp "leaf1-vrouter"])
              "leaf1-vrouter" "leaf1-vrouter" "leaf1-vrouter 10.0.0.2" []
              eq_refl eq_refl eq_refl) as (_ & _ & Hid).
  apply (Hid [] ["10.0.0.2"] "10.0.0.2"); [reflexivity| |reflexivity].
  apply not_elem_of_nil.
Defined.
